(* ===== verification/_CoqProject ===== *)
-Q . S2P
Prelude.v
Utf8.v
PyStr.v
Float64.v
FloatOrder.v
PyFloat.v
FloatRepr.v
FloatShortest.v
FloatDigits.v
PyExn.v
SensorData.v
Ingest.v
IngestInv.v
IngestRuns.v
Observe.v
Typing.v
Startup.v
Query.v
JsonText.v
App.v
Interleave.v
Schedule.v
System.v
