(* ===== verification/Prelude.v ===== *)
(** * Crop suggestion and irrigation advisory dashboard: a verification development

    The program ([src/app.py], 115 lines of Python) is a sensor dashboard.
    At start-up it opens a serial port, trains two classifiers from a CSV
    file and starts a background thread; the thread ([read_arduino]) reads
    lines ["<temp>,<hum>,<soil>"] from the port for ever, parses them,
    stores the reading in the global dict [sensor_data], asks the two models
    for a crop and an irrigation label and stores those too; two Flask routes
    serve a page and the dict as JSON.

    ** Files, in dependency order

    - [Prelude] (this file): the [outcome] type (a value or a raised
      exception), the state-and-exception monad [stexn] in which the body of
      a [try] block is written, [st_try] for [try]/[except], their
      rewriting lemmas, the rules to prove that a computation maintains a
      preorder on states ([preserves]) or raises only certain exceptions
      ([raises_in]), the hint databases and tactics of the development.
    - [Utf8]: [bytes.decode('utf-8')] of line 64, as a strict decoder from
      [list byte] to code points, with the encoder that specifies it.
    - [PyStr]: Python [str] values as lists of code points; [str.isspace],
      [str.strip()], [str.split(',')] and truthiness, as used on lines 64-68.
    - [Float64]: the values of a Python [float] ([spec_float] of the
      standard library at precision 53) and the correctly rounded
      conversion of a decimal numeral, in exact integer arithmetic; the
      rounding depends on the value of a fraction only, and gives a value
      of the format back unchanged.
    - [FloatOrder]: the order of the values by magnitude ([mle]); the
      rounding is monotone, the fractions that round to one value are an
      interval, and that interval holds every fraction nearer to the value
      than half of its unit.
    - [PyFloat]: [float(s)] of line 69, stage by stage as the interpreter
      does it: transliteration of non-ASCII digits and spaces, stripping,
      underscores, the grammar of numerals, [inf] and [nan].  The table of
      Unicode decimal digits is the class [UnicodeDB]; [unicode14] is the
      instance for Unicode 14.0.
    - [FloatRepr]: the text of a number, as [jsonify] writes it on line
      112: [int_repr] and [float_repr], the shortest digits that read back
      as the value, found by [shortest] and laid out by [format_repr].
    - [FloatShortest]: the search of [FloatRepr] misses no unit at which a
      decimal reads back, so that the digits it finds are the fewest, and
      the nearest to the value among those of their unit.
    - [FloatDigits]: a decimal of seventeen digits reads back as any
      value, so that [float_repr] writes at most seventeen digits and at
      most 24 characters.
    - [PyExn]: the exception classes the program meets and [isinstance],
      which decides what an [except] clause catches.
    - [SensorData]: the dict [sensor_data] of line 54 as a [gmap] from keys
      to Python values, the invariant on its keys and its view as a record
      of five fields.
    - [Ingest]: [read_arduino], lines 57-95.  One definition per block:
      [store_reading] (71-73), [predict_and_store] (76-82), [process_line]
      (65-82), [try_body] (64-82), [handle] (87-95), [iteration] (one turn
      of the loop), [loop].  Theorems: what one iteration does in each case
      (valid line, wrong number of fields, field that is no number, bytes
      that do not decode, failing read).
    - [IngestInv]: the relation [evolves] that every block maintains, and
      from it the shape of the dict in every reachable state and the only
      way the thread can die.
    - [IngestRuns]: the specification [spec_step]/[spec_run] of the ingest
      loop on the shared record, the refinement theorem, what a run amounts
      to, and the runs in which the code leaves the specification.
    - [Observe]: states up to their output ([obs_eq], an equivalence the
      blocks of [Ingest] respect): the thread writes its output and never
      reads it.
    - [Typing]: the schema of the dict, which Python does not state: what
      type of value each key holds ([has_type]), kept by every block.
    - [Startup]: the module-level code, lines 12-50 and 98-115: [connect],
      [train], [start_thread], and [run], which tells how start-up ends.
    - [Query]: the routes of lines 104-112; [data] is [jsonify(sensor_data)]
      as a status and a JSON object.
    - [JsonText]: the text of that object: [json_string] with the escapes
      of the encoder, [json_float], [json_object] with the layout of
      [json.dumps], [json_text] for the body.
    - [App]: the application object of line 8, the rules that the
      decorators of lines 104 and 109 add, the debug flag of line 115, and
      [dispatch], which finds the view of a path.
    - [Interleave]: the thread and the requests together.  The loop is
      written again as a program of atomic steps ([prog]: each store to the
      dict, each assignment of [line], each print and each sleep is one
      step; the calls that touch no shared state, [readline], [decode],
      [float] and [predict], belong to the step that follows them), proved
      equal to [Ingest.loop], and [sys_step] lets a request for [/data] be
      served between any two steps.
    - [Schedule]: who runs next.  A schedule is a list of turns, of the
      thread or of a request; [exec] runs one; [thread_step] is the step
      relation of the thread alone and [remaining] the steps it has left.
    - [System]: the three parts together, from the bytes on the port to the
      response of [/data].

    ** How the parts interact, and how the model follows

    The thread and the request handlers share the dict.  The thread is its
    only writer; a state of the thread ([Ingest.state]) is the dict, the
    local variable [line] (unbound until its first assignment) and what was
    printed and slept.  What the thread gets from outside is a parameter: a
    port is the list of the results of its [readline] calls (bytes or an
    exception), a model is a function that returns a label or raises.  The
    [while True] loop is modelled by its finite prefixes: [loop ms rs] runs
    one iteration per element of [rs], and stops where an exception escapes;
    every theorem on [loop] holds for all [rs], so no fuel is involved and
    all the recursion is structural.  pandas and scikit-learn are not
    modelled: [Startup.environment] holds what [read_csv] returns (the
    labelled columns) and what [fit] returns.  [System.served] is the
    response to a request that arrives between two iterations;
    [Interleave.sys_step] serves a request between any two steps of an
    iteration.  The snapshot a request takes of the dict is one step: the
    interpreter copies the items of a dict without releasing its lock, so a
    response is computed from one of the dicts of the thread's trajectory,
    never from a mixture of two.  Which of the two runs next is decided by
    the interpreter: [Schedule.exec] takes that decision as a list of
    turns, and a schedule is fair enough for a theorem when it holds the
    number of turns of the thread that the theorem asks for.  The text a
    client receives is [JsonText.json_text] of the object of the response,
    with the layout that the debug flag of [App.application] selects.

    ** What the theorems show

    - Functional behaviour of an iteration on every branch, errors
      included ([Ingest]); of start-up on every ending ([Startup]); of
      [/data] ([Query]), which answers 500 exactly when a value of the
      dict is a numpy integer or boolean ([Query.data_fails_iff]).
    - Invariants: the dict always has its five keys and numbers for its
      three readings; [line], once bound, stays bound ([IngestInv]).
    - Safety: with a bound [line] no exception deriving from [Exception]
      leaves the loop; the thread can die in one way only, the handler of
      [ValueError] reading [line] before any line was decoded
      ([IngestInv.loop_dies_only_unbound], [Ingest.first_read_undecodable]).
    - Refinement: with fitted models that return, the loop computes
      [spec_run] ([IngestRuns.loop_refines_spec]); a run amounts to its
      last valid line; the whole program refines the specification
      ([System.program_refines_spec]).
    - Independence of the output: a run from any output is the run from
      the empty output with the former in front
      ([Observe.loop_output_frame]).
    - Interleaving: every response is served from a dict with the five
      keys ([Interleave.responses_well_shaped]); the responses that a
      request can get while a valid line is processed are those of six
      dicts, no more and no fewer ([Interleave.valid_line_responses]),
      among them the new reading with the labels of an earlier line
      ([Interleave.torn_response]).
    - Liveness: under any schedule that gives the thread seven turns for
      each read, whatever requests are served in between, the request
      that follows is answered with the record of the last valid line
      ([Schedule.fair_schedule_serves]); six turns after a valid line was
      read, the next request is answered with it
      ([Schedule.valid_line_eventually_served]).
    - The machinery of steps and schedules, true of every program of
      steps and kept apart for that reason: the program of steps computes
      what the loop computes ([Interleave.steps_refine_loop]); on a finite
      list of reads the steps of the thread come to an end
      ([Schedule.thread_terminates]); nothing blocks
      ([Schedule.never_blocked]); a schedule with enough turns runs the
      loop to its end ([Schedule.fair_schedule_completes]).
    - Termination of the one search the model makes: the search for the
      digits of a float ends within seventeen units, whatever its fuel
      from 17 on ([FloatDigits.shortest_terminates]).
    - Types: the dict the thread leaves holds under each key a value of
      the type of the key ([Typing.loop_typed]).
    - The order of floats: a larger fraction does not round to a smaller
      value ([FloatOrder.round_ratio_mono]), and a fraction between two
      that round to one value rounds to it
      ([FloatOrder.round_ratio_between]); a fraction nearer to a value
      than half of the unit of the value, and than a quarter of it below
      the least value of a binade, rounds to the value
      ([FloatOrder.round_ratio_near]).
    - Round trips of the text: [float] reads [repr] of a float as the same
      float ([FloatRepr.float_repr_roundtrip]); no decimal that reads
      as the float has fewer digits than [repr] writes, and none with as
      many decimals is nearer to the float
      ([FloatShortest.float_repr_shortest]); [repr] writes at most
      seventeen digits and 24 characters, the point between the places
      -323 and 310 ([FloatDigits.float_repr_digits],
      [FloatDigits.float_repr_length]); the three numbers of the
      dict are served as texts that read back as the numbers stored
      ([JsonText.served_numbers_read_back]); a body holds printable ASCII
      and line ends only ([JsonText.json_text_ascii]); the application
      built by the program dispatches as [Query.route]
      ([App.dispatch_application]).
    - Divergences from the specification, each as a theorem: the five
      stores are not atomic, a failed prediction leaves a torn record, a
      [ValueError] of a model is reported as non-numeric data, a line with
      a wrong number of fields is dropped without a message, a reading that
      is not finite or a label that is no string breaks [/data].
    - The builtins: [decode] accepts exactly the encodings of scalar
      values ([Utf8.decode_exact]); [strip] and [split] are specified by
      decompositions and by their inverse [join] ([PyStr]); the rounding
      of a numeral gives a value of the format that is nearest to it, ties
      to even ([Float64.of_decimal_nearest]); [float] reads plain decimal
      fields as their nearest value, ignores blanks around a field and
      accepts [nan] and [inf] ([PyFloat]).

    ** Bounds

    Integers are [Z]; bytes are [Byte.byte] (256 values) and a code point is
    a [Z] that [decode] keeps below [0x110000] and off the surrogates.  A
    float is a binary64 value: 53 bits of mantissa, exponents from -1074 to
    971, so that no theorem depends on real arithmetic.  The walk up the
    exception hierarchy has fuel 4, the depth of the deepest class
    ([PyExn.mro_complete]).  The search for the digits of a float goes
    from the unit of the first digit down, one power of ten at a time, with
    fuel 2100 ([FloatRepr.search_fuel]): the first digit of a value below
    [2 ^ 1024] stands below [10 ^ 1024], and in units of [10 ^ (-1074)]
    every value of the format is an integer, which reads back
    ([FloatRepr.shortest_total]); the search in fact stops within
    seventeen digits ([FloatDigits.shortest_digits_count]), because
    [2 ^ 53 < 10 ^ 16].  The digits of an integer [n] are computed with fuel
    [log2 n + 1], as many as it has binary digits.  An iteration of the
    thread is at most seven steps ([Schedule.remaining_iteration]), six on
    a valid line.

    ** Assumptions

    The theorems hold of the model, and of the program as far as these
    hold.  [print] and [sleep] return: a [print] that raises inside a
    handler (a console that cannot encode the line, a closed pipe) would
    leave the handler and end the thread, and the theorems that say the
    thread lives ([IngestInv.loop_never_dies_once_bound],
    [IngestInv.loop_dies_only_unbound]) are under this assumption.  The
    reads of the port are a finite list, and [Ok tt] of [loop] says that
    the list ran out, which the loop of the program never does: a theorem
    about a run that ends is a theorem about the state after that many
    reads.  A model is a function of the reading that returns a label or
    raises; building the [DataFrame] and taking element 0 are part of it.
    The builtins that the program only calls ([bytes.decode], [str.strip],
    [str.split], [float], [repr], [jsonify], the lookups of pandas) are
    written from the documentation of the language and of the libraries,
    and compared with the interpreter on examples; nothing under [src/]
    states them.  The specification [IngestRuns.spec_step] takes the
    program's own [parse_line] for what a valid line is, so that lines
    such as [nan,1,2] and [1_0,2,3] are valid for both.

    ** Not modelled

    The HTML template and the data file (assets outside [src/]); the
    internals of pyserial, pandas and scikit-learn; of Flask and Werkzeug,
    the HTTP framing of a response (status line, headers), the methods
    other than GET, the rule for static files that Flask adds by itself and
    the page of the debugger that a 500 carries; the layout of the body
    under versions of Flask before 2.2, which put a space after the comma;
    the algorithm by which the interpreter finds the digits of a float
    (the model searches for what that algorithm is specified to find: the
    fewest digits that read back, the nearest among those of their unit);
    the scheduling of threads below the level of a statement,
    and requests served in parallel with one another; time, beyond the
    record of the [sleep] calls; [KeyboardInterrupt] and process signals.

    ** Conventions

    Every definition that models code names the lines of [src/app.py] it
    translates.  Python exceptions are values: a fallible call returns an
    [outcome]; a block that mutates state and may raise is a [stexn]
    computation, whose bind keeps the state reached when the exception was
    raised, as Python does.  Machine data is kept at its width: bytes are
    [Byte.byte], code points are [Z] below [0x110000].  A theorem with
    hypotheses is followed, at the end of its file, by its application to a
    concrete run. *)

From Stdlib Require Import ZArith Lia.
From stdpp Require Import base tactics option list.

(** ** Outcomes: the result of a call that may raise *)

Inductive outcome (E A : Type) : Type :=
| Ok (a : A)
| Raise (e : E).
Arguments Ok {E A} a.
Arguments Raise {E A} e.

#[export] Instance outcome_ret {E} : MRet (outcome E) := λ A a, Ok a.

#[export] Instance outcome_bind {E} : MBind (outcome E) := λ A B k o,
  match o with
  | Ok a => k a
  | Raise e => Raise e
  end.

#[export] Instance outcome_fmap {E} : FMap (outcome E) := λ A B f o,
  match o with
  | Ok a => Ok (f a)
  | Raise e => Raise e
  end.

Definition is_ok {E A} (o : outcome E A) : bool :=
  match o with
  | Ok _ => true
  | Raise _ => false
  end.

(** [None] becomes the exception [e]. *)
Definition outcome_of_option {E A} (e : E) (o : option A) : outcome E A :=
  match o with
  | Some a => Ok a
  | None => Raise e
  end.

(** Forgets which exception was raised. *)
Definition outcome_to_option {E A} (o : outcome E A) : option A :=
  match o with
  | Ok a => Some a
  | Raise _ => None
  end.

#[export] Instance outcome_eq_dec {E A} `{EqDecision E, EqDecision A} :
  EqDecision (outcome E A).
Proof. solve_decision. Defined.

(** ** The state-and-exception monad

    A computation takes the state and returns the state it leaves with the
    value it produced or the exception it raised.  When a step raises, the
    steps after it are skipped and the state is the one reached so far: an
    assignment made before the exception is not undone. *)

Definition stexn (S E A : Type) : Type := S → S * outcome E A.

#[export] Instance stexn_ret {S E} : MRet (stexn S E) := λ A a s, (s, Ok a).

#[export] Instance stexn_bind {S E} : MBind (stexn S E) := λ A B k m s,
  match m s with
  | (s', Ok a) => k a s'
  | (s', Raise e) => (s', Raise e)
  end.

Definition st_raise {S E A} (e : E) : stexn S E A := λ s, (s, Raise e).
Definition st_get {S E} : stexn S E S := λ s, (s, Ok s).
Definition st_modify {S E} (f : S → S) : stexn S E unit := λ s, (f s, Ok tt).
Definition st_lift {S E A} (o : outcome E A) : stexn S E A := λ s, (s, o).

(** ** Scope and notation *)

Declare Scope py_scope.
Delimit Scope py_scope with py.

(** [when b c]: Python's [if b: c] with no [else]. *)
Definition when {S E} (b : bool) (c : stexn S E unit) : stexn S E unit :=
  if b then c else mret tt.

(** ** Rewriting lemmas *)

Section outcome_lemmas.
Context {E A B : Type}.
Implicit Types (o : outcome E A) (k : A → outcome E B).

Lemma outcome_bind_ok a k : Ok a ≫= k = k a.
Proof. reflexivity. Qed.

Lemma outcome_bind_raise (e : E) k : Raise e ≫= k = Raise e.
Proof. reflexivity. Qed.

Lemma outcome_bind_ret o : o ≫= mret = o.
Proof. by destruct o. Qed.

Lemma outcome_bind_Ok_inv o k b :
  o ≫= k = Ok b ↔ ∃ a, o = Ok a ∧ k a = Ok b.
Proof.
  destruct o as [a|e]; simpl; naive_solver.
Qed.

Lemma outcome_bind_Raise_inv o k e :
  o ≫= k = Raise e ↔ o = Raise e ∨ ∃ a, o = Ok a ∧ k a = Raise e.
Proof.
  destruct o as [a|e']; simpl; naive_solver.
Qed.

Lemma is_ok_true o : is_ok o = true ↔ ∃ a, o = Ok a.
Proof. destruct o; naive_solver. Qed.

Lemma is_ok_false o : is_ok o = false ↔ ∃ e, o = Raise e.
Proof. destruct o; naive_solver. Qed.

Lemma outcome_of_option_Ok (e : E) (x : option A) a :
  outcome_of_option e x = Ok a ↔ x = Some a.
Proof. destruct x; naive_solver. Qed.

Lemma outcome_of_option_Raise (e e' : E) (x : option A) :
  outcome_of_option e x = Raise e' ↔ x = None ∧ e = e'.
Proof. destruct x; naive_solver. Qed.

End outcome_lemmas.

Section stexn_lemmas.
Context {S E A B : Type}.
Implicit Types (m : stexn S E A) (k : A → stexn S E B) (s : S).

Lemma stexn_bind_unfold m k s :
  (m ≫= k) s =
  match m s with
  | (s', Ok a) => k a s'
  | (s', Raise e) => (s', Raise e)
  end.
Proof. reflexivity. Qed.

Lemma stexn_bind_ok m k s s' a : m s = (s', Ok a) → (m ≫= k) s = k a s'.
Proof. intros H. by rewrite stexn_bind_unfold, H. Qed.

Lemma stexn_bind_raise m k s s' e :
  m s = (s', Raise e) → (m ≫= k) s = (s', Raise e).
Proof. intros H. by rewrite stexn_bind_unfold, H. Qed.

Lemma stexn_ret_bind (a : A) k s : (mret a ≫= k) s = k a s.
Proof. reflexivity. Qed.

Lemma stexn_lift_bind (o : outcome E A) k s :
  (st_lift o ≫= k) s =
  match o with
  | Ok a => k a s
  | Raise e => (s, Raise e)
  end.
Proof. by destruct o. Qed.

Lemma stexn_modify_bind (f : S → S) (k : unit → stexn S E B) s :
  (st_modify f ≫= k) s = k tt (f s).
Proof. reflexivity. Qed.

Lemma stexn_raise_bind (e : E) k s :
  (st_raise e ≫= k) s = (s, Raise e).
Proof. reflexivity. Qed.

End stexn_lemmas.

Lemma when_true {S E} (c : stexn S E unit) : when true c = c.
Proof. reflexivity. Qed.

Lemma when_false {S E} (c : stexn S E unit) s : when false c s = (s, Ok tt).
Proof. reflexivity. Qed.

(** ** Hint databases and tactics *)

Create HintDb py discriminated.
Create Rewrite HintDb py.

#[export] Hint Rewrite @outcome_bind_ok @outcome_bind_raise : py.
#[export] Hint Rewrite @stexn_ret_bind @stexn_lift_bind @stexn_modify_bind
  @stexn_raise_bind @when_true @when_false : py.

(** Case analysis on the first [outcome] or [option] scrutinised in the goal. *)
Ltac case_outcome :=
  match goal with
  | |- context [match ?o with Ok _ => _ | Raise _ => _ end] =>
      let H := fresh "Ho" in destruct o eqn:H
  | |- context [match ?o with Some _ => _ | None => _ end] =>
      let H := fresh "Ho" in destruct o eqn:H
  end.

(** Runs a [stexn] computation symbolically as far as rewriting takes it. *)
Ltac run_stexn := repeat (autorewrite with py; simpl).

(** Boolean tests on [Z] to propositions, in the goal and the hypotheses. *)
Ltac Zbool :=
  repeat match goal with
  | H : andb _ _ = true |- _ => apply andb_prop in H; destruct H
  | H : orb _ _ = true |- _ => apply orb_prop in H; destruct H
  | H : (_ <=? _)%Z = true |- _ => apply Z.leb_le in H
  | H : (_ <=? _)%Z = false |- _ => apply Z.leb_gt in H
  | H : (_ <? _)%Z = true |- _ => apply Z.ltb_lt in H
  | H : (_ <? _)%Z = false |- _ => apply Z.ltb_ge in H
  | H : (_ =? _)%Z = true |- _ => apply Z.eqb_eq in H
  | H : (_ =? _)%Z = false |- _ => apply Z.eqb_neq in H
  end.

(** ** Lists *)

Section list_lemmas.
Context {A : Type}.
Implicit Types (l : list A) (P : A → bool).

(** The longest suffix of [l] that does not start with an element
    satisfying [P]: what is left when a scan from the left stops. *)
Fixpoint drop_while P l : list A :=
  match l with
  | [] => []
  | x :: l' => if P x then drop_while P l' else l
  end.

Lemma drop_while_idemp P l : drop_while P (drop_while P l) = drop_while P l.
Proof.
  induction l as [|x l IH]; [done|]. simpl.
  destruct (P x) eqn:Hx; [done|]. simpl. by rewrite Hx.
Qed.

Lemma drop_while_head P l x l' : drop_while P l = x :: l' → P x = false.
Proof.
  induction l as [|y l IH]; [done|]. simpl.
  destruct (P y) eqn:Hy; [done|]. by intros [= -> ->].
Qed.

Lemma drop_while_suffix P l : drop_while P l `suffix_of` l.
Proof.
  induction l as [|x l IH]; [done|]. simpl.
  destruct (P x); [by apply suffix_cons_r|done].
Qed.

Lemma drop_while_length P l : length (drop_while P l) ≤ length l.
Proof. apply suffix_length, drop_while_suffix. Qed.

Lemma drop_while_none P l : Forall (λ x, P x = false) l → drop_while P l = l.
Proof. destruct 1 as [|x l Hx _]; simpl; [done|by rewrite Hx]. Qed.

Lemma drop_while_all P l : Forall (λ x, P x = true) l → drop_while P l = [].
Proof. induction 1 as [|x l Hx _ IH]; simpl; [done|by rewrite Hx]. Qed.

Lemma drop_while_app_all P l k :
  Forall (λ x, P x = true) l → drop_while P (l ++ k) = drop_while P k.
Proof. induction 1 as [|x l Hx _ IH]; simpl; [done|by rewrite Hx]. Qed.

Lemma drop_while_nil_inv P l : drop_while P l = [] → Forall (λ x, P x = true) l.
Proof.
  induction l as [|x l IH]; simpl; [constructor|].
  destruct (P x) eqn:Hx; [|done]. constructor; auto.
Qed.

Lemma drop_while_cons_app P l x l' :
  drop_while P l = x :: l' →
  ∃ k, l = k ++ x :: l' ∧ Forall (λ y, P y = true) k.
Proof.
  induction l as [|y l IH]; [done|]. simpl.
  destruct (P y) eqn:Hy.
  - intros (k & -> & Hk)%IH. exists (y :: k). split; [done|by constructor].
  - intros [= -> ->]. by exists [].
Qed.

End list_lemmas.

(** ** Integer ranges *)

(** [lo <= x <= hi], as a boolean. *)
Definition in_range (lo hi x : Z) : bool := ((lo <=? x) && (x <=? hi))%Z.

Lemma in_range_spec lo hi x : in_range lo hi x = true ↔ (lo ≤ x ≤ hi)%Z.
Proof. unfold in_range. rewrite andb_true_iff, !Z.leb_le. done. Qed.

Lemma in_range_false lo hi x : in_range lo hi x = false ↔ (x < lo ∨ hi < x)%Z.
Proof. unfold in_range. rewrite andb_false_iff, !Z.leb_gt. done. Qed.

(** Linear arithmetic with division and remainder by constants. *)
Ltac dlia := Z.div_mod_to_equations; lia.

(** Decides every integer comparison the goal branches on, keeping the
    branches arithmetic does not refute. *)
Ltac Zcases :=
  repeat match goal with
  | |- context [in_range ?lo ?hi ?x] =>
      let H := fresh "Hr" in
      destruct (in_range lo hi x) eqn:H;
      [apply in_range_spec in H | apply in_range_false in H]; try dlia
  | |- context [(?a <? ?b)%Z] => destruct (Z.ltb_spec a b); try dlia
  | |- context [(?a <=? ?b)%Z] => destruct (Z.leb_spec a b); try dlia
  | |- context [(?a =? ?b)%Z] => destruct (Z.eqb_spec a b); try dlia
  end.

(** ** [try] ... [except]

    [st_try body handler]: the body runs; if it raises, the handler runs
    from the state the body had reached.  An exception the handler raises
    (or raises again) leaves the statement. *)

Definition st_try {S E A} (body : stexn S E A) (handler : E → stexn S E A) :
    stexn S E A := λ s,
  match body s with
  | (s', Ok a) => (s', Ok a)
  | (s', Raise e) => handler e s'
  end.

Lemma st_try_ok {S E A} (body : stexn S E A) handler s s' a :
  body s = (s', Ok a) → st_try body handler s = (s', Ok a).
Proof. unfold st_try. by intros ->. Qed.

Lemma st_try_raise {S E A} (body : stexn S E A) handler s s' e :
  body s = (s', Raise e) → st_try body handler s = handler e s'.
Proof. unfold st_try. by intros ->. Qed.

(** ** Reasoning on computations, block by block

    [preserves R c]: the state [c] ends in is related by [R] to the state it
    started from, whether it returns or raises.  For a preorder [R] the
    property follows the structure of the computation. [raises_in Q c]: an
    exception [c] raises satisfies [Q]. *)

Definition preserves {S E A} (R : relation S) (c : stexn S E A) : Prop :=
  ∀ s s' o, c s = (s', o) → R s s'.

Definition raises_in {S E A} (Q : E → Prop) (c : stexn S E A) : Prop :=
  ∀ s s' e, c s = (s', Raise e) → Q e.

Section preserves.
Context {S E : Type} (R : relation S) `{!PreOrder R}.

Lemma preserves_ret {A} (a : A) : preserves R (mret a : stexn S E A).
Proof. intros s s' o [= <- _]. reflexivity. Qed.

Lemma preserves_raise {A} (e : E) : preserves R (st_raise e : stexn S E A).
Proof. intros s s' o [= <- _]. reflexivity. Qed.

Lemma preserves_lift {A} (o : outcome E A) : preserves R (st_lift o).
Proof. intros s s' o' [= <- _]. reflexivity. Qed.

Lemma preserves_modify (f : S → S) :
  (∀ s, R s (f s)) → preserves R (st_modify f : stexn S E unit).
Proof. intros Hf s s' o [= <- _]. apply Hf. Qed.

Lemma preserves_bind {A B} (c : stexn S E A) (k : A → stexn S E B) :
  preserves R c → (∀ a, preserves R (k a)) → preserves R (c ≫= k).
Proof.
  intros Hc Hk s s' o. rewrite stexn_bind_unfold.
  destruct (c s) as [s1 [a|e]] eqn:Hcs.
  - intros Hks. etrans; [by eapply Hc|by eapply Hk].
  - intros [= <- _]. by eapply Hc.
Qed.

(** What follows a call is run on its result only. *)
Lemma preserves_lift_bind {A B} (o : outcome E A) (k : A → stexn S E B) :
  (∀ a, o = Ok a → preserves R (k a)) → preserves R (st_lift o ≫= k).
Proof.
  intros Hk s s' o'. rewrite stexn_lift_bind. destruct o as [a|e].
  - by apply Hk.
  - intros [= <- _]. reflexivity.
Qed.

Lemma preserves_when (b : bool) (c : stexn S E unit) :
  preserves R c → preserves R (when b c).
Proof. destruct b; [done|]. intros _. apply preserves_ret. Qed.

Lemma preserves_try {A} (c : stexn S E A) (h : E → stexn S E A) :
  preserves R c → (∀ e, preserves R (h e)) → preserves R (st_try c h).
Proof.
  intros Hc Hh s s' o. unfold st_try.
  destruct (c s) as [s1 [a|e]] eqn:Hcs.
  - intros [= <- _]. by eapply Hc.
  - intros Hhs. etrans; [by eapply Hc|by eapply Hh].
Qed.

End preserves.

Section raises_in.
Context {S E : Type} (Q : E → Prop).

Lemma raises_in_ret {A} (a : A) : raises_in Q (mret a : stexn S E A).
Proof. by intros s s' e. Qed.

Lemma raises_in_modify (f : S → S) : raises_in Q (st_modify f : stexn S E unit).
Proof. by intros s s' e. Qed.

Lemma raises_in_lift {A} (o : outcome E A) :
  (∀ e, o = Raise e → Q e) → raises_in Q (st_lift o : stexn S E A).
Proof. intros Ho s s' e [= _ ->]. by apply Ho. Qed.

Lemma raises_in_bind {A B} (c : stexn S E A) (k : A → stexn S E B) :
  raises_in Q c → (∀ a, raises_in Q (k a)) → raises_in Q (c ≫= k).
Proof.
  intros Hc Hk s s' e. rewrite stexn_bind_unfold.
  destruct (c s) as [s1 [a|e']] eqn:Hcs.
  - by apply Hk.
  - intros [= _ <-]. by eapply Hc.
Qed.

Lemma raises_in_when (b : bool) (c : stexn S E unit) :
  raises_in Q c → raises_in Q (when b c).
Proof. destruct b; [done|]. intros _. apply raises_in_ret. Qed.

End raises_in.
