(* ===== verification/Utf8.v ===== *)
(** * UTF-8 decoding: [bytes.decode('utf-8')]

    Line 64 of [src/app.py] decodes what the serial port returned with the
    strict UTF-8 codec.  [decode] is that codec: it accepts exactly the
    well-formed byte sequences of the Unicode standard (no overlong form, no
    surrogate, nothing above U+10FFFF, no truncated sequence) and returns
    [None] where Python raises [UnicodeDecodeError].  [encode] is the inverse
    used to state what [decode] computes. *)

From Stdlib Require Import ZArith Lia.
From Stdlib.Strings Require Import Byte.
From stdpp Require Import base tactics option list.
From S2P Require Import Prelude.

#[local] Open Scope Z_scope.

(** ** Bytes as integers *)

Definition byte_val (b : byte) : Z := Z.of_N (Byte.to_N b).

Definition byte_of_Z (z : Z) : byte := default x00 (Byte.of_N (Z.to_N z)).

(** ** The codec *)

(** A code point that UTF-8 can carry: any but the surrogates. *)
Definition is_scalar (c : Z) : bool :=
  in_range 0 0xD7FF c || in_range 0xE000 0x10FFFF c.

Definition is_cont (v : Z) : bool := in_range 0x80 0xBF v.

(** The byte that may follow the lead byte [v0] of a sequence of three or
    four bytes: the ranges that exclude overlong forms, surrogates and
    code points above U+10FFFF. *)
Definition second_ok (v0 v1 : Z) : bool :=
  if v0 =? 0xE0 then in_range 0xA0 0xBF v1
  else if v0 =? 0xED then in_range 0x80 0x9F v1
  else if v0 =? 0xF0 then in_range 0x90 0xBF v1
  else if v0 =? 0xF4 then in_range 0x80 0x8F v1
  else is_cont v1.

Fixpoint decode_z (bs : list Z) : option (list Z) :=
  match bs with
  | [] => Some []
  | v0 :: r0 =>
    if in_range 0 0x7F v0 then (v0 ::.) <$> decode_z r0
    else if in_range 0xC2 0xDF v0 then
      match r0 with
      | v1 :: r1 =>
        if is_cont v1
        then ((v0 - 0xC0) * 64 + (v1 - 0x80) ::.) <$> decode_z r1
        else None
      | _ => None
      end
    else if in_range 0xE0 0xEF v0 then
      match r0 with
      | v1 :: v2 :: r2 =>
        if second_ok v0 v1 && is_cont v2
        then (((v0 - 0xE0) * 64 + (v1 - 0x80)) * 64 + (v2 - 0x80) ::.)
               <$> decode_z r2
        else None
      | _ => None
      end
    else if in_range 0xF0 0xF4 v0 then
      match r0 with
      | v1 :: v2 :: v3 :: r3 =>
        if second_ok v0 v1 && is_cont v2 && is_cont v3
        then ((((v0 - 0xF0) * 64 + (v1 - 0x80)) * 64 + (v2 - 0x80)) * 64
                + (v3 - 0x80) ::.) <$> decode_z r3
        else None
      | _ => None
      end
    else None
  end.

(** [bytes.decode('utf-8')]: the code points, or [None] for
    [UnicodeDecodeError]. *)
Definition decode (bs : list byte) : option (list Z) :=
  decode_z (byte_val <$> bs).

Definition encode_cp (c : Z) : list Z :=
  if c <? 0x80 then [c]
  else if c <? 0x800 then [0xC0 + c / 64; 0x80 + c mod 64]
  else if c <? 0x10000 then
    [0xE0 + c / 4096; 0x80 + (c / 64) mod 64; 0x80 + c mod 64]
  else
    [0xF0 + c / 262144; 0x80 + (c / 4096) mod 64; 0x80 + (c / 64) mod 64;
     0x80 + c mod 64].

Definition encode_z (cps : list Z) : list Z := cps ≫= encode_cp.

(** [str.encode('utf-8')] *)
Definition encode (cps : list Z) : list byte := byte_of_Z <$> encode_z cps.

(** ** Bytes *)

Lemma byte_val_range b : 0 ≤ byte_val b < 256.
Proof. unfold byte_val. pose proof (Byte.to_N_bounded b). lia. Qed.

Lemma byte_val_of_Z z : 0 ≤ z < 256 → byte_val (byte_of_Z z) = z.
Proof.
  intros Hz. unfold byte_val, byte_of_Z.
  destruct (Byte.of_N (Z.to_N z)) as [b|] eqn:Hb; simpl.
  - apply Byte.to_of_N in Hb. lia.
  - apply Byte.of_N_None_iff in Hb. lia.
Qed.

Lemma byte_of_Z_val b : byte_of_Z (byte_val b) = b.
Proof. unfold byte_val, byte_of_Z. by rewrite N2Z.id, Byte.of_to_N. Qed.

#[export] Instance byte_val_inj : Inj (=) (=) byte_val.
Proof. intros b1 b2 H. by rewrite <-(byte_of_Z_val b1), H, byte_of_Z_val. Qed.

Lemma byte_vals_of_Z zs :
  Forall (λ z, 0 ≤ z < 256) zs → byte_val <$> (byte_of_Z <$> zs) = zs.
Proof.
  induction 1 as [|z zs Hz _ IH]; csimpl; [done|].
  by rewrite byte_val_of_Z, IH.
Qed.

(** ** Encoding produces well-formed bytes *)

Lemma is_scalar_spec c :
  is_scalar c = true ↔ 0 ≤ c ≤ 0xD7FF ∨ 0xE000 ≤ c ≤ 0x10FFFF.
Proof. unfold is_scalar. by rewrite orb_true_iff, !in_range_spec. Qed.

Lemma encode_cp_bytes c : is_scalar c = true → Forall (λ z, 0 ≤ z < 256) (encode_cp c).
Proof.
  intros Hc%is_scalar_spec. unfold encode_cp.
  Zcases; repeat (apply Forall_cons; split; [dlia|]); constructor.
Qed.

Lemma encode_cp_nonempty c : encode_cp c ≠ [].
Proof. unfold encode_cp. by repeat case_match. Qed.

(** ** Round trip, one code point at a time *)

Lemma decode_z_encode_cp c bs :
  is_scalar c = true → decode_z (encode_cp c ++ bs) = (c ::.) <$> decode_z bs.
Proof.
  intros Hc%is_scalar_spec. unfold encode_cp.
  Zcases; simpl; unfold second_ok, is_cont; Zcases; simpl;
    destruct (decode_z bs); simpl; do 2 f_equal; dlia.
Qed.

Lemma decode_z_encode cps :
  Forall (λ c, is_scalar c = true) cps → decode_z (encode_z cps) = Some cps.
Proof.
  induction 1 as [|c cps Hc _ IH]; [done|].
  unfold encode_z in *. by rewrite bind_cons, decode_z_encode_cp, IH.
Qed.

(** ** One step of the decoder

    A successful decode is empty, or splits into the encoding of one scalar
    value and a successful decode of the rest. *)

Lemma decode_z_step bs cps :
  decode_z bs = Some cps →
  (bs = [] ∧ cps = []) ∨
  ∃ c bs' cps', bs = encode_cp c ++ bs' ∧ cps = c :: cps' ∧
                is_scalar c = true ∧ decode_z bs' = Some cps'.
Proof.
  destruct bs as [|v0 r0]; simpl; [naive_solver|]. intros Hd. right.
  repeat match type of Hd with
  | (if ?b then _ else _) = _ => destruct b eqn:?; [|try done]
  | match ?r with [] => _ | _ :: _ => _ end = _ => destruct r as [|? ?]; [done|]
  | _ <$> ?o = Some _ => destruct o eqn:?; simplify_eq/=
  end.
  all: unfold second_ok, is_cont in *.
  all: repeat match goal with
  | H : _ && _ = true |- _ => apply andb_true_iff in H; destruct H
  | H : in_range _ _ _ = true |- _ => apply in_range_spec in H
  | H : in_range _ _ _ = false |- _ => clear H
  | H : (if ?b then _ else _) = true |- _ => destruct b eqn:?
  | H : (_ =? _) = true |- _ => apply Z.eqb_eq in H
  | H : (_ =? _) = false |- _ => apply Z.eqb_neq in H
  end.
  all: eexists _, _, _; split_and!; [|done|apply is_scalar_spec; lia|done].
  all: unfold encode_cp; Zcases; simpl; repeat f_equal; dlia.
Qed.

Lemma decode_z_inv bs cps :
  decode_z bs = Some cps →
  encode_z cps = bs ∧ Forall (λ c, is_scalar c = true) cps.
Proof.
  revert bs. induction cps as [|c cps IH]; intros bs Hd;
    apply decode_z_step in Hd as [[-> ?]|(c' & bs' & cps' & -> & ? & Hc & Hd)];
    simplify_eq; [done|].
  apply IH in Hd as [<- ?]. split; [|by constructor].
  unfold encode_z. by rewrite bind_cons.
Qed.

Lemma decode_z_app bs1 bs2 cps1 :
  decode_z bs1 = Some cps1 →
  decode_z (bs1 ++ bs2) = (cps1 ++.) <$> decode_z bs2.
Proof.
  revert bs1. induction cps1 as [|c cps IH]; intros bs1 Hd;
    apply decode_z_step in Hd as [[-> ?]|(c' & bs' & cps' & -> & ? & Hc & Hd)];
    simplify_eq; simpl.
  - by destruct (decode_z bs2).
  - rewrite <-app_assoc, decode_z_encode_cp, (IH _ Hd) by done.
    by destruct (decode_z bs2).
Qed.

Lemma encode_z_bytes cps :
  Forall (λ c, is_scalar c = true) cps → Forall (λ z, 0 ≤ z < 256) (encode_z cps).
Proof.
  unfold encode_z. induction 1 as [|c cps Hc _ IH]; [constructor|].
  rewrite bind_cons. apply Forall_app. auto using encode_cp_bytes.
Qed.

Lemma encode_cp_length c : (1 ≤ length (encode_cp c) ≤ 4)%nat.
Proof. unfold encode_cp. repeat case_match; simpl; lia. Qed.

Lemma encode_z_length cps :
  (length cps ≤ length (encode_z cps) ≤ 4 * length cps)%nat.
Proof.
  unfold encode_z. induction cps as [|c cps IH]; [simpl; lia|].
  rewrite bind_cons, length_app. pose proof (encode_cp_length c). simpl. lia.
Qed.

(** ASCII text decodes to itself, byte for byte. *)
Lemma decode_z_ascii bs : Forall (λ v, 0 ≤ v < 0x80) bs → decode_z bs = Some bs.
Proof.
  induction 1 as [|v bs Hv _ IH]; [done|]. simpl.
  rewrite (proj2 (in_range_spec 0 0x7F v)) by lia. by rewrite IH.
Qed.

(** ** The codec on bytes *)

Lemma decode_encode_bytes cps :
  Forall (λ c, is_scalar c = true) cps → decode (encode cps) = Some cps.
Proof.
  intros Hs. unfold decode, encode.
  rewrite byte_vals_of_Z by by apply encode_z_bytes.
  by apply decode_z_encode.
Qed.

Lemma encode_decode_bytes bs cps : decode bs = Some cps → encode cps = bs.
Proof.
  unfold decode, encode. intros [-> _]%decode_z_inv.
  rewrite <-list_fmap_compose. rewrite <-(list_fmap_id bs) at 2.
  apply list_fmap_ext. intros _ b _. apply byte_of_Z_val.
Qed.

(** A byte that starts no sequence: a continuation byte, the lead bytes
    0xC0 and 0xC1 of overlong forms, and 0xF5 to 0xFF. *)
Definition is_stray (v : Z) : bool := in_range 0x80 0xC1 v || in_range 0xF5 0xFF v.

Lemma decode_z_stray v bs : is_stray v = true → decode_z (v :: bs) = None.
Proof.
  unfold is_stray. rewrite orb_true_iff, !in_range_spec. intros Hv. simpl.
  by Zcases.
Qed.

(** * The codec, as the ingest loop uses it *)

(** C40: [decode] accepts exactly the encodings of the
    sequences of scalar values, and returns the sequence encoded: it is the
    inverse of [encode]. *)
Theorem decode_exact bs cps :
  decode bs = Some cps ↔ Forall (λ c, is_scalar c = true) cps ∧ encode cps = bs.
Proof.
  split.
  - intros Hd. split; [|by apply encode_decode_bytes].
    unfold decode in Hd. by apply decode_z_inv in Hd as [_ ?].
  - intros [Hs <-]. by apply decode_encode_bytes.
Qed.

(** Bytes below 0x80 decode to themselves, one character
    a byte: what the board sends, digits, points, commas and a line ending,
    always decodes. *)
Theorem decode_ascii bs :
  Forall (λ b, byte_val b < 0x80) bs → decode bs = Some (byte_val <$> bs).
Proof.
  intros Hbs. unfold decode. apply decode_z_ascii, Forall_fmap.
  eapply Forall_impl; [done|]. intros b Hb. unfold compose. simpl in Hb.
  pose proof (byte_val_range b). lia.
Qed.

(** One byte that starts no sequence makes the
    whole read undecodable, whatever decodable text stands before it and
    whatever follows. *)
Theorem decode_stray_byte bs1 b bs2 cps :
  decode bs1 = Some cps → is_stray (byte_val b) = true →
  decode (bs1 ++ b :: bs2) = None.
Proof.
  unfold decode. intros Hd Hb. rewrite fmap_app, fmap_cons, (decode_z_app _ _ _ Hd).
  by rewrite decode_z_stray.
Qed.

(** A decoded text has at most as many characters as
    there were bytes, and at least a quarter as many. *)
Theorem decode_length bs cps :
  decode bs = Some cps → (length cps ≤ length bs ≤ 4 * length cps)%nat.
Proof.
  unfold decode. intros [Hb _]%decode_z_inv.
  rewrite <-(length_fmap byte_val bs), <-Hb. apply encode_z_length.
Qed.

(** * Examples *)

Lemma decode_ascii_witness : decode [x32; x35; x2e; x30] = Some [50; 53; 46; 48].
Proof. apply (decode_ascii [x32; x35; x2e; x30]). repeat constructor. Defined.

Lemma decode_stray_byte_witness : decode ([x32; x35] ++ xff :: [x0d; x0a]) = None.
Proof. by apply (decode_stray_byte [x32; x35] xff [x0d; x0a] [50; 53]). Defined.

(** Two bytes for U+00B0, the degree sign. *)
Lemma decode_length_witness : (length [176] ≤ length [xc2; xb0] ≤ 4 * length [176])%nat.
Proof. by apply (decode_length [xc2; xb0] [176]). Defined.
