(* ===== verification/PyStr.v ===== *)
(** * Python [str]: whitespace, [strip], [split], truthiness

    A [str] is the list of its code points.  This file holds the string
    operations [read_arduino] applies to a decoded line ([src/app.py], lines
    64-68): [.strip()], the test [if line:], [.split(',')] and [len]; with
    [join], the inverse of [split] that specifies it. *)

From Stdlib Require Import ZArith Lia String Ascii.
From stdpp Require Import base tactics option list.
From S2P Require Import Prelude.

#[local] Open Scope Z_scope.

Abbreviation pystr := (list Z) (only parsing).

(** The code points of an ASCII literal, to write examples with. *)
Definition str (s : string) : pystr :=
  (λ a, Z.of_N (N_of_ascii a)) <$> list_ascii_of_string s.

(** ** Whitespace *)

(** [str.isspace] on one code point: the characters [strip] removes.
    These are the code points of bidirectional type WS, B or S, or of
    category Zs. *)
Definition isspace (c : Z) : bool :=
  in_range 0x09 0x0D c || in_range 0x1C 0x20 c || (c =? 0x85) || (c =? 0xA0)
  || (c =? 0x1680) || in_range 0x2000 0x200A c || in_range 0x2028 0x2029 c
  || (c =? 0x202F) || (c =? 0x205F) || (c =? 0x3000).

(** ** [strip]

    Stripping is written once, for any set [P] of characters to remove:
    [str.strip()] removes [isspace], and the C code of [float] removes the
    six ASCII whitespace characters. *)

Section strip_with.
Context (P : Z → bool).

Definition lstrip_with (s : pystr) : pystr := drop_while P s.

Definition rstrip_with (s : pystr) : pystr :=
  reverse (drop_while P (reverse s)).

(** An index moves right from the start over the characters of [P],
    another moves left from the end, and the slice between them is
    returned. *)
Definition strip_with (s : pystr) : pystr := rstrip_with (lstrip_with s).

Definition all_in (s : pystr) : Prop := Forall (λ c, P c = true) s.

Lemma lstrip_with_head s c s' : lstrip_with s = c :: s' → P c = false.
Proof. apply drop_while_head. Qed.

Lemma rstrip_with_snoc s c : P c = false → rstrip_with (s ++ [c]) = s ++ [c].
Proof.
  intros Hc. unfold rstrip_with. rewrite reverse_snoc. simpl. rewrite Hc.
  by rewrite reverse_cons, reverse_involutive.
Qed.

Lemma rstrip_with_snoc_space s c : P c = true → rstrip_with (s ++ [c]) = rstrip_with s.
Proof. intros Hc. unfold rstrip_with. rewrite reverse_snoc. simpl. by rewrite Hc. Qed.

Lemma rstrip_with_last s c : last (rstrip_with s) = Some c → P c = false.
Proof.
  unfold rstrip_with. rewrite last_reverse.
  destruct (drop_while P (reverse s)) as [|c' r] eqn:Hd; [done|].
  intros [= ->]. by eapply drop_while_head.
Qed.

Lemma rstrip_with_prefix s : rstrip_with s `prefix_of` s.
Proof.
  unfold rstrip_with. destruct (drop_while_suffix P (reverse s)) as [k Hk].
  exists (reverse k). apply (inj reverse).
  by rewrite reverse_app, !reverse_involutive.
Qed.

Lemma rstrip_with_decompose s : ∃ r, s = rstrip_with s ++ r ∧ all_in r.
Proof.
  unfold rstrip_with.
  destruct (drop_while P (reverse s)) as [|c t] eqn:Hd.
  - exists s. split; [done|]. apply drop_while_nil_inv in Hd.
    by apply Forall_reverse in Hd; rewrite reverse_involutive in Hd.
  - apply drop_while_cons_app in Hd as (k & Hk & Hsp).
    exists (reverse k). split; [|by apply Forall_reverse].
    apply (inj reverse). by rewrite reverse_app, !reverse_involutive.
Qed.

Lemma lstrip_with_decompose s : ∃ l, s = l ++ lstrip_with s ∧ all_in l.
Proof.
  unfold lstrip_with. destruct (drop_while P s) as [|c t] eqn:Hd.
  - exists s. rewrite app_nil_r. split; [done|by apply drop_while_nil_inv].
  - by apply drop_while_cons_app in Hd as (k & -> & Hsp); exists k.
Qed.

(** [rstrip] keeps the first character of a string it does not empty. *)
Lemma rstrip_with_head s c s' : rstrip_with s = c :: s' → ∃ t, s = c :: t.
Proof.
  intros Hr. destruct (rstrip_with_prefix s) as [k Hk].
  rewrite Hr in Hk. by exists (s' ++ k).
Qed.

Lemma lstrip_with_id s c s' : s = c :: s' → P c = false → lstrip_with s = s.
Proof. intros -> Hc. unfold lstrip_with. simpl. by rewrite Hc. Qed.

Lemma rstrip_with_idemp s : rstrip_with (rstrip_with s) = rstrip_with s.
Proof.
  unfold rstrip_with. by rewrite reverse_involutive, drop_while_idemp.
Qed.

Lemma rstrip_with_all_in s : all_in s → rstrip_with s = [].
Proof.
  intros Hs. unfold rstrip_with. rewrite drop_while_all; [done|].
  by apply Forall_reverse.
Qed.

Lemma strip_with_all_in s : all_in s → strip_with s = [].
Proof. intros Hs. unfold strip_with, lstrip_with. by rewrite drop_while_all. Qed.

Lemma strip_with_nil_inv s : strip_with s = [] → all_in s.
Proof.
  unfold strip_with. intros Hs.
  destruct (lstrip_with_decompose s) as (l & Hl & Hsl).
  destruct (rstrip_with_decompose (lstrip_with s)) as (r & Hr & Hsr).
  rewrite Hs in Hr. rewrite Hl, Hr. by apply Forall_app.
Qed.

End strip_with.

(** [s.strip()] *)
Definition strip (s : pystr) : pystr := strip_with isspace s.

(** [bool(s)], the test of [if line:]: a string is true when not empty. *)
Definition truthy (s : pystr) : bool :=
  match s with
  | [] => false
  | _ :: _ => true
  end.

(** ** [split] and [join] *)

(** [s.split(sep)] for a separator of one character: the pieces between
    the occurrences of [sep], empty pieces included; never an empty list. *)
Fixpoint split (sep : Z) (s : pystr) : list pystr :=
  match s with
  | [] => [[]]
  | c :: s' =>
    if c =? sep then [] :: split sep s'
    else
      match split sep s' with
      | f :: fs => (c :: f) :: fs
      | [] => [[c]]
      end
  end.

(** [sep.join(fs)] *)
Fixpoint join (sep : Z) (fs : list pystr) : pystr :=
  match fs with
  | [] => []
  | [f] => f
  | f :: fs' => f ++ sep :: join sep fs'
  end.

Definition comma : Z := 44.

(** ** Facts on [split] *)

Lemma split_nonempty sep s : split sep s ≠ [].
Proof. destruct s as [|c s]; simpl; [done|]. by repeat case_match. Qed.

Lemma split_cons_sep sep s : split sep (sep :: s) = [] :: split sep s.
Proof. simpl. by rewrite Z.eqb_refl. Qed.

Lemma split_cons_other sep c s :
  c ≠ sep →
  ∃ f fs, split sep s = f :: fs ∧ split sep (c :: s) = (c :: f) :: fs.
Proof.
  intros Hc. simpl. rewrite (proj2 (Z.eqb_neq c sep)) by done.
  destruct (split sep s) as [|f fs] eqn:Hs; [by apply split_nonempty in Hs|].
  eauto.
Qed.

Lemma join_cons sep f f' fs :
  join sep (f :: f' :: fs) = f ++ sep :: join sep (f' :: fs).
Proof. reflexivity. Qed.

Lemma join_cons_head sep c f fs : join sep ((c :: f) :: fs) = c :: join sep (f :: fs).
Proof. by destruct fs. Qed.

Lemma join_split sep s : join sep (split sep s) = s.
Proof.
  induction s as [|c s IH]; [done|].
  destruct (decide (c = sep)) as [->|Hc].
  - rewrite split_cons_sep.
    destruct (split sep s) as [|f fs] eqn:Hs; [by apply split_nonempty in Hs|].
    by rewrite join_cons, IH.
  - destruct (split_cons_other sep c s Hc) as (f & fs & Hs & ->).
    by rewrite join_cons_head, <-Hs, IH.
Qed.

Lemma split_no_sep sep s : Forall (λ f, sep ∉ f) (split sep s).
Proof.
  induction s as [|c s IH].
  - repeat constructor. by intros ?%elem_of_nil.
  - destruct (decide (c = sep)) as [->|Hc].
    + rewrite split_cons_sep. constructor; [by intros ?%elem_of_nil|done].
    + destruct (split_cons_other sep c s Hc) as (f & fs & Hs & ->).
      rewrite Hs in IH. apply Forall_cons in IH as [Hf Hfs].
      constructor; [|done]. rewrite elem_of_cons. naive_solver.
Qed.

(** The number of pieces is one more than the number of separators. *)
Lemma split_length sep s :
  length (split sep s) = S (length (filter (λ c, c = sep) s)).
Proof.
  induction s as [|c s IH]; [done|].
  destruct (decide (c = sep)) as [->|Hc].
  - rewrite split_cons_sep, filter_cons_True by done. simpl. by rewrite IH.
  - destruct (split_cons_other sep c s Hc) as (f & fs & Hs & ->).
    rewrite filter_cons_False by done. by rewrite <-IH, Hs.
Qed.

Lemma split_no_sep_id sep s : sep ∉ s → split sep s = [s].
Proof.
  induction s as [|c s IH]; [done|]. rewrite not_elem_of_cons. intros [Hc Hs].
  destruct (split_cons_other sep c s) as (f & fs & Hsp & ->); [done|].
  rewrite IH in Hsp by done. by simplify_eq.
Qed.

Lemma split_app_sep sep s1 s2 :
  sep ∉ s1 → split sep (s1 ++ sep :: s2) = s1 :: split sep s2.
Proof.
  induction s1 as [|c s1 IH]; simpl app.
  - intros _. apply split_cons_sep.
  - rewrite not_elem_of_cons. intros [Hc Hs].
    destruct (split_cons_other sep c (s1 ++ sep :: s2)) as (f & fs & Hsp & ->);
      [done|].
    rewrite IH in Hsp by done. by simplify_eq.
Qed.

Lemma split_join sep fs :
  fs ≠ [] → Forall (λ f, sep ∉ f) fs → split sep (join sep fs) = fs.
Proof.
  intros Hne Hfs. induction Hfs as [|f fs Hf Hfs IH]; [done|].
  destruct fs as [|f' fs].
  - by apply split_no_sep_id.
  - rewrite join_cons, split_app_sep by done. by rewrite IH.
Qed.

(** ** [strip], completely

    What [strip_with] returns is the middle of a decomposition of the string
    whose two other parts are in [P], and it neither starts nor ends with a
    character of [P]: it is the longest such slice. *)

Section strip_with_spec.
Context (P : Z → bool).

Lemma strip_with_decompose s :
  ∃ l r, s = l ++ strip_with P s ++ r ∧ all_in P l ∧ all_in P r.
Proof.
  destruct (lstrip_with_decompose P s) as (l & Hl & Hsl).
  destruct (rstrip_with_decompose P (lstrip_with P s)) as (r & Hr & Hsr).
  exists l, r. unfold strip_with. by rewrite <-Hr, <-Hl.
Qed.

Lemma strip_with_head s c s' : strip_with P s = c :: s' → P c = false.
Proof.
  unfold strip_with. intros [t Ht]%rstrip_with_head.
  by apply lstrip_with_head in Ht.
Qed.

Lemma strip_with_last s c : last (strip_with P s) = Some c → P c = false.
Proof. apply rstrip_with_last. Qed.

(** A string that neither starts nor ends with a character of [P] is
    left as it is. *)
Lemma strip_with_id s :
  (∀ c, head s = Some c → P c = false) →
  (∀ c, last s = Some c → P c = false) →
  strip_with P s = s.
Proof.
  intros Hh Hl. unfold strip_with.
  assert (lstrip_with P s = s) as ->.
  { destruct s as [|c s]; [done|]. eapply lstrip_with_id; eauto. }
  destruct s as [|c s _] using rev_ind; [done|].
  apply rstrip_with_snoc, Hl, last_snoc.
Qed.

Lemma strip_with_idemp s : strip_with P (strip_with P s) = strip_with P s.
Proof.
  apply strip_with_id.
  - destruct (strip_with P s) as [|c t] eqn:Hs; [done|].
    intros ? [= <-]. by eapply strip_with_head.
  - apply strip_with_last.
Qed.

Lemma strip_with_nil_iff s : strip_with P s = [] ↔ all_in P s.
Proof. split; [apply strip_with_nil_inv|apply strip_with_all_in]. Qed.

(** Padding with characters of [P] on either side does not change the
    result. *)
Lemma strip_with_pad l s r :
  all_in P l → all_in P r → strip_with P (l ++ s ++ r) = strip_with P s.
Proof.
  intros Hl Hr. unfold strip_with, lstrip_with.
  rewrite drop_while_app_all by done.
  unfold rstrip_with. f_equal.
  destruct (drop_while P s) as [|c t] eqn:Hs.
  - apply drop_while_nil_inv in Hs.
    by rewrite (drop_while_app_all P s r Hs), (drop_while_all P r Hr).
  - pose proof (drop_while_head _ _ _ _ Hs) as Hc.
    apply drop_while_cons_app in Hs as (k & -> & Hk).
    rewrite <-app_assoc, drop_while_app_all by done. simpl. rewrite Hc.
    rewrite app_comm_cons, reverse_app.
    by rewrite drop_while_app_all by by apply Forall_reverse.
Qed.

End strip_with_spec.

(** * What the ingest loop relies on *)

(** [s.strip()] is a slice of [s]: what is cut on either
    side is whitespace only, and what is left neither starts nor ends with
    whitespace. *)
Theorem strip_spec s :
  ∃ l r, s = l ++ strip s ++ r ∧ all_in isspace l ∧ all_in isspace r ∧
    (∀ c, head (strip s) = Some c → isspace c = false) ∧
    (∀ c, last (strip s) = Some c → isspace c = false).
Proof.
  destruct (strip_with_decompose isspace s) as (l & r & Hs & Hl & Hr).
  exists l, r. split_and!; [done..| |apply strip_with_last].
  unfold strip. destruct (strip_with isspace s) as [|c t] eqn:Ht; [done|].
  intros ? [= <-]. by eapply strip_with_head.
Qed.

(** The line ending the board sends, a carriage
    return and a line feed, is removed by [strip], like any whitespace
    around the line. *)
Theorem strip_line_ending l s r :
  all_in isspace l → all_in isspace r →
  strip (l ++ s ++ r ++ [13; 10]) = strip s.
Proof.
  intros Hl Hr. unfold strip. apply strip_with_pad; [done|].
  apply Forall_app. split; [done|]. by repeat constructor.
Qed.

(** Stripping a stripped string changes nothing. *)
Theorem strip_idempotent s : strip (strip s) = strip s.
Proof. apply strip_with_idemp. Qed.

(** The test [if line:] fails exactly for the lines
    made of whitespace only, the empty read of a timeout included. *)
Theorem strip_empty_iff s : truthy (strip s) = false ↔ all_in isspace s.
Proof.
  unfold strip. rewrite <-strip_with_nil_iff. by destruct (strip_with isspace s).
Qed.

(** [s.split(sep)] cuts [s] at every separator: joining the
    pieces with the separator gives [s] back, no piece holds a separator,
    and there is one piece more than there are separators. *)
Theorem split_spec sep s :
  join sep (split sep s) = s ∧ Forall (λ f, sep ∉ f) (split sep s) ∧
  length (split sep s) = S (length (filter (λ c, c = sep) s)).
Proof. auto using join_split, split_no_sep, split_length. Qed.

(** A line splits into the three fields [a], [b]
    and [c] exactly when it is [a,b,c] and the fields hold no comma. *)
Theorem split_three_fields s a b c :
  split comma s = [a; b; c] ↔
  s = a ++ comma :: b ++ comma :: c ∧ (comma ∉ a) ∧ (comma ∉ b) ∧ (comma ∉ c).
Proof.
  split.
  - intros Hs. pose proof (split_no_sep comma s) as Hf. rewrite Hs in Hf.
    rewrite !Forall_cons in Hf. destruct Hf as (? & ? & ? & _).
    split_and!; try done. by rewrite <-(join_split comma s), Hs.
  - intros (-> & Ha & Hb & Hc).
    by rewrite !split_app_sep, split_no_sep_id.
Qed.

(** * Examples *)

Lemma strip_line_ending_witness :
  strip (str " " ++ str "25.0,60.0,40.0" ++ str " " ++ [13; 10]) =
    strip (str "25.0,60.0,40.0").
Proof. apply strip_line_ending; by repeat constructor. Defined.

Lemma strip_empty_iff_witness : truthy (strip [13; 10]) = false.
Proof. apply strip_empty_iff. by repeat constructor. Defined.

Lemma split_three_fields_witness :
  split comma (str "25.0,60.0,40.0") = [str "25.0"; str "60.0"; str "40.0"].
Proof.
  apply split_three_fields. split; [reflexivity|].
  split_and!; apply (bool_decide_unpack _); vm_compute; exact I.
Defined.
