(* ===== verification/Float64.v ===== *)
(** * IEEE 754 binary64: the values of a Python [float]

    [float(s)] on line 69 of [src/app.py] turns a decimal numeral into the
    nearest binary64 value, ties to even, an overflow giving an infinity and
    an underflow a zero or a subnormal.  A value is a [spec_float] of the
    standard library (sign, mantissa, binary exponent); [round_ratio]
    rounds a positive rational given as a fraction and [of_decimal] a
    numeral [m * 10 ^ e].  The arithmetic is exact, on [Z]. *)

From Stdlib Require Import ZArith Lia.
From Stdlib.Floats Require Import SpecFloat.
From stdpp Require Import base tactics numbers.
From S2P Require Import Prelude.

#[local] Open Scope Z_scope.

Abbreviation float64 := spec_float (only parsing).

(** ** The format *)

Definition prec : Z := 53.
Definition emax : Z := 1024.

(** The exponent of the least subnormal, [3 - emax - prec]. *)
Definition emin : Z := -1074.

(** A finite value [m * 2 ^ e] is in the format when its mantissa has 53
    bits and [e] is in range, or has fewer and [e = emin]. *)
Definition valid (x : float64) : bool := valid_binary prec emax x.

Definition is_finite (x : float64) : bool :=
  match x with
  | S754_zero _ | S754_finite _ _ _ => true
  | S754_infinity _ | S754_nan => false
  end.

Definition is_nan (x : float64) : bool :=
  match x with
  | S754_nan => true
  | _ => false
  end.

(** [x == y] on floats: a NaN differs from everything, the two zeros are
    equal. *)
Definition feqb (x y : float64) : bool := SFeqb x y.

#[export] Instance float64_eq_dec : EqDecision float64.
Proof. solve_decision. Defined.

(** ** Rounding a fraction *)

(** [b ^ k <= n / d], for positive [n] and [d]. *)
Definition ratio_ge_pow (b n d k : Z) : bool :=
  if 0 <=? k then d * b ^ k <=? n else d <=? n * b ^ (- k).

(** [n / d] in units of [b ^ ex], as a fraction of integers. *)
Definition scale_num (b n ex : Z) : Z := if 0 <=? ex then n else n * b ^ (- ex).
Definition scale_den (b d ex : Z) : Z := if 0 <=? ex then d * b ^ ex else d.

(** [2 ^ k <= n / d], for positive [n] and [d]. *)
Definition ratio_ge_pow2 (n d k : Z) : bool :=
  if 0 <=? k then d * 2 ^ k <=? n else d <=? n * 2 ^ (- k).

(** The integer part of the binary logarithm of [n / d]. *)
Definition ilog2_ratio (n d : Z) : Z :=
  let e0 := Z.log2 n - Z.log2 d in
  if ratio_ge_pow2 n d e0 then e0 else e0 - 1.

(** [q + r / den] to the nearest integer, a tie to the even one. *)
Definition round_half_even (q r den : Z) : Z :=
  match 2 * r ?= den with
  | Lt => q
  | Gt => q + 1
  | Eq => if Z.even q then q else q + 1
  end.

(** A mantissa that rounding carried to [2 ^ 53] is [2 ^ 52] one exponent
    higher. *)
Definition normalize (m ex : Z) : Z * Z :=
  if m =? 2 ^ prec then (2 ^ (prec - 1), ex + 1) else (m, ex).

(** The value [m * 2 ^ ex] of sign [neg]: a zero when [m] is, an infinity
    above the largest exponent. *)
Definition pack (neg : bool) (m ex : Z) : float64 :=
  match m with
  | Zpos p =>
    if ex <=? emax - prec then S754_finite neg p ex else S754_infinity neg
  | _ => S754_zero neg
  end.

(** The value of sign [neg] nearest to [n / d]. *)
Definition round_ratio (neg : bool) (n d : Z) : float64 :=
  if n <=? 0 then S754_zero neg
  else
    let ex := Z.max (ilog2_ratio n d - (prec - 1)) emin in
    let num := if 0 <=? ex then n else n * 2 ^ (- ex) in
    let den := if 0 <=? ex then d * 2 ^ ex else d in
    let m := round_half_even (num / den) (num mod den) den in
    let '(m, ex) := normalize m ex in
    pack neg m ex.

(** The exponent and the mantissa of [round_ratio], before a carry. *)
Definition round_exponent (n d : Z) : Z :=
  Z.max (ilog2_ratio n d - (prec - 1)) emin.

Definition round_mantissa (n d : Z) : Z :=
  let ex := round_exponent n d in
  let num := if 0 <=? ex then n else n * 2 ^ (- ex) in
  let den := if 0 <=? ex then d * 2 ^ ex else d in
  round_half_even (num / den) (num mod den) den.

(** The value nearest to [m * 10 ^ e], for [m >= 0]. *)
Definition of_decimal (neg : bool) (m e : Z) : float64 :=
  if 0 <=? e then round_ratio neg (m * 10 ^ e) 1
  else round_ratio neg m (10 ^ (- e)).

(** The float of an integer, as [float(n)] gives it. *)
Definition of_Z (n : Z) : float64 := of_decimal (n <? 0) (Z.abs n) 0.

(** The value [m * 2 ^ e] as a fraction. *)
Definition ratio_of (m : positive) (e : Z) : Z * Z :=
  if 0 <=? e then (Z.pos m * 2 ^ e, 1) else (Z.pos m, 2 ^ (- e)).

(** [m * 2 ^ ex] is a nearest multiple of [2 ^ ex] to [n / d], and [m] is
    even when [n / d] is half way between two of them.  Both sides are
    scaled to integers. *)
Definition nearest_even (n d m ex : Z) : Prop :=
  let num := if 0 <=? ex then n else n * 2 ^ (- ex) in
  let den := if 0 <=? ex then d * 2 ^ ex else d in
  Z.abs (2 * num - 2 * m * den) ≤ den ∧
  (Z.abs (2 * num - 2 * m * den) = den → Z.even m = true).

(** * Rounding to an integer *)

(** [round_half_even q r den] is one of the two integers around
    [q + r / den], at most one half away from it, and the even one when
    both are. *)
Lemma round_half_even_spec q r den :
  0 ≤ r < den →
  let m := round_half_even q r den in
  (m = q ∨ m = q + 1) ∧
  Z.abs (2 * (q * den + r) - 2 * (m * den)) ≤ den ∧
  (2 * r = den → Z.even m = true).
Proof.
  intros Hr. unfold round_half_even.
  destruct (Z.compare_spec (2 * r) den) as [Heq|Hlt|Hgt].
  - destruct (Z.even q) eqn:Hq; (split_and!; [auto|nia|intros _]); [done|].
    by rewrite Z.add_1_r, Z.even_succ, <-Z.negb_even, Hq.
  - split_and!; [auto|nia|lia].
  - split_and!; [auto|nia|lia].
Qed.

Lemma round_half_even_bounds q r den :
  0 ≤ r < den → q ≤ round_half_even q r den ≤ q + 1.
Proof. intros Hr. destruct (round_half_even_spec q r den Hr) as [[-> | ->] _]; lia. Qed.

(** * A fraction against the powers of a base *)

Section ratio_pow.
Context (b n d : Z) (Hb : 0 < b) (Hd : 0 < d).

(** [ratio_ge_pow b n d k] compares [n / d] with [b ^ k] on any common
    scale. *)
Lemma ratio_ge_pow_scaled k K :
  0 ≤ K → 0 ≤ k + K →
  ratio_ge_pow b n d k = true ↔ d * b ^ (k + K) ≤ n * b ^ K.
Proof.
  intros HK HkK. unfold ratio_ge_pow.
  assert (0 < b ^ K) by by apply Z.pow_pos_nonneg.
  destruct (Z.leb_spec 0 k) as [Hk|Hk]; rewrite Z.leb_le.
  - rewrite Z.pow_add_r, Z.mul_assoc by done.
    by rewrite <-Z.mul_le_mono_pos_r.
  - assert (0 < b ^ (k + K)) by by apply Z.pow_pos_nonneg.
    replace K with (- k + (k + K)) at 2 by lia.
    rewrite (Z.pow_add_r b (- k) (k + K)), Z.mul_assoc by lia.
    by rewrite <-Z.mul_le_mono_pos_r.
Qed.

Lemma ratio_ge_pow_mono k k' :
  k ≤ k' → ratio_ge_pow b n d k' = true → ratio_ge_pow b n d k = true.
Proof.
  intros Hk. set (K := Z.max (- k) 0).
  rewrite (ratio_ge_pow_scaled k K), (ratio_ge_pow_scaled k' K) by lia.
  intros Hle. etrans; [|done]. apply Z.mul_le_mono_nonneg_l; [lia|].
  apply Z.pow_le_mono_r; lia.
Qed.

(** ** The fraction in units of a power of the base *)

Lemma scale_den_pos ex : 0 < scale_den b d ex.
Proof.
  unfold scale_den. destruct (Z.leb_spec 0 ex); [|done].
  apply Z.mul_pos_pos; [done|]. by apply Z.pow_pos_nonneg.
Qed.

Lemma scale_num_pos ex : 0 < n → 0 < scale_num b n ex.
Proof.
  intros Hn. unfold scale_num. destruct (Z.leb_spec 0 ex); [done|].
  apply Z.mul_pos_pos; [done|]. apply Z.pow_pos_nonneg; lia.
Qed.

Lemma scale_ge ex k :
  ex ≤ k →
  ratio_ge_pow b n d k = true ↔ scale_den b d ex * b ^ (k - ex) ≤ scale_num b n ex.
Proof.
  intros Hk. unfold scale_den, scale_num. destruct (Z.leb_spec 0 ex).
  - rewrite (ratio_ge_pow_scaled k 0), Z.add_0_r, Z.mul_1_r by lia.
    by rewrite <-Z.mul_assoc, <-Z.pow_add_r, Zplus_minus by lia.
  - by rewrite (ratio_ge_pow_scaled k (- ex)), Z.add_opp_r by lia.
Qed.

Lemma scale_quot_lower ex k :
  ex ≤ k → ratio_ge_pow b n d k = true →
  b ^ (k - ex) ≤ scale_num b n ex / scale_den b d ex.
Proof.
  intros Hk Hge%(scale_ge ex k Hk).
  by apply Z.div_le_lower_bound; [apply scale_den_pos|].
Qed.

Lemma scale_quot_upper ex k :
  ex ≤ k → ratio_ge_pow b n d k = false →
  scale_num b n ex / scale_den b d ex < b ^ (k - ex).
Proof.
  intros Hk Hlt. apply Z.div_lt_upper_bound; [apply scale_den_pos|].
  apply Z.nle_gt. intros Hge%(scale_ge ex k Hk). congruence.
Qed.

(** In a unit [b ^ j] times smaller the fraction counts [b ^ j] times as
    many. *)
Lemma scale_shift ex j :
  0 ≤ j →
  scale_num b n ex * scale_den b d (ex + j) =
  b ^ j * scale_num b n (ex + j) * scale_den b d ex.
Proof.
  intros Hj. unfold scale_num, scale_den.
  destruct (Z.leb_spec 0 ex), (Z.leb_spec 0 (ex + j)); try lia.
  - rewrite Z.pow_add_r by lia. ring.
  - replace (b ^ j) with (b ^ (- ex) * b ^ (ex + j))
      by (rewrite <-Z.pow_add_r by lia; f_equal; lia).
    ring.
  - replace (b ^ (- ex)) with (b ^ j * b ^ (- (ex + j)))
      by (rewrite <-Z.pow_add_r by lia; f_equal; lia).
    ring.
Qed.

End ratio_pow.

(** * The binary logarithm of a fraction *)

Section ratio.
Context (n d : Z) (Hn : 0 < n) (Hd : 0 < d).

Lemma ratio_ge_pow2_scaled k K :
  0 ≤ K → 0 ≤ k + K →
  ratio_ge_pow2 n d k = true ↔ d * 2 ^ (k + K) ≤ n * 2 ^ K.
Proof. by apply (ratio_ge_pow_scaled 2). Qed.

Lemma ratio_ge_pow2_mono k k' :
  k ≤ k' → ratio_ge_pow2 n d k' = true → ratio_ge_pow2 n d k = true.
Proof. by apply (ratio_ge_pow_mono 2). Qed.

(** The difference of the logarithms is the logarithm or one too many. *)
Lemma ratio_log2_lower : ratio_ge_pow2 n d (Z.log2 n - Z.log2 d - 1) = true.
Proof.
  pose proof (Z.log2_nonneg n). pose proof (Z.log2_nonneg d).
  destruct (Z.log2_spec n Hn) as [Hn1 _]. destruct (Z.log2_spec d Hd) as [_ Hd2].
  apply (ratio_ge_pow2_scaled _ (Z.log2 d + 1)); [lia..|].
  replace (Z.log2 n - Z.log2 d - 1 + (Z.log2 d + 1)) with (Z.log2 n) by lia.
  rewrite <-Z.add_1_r in Hd2.
  assert (0 < 2 ^ Z.log2 n) by by apply Z.pow_pos_nonneg. nia.
Qed.

Lemma ratio_log2_upper : ratio_ge_pow2 n d (Z.log2 n - Z.log2 d + 1) = false.
Proof.
  pose proof (Z.log2_nonneg n). pose proof (Z.log2_nonneg d).
  destruct (Z.log2_spec n Hn) as [_ Hn2]. destruct (Z.log2_spec d Hd) as [Hd1 _].
  apply not_true_is_false. rewrite (ratio_ge_pow2_scaled _ (Z.log2 d)) by lia.
  replace (Z.log2 n - Z.log2 d + 1 + Z.log2 d) with (Z.succ (Z.log2 n)) by lia.
  assert (0 < 2 ^ Z.succ (Z.log2 n)) by (apply Z.pow_pos_nonneg; lia). nia.
Qed.

(** [ilog2_ratio n d] is the [e] with [2 ^ e <= n / d < 2 ^ (e + 1)]. *)
Lemma ilog2_ratio_spec :
  ratio_ge_pow2 n d (ilog2_ratio n d) = true ∧
  ratio_ge_pow2 n d (ilog2_ratio n d + 1) = false.
Proof.
  unfold ilog2_ratio. destruct (ratio_ge_pow2 n d (Z.log2 n - Z.log2 d)) eqn:He.
  - split; [done|apply ratio_log2_upper].
  - split; [apply ratio_log2_lower|]. by rewrite Z.sub_add.
Qed.

(** ** The fraction on the scale of an exponent *)

Section scaled.
Context (ex : Z).

Notation num := (if 0 <=? ex then n else n * 2 ^ (- ex)).
Notation den := (if 0 <=? ex then d * 2 ^ ex else d).

Lemma scaled_den_pos : 0 < den.
Proof. by apply (scale_den_pos 2). Qed.

Lemma scaled_num_pos : 0 < num.
Proof. by apply (scale_num_pos 2). Qed.

Lemma scaled_ge k :
  ex ≤ k → ratio_ge_pow2 n d k = true ↔ den * 2 ^ (k - ex) ≤ num.
Proof. by apply (scale_ge 2). Qed.

Lemma quot_lower k :
  ex ≤ k → ratio_ge_pow2 n d k = true → 2 ^ (k - ex) ≤ num / den.
Proof. by apply (scale_quot_lower 2). Qed.

Lemma quot_upper k :
  ex ≤ k → ratio_ge_pow2 n d k = false → num / den < 2 ^ (k - ex).
Proof. by apply (scale_quot_upper 2). Qed.

End scaled.
End ratio.

(** * Values in the format *)

Lemma digits2_pos_log2 p : Z.pos (digits2_pos p) = Z.log2 (Z.pos p) + 1.
Proof.
  induction p as [p IH|p IH|]; [| |done]; simpl digits2_pos;
    rewrite Pos2Z.inj_succ, IH; [rewrite Pos2Z.inj_xI|rewrite Pos2Z.inj_xO];
    [rewrite Z.log2_succ_double|rewrite Z.log2_double]; lia.
Qed.

(** A mantissa of 53 bits is canonical at every exponent of the format. *)
Lemma canonical_normal p ex :
  emin ≤ ex → 2 ^ 52 ≤ Z.pos p < 2 ^ 53 →
  canonical_mantissa prec emax p ex = true.
Proof.
  intros Hex Hp. unfold canonical_mantissa, fexp, SpecFloat.emin.
  rewrite digits2_pos_log2, (Z.log2_unique (Z.pos p) 52) by done.
  apply Z.eqb_eq. unfold prec, emax, emin in *. lia.
Qed.

(** A shorter one is canonical at the least exponent. *)
Lemma canonical_subnormal p :
  Z.pos p < 2 ^ 53 → canonical_mantissa prec emax p emin = true.
Proof.
  intros Hp. unfold canonical_mantissa, fexp, SpecFloat.emin.
  rewrite digits2_pos_log2.
  assert (Z.log2 (Z.pos p) < 53) by by apply Z.log2_lt_pow2.
  apply Z.eqb_eq. unfold prec, emax, emin in *. lia.
Qed.

Lemma pack_valid neg m ex :
  emin ≤ ex → m < 2 ^ 53 → ex = emin ∨ 2 ^ 52 ≤ m →
  valid (pack neg m ex) = true.
Proof.
  intros Hex Hm Hc. destruct m as [|p|p]; [done| |done]. simpl.
  destruct (Z.leb_spec ex (emax - prec)) as [Hle|]; [|done].
  unfold valid, valid_binary, bounded. apply andb_true_intro.
  split; [|by apply Z.leb_le].
  destruct Hc as [->|Hc]; [by apply canonical_subnormal|by apply canonical_normal].
Qed.

Lemma normalize_valid neg m ex :
  emin ≤ ex → m ≤ 2 ^ 53 → ex = emin ∨ 2 ^ 52 ≤ m →
  valid (let '(m, ex) := normalize m ex in pack neg m ex) = true.
Proof.
  intros Hex Hm Hc. unfold normalize.
  destruct (Z.eqb_spec m (2 ^ prec)) as [->|Hne].
  - apply pack_valid; [lia|done|by right].
  - apply pack_valid; [done| |done]. unfold prec in Hne. lia.
Qed.

Lemma round_ratio_parts neg n d :
  0 < n →
  round_ratio neg n d =
    let '(m, ex) := normalize (round_mantissa n d) (round_exponent n d) in
    pack neg m ex.
Proof. intros Hn. unfold round_ratio. by rewrite (proj2 (Z.leb_gt n 0)). Qed.

Lemma round_exponent_emin n d : emin ≤ round_exponent n d.
Proof. unfold round_exponent. lia. Qed.

(** The mantissa has at most 53 bits before a carry, and exactly 53 above
    the least exponent. *)
Lemma round_mantissa_bounds n d :
  0 < n → 0 < d →
  0 ≤ round_mantissa n d ≤ 2 ^ 53 ∧
  (round_exponent n d = emin ∨ 2 ^ 52 ≤ round_mantissa n d).
Proof.
  intros Hn Hd. unfold round_mantissa. cbv zeta.
  destruct (ilog2_ratio_spec n d Hn Hd) as [Hge Hlt].
  set (ex := round_exponent n d). set (e := ilog2_ratio n d) in *.
  pose proof (round_half_even_bounds
    ((if 0 <=? ex then n else n * 2 ^ (- ex)) / (if 0 <=? ex then d * 2 ^ ex else d)) _ _
    (Z.mod_pos_bound (if 0 <=? ex then n else n * 2 ^ (- ex)) _
      (scaled_den_pos d Hd ex))) as Hm.
  pose proof (Z.div_pos _ _ (Z.lt_le_incl _ _ (scaled_num_pos n Hn ex))
    (scaled_den_pos d Hd ex)) as Hq.
  assert (ratio_ge_pow2 n d (Z.max (e + 1) ex) = false) as Hup.
  { apply not_true_is_false. intros Hk.
    apply (ratio_ge_pow2_mono n d Hd (e + 1)) in Hk; [congruence|lia]. }
  apply (quot_upper n d Hd ex) in Hup; [|lia].
  assert (2 ^ (Z.max (e + 1) ex - ex) ≤ 2 ^ 53)
    by (apply Z.pow_le_mono_r; unfold ex, round_exponent, prec; lia).
  split; [lia|]. destruct (decide (ex = emin)) as [|Hne]; [by left|right].
  apply (quot_lower n d Hd ex) in Hge; [|unfold ex, round_exponent, prec in *; lia].
  replace (e - ex) with 52 in Hge by (unfold ex, round_exponent, prec in *; lia). lia.
Qed.

(** Every result of the rounding is a value of the format. *)
Lemma round_ratio_valid neg n d : 0 < d → valid (round_ratio neg n d) = true.
Proof.
  intros Hd. destruct (Z.le_gt_cases n 0) as [Hn|Hn].
  { unfold round_ratio. by rewrite (proj2 (Z.leb_le n 0)). }
  rewrite round_ratio_parts by done.
  destruct (round_mantissa_bounds n d Hn Hd) as [Hm Hc].
  apply normalize_valid; [apply round_exponent_emin|lia|done].
Qed.

(** * Values nearest to the fraction *)

Lemma pack_finite_inv neg m ex neg' p ex' :
  pack neg m ex = S754_finite neg' p ex' →
  m = Z.pos p ∧ ex' = ex ∧ neg' = neg ∧ ex ≤ emax - prec.
Proof.
  destruct m as [|q|q]; simpl; [done| |done].
  destruct (Z.leb_spec ex (emax - prec)); [|done]. by intros [= -> -> ->].
Qed.

Lemma round_half_even_nearest n d ex :
  0 < d →
  let num := if 0 <=? ex then n else n * 2 ^ (- ex) in
  let den := if 0 <=? ex then d * 2 ^ ex else d in
  nearest_even n d (round_half_even (num / den) (num mod den) den) ex.
Proof.
  intros Hd num den. unfold nearest_even. fold num den.
  pose proof (scaled_den_pos d Hd ex) as Hden. fold den in Hden.
  pose proof (Z.mod_pos_bound num den Hden) as Hr.
  pose proof (Z.div_mod num den ltac:(lia)) as Hnum.
  destruct (round_half_even_spec (num / den) (num mod den) den Hr)
    as (Hm & Hle & Heven).
  split; [lia|]. intros Htie. apply Heven. destruct Hm as [Hm|Hm]; nia.
Qed.

(** Twice the mantissa is the mantissa one exponent higher. *)
Lemma nearest_even_carry n d m ex :
  0 < n → 0 < d → Z.even m = true →
  nearest_even n d (2 * m) ex → nearest_even n d m (ex + 1).
Proof.
  intros Hn Hd Hm [Hle _]. unfold nearest_even. split; [|done]. revert Hle.
  destruct (Z.leb_spec 0 ex), (Z.leb_spec 0 (ex + 1)); try lia.
  - rewrite Z.add_1_r, Z.pow_succ_r by done.
    assert (0 < 2 ^ ex) by by apply Z.pow_pos_nonneg. nia.
  - replace ex with (-1) by lia. simpl. lia.
  - replace (- ex) with (Z.succ (- (ex + 1))) by lia.
    rewrite Z.pow_succ_r by lia. lia.
Qed.

Lemma round_ratio_finite_nearest neg n d neg' p ex :
  0 < n → 0 < d → round_ratio neg n d = S754_finite neg' p ex →
  neg' = neg ∧ nearest_even n d (Z.pos p) ex.
Proof.
  intros Hn Hd. unfold round_ratio. rewrite (proj2 (Z.leb_gt n 0)) by done.
  cbv zeta. set (ex0 := Z.max _ emin).
  pose proof (round_half_even_nearest n d ex0 Hd) as Hm. cbv zeta in Hm.
  set (m0 := round_half_even _ _ _) in *.
  unfold normalize. destruct (Z.eqb_spec m0 (2 ^ prec)) as [Heq|_].
  - intros (Hp & -> & -> & _)%pack_finite_inv. split; [done|]. rewrite <-Hp.
    apply nearest_even_carry; [done..|]. by rewrite Heq in Hm.
  - by intros (<- & -> & -> & _)%pack_finite_inv.
Qed.

Lemma of_decimal_valid neg m e : valid (of_decimal neg m e) = true.
Proof.
  unfold of_decimal. destruct (Z.leb_spec 0 e); apply round_ratio_valid; [done|].
  apply Z.pow_pos_nonneg; lia.
Qed.

(** * The rounding depends on the value of the fraction only *)

Lemma ratio_ge_pow2_scale n d c k :
  0 < c → ratio_ge_pow2 (n * c) (d * c) k = ratio_ge_pow2 n d k.
Proof.
  intros Hc. unfold ratio_ge_pow2. apply Bool.eq_iff_eq_true.
  destruct (0 <=? k); rewrite !Z.leb_le.
  - set (p := 2 ^ k). nia.
  - set (p := 2 ^ (- k)). nia.
Qed.

Lemma ilog2_ratio_unique n d e :
  0 < n → 0 < d →
  ratio_ge_pow2 n d e = true → ratio_ge_pow2 n d (e + 1) = false →
  ilog2_ratio n d = e.
Proof.
  intros Hn Hd Hge Hlt. destruct (ilog2_ratio_spec n d Hn Hd) as [Hge' Hlt'].
  destruct (Z.lt_total e (ilog2_ratio n d)) as [He|[He|He]]; [|done|].
  - rewrite (ratio_ge_pow2_mono n d Hd (e + 1) (ilog2_ratio n d)) in Hlt; [done|lia|done].
  - rewrite (ratio_ge_pow2_mono n d Hd (ilog2_ratio n d + 1) e) in Hlt'; [done|lia|done].
Qed.

Lemma ilog2_ratio_scale n d c :
  0 < n → 0 < d → 0 < c → ilog2_ratio (n * c) (d * c) = ilog2_ratio n d.
Proof.
  intros Hn Hd Hc. destruct (ilog2_ratio_spec n d Hn Hd) as [Hge Hlt].
  apply ilog2_ratio_unique; [nia|nia|by rewrite ratio_ge_pow2_scale..].
Qed.

Lemma round_half_even_scale q r den c :
  0 < c → round_half_even q (r * c) (den * c) = round_half_even q r den.
Proof.
  intros Hc. unfold round_half_even.
  by rewrite Z.mul_assoc, <-Zmult_compare_compat_r by lia.
Qed.

Lemma round_ratio_scale neg n d c :
  0 < d → 0 < c → round_ratio neg (n * c) (d * c) = round_ratio neg n d.
Proof.
  intros Hd Hc. unfold round_ratio.
  destruct (Z.leb_spec n 0) as [Hn|Hn].
  { by rewrite (proj2 (Z.leb_le (n * c) 0)) by nia. }
  rewrite (proj2 (Z.leb_gt (n * c) 0)), ilog2_ratio_scale by (done || nia).
  cbv zeta. set (ex := Z.max _ emin).
  replace (if 0 <=? ex then n * c else n * c * 2 ^ (- ex))
    with ((if 0 <=? ex then n else n * 2 ^ (- ex)) * c) by (case_match; ring).
  replace (if 0 <=? ex then d * c * 2 ^ ex else d * c)
    with ((if 0 <=? ex then d * 2 ^ ex else d) * c) by (case_match; ring).
  pose proof (scaled_den_pos d Hd ex).
  by rewrite Z.div_mul_cancel_r, Z.mul_mod_distr_r, round_half_even_scale by lia.
Qed.

(** Two fractions of the same value round to the same float. *)
Lemma round_ratio_ratio neg n d n' d' :
  0 < d → 0 < d' → n * d' = n' * d →
  round_ratio neg n d = round_ratio neg n' d'.
Proof.
  intros Hd Hd' Heq.
  rewrite <-(round_ratio_scale neg n d d'), <-(round_ratio_scale neg n' d' d) by done.
  by rewrite Heq, (Z.mul_comm d' d).
Qed.

(** * The value of a float rounds to the float *)

Lemma valid_finite_inv neg m e :
  valid (S754_finite neg m e) = true →
  Z.max (Z.log2 (Z.pos m) + 1 + e - prec) emin = e ∧ e ≤ emax - prec.
Proof.
  unfold valid, valid_binary, bounded, canonical_mantissa, fexp, SpecFloat.emin.
  intros [Hc He]%andb_prop. apply Z.eqb_eq in Hc. apply Z.leb_le in He.
  rewrite digits2_pos_log2 in Hc. unfold emin, prec, emax in *. lia.
Qed.

Lemma ilog2_ratio_of m e :
  ilog2_ratio (ratio_of m e).1 (ratio_of m e).2 = Z.log2 (Z.pos m) + e.
Proof.
  assert (0 < Z.pos m) as Hm by done.
  pose proof (Z.log2_nonneg (Z.pos m)) as Hl.
  destruct (Z.log2_spec _ Hm) as [Hlo Hhi]. revert Hl Hlo Hhi.
  generalize (Z.log2 (Z.pos m)). intros l Hl Hlo Hhi.
  unfold ratio_of. destruct (Z.leb_spec 0 e) as [He|He]; cbn [fst snd].
  - assert (0 < 2 ^ e) by by apply Z.pow_pos_nonneg.
    apply ilog2_ratio_unique; [nia|done|..].
    + apply (ratio_ge_pow2_scaled _ _ _ 0); [lia..|].
      rewrite Z.add_0_r, Z.pow_add_r by done. nia.
    + apply not_true_is_false. rewrite (ratio_ge_pow2_scaled _ _ _ 0) by lia.
      replace (l + e + 1 + 0) with (Z.succ l + e) by lia.
      rewrite Z.pow_add_r by lia. nia.
  - assert (0 < 2 ^ (- e)) by (apply Z.pow_pos_nonneg; lia).
    apply ilog2_ratio_unique; [done..| |].
    + apply (ratio_ge_pow2_scaled _ _ _ (- e)); [lia..|].
      replace (l + e + - e) with l by lia. nia.
    + apply not_true_is_false. rewrite (ratio_ge_pow2_scaled _ _ _ (- e)) by lia.
      replace (l + e + 1 + - e) with (Z.succ l) by lia. nia.
Qed.

Lemma round_ratio_exact neg m e :
  valid (S754_finite neg m e) = true →
  round_ratio neg (ratio_of m e).1 (ratio_of m e).2 = S754_finite neg m e.
Proof.
  intros [Hex He]%valid_finite_inv. unfold round_ratio.
  rewrite ilog2_ratio_of.
  replace (Z.log2 (Z.pos m) + e - (prec - 1)) with (Z.log2 (Z.pos m) + 1 + e - prec)
    by (unfold prec; lia).
  rewrite Hex. assert (Z.pos m < 2 ^ 53) as Hm.
  { apply Z.log2_lt_pow2; [done|]. unfold prec, emin in Hex. lia. }
  unfold ratio_of. destruct (Z.leb_spec 0 e) as [He0|He0]; simpl fst; simpl snd.
  - assert (0 < 2 ^ e) by by apply Z.pow_pos_nonneg.
    rewrite (proj2 (Z.leb_gt (Z.pos m * 2 ^ e) 0)) by nia. cbv zeta.
    rewrite Z.mul_1_l, Z.div_mul, Z.mod_mul by lia.
    unfold round_half_even, normalize, pack. rewrite (proj2 (Z.compare_lt_iff _ _)) by lia.
    rewrite (proj2 (Z.eqb_neq _ _)) by (unfold prec; lia).
    by rewrite (proj2 (Z.leb_le e _)).
  - assert (0 < 2 ^ (- e)) by (apply Z.pow_pos_nonneg; lia).
    rewrite (proj2 (Z.leb_gt (Z.pos m) 0)) by lia. cbv zeta.
    rewrite Z.div_mul, Z.mod_mul by lia.
    unfold round_half_even, normalize, pack. rewrite (proj2 (Z.compare_lt_iff _ _)) by lia.
    rewrite (proj2 (Z.eqb_neq _ _)) by (unfold prec; lia).
    by rewrite (proj2 (Z.leb_le e _)).
Qed.

(** Zeros at the end of the digits count as powers of ten. *)
Lemma of_decimal_scale neg v j e :
  0 ≤ j → of_decimal neg (v * 10 ^ j) e = of_decimal neg v (e + j).
Proof.
  intros Hj. unfold of_decimal.
  assert (∀ k, 0 ≤ k → 0 < 10 ^ k) as Hpos by (intros; by apply Z.pow_pos_nonneg).
  destruct (Z.leb_spec 0 e), (Z.leb_spec 0 (e + j)); try lia.
  - by rewrite (Z.add_comm e j), Z.pow_add_r, Z.mul_assoc by lia.
  - apply round_ratio_ratio; [apply Hpos; lia|lia|].
    rewrite Z.mul_1_r, <-(Z.mul_assoc v), <-Z.pow_add_r by lia.
    do 2 f_equal. lia.
  - apply round_ratio_ratio; [apply Hpos; lia..|].
    rewrite <-Z.mul_assoc, <-Z.pow_add_r by lia. do 2 f_equal. lia.
Qed.

(** * The value of a numeral *)

(** C39: the finite value that [float] gives a numeral
    [m * 10 ^ e] with [m > 0] has the sign of the numeral, is a value of
    the binary64 format, and is a nearest multiple of its power of two to
    the number the numeral writes, with an even mantissa when that number
    is half way between two of them. *)
Theorem of_decimal_nearest neg m e neg' p ex :
  0 < m → of_decimal neg m e = S754_finite neg' p ex →
  neg' = neg ∧ valid (S754_finite neg' p ex) = true ∧
  if 0 <=? e then nearest_even (m * 10 ^ e) 1 (Z.pos p) ex
  else nearest_even m (10 ^ (- e)) (Z.pos p) ex.
Proof.
  intros Hm Hx. pose proof (of_decimal_valid neg m e) as Hv. rewrite Hx in Hv.
  revert Hx. unfold of_decimal.
  destruct (Z.leb_spec 0 e); intros [-> Hn]%round_ratio_finite_nearest;
    try done; apply Z.mul_pos_pos || apply Z.pow_pos_nonneg; try lia.
Qed.

(** One tenth is not a binary fraction: its value is the 53-bit mantissa
    nearest to [2 ^ 56 / 10]. *)
Lemma of_decimal_nearest_witness :
  false = false ∧ valid (S754_finite false 7205759403792794 (-56)) = true ∧
  nearest_even 1 (10 ^ 1) 7205759403792794 (-56).
Proof.
  apply (of_decimal_nearest false 1 (-1) false 7205759403792794 (-56));
    [lia|vm_compute; reflexivity].
Defined.
