(* ===== verification/FloatOrder.v ===== *)
(** * The order of the values, and the rounding

    [round_ratio] of [Float64] is monotone: a larger fraction does not
    round to a smaller value.  The values are compared by magnitude
    ([mle]), in integers.  It follows that the fractions that round to one
    value are an interval ([round_ratio_between]), which is what makes the
    search of [FloatRepr] complete: when some decimal with a given number
    of places reads back as a value, one of the two decimals around the
    value does.  The interval holds every fraction nearer to the value
    than half of its unit ([round_ratio_near]), which is why seventeen
    digits are enough to write a value ([FloatDigits]). *)

From Stdlib Require Import ZArith Lia.
From Stdlib.Floats Require Import SpecFloat.
From stdpp Require Import base tactics numbers.
From S2P Require Import Prelude Float64.

#[local] Open Scope Z_scope.

(** ** The order *)

(** [x] is at most [y] in magnitude; a zero is below everything. *)
Definition mle (x y : float64) : Prop :=
  match x, y with
  | S754_zero _, _ => True
  | S754_finite _ m e, S754_finite _ m' e' =>
    if e <=? e' then Z.pos m ≤ Z.pos m' * 2 ^ (e' - e)
    else Z.pos m * 2 ^ (e - e') ≤ Z.pos m'
  | (S754_finite _ _ _ | S754_infinity _), S754_infinity _ => True
  | _, _ => False
  end.

Definition sign_of (x : float64) : bool :=
  match x with
  | S754_zero s | S754_infinity s | S754_finite s _ _ => s
  | S754_nan => false
  end.

(** The value the rounding packs, with its carry. *)
Definition packed (neg : bool) (m ex : Z) : float64 :=
  let '(m, ex) := normalize m ex in pack neg m ex.

(** * Fractions in order *)

Section order.
Context (n d n' d' : Z) (Hd : 0 < d) (Hd' : 0 < d') (Hle : n * d' ≤ n' * d).

Lemma ratio_ge_pow2_le k :
  ratio_ge_pow2 n d k = true → ratio_ge_pow2 n' d' k = true.
Proof.
  unfold ratio_ge_pow2. destruct (Z.leb_spec 0 k); rewrite !Z.leb_le.
  - assert (0 < 2 ^ k) by by apply Z.pow_pos_nonneg. set (p := 2 ^ k) in *.
    intros Hp. apply (Z.mul_le_mono_pos_r _ _ d); [done|]. nia.
  - assert (0 < 2 ^ (- k)) by (apply Z.pow_pos_nonneg; lia). set (p := 2 ^ (- k)) in *.
    intros Hp. apply (Z.mul_le_mono_pos_r _ _ d); [done|]. nia.
Qed.

Lemma ilog2_ratio_le : 0 < n → ilog2_ratio n d ≤ ilog2_ratio n' d'.
Proof.
  intros Hn. assert (0 < n') as Hn' by nia.
  destruct (ilog2_ratio_spec n d Hn Hd) as [Hge _].
  destruct (ilog2_ratio_spec n' d' Hn' Hd') as [_ Hlt'].
  apply Z.nlt_ge. intros Hlt.
  apply (ratio_ge_pow2_mono n d Hd (ilog2_ratio n' d' + 1)) in Hge; [|lia].
  apply ratio_ge_pow2_le in Hge. congruence.
Qed.

Lemma round_exponent_le : 0 < n → round_exponent n d ≤ round_exponent n' d'.
Proof. intros Hn%ilog2_ratio_le. unfold round_exponent. lia. Qed.

(** The quotients are in the order of the fractions. *)
Lemma div_le_cross : n / d ≤ n' / d'.
Proof.
  apply Z.div_le_lower_bound; [done|].
  pose proof (Z.mul_div_le n d Hd). apply (Z.mul_le_mono_pos_r _ _ d); [done|]. nia.
Qed.

(** And so are the roundings to an integer. *)
Lemma round_half_even_le :
  round_half_even (n / d) (n mod d) d ≤ round_half_even (n' / d') (n' mod d') d'.
Proof.
  pose proof div_le_cross as Hq.
  pose proof (Z.mod_pos_bound n d Hd) as Hr.
  pose proof (Z.mod_pos_bound n' d' Hd') as Hr'.
  destruct (decide (n / d = n' / d')) as [Heq|Hne].
  - pose proof (Z.div_mod n d ltac:(lia)) as Hn.
    pose proof (Z.div_mod n' d' ltac:(lia)) as Hn'.
    assert (n mod d * d' ≤ n' mod d' * d) as Hrr by nia.
    rewrite <-Heq. unfold round_half_even.
    destruct (Z.compare_spec (2 * (n mod d)) d),
      (Z.compare_spec (2 * (n' mod d')) d'); try lia; try nia;
      destruct (Z.even (n / d)); lia.
  - pose proof (round_half_even_bounds (n / d) _ _ Hr).
    pose proof (round_half_even_bounds (n' / d') _ _ Hr'). lia.
Qed.

End order.

(** * The rounding is monotone *)

Lemma round_mantissa_le n d n' d' :
  0 < n → 0 < d → 0 < d' → n * d' ≤ n' * d →
  round_exponent n d = round_exponent n' d' →
  round_mantissa n d ≤ round_mantissa n' d'.
Proof.
  intros Hn Hd Hd' Hle Hex. unfold round_mantissa. rewrite <-Hex. cbv zeta.
  set (ex := round_exponent n d).
  apply round_half_even_le; [apply scaled_den_pos..|]; [done..|].
  destruct (Z.leb_spec 0 ex).
  - assert (0 < 2 ^ ex) by by apply Z.pow_pos_nonneg. nia.
  - assert (0 < 2 ^ (- ex)) by (apply Z.pow_pos_nonneg; lia). nia.
Qed.

Lemma pack_mle neg neg' m ex m' ex' :
  0 ≤ m → ex ≤ ex' → (0 < m → m ≤ m' * 2 ^ (ex' - ex)) →
  mle (pack neg m ex) (pack neg' m' ex').
Proof.
  intros Hm Hex Hle. destruct m as [|p|p]; [done| |lia].
  specialize (Hle eq_refl).
  assert (0 < 2 ^ (ex' - ex)) by (apply Z.pow_pos_nonneg; lia).
  destruct m' as [|p'|p']; [lia| |nia]. unfold pack.
  destruct (Z.leb_spec ex (emax - prec)), (Z.leb_spec ex' (emax - prec));
    simpl; [|done|lia|done].
  by rewrite (proj2 (Z.leb_le ex ex')).
Qed.

(** What is packed is in the order of the mantissas on one exponent, and
    in the order of the exponents otherwise. *)
Lemma packed_mle neg neg' m ex m' ex' :
  0 ≤ m ≤ 2 ^ 53 → 0 ≤ m' ≤ 2 ^ 53 → ex ≤ ex' →
  (ex = ex' → m ≤ m') → (ex < ex' → 2 ^ 52 ≤ m') →
  mle (packed neg m ex) (packed neg' m' ex').
Proof.
  intros Hm Hm' Hex Hsame Hless. unfold packed, normalize, prec.
  change (53 - 1) with 52.
  assert (1 ≤ 2 ^ (ex' - ex)) by (apply (Z.pow_le_mono_r 2 0); lia).
  destruct (Z.eqb_spec m (2 ^ 53)) as [->|Hc], (Z.eqb_spec m' (2 ^ 53)) as [->|Hc'];
    apply pack_mle; try lia; intros _.
  - replace (ex' + 1 - ex) with (Z.succ (ex' - ex)) by lia.
    rewrite Z.pow_succ_r by lia. lia.
  - destruct (decide (ex = ex')) as [<-|]; [rewrite Z.sub_diag; lia|].
    assert (2 ≤ 2 ^ (ex' - ex)) by (apply (Z.pow_le_mono_r 2 1); lia). nia.
Qed.

Theorem round_ratio_mono neg neg' n d n' d' :
  0 < d → 0 < d' → n * d' ≤ n' * d →
  mle (round_ratio neg n d) (round_ratio neg' n' d').
Proof.
  intros Hd Hd' Hle. destruct (Z.le_gt_cases n 0) as [Hn|Hn].
  { unfold round_ratio. by rewrite (proj2 (Z.leb_le n 0)). }
  assert (0 < n') as Hn' by nia. rewrite !round_ratio_parts by done.
  destruct (round_mantissa_bounds n d Hn Hd) as [Hm _].
  destruct (round_mantissa_bounds n' d' Hn' Hd') as [Hm' Hc'].
  pose proof (round_exponent_le n d n' d' Hd Hd' Hle Hn) as Hex.
  pose proof (round_exponent_emin n d).
  apply packed_mle; [done..| |].
  - by apply round_mantissa_le.
  - intros Hlt. destruct Hc' as [Hc'|]; [lia|done].
Qed.

(** * The fractions that round to a value are an interval *)

Lemma valid_normal neg m e :
  valid (S754_finite neg m e) = true → emin < e → 2 ^ 52 ≤ Z.pos m.
Proof.
  intros [Hex _]%valid_finite_inv He. unfold prec in Hex.
  assert (Z.log2 (Z.pos m) = 52) as Hl by lia.
  rewrite <-Hl. by apply Z.log2_spec.
Qed.

Lemma valid_mantissa neg m e :
  valid (S754_finite neg m e) = true → Z.pos m < 2 ^ 53 ∧ emin ≤ e.
Proof.
  intros [Hex _]%valid_finite_inv. unfold prec in Hex.
  split; [|lia]. apply Z.log2_lt_pow2; [done|lia].
Qed.

Lemma mle_antisym x y :
  valid x = true → valid y = true → sign_of x = sign_of y →
  mle x y → mle y x → x = y.
Proof.
  destruct x as [s|s| |s m e], y as [s'|s'| |s' m' e']; cbn [mle sign_of];
    try done; try by intros _ _ ->.
  intros Hx Hy -> Hxy Hyx.
  destruct (valid_mantissa _ _ _ Hx), (valid_mantissa _ _ _ Hy).
  destruct (Z.lt_total e e') as [Hlt|[->|Hlt]].
  - rewrite (proj2 (Z.leb_le e e')) in Hxy by lia.
    rewrite (proj2 (Z.leb_gt e' e)) in Hyx by lia.
    pose proof (valid_normal _ _ _ Hy ltac:(lia)).
    assert (2 ≤ 2 ^ (e' - e)) by (apply (Z.pow_le_mono_r 2 1); lia). nia.
  - rewrite Z.leb_refl, Z.sub_diag, Z.mul_1_r in Hxy, Hyx.
    f_equal. lia.
  - rewrite (proj2 (Z.leb_gt e e')) in Hxy by lia.
    rewrite (proj2 (Z.leb_le e' e)) in Hyx by lia.
    pose proof (valid_normal _ _ _ Hx ltac:(lia)).
    assert (2 ≤ 2 ^ (e - e')) by (apply (Z.pow_le_mono_r 2 1); lia). nia.
Qed.

Lemma round_ratio_sign neg n d : 0 < d → sign_of (round_ratio neg n d) = neg.
Proof.
  intros Hd. destruct (Z.le_gt_cases n 0) as [Hn|Hn].
  { unfold round_ratio. by rewrite (proj2 (Z.leb_le n 0)). }
  rewrite round_ratio_parts by done. unfold normalize, pack.
  repeat case_match; by simplify_eq.
Qed.

(** A fraction between two fractions that round to one value rounds to
    it. *)
Theorem round_ratio_between neg n1 d1 n2 d2 n3 d3 :
  0 < d1 → 0 < d2 → 0 < d3 →
  n1 * d2 ≤ n2 * d1 → n2 * d3 ≤ n3 * d2 →
  round_ratio neg n1 d1 = round_ratio neg n3 d3 →
  round_ratio neg n2 d2 = round_ratio neg n1 d1.
Proof.
  intros H1 H2 H3 H12 H23 Heq.
  apply mle_antisym; [by apply round_ratio_valid..| | |].
  - by rewrite !round_ratio_sign.
  - rewrite Heq. by apply round_ratio_mono.
  - by apply round_ratio_mono.
Qed.

(** * The fractions nearer than half a unit to a value round to it *)

Lemma round_half_even_near num den q :
  0 < den → (2 * q - 1) * den < 2 * num < (2 * q + 1) * den →
  round_half_even (num / den) (num mod den) den = q.
Proof.
  intros Hden Hq. pose proof (Z.div_mod num den ltac:(lia)) as Hnum.
  pose proof (Z.mod_pos_bound num den Hden) as Hr.
  assert (num / den = q ∨ num / den = q - 1) as [Hd|Hd] by nia;
    unfold round_half_even; destruct (Z.compare_spec (2 * (num mod den)) den); nia.
Qed.

Lemma ilog2_ratio_ge n d k :
  0 < n → 0 < d → ratio_ge_pow2 n d k = true → k ≤ ilog2_ratio n d.
Proof.
  intros Hn Hd Hk. destruct (ilog2_ratio_spec n d Hn Hd) as [_ Hlt].
  apply Z.nlt_ge. intros Hlt'.
  rewrite (ratio_ge_pow2_mono n d Hd (ilog2_ratio n d + 1) k) in Hlt; [done|lia|done].
Qed.

Lemma ilog2_ratio_lt n d k :
  0 < n → 0 < d → ratio_ge_pow2 n d k = false → ilog2_ratio n d < k.
Proof.
  intros Hn Hd Hk. destruct (ilog2_ratio_spec n d Hn Hd) as [Hge _].
  apply Z.nle_gt. intros Hle.
  rewrite (ratio_ge_pow2_mono n d Hd k (ilog2_ratio n d)) in Hk; [done|lia|done].
Qed.

(** One exponent lower the fraction counts twice as many units. *)
Lemma scale_pred a b e :
  scale_num 2 a (e - 1) * scale_den 2 b e = 2 * scale_num 2 a e * scale_den 2 b (e - 1).
Proof.
  pose proof (scale_shift 2 a b eq_refl (e - 1) 1 ltac:(lia)) as Hs.
  by rewrite Z.sub_add in Hs.
Qed.

Section near.
Context (neg : bool) (m : positive) (e : Z) (a b : Z).
Context (Hv : valid (S754_finite neg m e) = true) (Ha : 0 < a) (Hb : 0 < b).
Context (Hnear : (2 * Z.pos m - 1) * scale_den 2 b e < 2 * scale_num 2 a e
                 ∧ 2 * scale_num 2 a e < (2 * Z.pos m + 1) * scale_den 2 b e).

(** The fraction is below the next power of two. *)
Lemma near_exponent_upper : ilog2_ratio a b ≤ Z.log2 (Z.pos m) + e.
Proof.
  pose proof (Z.log2_nonneg (Z.pos m)) as Hl.
  destruct (Z.log2_spec (Z.pos m) eq_refl) as [_ Hhi].
  pose proof (scale_den_pos 2 b eq_refl Hb e) as Hden.
  apply Z.lt_succ_r, ilog2_ratio_lt; [done..|]. apply not_true_is_false.
  intros Hge%(scale_ge 2 a b eq_refl e); [|lia].
  replace (Z.succ (Z.log2 (Z.pos m) + e) - e) with (Z.succ (Z.log2 (Z.pos m))) in Hge by lia.
  nia.
Qed.

(** In the binade of the value, and among the subnormal values, the
    fraction is rounded at the exponent of the value. *)
Lemma near_exponent :
  scale_den 2 b e * 2 ^ Z.log2 (Z.pos m) ≤ scale_num 2 a e ∨ e = emin →
  round_exponent a b = e.
Proof.
  intros Hcase. pose proof near_exponent_upper as Hup.
  destruct (valid_finite_inv _ _ _ Hv) as [Hex _].
  unfold round_exponent, prec in *. destruct Hcase as [Hlow| ->]; [|lia].
  assert (Z.log2 (Z.pos m) + e ≤ ilog2_ratio a b); [|lia].
  apply ilog2_ratio_ge; [done..|]. apply (scale_ge 2 a b eq_refl e); [|].
  { pose proof (Z.log2_nonneg (Z.pos m)). lia. }
  by replace (Z.log2 (Z.pos m) + e - e) with (Z.log2 (Z.pos m)) by lia.
Qed.

Lemma near_same_exponent :
  round_exponent a b = e → round_ratio neg a b = S754_finite neg m e.
Proof.
  intros Hex. rewrite round_ratio_parts by done. unfold round_mantissa.
  rewrite Hex. cbv zeta.
  change (if 0 <=? e then a else a * 2 ^ (- e)) with (scale_num 2 a e).
  change (if 0 <=? e then b * 2 ^ e else b) with (scale_den 2 b e).
  rewrite (round_half_even_near _ _ (Z.pos m)) by (done || by apply scale_den_pos).
  destruct (valid_mantissa _ _ _ Hv) as [Hm _].
  destruct (valid_finite_inv _ _ _ Hv) as [_ He].
  unfold normalize, pack. rewrite (proj2 (Z.eqb_neq _ _)) by (unfold prec; lia).
  by rewrite (proj2 (Z.leb_le e _)).
Qed.

(** Below the least value of a binade the values are twice as dense: there
    the fraction has to be nearer than a quarter of the unit. *)
Lemma near_lower_binade :
  Z.pos m = 2 ^ 52 → emin < e →
  scale_num 2 a e < scale_den 2 b e * 2 ^ 52 →
  (4 * Z.pos m - 1) * scale_den 2 b e < 4 * scale_num 2 a e →
  round_ratio neg a b = S754_finite neg m e.
Proof.
  intros Hm He Hlow Hquarter.
  pose proof (scale_den_pos 2 b eq_refl Hb e) as Hden.
  pose proof (scale_den_pos 2 b eq_refl Hb (e - 1)) as Hden'.
  pose proof (scale_pred a b e) as Hpred. rewrite Hm in Hquarter.
  assert (round_exponent a b = e - 1) as Hex.
  { unfold round_exponent, prec.
    rewrite (ilog2_ratio_unique a b (51 + e)); [lia|done..| |].
    - apply (scale_ge 2 a b eq_refl e); [lia|].
      replace (51 + e - e) with 51 by lia. lia.
    - apply not_true_is_false. intros Hge%(scale_ge 2 a b eq_refl e); [|lia].
      replace (51 + e + 1 - e) with 52 in Hge by lia. lia. }
  rewrite round_ratio_parts by done. unfold round_mantissa. rewrite Hex. cbv zeta.
  change (if 0 <=? e - 1 then a else a * 2 ^ (- (e - 1))) with (scale_num 2 a (e - 1)).
  change (if 0 <=? e - 1 then b * 2 ^ (e - 1) else b) with (scale_den 2 b (e - 1)).
  rewrite (round_half_even_near _ _ (2 ^ 53)) by (done || nia).
  destruct (valid_finite_inv _ _ _ Hv) as [_ Hmax].
  unfold normalize. rewrite Z.eqb_refl. change (2 ^ (prec - 1)) with (2 ^ 52).
  rewrite <-Hm, Z.sub_add. unfold pack. by rewrite (proj2 (Z.leb_le e _)).
Qed.

Lemma round_ratio_near_scaled :
  (Z.pos m = 2 ^ 52 → emin < e →
   (4 * Z.pos m - 1) * scale_den 2 b e < 4 * scale_num 2 a e) →
  round_ratio neg a b = S754_finite neg m e.
Proof.
  intros Hquarter. pose proof (scale_den_pos 2 b eq_refl Hb e) as Hden.
  destruct (Z.le_gt_cases (scale_den 2 b e * 2 ^ Z.log2 (Z.pos m)) (scale_num 2 a e))
    as [Hge|Hlt]; [by apply near_same_exponent, near_exponent; left|].
  destruct (decide (e = emin)) as [He|He];
    [by apply near_same_exponent, near_exponent; right|].
  destruct (valid_mantissa _ _ _ Hv) as [Hm Hmin].
  pose proof (valid_normal _ _ _ Hv ltac:(lia)) as Hn.
  rewrite (Z.log2_unique (Z.pos m) 52) in Hlt by done.
  assert (Z.pos m = 2 ^ 52) as Heq by nia.
  apply near_lower_binade; [done|lia|done|apply Hquarter; [done|lia]].
Qed.

End near.

(** The same with the value as the fraction [ratio_of] gives: a fraction
    [a / b] nearer to the value [m * 2 ^ e] than half of [2 ^ e] rounds to
    it, when it is also nearer than a quarter of [2 ^ e] below the least
    value of a binade. *)
Theorem round_ratio_near neg m e a b :
  valid (S754_finite neg m e) = true → 0 < a → 0 < b →
  (2 * Z.pos m - 1) * ((ratio_of m e).1 * b) < 2 * Z.pos m * (a * (ratio_of m e).2) →
  2 * Z.pos m * (a * (ratio_of m e).2) < (2 * Z.pos m + 1) * ((ratio_of m e).1 * b) →
  (Z.pos m = 2 ^ 52 → emin < e →
   (4 * Z.pos m - 1) * ((ratio_of m e).1 * b) < 4 * Z.pos m * (a * (ratio_of m e).2)) →
  round_ratio neg a b = S754_finite neg m e.
Proof.
  intros Hv Ha Hb. assert (0 < Z.pos m) as Hm by done.
  assert (0 < 2 ^ Z.abs e) as Hp by (apply Z.pow_pos_nonneg; lia).
  unfold ratio_of. destruct (Z.leb_spec 0 e) as [He|He]; cbn [fst snd];
    intros Hlo Hhi Hquarter; apply round_ratio_near_scaled; try done;
    unfold scale_num, scale_den.
  all: rewrite ?(proj2 (Z.leb_le 0 e)), ?(proj2 (Z.leb_gt 0 e)) by lia.
  all: try (intros H1 H2; specialize (Hquarter H1 H2)); try split.
  all: apply (Z.mul_lt_mono_pos_l (Z.pos m)); [done|].
  all: rewrite ?Z.abs_eq, ?Z.abs_neq in Hp by lia; lia.
Qed.
