(* ===== verification/PyFloat.v ===== *)
(** * [float(s)]: from a string to a binary64 value

    Line 69 of [src/app.py] applies the builtin [float] to each field of a
    line.  [float_of_str] follows the interpreter's conversion, stage by
    stage:
    - [to_ascii]: a string with a character outside ASCII has its
      whitespace replaced by spaces and its decimal digits (whatever the
      script) by ASCII digits; the first other character outside ASCII
      becomes ['?'] and ends the string;
    - leading and trailing ASCII whitespace is removed ([is_c_space]);
    - [without_underscores]: an underscore is removed when it stands
      between two digits, and refused anywhere else;
    - [parse_decimal]: sign, digits, fraction, exponent, to the very end of
      the string; failing that, [parse_inf_nan];
    - [of_decimal] rounds the numeral to the nearest binary64 value.
    [None] stands for [ValueError].

    Which characters outside ASCII are decimal digits is a table of the
    interpreter, which differs between versions of Unicode: the conversion
    is written over a [UnicodeDB] and the theorems hold for any.
    [unicode14] is the table of Unicode 14.0. *)

From Stdlib Require Import ZArith Lia String.
From Stdlib.Floats Require Import SpecFloat.
From stdpp Require Import base tactics option list.
From S2P Require Import Prelude PyStr Float64.

#[local] Open Scope Z_scope.

(** ** The table of decimal digits *)

Class UnicodeDB := {
  (** The value of a character that is a decimal digit. *)
  to_decimal : Z → option Z;
  to_decimal_digit c d : to_decimal c = Some d → 0 ≤ d ≤ 9
}.

(** A table given by the code points of its zeros: the nine code points
    after a zero are the digits one to nine. *)
Fixpoint table_decimal (zeros : list Z) (c : Z) : option Z :=
  match zeros with
  | [] => None
  | z :: zs => if in_range z (z + 9) c then Some (c - z) else table_decimal zs c
  end.

Lemma table_decimal_digit zeros c d : table_decimal zeros c = Some d → 0 ≤ d ≤ 9.
Proof.
  induction zeros as [|z zs IH]; simpl; [done|].
  destruct (in_range z (z + 9) c) eqn:Hr; [|done].
  apply in_range_spec in Hr. intros [= <-]. lia.
Qed.

Definition zeros14 : list Z :=
  [0x30; 0x660; 0x6f0; 0x7c0; 0x966; 0x9e6; 0xa66; 0xae6; 0xb66; 0xbe6; 0xc66;
   0xce6; 0xd66; 0xde6; 0xe50; 0xed0; 0xf20; 0x1040; 0x1090; 0x17e0; 0x1810;
   0x1946; 0x19d0; 0x1a80; 0x1a90; 0x1b50; 0x1bb0; 0x1c40; 0x1c50; 0xa620;
   0xa8d0; 0xa900; 0xa9d0; 0xa9f0; 0xaa50; 0xabf0; 0xff10; 0x104a0; 0x10d30;
   0x11066; 0x110f0; 0x11136; 0x111d0; 0x112f0; 0x11450; 0x114d0; 0x11650;
   0x116c0; 0x11730; 0x118e0; 0x11950; 0x11c50; 0x11d50; 0x11da0; 0x16a60;
   0x16ac0; 0x16b50; 0x1d7ce; 0x1d7d8; 0x1d7e2; 0x1d7ec; 0x1d7f6; 0x1e140;
   0x1e2f0; 0x1e950; 0x1fbf0].

#[export] Instance unicode14 : UnicodeDB := {|
  to_decimal := table_decimal zeros14;
  to_decimal_digit := table_decimal_digit zeros14
|}.

(** ** Characters *)

Definition is_digit (c : Z) : bool := in_range 48 57 c.

(** The whitespace of the C locale: tab, line feed, vertical tab, form
    feed, carriage return, space. *)
Definition is_c_space (c : Z) : bool := in_range 9 13 c || (c =? 32).

Definition lower (c : Z) : Z := if in_range 65 90 c then c + 32 else c.

(** ** To ASCII *)

Section with_db.
Context `{UnicodeDB}.

Fixpoint transform (s : pystr) : pystr :=
  match s with
  | [] => []
  | c :: s' =>
    if c <? 127 then c :: transform s'
    else if isspace c then 32 :: transform s'
    else
      match to_decimal c with
      | Some d => 48 + d :: transform s'
      | None => [63]
      end
  end.

Definition to_ascii (s : pystr) : pystr :=
  if forallb (λ c, c <? 128) s then s else transform s.

End with_db.

(** ** Underscores *)

(** [prev] is the character before [s], 0 at the start. *)
Fixpoint remove_underscores (prev : Z) (s : pystr) : option pystr :=
  match s with
  | [] => if prev =? 95 then None else Some []
  | c :: s' =>
    if c =? 95 then
      if is_digit prev then remove_underscores c s' else None
    else if (prev =? 95) && negb (is_digit c) then None
    else (c ::.) <$> remove_underscores c s'
  end.

Definition without_underscores (s : pystr) : option pystr :=
  if existsb (λ c, c =? 95) s then remove_underscores 0 s else Some s.

(** ** Numerals *)

(** The longest prefix of digits, and what follows it. *)
Fixpoint span_digits (s : pystr) : pystr * pystr :=
  match s with
  | [] => ([], [])
  | c :: s' =>
    if is_digit c then let '(ds, r) := span_digits s' in (c :: ds, r)
    else ([], s)
  end.

Definition digits_value (ds : pystr) : Z :=
  foldl (λ acc c, acc * 10 + (c - 48)) 0 ds.

(** An optional ['-'] or ['+']: whether the sign is negative, and the
    rest. *)
Definition parse_sign (s : pystr) : bool * pystr :=
  match s with
  | [] => (false, [])
  | c :: s' =>
    if c =? 45 then (true, s') else if c =? 43 then (false, s') else (false, s)
  end.

(** A numeral [± mant * 10 ^ exp]. *)
Record decimal := Decimal { dec_neg : bool; dec_mant : Z; dec_exp : Z }.

(** What follows ['e']: an optional sign and at least one digit, to the
    end of the string. *)
Definition parse_exponent (s : pystr) : option Z :=
  let '(neg, s1) := parse_sign s in
  let '(ds, r) := span_digits s1 in
  match ds, r with
  | _ :: _, [] => Some (if neg then - digits_value ds else digits_value ds)
  | _, _ => None
  end.

(** Digits with an optional point among them (a digit at least, on one
    side of the point) and an optional exponent, after an optional sign. *)
Definition parse_unsigned (neg : bool) (s1 : pystr) : option decimal :=
  let '(ip, s2) := span_digits s1 in
  let '(fp, s3) :=
    match s2 with
    | c :: s2' => if c =? 46 then span_digits s2' else ([], s2)
    | [] => ([], [])
    end in
  match ip ++ fp with
  | [] => None
  | ds =>
    let m := digits_value ds in
    let k := Z.of_nat (length fp) in
    match s3 with
    | [] => Some (Decimal neg m (- k))
    | c :: s4 =>
      if (c =? 101) || (c =? 69)
      then e ← parse_exponent s4; Some (Decimal neg m (e - k))
      else None
    end
  end.

Definition parse_decimal (s : pystr) : option decimal :=
  let '(neg, s1) := parse_sign s in parse_unsigned neg s1.

(** An optional sign and [inf], [infinity] or [nan], in any case. *)
Definition parse_inf_nan (s : pystr) : option float64 :=
  let '(neg, s1) := parse_sign s in
  let l := lower <$> s1 in
  if bool_decide (l = str "inf" ∨ l = str "infinity")
  then Some (S754_infinity neg)
  else if bool_decide (l = str "nan") then Some S754_nan
  else None.

Definition float_of_decimal (d : decimal) : float64 :=
  of_decimal (dec_neg d) (dec_mant d) (dec_exp d).

Definition float_of_ascii (s : pystr) : option float64 :=
  match parse_decimal s with
  | Some d => Some (float_of_decimal d)
  | None => parse_inf_nan s
  end.

(** [float(s)] for a string [s]; [None] is [ValueError]. *)
Definition float_of_str `{UnicodeDB} (s : pystr) : option float64 :=
  without_underscores (strip_with is_c_space (to_ascii s)) ≫= float_of_ascii.

(** The characters of a numeral: digits, the point, the signs, the
    exponent letter. *)
Definition numeral_char (c : Z) : bool :=
  is_digit c || (c =? 46) || (c =? 45) || (c =? 43) || (c =? 101) || (c =? 69).

Definition digits (s : pystr) : Prop := all_in is_digit s.

Definition is_letter (c : Z) : bool := in_range 65 90 c || in_range 97 122 c.

(** ASCII characters, none of them whitespace or an underscore. *)
Definition token (s : pystr) : Prop :=
  Forall (λ c, c < 127 ∧ is_c_space c = false ∧ (c =? 95) = false) s.

(** * Characters *)

Lemma forallb_all_in (P : Z → bool) s : forallb P s = true ↔ all_in P s.
Proof.
  unfold all_in. induction s as [|c s IH]; simpl.
  - by split; [constructor|].
  - rewrite andb_true_iff, Forall_cons, IH. done.
Qed.

Lemma existsb_none (P : Z → bool) s :
  Forall (λ c, P c = false) s → existsb P s = false.
Proof. induction 1 as [|c s Hc _ IH]; simpl; [done|]. by rewrite Hc, IH. Qed.

Lemma is_c_space_ascii c : is_c_space c = true → c < 127.
Proof. unfold is_c_space. Zbool. Zcases; lia. Qed.

Lemma numeral_char_spec c :
  numeral_char c = true →
  c < 127 ∧ is_c_space c = false ∧ (c =? 95) = false.
Proof.
  unfold numeral_char, is_digit, is_c_space, in_range. intros Hc.
  Zbool; (split_and!; [lia|Zcases|Zcases]).
Qed.

Lemma is_digit_numeral c : is_digit c = true → numeral_char c = true.
Proof. unfold numeral_char. by intros ->. Qed.

Lemma digits_numeral s : digits s → all_in numeral_char s.
Proof. intros Hs. eapply Forall_impl; [exact Hs|apply is_digit_numeral]. Qed.

Lemma is_letter_spec c :
  is_letter c = true → c < 127 ∧ is_c_space c = false ∧ (c =? 95) = false.
Proof.
  unfold is_letter, is_c_space, in_range. intros Hc.
  Zbool; (split_and!; [lia|Zcases|Zcases]).
Qed.

Lemma lower_is_letter c : in_range 97 122 (lower c) = true → is_letter c = true.
Proof.
  unfold lower, is_letter. destruct (in_range 65 90 c); [done|].
  by intros ->.
Qed.

(** A string that is a lower-case word once lowered is made of letters. *)
Lemma lower_word_letters s w :
  lower <$> s = w → all_in (in_range 97 122) w → all_in is_letter s.
Proof.
  intros <- Hw%Forall_fmap. eapply Forall_impl; [exact Hw|].
  intros c. apply lower_is_letter.
Qed.

Lemma parse_sign_letter c s :
  is_letter c = true → parse_sign (c :: s) = (false, c :: s).
Proof.
  unfold is_letter, in_range, parse_sign. intros Hc. Zbool; by Zcases.
Qed.

Lemma parse_decimal_letter c s : is_letter c = true → parse_decimal (c :: s) = None.
Proof.
  intros Hc. unfold parse_decimal. rewrite parse_sign_letter by done.
  assert (is_digit c = false ∧ (c =? 46) = false) as [Hd Hp].
  { unfold is_letter, is_digit, in_range in *. Zbool; split; by Zcases. }
  unfold parse_unsigned. cbn [span_digits]. by rewrite Hd, Hp.
Qed.

(** * The stages before the numeral *)

Section stages.
Context `{UnicodeDB}.

Lemma to_ascii_ascii s : Forall (λ c, c < 128) s → to_ascii s = s.
Proof.
  intros Hs. unfold to_ascii.
  rewrite (proj2 (forallb_all_in (λ c, c <? 128) s)); [done|].
  eapply Forall_impl; [done|]. intros c. apply Z.ltb_lt.
Qed.

Lemma transform_pad_l l s :
  all_in is_c_space l → transform (l ++ s) = l ++ transform s.
Proof.
  induction 1 as [|c l Hc%is_c_space_ascii _ IH]; simpl; [done|].
  by rewrite (proj2 (Z.ltb_lt c 127)), IH.
Qed.

Lemma transform_pad_r s r :
  all_in is_c_space r →
  ∃ r', transform (s ++ r) = transform s ++ r' ∧ all_in is_c_space r'.
Proof.
  intros Hr. induction s as [|c s (r' & IH & Hr')]; simpl.
  - exists r. by rewrite <-(app_nil_r r), transform_pad_l, app_nil_r at 1.
  - rewrite IH. repeat case_match;
      first [by exists r'|exists []; split; [done|constructor]].
Qed.

(** Whitespace of the C locale around a string stays around it. *)
Lemma to_ascii_pad l s r :
  all_in is_c_space l → all_in is_c_space r →
  ∃ r', to_ascii (l ++ s ++ r) = l ++ to_ascii s ++ r' ∧ all_in is_c_space r'.
Proof.
  intros Hl Hr. unfold to_ascii. rewrite !forallb_app.
  assert (∀ k, all_in is_c_space k → forallb (λ c, c <? 128) k = true) as Hk.
  { intros k Hk. apply forallb_all_in. eapply Forall_impl; [done|].
    intros c Hc%is_c_space_ascii. apply Z.ltb_lt. lia. }
  rewrite (Hk l Hl), (Hk r Hr), andb_true_r. simpl.
  destruct (forallb _ s); [by exists r|].
  rewrite transform_pad_l by done.
  destruct (transform_pad_r s r Hr) as (r' & -> & Hr'). by exists r'.
Qed.

(** A string of ASCII characters without whitespace or underscore goes
    through the first three stages as it is. *)
Lemma float_of_str_token s : token s → float_of_str s = float_of_ascii s.
Proof.
  intros Hs. unfold float_of_str.
  assert (∀ c, c ∈ s → c < 127 ∧ is_c_space c = false ∧ (c =? 95) = false)
    as Hc by by apply Forall_forall.
  rewrite to_ascii_ascii by (apply Forall_forall; intros c Hin%Hc; lia).
  rewrite strip_with_id.
  - unfold without_underscores.
    by rewrite existsb_none by (apply Forall_forall; intros c Hin%Hc; tauto).
  - intros c Hin%head_Some_elem_of. by apply Hc.
  - intros c Hin%last_Some_elem_of. by apply Hc.
Qed.

Lemma float_of_str_numeral s :
  all_in numeral_char s → float_of_str s = float_of_ascii s.
Proof.
  intros Hs. apply float_of_str_token.
  eapply Forall_impl; [exact Hs|apply numeral_char_spec].
Qed.

Lemma float_of_str_letters s :
  all_in is_letter s → float_of_str s = parse_inf_nan s.
Proof.
  intros Hs. rewrite float_of_str_token
    by (eapply Forall_impl; [exact Hs|apply is_letter_spec]).
  unfold float_of_ascii. destruct Hs as [|c s Hc _]; [done|].
  by rewrite parse_decimal_letter.
Qed.

End stages.

(** * Numerals *)

Lemma span_digits_app ds r :
  digits ds → (∀ c, head r = Some c → is_digit c = false) →
  span_digits (ds ++ r) = (ds, r).
Proof.
  intros Hds Hr. induction Hds as [|c ds Hc _ IH]; simpl.
  - destruct r as [|c r]; [done|]. simpl. by rewrite (Hr c).
  - by rewrite Hc, IH.
Qed.

Lemma span_digits_all ds : digits ds → span_digits ds = (ds, []).
Proof. intros Hds. rewrite <-(app_nil_r ds) at 1. by apply span_digits_app. Qed.

Lemma parse_sign_unsigned s :
  (∀ c, head s = Some c → is_digit c = true ∨ c = 46) →
  parse_sign s = (false, s).
Proof.
  destruct s as [|c s]; [done|]. intros Hc. unfold parse_sign.
  destruct (Hc c eq_refl) as [Hd%in_range_spec| ->]; [|done]. by Zcases.
Qed.

(** Digits, a point, digits. *)
Lemma parse_decimal_plain ip fp :
  digits ip → digits fp → ip ++ fp ≠ [] →
  parse_decimal (ip ++ 46 :: fp) =
    Some (Decimal false (digits_value (ip ++ fp)) (- Z.of_nat (length fp))).
Proof.
  intros Hip Hfp Hne. unfold parse_decimal.
  rewrite parse_sign_unsigned; unfold parse_unsigned;
    [rewrite span_digits_app; [|done|by intros ? [= <-]]|].
  - rewrite Z.eqb_refl, span_digits_all by done. by destruct (ip ++ fp).
  - destruct Hip as [|c ip Hc _]; intros ? [= <-]; auto.
Qed.

(** A minus sign in front of an unsigned numeral. *)
Lemma parse_decimal_minus s :
  parse_sign s = (false, s) →
  parse_decimal (45 :: s) =
    (λ d, Decimal true (dec_mant d) (dec_exp d)) <$> parse_decimal s.
Proof.
  intros Hs. unfold parse_decimal. rewrite Hs. simpl parse_sign.
  unfold parse_unsigned. destruct (span_digits s) as [ip s2].
  destruct (match s2 with [] => _ | _ => _ end) as [fp s3].
  destruct (ip ++ fp); [done|]. destruct s3; [done|].
  case_match; [|done]. by destruct (parse_exponent _).
Qed.

(** ** The value of a string of digits *)

Lemma foldl_digits ds a :
  foldl (λ acc c, acc * 10 + (c - 48)) a ds =
    a * 10 ^ Z.of_nat (length ds) + digits_value ds.
Proof.
  unfold digits_value. revert a. induction ds as [|c ds IH]; intros a.
  - simpl. lia.
  - cbn [foldl length]. rewrite IH, (IH (0 * 10 + _)), Nat2Z.inj_succ, Z.pow_succ_r by lia.
    ring.
Qed.

Lemma digits_value_app ds1 ds2 :
  digits_value (ds1 ++ ds2) =
    digits_value ds1 * 10 ^ Z.of_nat (length ds2) + digits_value ds2.
Proof. unfold digits_value at 1. by rewrite foldl_app, foldl_digits. Qed.

Lemma digits_value_cons c ds :
  digits_value (c :: ds) = (c - 48) * 10 ^ Z.of_nat (length ds) + digits_value ds.
Proof. unfold digits_value at 1. cbn [foldl]. rewrite foldl_digits. lia. Qed.

Lemma digits_value_zeros n : digits_value (replicate n 48) = 0.
Proof.
  induction n as [|n IH]; [done|].
  cbn [replicate]. rewrite digits_value_cons, IH. lia.
Qed.

Lemma digits_value_nonneg ds : digits ds → 0 ≤ digits_value ds.
Proof.
  induction 1 as [|c ds Hc%in_range_spec _ IH]; [done|].
  rewrite digits_value_cons. assert (0 ≤ 10 ^ Z.of_nat (length ds)) by lia. nia.
Qed.

(** ** Numerals with an exponent *)

(** Digits, a point, digits, and nothing or an exponent after them. *)
Lemma parse_unsigned_point neg ip fp tail e :
  digits ip → digits fp → ip ++ fp ≠ [] →
  (tail = [] ∧ e = 0) ∨ (∃ t, tail = 101 :: t ∧ parse_exponent t = Some e) →
  parse_unsigned neg (ip ++ 46 :: fp ++ tail) =
    Some (Decimal neg (digits_value (ip ++ fp)) (e - Z.of_nat (length fp))).
Proof.
  intros Hip Hfp Hne Htail. unfold parse_unsigned.
  assert (∀ c, head tail = Some c → is_digit c = false) as Hc
    by by destruct Htail as [[-> _]|(t & -> & _)]; intros ? [= <-].
  rewrite span_digits_app by (done || by intros ? [= <-]).
  rewrite Z.eqb_refl, span_digits_app by done.
  destruct (ip ++ fp) eqn:Hds; [done|].
  by destruct Htail as [[-> ->]|(t & -> & ->)].
Qed.

(** Digits, and nothing or an exponent after them. *)
Lemma parse_unsigned_integer neg ip tail e :
  digits ip → ip ≠ [] →
  (tail = [] ∧ e = 0) ∨ (∃ t, tail = 101 :: t ∧ parse_exponent t = Some e) →
  parse_unsigned neg (ip ++ tail) = Some (Decimal neg (digits_value ip) e).
Proof.
  intros Hip Hne Htail. unfold parse_unsigned.
  destruct Htail as [[-> ->]|(t & -> & Ht)];
    (rewrite span_digits_app by (done || by intros ? [= <-]));
    cbn [Z.eqb Pos.eqb]; rewrite app_nil_r; (destruct ip; [done|]).
  - done.
  - cbn [orb Z.eqb Pos.eqb]. rewrite Ht. cbn [length Z.of_nat mbind option_bind].
    by rewrite Z.sub_0_r.
Qed.

(** * The conversion of a field *)

Definition sign_prefix (neg : bool) : pystr := if neg then [45] else [].

Section conversion.
Context `{UnicodeDB}.

(** An unsigned numeral after an optional minus sign. *)
Lemma float_of_str_unsigned neg s m e :
  all_in numeral_char s → parse_sign s = (false, s) →
  parse_unsigned false s = Some (Decimal false m e) →
  float_of_str (sign_prefix neg ++ s) = Some (of_decimal neg m e).
Proof.
  intros Hs Hsign Hd.
  assert (parse_decimal s = Some (Decimal false m e)) as Hp
    by (unfold parse_decimal; by rewrite Hsign).
  rewrite float_of_str_numeral; unfold float_of_ascii.
  - destruct neg; cbn [sign_prefix app]; [rewrite parse_decimal_minus by done|];
      by rewrite Hp.
  - destruct neg; [by constructor|done].
Qed.

(** Whatever string [float] accepts, the value it
    returns is a binary64 value: a zero, an infinity, a NaN, or a mantissa
    below [2 ^ 53] with an exponent of the format. *)
Theorem float_of_str_valid s x : float_of_str s = Some x → valid x = true.
Proof.
  unfold float_of_str, float_of_ascii. intros (a & _ & Hx)%bind_Some.
  destruct (parse_decimal a) as [d|]; [injection Hx as <-; apply of_decimal_valid|].
  unfold parse_inf_nan in Hx. destruct (parse_sign a).
  repeat case_match; by simplify_eq.
Qed.

(** C38: spaces, tabs and line ends around a field do
    not change its conversion, whether it succeeds or fails: a line with
    blanks after the commas is read as the same three numbers. *)
Theorem float_of_str_padded l s r :
  all_in is_c_space l → all_in is_c_space r →
  float_of_str (l ++ s ++ r) = float_of_str s.
Proof.
  intros Hl Hr. unfold float_of_str.
  destruct (to_ascii_pad l s r Hl Hr) as (r' & -> & Hr').
  by rewrite strip_with_pad.
Qed.

(** C37: a field of digits with a point among them,
    after an optional minus sign, converts to the binary64 value nearest
    to the decimal number it writes. *)
Theorem float_of_str_decimal neg ip fp :
  digits ip → digits fp → ip ++ fp ≠ [] →
  float_of_str (sign_prefix neg ++ ip ++ 46 :: fp) =
    Some (of_decimal neg (digits_value (ip ++ fp)) (- Z.of_nat (length fp))).
Proof.
  intros Hip Hfp Hne.
  assert (all_in numeral_char (ip ++ 46 :: fp)) as Hs.
  { apply Forall_app. split; [by apply digits_numeral|].
    constructor; [done|by apply digits_numeral]. }
  rewrite float_of_str_numeral; unfold float_of_ascii.
  - destruct neg; cbn [sign_prefix app];
      [rewrite parse_decimal_minus|]; rewrite ?parse_decimal_plain by done; try done.
    apply parse_sign_unsigned. destruct Hip as [|c ip Hc _]; intros ? [= <-]; auto.
  - destruct neg; [by constructor|done].
Qed.

(** The words [nan], [inf] and [infinity], in
    any mixture of cases, are accepted and give a NaN or an infinity: a
    line of such words passes the conversion and is stored. *)
Theorem float_of_str_non_finite s :
  lower <$> s = str "nan" ∨ lower <$> s = str "inf" ∨ lower <$> s = str "infinity" →
  float_of_str s =
    Some (if bool_decide (lower <$> s = str "nan") then S754_nan
          else S754_infinity false).
Proof.
  intros Hw. assert (all_in is_letter s) as Hs.
  { apply (lower_word_letters s _ eq_refl).
    destruct Hw as [->|[->| ->]]; by apply forallb_all_in. }
  rewrite float_of_str_letters by done. unfold parse_inf_nan.
  destruct Hs as [|c s Hc _]; [by destruct Hw as [?|[?|?]]|].
  rewrite parse_sign_letter by done.
  destruct Hw as [->|[->| ->]]; by vm_compute.
Qed.

End conversion.

(** ** At concrete fields *)

Lemma float_of_str_valid_witness :
  ∃ x, float_of_str (str "25.5") = Some x ∧ valid x = true.
Proof.
  eexists. split; [vm_compute; reflexivity|].
  apply (float_of_str_valid (str "25.5")). vm_compute. reflexivity.
Defined.

Lemma float_of_str_padded_witness :
  float_of_str ([32] ++ str "60.0" ++ [13]) = float_of_str (str "60.0").
Proof. apply (float_of_str_padded [32] (str "60.0") [13]); by apply forallb_all_in. Defined.

Lemma float_of_str_decimal_witness :
  float_of_str (str "-4.25") = Some (of_decimal true 425 (-2)).
Proof.
  apply (float_of_str_decimal true (str "4") (str "25"));
    [by apply forallb_all_in..|done].
Defined.

(** Beyond plain decimals: an underscore between digits, an exponent and
    the digits of another script (here Arabic-Indic two and five) are
    accepted; a doubled underscore and a hexadecimal numeral are not. *)
Example float_of_str_liberal :
  float_of_str (str "1_0") = Some (of_Z 10) ∧
  float_of_str (str "1e3") = Some (of_Z 1000) ∧
  float_of_str [0x662; 0x665] = Some (of_Z 25) ∧
  float_of_str (str "1__0") = None ∧
  float_of_str (str "0x10") = None.
Proof. vm_compute. done. Qed.

(** Out of range: a numeral above the largest value is an infinity, one
    below the least subnormal a zero; neither is refused. *)
Example float_of_str_out_of_range :
  float_of_str (str "1e999") = Some (S754_infinity false) ∧
  float_of_str (str "-1e999") = Some (S754_infinity true) ∧
  float_of_str (str "1e-999") = Some (S754_zero false).
Proof. vm_compute. done. Qed.

Lemma float_of_str_non_finite_witness : float_of_str (str "NaN") = Some S754_nan.
Proof. apply (float_of_str_non_finite (str "NaN")). by left. Defined.
