(* ===== verification/FloatRepr.v ===== *)
(** * The text of a number

    [jsonify] on line 112 of [src/app.py] writes an [int] in decimal and a
    [float] by [float.__repr__]: the shortest string of digits that reads
    back as the same binary64 value, the one nearest to the value when
    several are as short, laid out with a point or with an exponent.
    [shortest_digits] looks for these digits from one digit upwards, trying
    at each length the two decimals around the value; [format_repr] lays
    them out as the interpreter does (an exponent when the point would
    stand more than sixteen digits to the right or more than three zeros
    to the left).  Nothing needs more than seventeen digits in practice;
    the search is given enough fuel to reach the exact expansion of the
    value, which always reads back.  That the digits found are the fewest
    is shown in [FloatShortest]. *)

From Stdlib Require Import ZArith Lia String.
From Stdlib.Floats Require Import SpecFloat.
From stdpp Require Import base tactics option list numbers.
From S2P Require Import Prelude PyStr Float64 PyFloat.

#[local] Open Scope Z_scope.

(** ** Integers in decimal *)

(** The digits of [n >= 0] in front of [acc], the most significant
    first. *)
Fixpoint digits_from (fuel : nat) (n : Z) (acc : pystr) : pystr :=
  match fuel with
  | O => acc
  | S fuel' =>
    let acc' := 48 + n mod 10 :: acc in
    if n <? 10 then acc' else digits_from fuel' (n / 10) acc'
  end.

(** A number has no more decimal digits than binary ones. *)
Definition digits_of (n : Z) : pystr :=
  digits_from (S (Z.to_nat (Z.log2 n))) n [].

(** [repr(n)] for an [int]. *)
Definition int_repr (n : Z) : pystr :=
  if n <? 0 then 45 :: digits_of (- n) else digits_of n.

(** ** The shortest digits of a float *)

(** [10 ^ k <= n / d] *)
Definition ratio_ge_pow10 (n d k : Z) : bool :=
  if 0 <=? k then d * 10 ^ k <=? n else d <=? n * 10 ^ (- k).

(** The integer part of the decimal logarithm of [n / d]. *)
Definition ilog10_ratio (n d : Z) : Z :=
  let e0 := Z.of_nat (length (digits_of n)) - Z.of_nat (length (digits_of d)) in
  if ratio_ge_pow10 n d e0 then e0 else e0 - 1.

(** Does [c * 10 ^ q] read back as [x]? *)
Definition reads_back (neg : bool) (x : float64) (c q : Z) : bool :=
  (0 <? c) && bool_decide (of_decimal neg c q = x).

(** The multiple of [10 ^ q] that reads back as [x], among the two
    around [n / d]: the nearer when both do, the even one when they are as
    near. *)
Definition candidate (neg : bool) (x : float64) (n d q : Z) : option Z :=
  let num := if 0 <=? q then n else n * 10 ^ (- q) in
  let den := if 0 <=? q then d * 10 ^ q else d in
  let lo := num / den in
  let hi := lo + 1 in
  match reads_back neg x lo q, reads_back neg x hi q with
  | true, true => Some (round_half_even lo (num mod den) den)
  | true, false => Some lo
  | false, true => Some hi
  | false, false => None
  end.

(** From [10 ^ q] down to finer and finer units. *)
Fixpoint shortest (fuel : nat) (neg : bool) (x : float64) (n d q : Z) :
    option (Z * Z) :=
  match fuel with
  | O => None
  | S fuel' =>
    match candidate neg x n d q with
    | Some c => Some (c, q)
    | None => shortest fuel' neg x n d (q - 1)
    end
  end.

(** The unit of the exact expansion is [10 ^ (-1074)] at the finest, and
    the first digit stands below [10 ^ 1024]: a value below [2 ^ 1024] has
    no more than 1024 digits before its point. *)
Definition search_fuel : nat := 2100.

(** Trailing zeros are not digits: [10 * 10 ^ q] is [1 * 10 ^ (q + 1)]. *)
Fixpoint strip_zeros (fuel : nat) (c q : Z) : Z * Z :=
  match fuel with
  | O => (c, q)
  | S fuel' =>
    if (0 <? c) && (c mod 10 =? 0) then strip_zeros fuel' (c / 10) (q + 1)
    else (c, q)
  end.

Definition shortest_digits (neg : bool) (m : positive) (e : Z) : option (Z * Z) :=
  let '(n, d) := ratio_of m e in
  '(c, q) ← shortest search_fuel neg (S754_finite neg m e) n d (ilog10_ratio n d);
  Some (strip_zeros (S (Z.to_nat (Z.log2 c))) c q).

(** ** The layout *)

Definition zeros (n : Z) : pystr := replicate (Z.to_nat n) 48.

(** The exponent: a sign and two digits at least. *)
Definition exponent_text (e : Z) : pystr :=
  (if e <? 0 then 45 else 43) ::
  (if Z.abs e <? 10 then 48 :: digits_of (Z.abs e) else digits_of (Z.abs e)).

(** The digits [ds] with the point [decpt] places to the right of their
    start. *)
Definition format_repr (ds : pystr) (decpt : Z) : pystr :=
  let n := Z.of_nat (length ds) in
  if (decpt <=? -4) || (16 <? decpt) then
    take 1 ds ++ (if n <=? 1 then [] else 46 :: drop 1 ds) ++
    101 :: exponent_text (decpt - 1)
  else if decpt <=? 0 then 48 :: 46 :: zeros (- decpt) ++ ds
  else if n <=? decpt then ds ++ zeros (decpt - n) ++ [46; 48]
  else take (Z.to_nat decpt) ds ++ 46 :: drop (Z.to_nat decpt) ds.

(** [repr(x)] for a [float]. *)
Definition float_repr (x : float64) : pystr :=
  match x with
  | S754_zero neg => sign_prefix neg ++ [48; 46; 48]
  | S754_infinity neg => sign_prefix neg ++ str "inf"
  | S754_nan => str "nan"
  | S754_finite neg m e =>
    match shortest_digits neg m e with
    | Some (c, q) =>
      let ds := digits_of c in
      sign_prefix neg ++ format_repr ds (Z.of_nat (length ds) + q)
    | None => []
    end
  end.

(** ** What a text reads as *)

(** What may follow the digits of a numeral: nothing, or an exponent [e]. *)
Definition tail_of (tail : pystr) (e : Z) : Prop :=
  all_in numeral_char tail ∧
  ((tail = [] ∧ e = 0) ∨ ∃ t, tail = 101 :: t ∧ parse_exponent t = Some e).

(** [s] is an unsigned numeral that [float] reads as [m * 10 ^ e]. *)
Definition reads_as (s : pystr) (m e : Z) : Prop :=
  all_in numeral_char s ∧ parse_sign s = (false, s) ∧
  parse_unsigned false s = Some (Decimal false m e).

(** * The digits of an integer *)

Lemma digits_from_spec fuel n acc :
  0 ≤ n < 2 ^ Z.of_nat fuel → fuel ≠ O →
  ∃ ds, digits_from fuel n acc = ds ++ acc ∧ digits ds ∧ ds ≠ [] ∧
        digits_value ds = n ∧ (length ds ≤ fuel)%nat.
Proof.
  revert n acc. induction fuel as [|fuel IH]; intros n acc Hn Hf; [done|].
  cbn [digits_from]. pose proof (Z.mod_pos_bound n 10 eq_refl) as Hr.
  assert (is_digit (48 + n mod 10) = true) as Hd by (apply in_range_spec; lia).
  destruct (Z.ltb_spec n 10) as [Hlt|Hge].
  - exists [48 + n mod 10]. split_and!; [done|by constructor|done| |simpl; lia].
    rewrite Z.mod_small by lia. unfold digits_value. simpl. lia.
  - rewrite Nat2Z.inj_succ, Z.pow_succ_r in Hn by lia.
    destruct (IH (n / 10) (48 + n mod 10 :: acc)) as (ds & -> & Hds & _ & Hv & Hl).
    { split; [apply Z.div_pos; lia|]. apply Z.div_lt_upper_bound; lia. }
    { intros ->. simpl in Hn. lia. }
    exists (ds ++ [48 + n mod 10]). rewrite <-app_assoc.
    split_and!; [done|apply Forall_app; by repeat constructor|by destruct ds| |].
    + rewrite digits_value_app, Hv. unfold digits_value at 1. simpl.
      pose proof (Z.div_mod n 10). lia.
    + rewrite length_app. simpl. lia.
Qed.

Lemma digits_of_spec n :
  0 ≤ n →
  digits (digits_of n) ∧ digits_of n ≠ [] ∧ digits_value (digits_of n) = n ∧
  Z.of_nat (length (digits_of n)) ≤ Z.log2 n + 1.
Proof.
  intros Hn. unfold digits_of.
  destruct (digits_from_spec (S (Z.to_nat (Z.log2 n))) n []) as (ds & -> & ? & ? & ? & ?);
    [|done|rewrite app_nil_r; pose proof (Z.log2_nonneg n); split_and!; [done..|lia]].
  split; [done|]. rewrite Nat2Z.inj_succ, Z2Nat.id by apply Z.log2_nonneg.
  destruct (decide (n = 0)) as [->|]; [done|]. apply Z.log2_spec. lia.
Qed.

Lemma digits_digits_of n : 0 ≤ n → digits (digits_of n).
Proof. intros Hn. by apply digits_of_spec. Qed.

Lemma digits_value_digits_of n : 0 ≤ n → digits_value (digits_of n) = n.
Proof. intros Hn. by apply digits_of_spec. Qed.

Lemma digits_of_nonempty n : 0 ≤ n → digits_of n ≠ [].
Proof. intros Hn. by apply digits_of_spec. Qed.

(** The sign of an integer is the one its text has. *)
Lemma int_repr_value n :
  ∃ ds, digits ds ∧ ds ≠ [] ∧ digits_value ds = Z.abs n ∧
        int_repr n = sign_prefix (n <? 0) ++ ds.
Proof.
  unfold int_repr. destruct (Z.ltb_spec n 0).
  - exists (digits_of (- n)). destruct (digits_of_spec (- n)) as (? & ? & ? & _); [lia|].
    split_and!; [done..|lia|done].
  - exists (digits_of n). destruct (digits_of_spec n) as (? & ? & ? & _); [lia|].
    split_and!; [done..|lia|done].
Qed.

(** * The search finds digits that read back *)

Lemma candidate_reads_back neg x n d q c :
  candidate neg x n d q = Some c → reads_back neg x c q = true.
Proof.
  unfold candidate, round_half_even. cbv zeta. set (lo := _ / _).
  destruct (reads_back neg x lo q) eqn:Hlo, (reads_back neg x (lo + 1) q) eqn:Hhi;
    intros [= <-]; by repeat case_match.
Qed.

Lemma shortest_reads_back fuel neg x n d q c q' :
  shortest fuel neg x n d q = Some (c, q') → reads_back neg x c q' = true.
Proof.
  revert q. induction fuel as [|fuel IH]; intros q; [done|]. simpl.
  destruct (candidate neg x n d q) as [c'|] eqn:Hc; [|apply IH].
  intros [= <- <-]. by eapply candidate_reads_back.
Qed.

(** The search stops at the latest where every unit has a candidate. *)
Lemma shortest_finds fuel neg x n d q q0 :
  (∀ q', q' ≤ q0 → is_Some (candidate neg x n d q')) →
  q - q0 < Z.of_nat fuel → fuel ≠ O →
  is_Some (shortest fuel neg x n d q).
Proof.
  intros Hq0. revert q. induction fuel as [|fuel IH]; intros q Hq Hf; [done|]. simpl.
  destruct (candidate neg x n d q) as [c|] eqn:Hc; [done|].
  assert (q0 < q) as Hlt.
  { destruct (Z.le_gt_cases q q0) as [Hle%Hq0|]; [|done]. rewrite Hc in Hle. by destruct Hle. }
  apply IH; [lia|]. intros ->. simpl in Hq. lia.
Qed.

(** A decimal of the very value reads back. *)
Lemma reads_back_exact neg x n d q lo :
  q < 0 → 0 < n → 0 < d → lo * d = n * 10 ^ (- q) →
  round_ratio neg n d = x → reads_back neg x lo q = true.
Proof.
  intros Hq Hn Hd Hlo Hx. unfold reads_back.
  assert (0 < 10 ^ (- q)) by (apply Z.pow_pos_nonneg; lia).
  apply andb_true_intro. split; [apply Z.ltb_lt; nia|].
  apply bool_decide_eq_true. rewrite <-Hx. unfold of_decimal.
  rewrite (proj2 (Z.leb_gt 0 q)) by done. by apply round_ratio_ratio.
Qed.

(** In units of [10 ^ q], [q <= emin], a binary64 value is an integer. *)
Lemma exact_expansion m e q :
  emin ≤ e → q ≤ emin →
  let n := (ratio_of m e).1 in
  let d := (ratio_of m e).2 in
  0 < n ∧ 0 < d ∧ n * 10 ^ (- q) / d * d = n * 10 ^ (- q).
Proof.
  intros He Hq. unfold ratio_of, emin in *.
  destruct (Z.leb_spec 0 e) as [He0|He0]; cbn [fst snd].
  - assert (0 < 2 ^ e) by (by apply Z.pow_pos_nonneg).
    split_and!; [lia|done|]. by rewrite Z.div_1_r, Z.mul_1_r.
  - assert (0 < 2 ^ (- e)) by (apply Z.pow_pos_nonneg; lia). split_and!; [done..|].
    assert (10 ^ (- q) = 10 ^ (e - q) * 5 ^ (- e) * 2 ^ (- e)) as ->.
    { rewrite <-Z.mul_assoc, <-Z.pow_mul_l, <-Z.pow_add_r by lia. f_equal; lia. }
    rewrite !Z.mul_assoc. by rewrite Z.div_mul by lia.
Qed.

Lemma candidate_exact neg m e q :
  valid (S754_finite neg m e) = true → q ≤ emin →
  is_Some (candidate neg (S754_finite neg m e) (ratio_of m e).1 (ratio_of m e).2 q).
Proof.
  intros Hv Hq. destruct (valid_finite_inv _ _ _ Hv) as [He _].
  destruct (exact_expansion m e q) as (Hn & Hd & Hlo); [lia|done|].
  unfold candidate. rewrite (proj2 (Z.leb_gt 0 q)) by (unfold emin in Hq; lia).
  cbv zeta. rewrite (reads_back_exact neg _ _ _ q _ ltac:(unfold emin in Hq; lia) Hn Hd Hlo)
    by by apply round_ratio_exact.
  by destruct (reads_back _ _ _ q).
Qed.

(** The first digit of a value below [2 ^ 1024] stands below [10 ^ 1024]. *)
Lemma ilog10_ratio_upper n d : 0 < n → 0 < d → ilog10_ratio n d ≤ Z.log2 n.
Proof.
  intros Hn Hd. unfold ilog10_ratio.
  destruct (digits_of_spec n) as (_ & _ & _ & Hl); [lia|].
  destruct (digits_of_spec d) as (_ & Hne & _ & _); [lia|].
  destruct (digits_of d); [done|]. cbn [length] in *. case_match; lia.
Qed.

Lemma ratio_of_log2 neg m e :
  valid (S754_finite neg m e) = true → Z.log2 (ratio_of m e).1 ≤ 1023.
Proof.
  intros [Hex He]%valid_finite_inv. unfold ratio_of, prec, emax, emin in *.
  destruct (Z.leb_spec 0 e); cbn [fst]; [rewrite Z.log2_mul_pow2 by lia|]; lia.
Qed.

Lemma shortest_total neg m e :
  valid (S754_finite neg m e) = true →
  is_Some (shortest search_fuel neg (S754_finite neg m e)
             (ratio_of m e).1 (ratio_of m e).2
             (ilog10_ratio (ratio_of m e).1 (ratio_of m e).2)).
Proof.
  intros Hv. destruct (valid_finite_inv _ _ _ Hv) as [He _].
  destruct (exact_expansion m e emin) as (Hn & Hd & _); [lia|done|].
  apply (shortest_finds _ _ _ _ _ _ emin); [intros; by apply candidate_exact| |done].
  pose proof (ilog10_ratio_upper _ _ Hn Hd). pose proof (ratio_of_log2 _ _ _ Hv).
  unfold search_fuel, emin. lia.
Qed.

(** Stripping zeros keeps the value. *)
Lemma strip_zeros_spec fuel c q :
  0 < c →
  0 < (strip_zeros fuel c q).1 ∧ q ≤ (strip_zeros fuel c q).2 ∧
  c = (strip_zeros fuel c q).1 * 10 ^ ((strip_zeros fuel c q).2 - q).
Proof.
  revert c q. induction fuel as [|fuel IH]; intros c q Hc; cbn [strip_zeros].
  { simpl. rewrite Z.sub_diag. lia. }
  rewrite (proj2 (Z.ltb_lt 0 c)) by done.
  destruct (Z.eqb_spec (c mod 10) 0) as [Hz|Hz]; cbn [andb];
    [|simpl; rewrite Z.sub_diag; lia].
  assert (c = c / 10 * 10) as Hc10 by (pose proof (Z.div_mod c 10); lia).
  destruct (IH (c / 10) (q + 1)) as (H1 & H2 & H3); [lia|].
  destruct (strip_zeros fuel (c / 10) (q + 1)) as [c' q']. simpl in *.
  split_and!; [done|lia|].
  replace (q' - q) with (Z.succ (q' - (q + 1))) by lia.
  rewrite Z.pow_succ_r by lia. lia.
Qed.

Lemma shortest_digits_spec neg m e :
  valid (S754_finite neg m e) = true →
  ∃ c q, shortest_digits neg m e = Some (c, q) ∧ 0 < c ∧
         of_decimal neg c q = S754_finite neg m e.
Proof.
  intros Hv. destruct (shortest_total neg m e Hv) as [[c q] Hs].
  unfold shortest_digits. destruct (ratio_of m e) as [n d]. cbn [fst snd] in Hs.
  rewrite Hs. cbn [mbind option_bind]. apply shortest_reads_back, andb_prop in Hs.
  destruct Hs as [Hc%Z.ltb_lt Hx%bool_decide_eq_true].
  destruct (strip_zeros_spec (S (Z.to_nat (Z.log2 c))) c q Hc) as (H1 & H2 & H3).
  destruct (strip_zeros _ c q) as [c' q']. cbn [fst snd] in *. exists c', q'.
  split_and!; [done..|]. rewrite <-Hx, H3, of_decimal_scale by lia. f_equal. lia.
Qed.

(** * The layouts read back *)

Lemma digits_zeros n : digits (zeros n).
Proof. by apply Forall_replicate. Qed.

Lemma parse_exponent_text e : parse_exponent (exponent_text e) = Some e.
Proof.
  unfold exponent_text, parse_exponent.
  destruct (digits_of_spec (Z.abs e)) as (Hd & Hne & Hv & _); [lia|].
  set (ds := if Z.abs e <? 10 then _ else _).
  assert (digits ds ∧ ds ≠ [] ∧ digits_value ds = Z.abs e) as (Hds & Hdne & Hdv).
  { unfold ds. case_match; [|done].
    split_and!; [by constructor|done|]. rewrite digits_value_cons. lia. }
  destruct (Z.ltb_spec e 0); cbn [parse_sign Z.eqb Pos.eqb];
    rewrite span_digits_all by done; (destruct ds; [done|]);
    rewrite Hdv; f_equal; lia.
Qed.

Lemma exponent_text_numeral e : all_in numeral_char (exponent_text e).
Proof.
  pose proof (digits_numeral _ (digits_digits_of (Z.abs e) (Z.abs_nonneg e))).
  unfold exponent_text. constructor; [by case_match|].
  case_match; [by constructor|done].
Qed.

Lemma tail_of_nil : tail_of [] 0.
Proof. split; [constructor|by left]. Qed.

Lemma tail_of_exponent e : tail_of (101 :: exponent_text e) e.
Proof.
  split; [constructor; [done|apply exponent_text_numeral]|].
  right. eexists. split; [done|apply parse_exponent_text].
Qed.

Lemma reads_as_point ip fp tail e :
  digits ip → digits fp → ip ≠ [] → tail_of tail e →
  reads_as (ip ++ 46 :: fp ++ tail) (digits_value (ip ++ fp))
    (e - Z.of_nat (length fp)).
Proof.
  intros Hip Hfp Hne [Ht He]. split_and!.
  - apply Forall_app. split; [by apply digits_numeral|]. constructor; [done|].
    apply Forall_app. split; [by apply digits_numeral|done].
  - apply parse_sign_unsigned. destruct Hip as [|c ip Hc _]; [done|].
    intros ? [= <-]. auto.
  - apply parse_unsigned_point; [done..|by destruct ip|done].
Qed.

Lemma reads_as_integer ip tail e :
  digits ip → ip ≠ [] → tail_of tail e →
  reads_as (ip ++ tail) (digits_value ip) e.
Proof.
  intros Hip Hne [Ht He]. split_and!.
  - apply Forall_app. split; [by apply digits_numeral|done].
  - apply parse_sign_unsigned. destruct Hip as [|c ip Hc _]; [done|].
    intros ? [= <-]. auto.
  - by apply parse_unsigned_integer.
Qed.

Lemma reads_as_eq s m e m' e' : reads_as s m e → m = m' → e = e' → reads_as s m' e'.
Proof. by intros ? <- <-. Qed.

Lemma float_of_str_reads_as `{UnicodeDB} neg s m e :
  reads_as s m e → float_of_str (sign_prefix neg ++ s) = Some (of_decimal neg m e).
Proof. intros (? & ? & ?). by apply float_of_str_unsigned. Qed.

Section layouts.
Context (ds : pystr) (Hds : digits ds) (Hne : ds ≠ []).

(** One digit, the others after the point, and an exponent. *)
Lemma exponent_layout e :
  reads_as
    (take 1 ds ++ (if Z.of_nat (length ds) <=? 1 then [] else 46 :: drop 1 ds) ++
     101 :: exponent_text e)
    (digits_value ds) (e + 1 - Z.of_nat (length ds)).
Proof.
  destruct Hds as [|c [|c' rest] Hc Hrest]; [done|..]; cbn [take drop length app].
  - eapply reads_as_eq; [apply (reads_as_integer [c]);
      [by constructor|done|apply tail_of_exponent]|done|lia].
  - rewrite (proj2 (Z.leb_gt _ _)) by lia.
    eapply reads_as_eq; [apply (reads_as_point [c] (c' :: rest));
      [by constructor|done|done|apply tail_of_exponent]|done|cbn [length]; lia].
Qed.

(** Zeros between the point and the digits. *)
Lemma small_layout k :
  reads_as (48 :: 46 :: zeros k ++ ds) (digits_value ds)
    (- Z.of_nat (length (zeros k)) - Z.of_nat (length ds)).
Proof.
  rewrite <-(app_nil_r ds) at 1. rewrite app_assoc.
  eapply reads_as_eq; [apply (reads_as_point [48] (zeros k ++ ds) [] 0);
    [by constructor|apply Forall_app; split; [apply digits_zeros|done]|done
    |apply tail_of_nil]|..].
  - cbn [app]. rewrite digits_value_cons, digits_value_app. unfold zeros.
    rewrite digits_value_zeros. lia.
  - rewrite length_app. lia.
Qed.

(** Zeros between the digits and the point. *)
Lemma integral_layout k :
  reads_as (ds ++ zeros k ++ [46; 48])
    (digits_value ds * 10 ^ (Z.of_nat (length (zeros k)) + 1)) (-1).
Proof.
  rewrite app_assoc.
  eapply reads_as_eq; [apply (reads_as_point (ds ++ zeros k) [48] [] 0);
    [apply Forall_app; split; [done|apply digits_zeros]|by constructor
    |by destruct ds|apply tail_of_nil]|..|done].
  rewrite <-app_assoc, digits_value_app, digits_value_app, length_app. unfold zeros.
  rewrite digits_value_zeros. unfold digits_value at 2. cbn [length foldl].
  rewrite Nat2Z.inj_add. lia.
Qed.

(** The point among the digits. *)
Lemma plain_layout (k : nat) :
  (0 < k < length ds)%nat →
  reads_as (take k ds ++ 46 :: drop k ds) (digits_value ds)
    (Z.of_nat k - Z.of_nat (length ds)).
Proof.
  intros Hk. rewrite <-(app_nil_r (drop k ds)).
  eapply reads_as_eq; [apply (reads_as_point (take k ds) (drop k ds) [] 0);
    [by apply Forall_take|by apply Forall_drop| |apply tail_of_nil]|..].
  - destruct ds, k; (done || lia).
  - by rewrite take_drop.
  - rewrite length_drop. lia.
Qed.

End layouts.

Lemma format_repr_reads ds decpt :
  digits ds → ds ≠ [] →
  ∃ m e, reads_as (format_repr ds decpt) m e ∧
         ∀ neg, of_decimal neg m e =
                of_decimal neg (digits_value ds) (decpt - Z.of_nat (length ds)).
Proof.
  intros Hds Hne. unfold format_repr. cbv zeta.
  destruct ((decpt <=? -4) || (16 <? decpt)).
  { eexists _, _. split; [by apply exponent_layout|]. intros neg. f_equal. lia. }
  destruct (Z.leb_spec decpt 0).
  { eexists _, _. split; [by apply small_layout|]. intros neg. f_equal.
    unfold zeros. rewrite length_replicate. lia. }
  destruct (Z.leb_spec (Z.of_nat (length ds)) decpt).
  { eexists _, _. split; [by apply integral_layout|]. intros neg.
    rewrite of_decimal_scale by lia. f_equal.
    unfold zeros. rewrite length_replicate. lia. }
  eexists _, _. split; [apply plain_layout; [done..|lia]|]. intros neg. f_equal. lia.
Qed.

(** * The characters of the text *)

Lemma shortest_digits_pos neg m e c q :
  shortest_digits neg m e = Some (c, q) → 0 < c.
Proof.
  unfold shortest_digits. destruct (ratio_of m e) as [n d].
  destruct (shortest _ _ _ _ _ _) as [[c0 q0]|] eqn:Hs; [|done].
  apply shortest_reads_back, andb_prop in Hs. destruct Hs as [Hc%Z.ltb_lt _].
  destruct (strip_zeros_spec (S (Z.to_nat (Z.log2 c0))) c0 q0 Hc) as (H1 & _).
  cbn [mbind option_bind]. destruct (strip_zeros _ c0 q0). by intros [= <- <-].
Qed.

(** Digits, a point, a sign, an [e], or the letters of [inf] and [nan]. *)
Lemma float_repr_chars x :
  all_in (λ c, numeral_char c || is_letter c) (float_repr x).
Proof.
  destruct x as [[]|[]| |neg m e]; [by repeat constructor..|]. cbn [float_repr].
  destruct (shortest_digits neg m e) as [[c q]|] eqn:Hs; [|constructor].
  apply shortest_digits_pos in Hs. cbv zeta.
  destruct (digits_of_spec c) as (Hds & Hne & _); [lia|].
  destruct (format_repr_reads (digits_of c) (Z.of_nat (length (digits_of c)) + q))
    as (m' & e' & [Hr _] & _); [done..|].
  apply Forall_app. split; [destruct neg; by repeat constructor|].
  revert Hr. apply List.Forall_impl. by intros ? ->.
Qed.

(** * Properties *)

Section properties.
Context `{UnicodeDB}.

Lemma zero_reads_back neg : float_of_str (sign_prefix neg ++ [48; 46; 48]) = Some (S754_zero neg).
Proof.
  by rewrite (float_of_str_reads_as neg [48; 46; 48] 0 (-1))
    by (apply (reads_as_point [48] [48] [] 0); by repeat constructor).
Qed.

Lemma word_reads_back s x :
  token s → float_of_ascii s = Some x → float_of_str s = Some x.
Proof. intros Hs <-. by apply float_of_str_token. Qed.

(** The digits of a finite value, in their layout. *)
Lemma finite_reads_back neg m e :
  valid (S754_finite neg m e) = true →
  float_of_str (float_repr (S754_finite neg m e)) = Some (S754_finite neg m e).
Proof.
  intros Hv. cbn [float_repr].
  destruct (shortest_digits_spec neg m e Hv) as (c & q & -> & Hc & Hx). cbv zeta.
  destruct (digits_of_spec c) as (Hds & Hne & Hval & _); [lia|].
  destruct (format_repr_reads (digits_of c) (Z.of_nat (length (digits_of c)) + q))
    as (m' & e' & Hr & Hm); [done..|].
  rewrite (float_of_str_reads_as _ _ _ _ Hr), Hm, Hval, <-Hx. do 2 f_equal. lia.
Qed.

(** The text that [repr] writes for a [float] is
    read by [float] as the very same value, whatever the value: the digits
    found by the search, in whichever of the four layouts they are laid
    out, the two zeros, the two infinities and the NaN. *)
Theorem float_repr_roundtrip x :
  valid x = true → float_of_str (float_repr x) = Some x.
Proof.
  intros Hv. destruct x as [neg|neg| |neg m e].
  - apply zero_reads_back.
  - apply word_reads_back; destruct neg; by repeat constructor.
  - apply word_reads_back; by repeat constructor.
  - by apply finite_reads_back.
Qed.

End properties.

(** * Scenarios *)

(** One tenth, the nearest binary64 value to it. *)
Definition tenth : float64 := S754_finite false 7205759403792794 (-56).

Example float_repr_tenth : float_repr tenth = str "0.1".
Proof. by vm_compute. Qed.

Example float_repr_layouts :
  float_repr (of_decimal false 285 (-1)) = str "28.5" ∧
  float_repr (of_decimal true 5 (-5)) = str "-5e-05" ∧
  float_repr (of_decimal false 1 16) = str "1e+16" ∧
  float_repr (of_decimal false 123 20) = str "1.23e+22" ∧
  float_repr (of_decimal false 625 (-4)) = str "0.0625" ∧
  float_repr (of_decimal false 1234 2) = str "123400.0".
Proof. by vm_compute. Qed.

Lemma float_repr_roundtrip_witness : float_of_str (float_repr tenth) = Some tenth.
Proof. apply (float_repr_roundtrip tenth). by vm_compute. Defined.
