(* ===== verification/FloatShortest.v ===== *)
(** * The digits of [repr] are the fewest

    [float_repr] of [FloatRepr] goes from the unit of the first digit of
    the value down, and stops at the first unit at which one of the two
    decimals around the value reads back.  Because the rounding is
    monotone ([FloatOrder]), a unit at which some decimal reads back is a
    unit at which one of these two does: the search misses nothing, and no
    decimal that reads back as the value has fewer digits than the one it
    finds.  Of the two it takes the one that reads back, the nearer when
    both do: no decimal of that unit that reads back is nearer to the
    value. *)

From Stdlib Require Import ZArith Lia String.
From Stdlib.Floats Require Import SpecFloat.
From stdpp Require Import base tactics option list numbers.
From S2P Require Import Prelude PyStr Float64 FloatOrder PyFloat FloatRepr.

#[local] Open Scope Z_scope.

(** The number of digits of an integer. *)
Definition ndigits (c : Z) : Z := Z.of_nat (length (digits_of c)).

(** * Counting digits *)

Lemma digits_from_length fuel n acc :
  0 < n < 2 ^ Z.of_nat fuel →
  ∃ L, 1 ≤ L ∧ 10 ^ (L - 1) ≤ n < 10 ^ L ∧
       Z.of_nat (length (digits_from fuel n acc)) = Z.of_nat (length acc) + L.
Proof.
  revert n acc. induction fuel as [|fuel IH]; intros n acc Hn.
  { simpl in Hn. lia. }
  cbn [digits_from]. destruct (Z.ltb_spec n 10) as [Hlt|Hge].
  { exists 1. cbn [length]. change (10 ^ (1 - 1)) with 1. lia. }
  rewrite Nat2Z.inj_succ, Z.pow_succ_r in Hn by lia.
  destruct (IH (n / 10) (48 + n mod 10 :: acc)) as (L & HL & Hb & Hlen).
  { split; [apply Z.div_str_pos; lia|apply Z.div_lt_upper_bound; lia]. }
  exists (Z.succ L). rewrite Hlen. cbn [length].
  replace (Z.succ L - 1) with (Z.succ (L - 1)) by lia.
  rewrite !Z.pow_succ_r by lia.
  pose proof (Z.div_mod n 10 ltac:(lia)). pose proof (Z.mod_pos_bound n 10 ltac:(lia)).
  lia.
Qed.

Lemma ndigits_spec c :
  0 < c → 1 ≤ ndigits c ∧ 10 ^ (ndigits c - 1) ≤ c < 10 ^ ndigits c.
Proof.
  intros Hc. unfold ndigits, digits_of.
  destruct (digits_from_length (S (Z.to_nat (Z.log2 c))) c []) as (L & HL & Hb & ->);
    [|done].
  split; [done|]. rewrite Nat2Z.inj_succ, Z2Nat.id by apply Z.log2_nonneg.
  by apply Z.log2_spec.
Qed.

Lemma ndigits_le_pow c k : 0 < c < 10 ^ k → ndigits c ≤ k.
Proof.
  intros Hc. destruct (ndigits_spec c) as (HL & Hlo & _); [lia|].
  apply Z.nlt_ge. intros Hlt.
  assert (10 ^ k ≤ 10 ^ (ndigits c - 1)) by (apply Z.pow_le_mono_r; lia). lia.
Qed.

Lemma ndigits_ge_pow c k : 0 ≤ k → 10 ^ k ≤ c → k + 1 ≤ ndigits c.
Proof.
  intros Hk Hc. assert (0 < 10 ^ k) by by apply Z.pow_pos_nonneg.
  destruct (ndigits_spec c) as (HL & _ & Hhi); [lia|].
  apply Z.nlt_ge. intros Hlt.
  assert (10 ^ ndigits c ≤ 10 ^ k) by (apply Z.pow_le_mono_r; lia). lia.
Qed.

Lemma ndigits_mono c c' : 0 < c ≤ c' → ndigits c ≤ ndigits c'.
Proof.
  intros Hc. destruct (ndigits_spec c') as (_ & _ & Hhi); [lia|].
  apply ndigits_le_pow. lia.
Qed.

(** * The decimal logarithm of a fraction *)

Lemma ilog10_ratio_spec n d :
  0 < n → 0 < d →
  ratio_ge_pow 10 n d (ilog10_ratio n d) = true ∧
  ratio_ge_pow 10 n d (ilog10_ratio n d + 1) = false.
Proof.
  intros Hn Hd. unfold ilog10_ratio. fold (ndigits n) (ndigits d).
  destruct (ndigits_spec n Hn) as (HLn & Hn1 & Hn2).
  destruct (ndigits_spec d Hd) as (HLd & Hd1 & Hd2).
  assert (0 < 10 ^ (ndigits n - 1)) by (apply Z.pow_pos_nonneg; lia).
  assert (0 < 10 ^ (ndigits d - 1)) by (apply Z.pow_pos_nonneg; lia).
  assert (10 ^ ndigits n = 10 * 10 ^ (ndigits n - 1)) as Hpn
    by (rewrite <-Z.pow_succ_r by lia; f_equal; lia).
  assert (10 ^ ndigits d = 10 * 10 ^ (ndigits d - 1)) as Hpd
    by (rewrite <-Z.pow_succ_r by lia; f_equal; lia).
  change (ratio_ge_pow10 n d) with (ratio_ge_pow 10 n d).
  destruct (ratio_ge_pow 10 n d (ndigits n - ndigits d)) eqn:He.
  - split; [done|]. apply not_true_is_false.
    rewrite (ratio_ge_pow_scaled 10 n d eq_refl _ (ndigits d - 1)) by lia.
    replace (ndigits n - ndigits d + 1 + (ndigits d - 1)) with (ndigits n) by lia.
    nia.
  - split; [|by rewrite Z.sub_add].
    apply (ratio_ge_pow_scaled 10 n d eq_refl _ (ndigits d)); [lia..|].
    replace (ndigits n - ndigits d - 1 + ndigits d) with (ndigits n - 1) by lia.
    nia.
Qed.

(** * One of the two decimals around the value reads back *)

Lemma candidate_neighbour neg x n d q c :
  candidate neg x n d q = Some c →
  c = scale_num 10 n q / scale_den 10 d q ∨
  c = scale_num 10 n q / scale_den 10 d q + 1.
Proof.
  unfold candidate, round_half_even, scale_num, scale_den. cbv zeta.
  intros Hc. repeat case_match; simplify_eq; auto.
Qed.

Lemma shortest_first fuel neg x n d q c q0 :
  shortest fuel neg x n d q = Some (c, q0) →
  q0 ≤ q ∧ candidate neg x n d q0 = Some c ∧
  ∀ q', q0 < q' ≤ q → candidate neg x n d q' = None.
Proof.
  revert q. induction fuel as [|fuel IH]; intros q; [done|]. cbn [shortest].
  destruct (candidate neg x n d q) as [c'|] eqn:Hc.
  - intros [= <- <-]. split_and!; [lia|done|lia].
  - intros (H1 & H2 & H3)%IH. split_and!; [lia|done|]. intros q' Hq'.
    destruct (decide (q' = q)) as [->|]; [done|apply H3; lia].
Qed.

(** Conversely, the search comes to the first unit that has a candidate
    when its fuel reaches that far. *)
Lemma shortest_found fuel neg x n d q c q0 :
  q0 ≤ q → candidate neg x n d q0 = Some c →
  (∀ q', q0 < q' ≤ q → candidate neg x n d q' = None) →
  q - q0 < Z.of_nat fuel →
  shortest fuel neg x n d q = Some (c, q0).
Proof.
  intros Hq0 Hc. revert q Hq0. induction fuel as [|fuel IH]; intros q Hq0 Hnone Hf;
    [simpl in Hf; lia|].
  cbn [shortest]. destruct (decide (q = q0)) as [->|Hne]; [by rewrite Hc|].
  rewrite Hnone by lia. apply IH; [lia| |lia]. intros q' Hq'. apply Hnone. lia.
Qed.

Section complete.
Context (neg : bool) (x : float64) (n d : Z).
Context (Hn : 0 < n) (Hd : 0 < d) (Hx : round_ratio neg n d = x).

(** A decimal between one that reads back and the value reads back. *)
Lemma decimal_below c1 c2 q :
  c1 ≤ c2 → c2 * scale_den 10 d q ≤ scale_num 10 n q →
  of_decimal neg c1 q = x → of_decimal neg c2 q = x.
Proof.
  intros Hc Hle H1. rewrite <-H1. revert H1 Hle.
  unfold of_decimal, scale_den, scale_num. destruct (Z.leb_spec 0 q); intros H1 Hle.
  - assert (0 < 10 ^ q) by by apply Z.pow_pos_nonneg.
    apply (round_ratio_between neg _ _ _ _ n d); [lia..|nia|nia|by rewrite H1].
  - assert (0 < 10 ^ (- q)) by (apply Z.pow_pos_nonneg; lia).
    apply (round_ratio_between neg _ _ _ _ n d); [lia..|nia|nia|by rewrite H1].
Qed.

Lemma decimal_above c1 c2 q :
  c2 ≤ c1 → scale_num 10 n q ≤ c2 * scale_den 10 d q →
  of_decimal neg c1 q = x → of_decimal neg c2 q = x.
Proof.
  intros Hc Hle H1. rewrite <-Hx. revert H1 Hle.
  unfold of_decimal, scale_den, scale_num. destruct (Z.leb_spec 0 q); intros H1 Hle.
  - assert (0 < 10 ^ q) by by apply Z.pow_pos_nonneg.
    apply (round_ratio_between neg n d _ _ (c1 * 10 ^ q) 1);
      [lia..|nia|nia|by rewrite H1].
  - assert (0 < 10 ^ (- q)) by (apply Z.pow_pos_nonneg; lia).
    apply (round_ratio_between neg n d _ _ c1 (10 ^ (- q)));
      [lia..|nia|nia|by rewrite H1].
Qed.

(** A decimal that reads back makes its neighbour on the side of the value
    read back. *)
Lemma reads_back_towards c q :
  0 < c → of_decimal neg c q = x →
  (c ≤ scale_num 10 n q / scale_den 10 d q →
   reads_back neg x (scale_num 10 n q / scale_den 10 d q) q = true) ∧
  (scale_num 10 n q / scale_den 10 d q + 1 ≤ c →
   reads_back neg x (scale_num 10 n q / scale_den 10 d q + 1) q = true).
Proof.
  intros Hc Hr. pose proof (scale_den_pos 10 d eq_refl Hd q) as Hden.
  pose proof (Z.mul_div_le (scale_num 10 n q) _ Hden).
  pose proof (Z.mul_succ_div_gt (scale_num 10 n q) _ Hden).
  pose proof (Z.div_pos _ _ (Z.lt_le_incl _ _ (scale_num_pos 10 n eq_refl q Hn)) Hden).
  unfold reads_back. split; intros Hle;
    (apply andb_true_intro; split; [apply Z.ltb_lt; lia|apply bool_decide_eq_true]).
  - apply (decimal_below c); [done|lia|done].
  - apply (decimal_above c); [lia|lia|done].
Qed.

Lemma neighbour_reads_back c q :
  0 < c → of_decimal neg c q = x →
  reads_back neg x (scale_num 10 n q / scale_den 10 d q) q = true ∨
  reads_back neg x (scale_num 10 n q / scale_den 10 d q + 1) q = true.
Proof.
  intros Hc Hr. destruct (reads_back_towards c q Hc Hr) as [Hbelow Habove].
  destruct (Z.le_gt_cases c (scale_num 10 n q / scale_den 10 d q));
    [left; by apply Hbelow|right; apply Habove; lia].
Qed.

(** The search misses no unit at which a decimal reads back. *)
Lemma candidate_complete c q :
  0 < c → of_decimal neg c q = x → is_Some (candidate neg x n d q).
Proof.
  intros Hc Hr. unfold candidate. cbv zeta.
  destruct (neighbour_reads_back c q Hc Hr) as [H|H];
    unfold scale_num, scale_den in H; rewrite H.
  - destruct (reads_back neg x (_ + 1) q); by eexists.
  - destruct (reads_back neg x _ q) in |- *; by eexists.
Qed.

(** What the search takes at a unit is as near to the value as any decimal
    of that unit that reads back. *)
Lemma candidate_nearest c c' q :
  candidate neg x n d q = Some c → 0 < c' → of_decimal neg c' q = x →
  Z.abs (c * scale_den 10 d q - scale_num 10 n q) ≤
  Z.abs (c' * scale_den 10 d q - scale_num 10 n q).
Proof.
  intros Hc Hc' Hr. pose proof (scale_den_pos 10 d eq_refl Hd q) as Hden.
  destruct (reads_back_towards c' q Hc' Hr) as [Hbelow Habove].
  revert Hc. unfold candidate. cbv zeta.
  change (if 0 <=? q then n else n * 10 ^ (- q)) with (scale_num 10 n q).
  change (if 0 <=? q then d * 10 ^ q else d) with (scale_den 10 d q).
  pose proof (Z.div_mod (scale_num 10 n q) (scale_den 10 d q) ltac:(lia)) as HN.
  pose proof (Z.mod_pos_bound (scale_num 10 n q) _ Hden) as Hmod.
  destruct (round_half_even_spec (scale_num 10 n q / scale_den 10 d q) _ _ Hmod)
    as (Hm & Hhalf & _).
  revert Hbelow Habove HN Hmod Hm Hhalf.
  generalize (scale_num 10 n q / scale_den 10 d q) (scale_num 10 n q mod scale_den 10 d q).
  generalize (scale_num 10 n q) (scale_den 10 d q) Hden. clear.
  intros N D HD lo r Hbelow Habove HN Hr Hm Hhalf.
  assert (c' ≤ lo → c' * D ≤ lo * D) by (intros; apply Z.mul_le_mono_nonneg_r; lia).
  assert (lo + 1 ≤ c' → (lo + 1) * D ≤ c' * D)
    by (intros; apply Z.mul_le_mono_nonneg_r; lia).
  destruct (reads_back neg x lo q), (reads_back neg x (lo + 1) q);
    intros [= <-]; destruct (Z.le_gt_cases c' lo);
    try (destruct Hm as [Hm|Hm]; rewrite Hm in *); try lia; (by specialize (Hbelow ltac:(lia)) || by specialize (Habove ltac:(lia))).
Qed.

End complete.

(** * No decimal that reads back has fewer digits *)

Lemma strip_zeros_le fuel c q : 0 < c → 0 < (strip_zeros fuel c q).1 ≤ c.
Proof.
  intros Hc. destruct (strip_zeros_spec fuel c q Hc) as (H1 & H2 & H3).
  split; [done|].
  assert (1 ≤ 10 ^ ((strip_zeros fuel c q).2 - q)) by (apply (Z.pow_le_mono_r 10 0); lia).
  nia.
Qed.

Lemma strip_zeros_ten fuel q : fuel ≠ O → (strip_zeros fuel 10 q).1 = 1.
Proof. by destruct fuel as [|[|fuel]]. Qed.

Section fewest.
Context (neg : bool) (m : positive) (e : Z).
Context (Hv : valid (S754_finite neg m e) = true).

#[local] Notation x := (S754_finite neg m e).
#[local] Notation n := (ratio_of m e).1.
#[local] Notation d := (ratio_of m e).2.
#[local] Notation qs := (ilog10_ratio (ratio_of m e).1 (ratio_of m e).2).

Lemma value_pos : 0 < n ∧ 0 < d.
Proof.
  destruct (valid_finite_inv _ _ _ Hv) as [He _].
  destruct (exact_expansion m e emin) as (? & ? & _); [lia|done|done].
Qed.

Lemma value_complete c q :
  0 < c → of_decimal neg c q = x → is_Some (candidate neg x n d q).
Proof.
  destruct value_pos. by apply candidate_complete; [..|apply round_ratio_exact].
Qed.

Section found.
Context (c0 q0 : Z) (Hs : shortest search_fuel neg x n d qs = Some (c0, q0)).
Context (c' q' : Z) (Hc' : 0 < c') (Hr : of_decimal neg c' q' = x).

(** The units that the search passed are coarser than the unit of any
    decimal that reads back. *)
Lemma passed_units : q0 < qs → q' ≤ q0.
Proof.
  destruct (shortest_first _ _ _ _ _ _ _ _ Hs) as (Hq0 & _ & Hnone).
  intros Hlt. apply Z.nlt_ge. intros Hq'.
  destruct (Z.le_gt_cases q' qs) as [Hle|Hgt].
  - destruct (value_complete c' q' Hc' Hr) as [c Hc].
    by rewrite Hnone in Hc by lia.
  - destruct (value_complete (c' * 10 ^ (q' - qs)) qs) as [c Hc].
    + assert (0 < 10 ^ (q' - qs)) by (apply Z.pow_pos_nonneg; lia). nia.
    + rewrite of_decimal_scale, <-Hr by lia. f_equal. lia.
    + by rewrite Hnone in Hc by lia.
Qed.

(** A decimal that reads back is not below the unit of the first
    digit. *)
Lemma reads_back_lower : q0 < qs → 10 ^ (qs - q') ≤ c'.
Proof.
  intros Hlt. pose proof (passed_units Hlt) as Hq'.
  destruct (shortest_first _ _ _ _ _ _ _ _ Hs) as (_ & _ & Hnone).
  destruct value_pos as [Hn Hd]. apply Z.nlt_ge. intros Hsmall.
  assert (of_decimal neg (10 ^ (qs - q')) q' = x) as Hp.
  { apply (decimal_below neg x n d Hn Hd (round_ratio_exact neg m e Hv) c');
      [lia| |done].
    rewrite Z.mul_comm. apply (scale_ge 10 n d eq_refl q' qs); [lia|].
    by destruct (ilog10_ratio_spec n d Hn Hd). }
  destruct (value_complete 1 qs) as [c Hc]; [done| |by rewrite Hnone in Hc by lia].
  rewrite <-Hp, <-(Z.mul_1_l (10 ^ (qs - q'))), of_decimal_scale by lia.
  f_equal. lia.
Qed.

End found.

(** The quotient of the value in a unit below the first digit's. *)
Lemma quotient_bounds q0 :
  q0 ≤ qs →
  10 ^ (qs - q0) ≤ scale_num 10 n q0 / scale_den 10 d q0 < 10 ^ (qs - q0 + 1).
Proof.
  intros Hq. destruct value_pos as [Hn Hd].
  destruct (ilog10_ratio_spec n d Hn Hd) as [Hge Hlt]. split.
  - by apply (scale_quot_lower 10 n d eq_refl Hd).
  - replace (qs - q0 + 1) with (qs + 1 - q0) by lia.
    apply (scale_quot_upper 10 n d eq_refl Hd); [lia|done].
Qed.

(** What the search finds has no more digits than its unit leaves. *)
Lemma found_below_pow c0 q0 :
  shortest search_fuel neg x n d qs = Some (c0, q0) → q0 < qs →
  0 < c0 < 10 ^ (qs - q0 + 1).
Proof.
  intros Hs Hlt. pose proof (shortest_reads_back _ _ _ _ _ _ _ _ Hs) as Hr.
  apply andb_prop in Hr as [Hpos%Z.ltb_lt Hx%bool_decide_eq_true].
  destruct (shortest_first _ _ _ _ _ _ _ _ Hs) as (_ & Hc%candidate_neighbour & Hnone).
  pose proof (quotient_bounds q0 ltac:(lia)) as Hb. split; [done|].
  destruct (decide (c0 = 10 ^ (qs - q0 + 1))) as [Heq|]; [exfalso|lia].
  destruct (value_complete 10 qs) as [c Hc']; [done| |by rewrite Hnone in Hc' by lia].
  rewrite <-Hx, Heq. replace (qs - q0 + 1) with (Z.succ (qs - q0)) by lia.
  rewrite Z.pow_succ_r, of_decimal_scale by lia. f_equal. lia.
Qed.

(** In the unit of the first digit one digit is found. *)
Lemma found_first_unit c0 :
  shortest search_fuel neg x n d qs = Some (c0, qs) →
  ndigits (strip_zeros (S (Z.to_nat (Z.log2 c0))) c0 qs).1 = 1.
Proof.
  intros (_ & Hc%candidate_neighbour & _)%shortest_first.
  pose proof (quotient_bounds qs ltac:(lia)) as Hb.
  rewrite Z.sub_diag in Hb. change (10 ^ 0) with 1 in Hb. change (10 ^ (0 + 1)) with 10 in Hb.
  destruct (decide (c0 = 10)) as [->|]; [by rewrite strip_zeros_ten|].
  pose proof (strip_zeros_le (S (Z.to_nat (Z.log2 c0))) c0 qs ltac:(lia)) as Hle.
  pose proof (ndigits_spec _ (proj1 Hle)).
  pose proof (ndigits_le_pow (strip_zeros (S (Z.to_nat (Z.log2 c0))) c0 qs).1 1).
  change (10 ^ 1) with 10 in *. lia.
Qed.

End fewest.

(** What [shortest_digits] gives is what the search finds, without its
    zeros. *)
Lemma shortest_digits_inv neg m e c q :
  shortest_digits neg m e = Some (c, q) →
  ∃ c0 q0,
    shortest search_fuel neg (S754_finite neg m e) (ratio_of m e).1 (ratio_of m e).2
      (ilog10_ratio (ratio_of m e).1 (ratio_of m e).2) = Some (c0, q0) ∧
    strip_zeros (S (Z.to_nat (Z.log2 c0))) c0 q0 = (c, q).
Proof.
  intros Hs. unfold shortest_digits in Hs.
  rewrite (surjective_pairing (ratio_of m e)) in Hs.
  destruct (shortest search_fuel _ _ _ _ _) as [[c0 q0]|] eqn:Hs0; [|done].
  cbn [mbind option_bind] in Hs. exists c0, q0. split; [done|congruence].
Qed.

Lemma fewest_digits neg m e c q c' q' :
  valid (S754_finite neg m e) = true →
  shortest_digits neg m e = Some (c, q) →
  0 < c' → of_decimal neg c' q' = S754_finite neg m e →
  ndigits c ≤ ndigits c'.
Proof.
  intros Hv (c0 & q0 & Hs0 & Hstrip)%shortest_digits_inv Hc' Hr.
  assert (c = (strip_zeros (S (Z.to_nat (Z.log2 c0))) c0 q0).1) as ->
    by by rewrite Hstrip.
  clear Hstrip.
  destruct (shortest_first _ _ _ _ _ _ _ _ Hs0) as (Hq0 & _ & _).
  destruct (ndigits_spec c' Hc') as (Hone & _).
  destruct (decide (q0 = ilog10_ratio (ratio_of m e).1 (ratio_of m e).2)) as [->|Hne].
  { by rewrite (found_first_unit neg m e Hv). }
  pose proof (passed_units neg m e Hv c0 q0 Hs0 c' q' Hc' Hr ltac:(lia)) as Hq'.
  pose proof (reads_back_lower neg m e Hv c0 q0 Hs0 c' q' Hc' Hr ltac:(lia)) as Hlow.
  pose proof (found_below_pow neg m e Hv c0 q0 Hs0 ltac:(lia)) as Hhigh.
  pose proof (strip_zeros_le (S (Z.to_nat (Z.log2 c0))) c0 q0 (proj1 Hhigh)) as Hle.
  pose proof (ndigits_mono _ _ Hle). pose proof (ndigits_le_pow _ _ Hhigh).
  apply ndigits_ge_pow in Hlow; lia.
Qed.

(** * No decimal of its unit that reads back is nearer *)

Lemma abs_le_scaled k k' a b a' b' :
  0 < k → 0 < k' → k * a = k' * a' → k * b = k' * b' →
  Z.abs a' ≤ Z.abs b' → Z.abs a ≤ Z.abs b.
Proof.
  intros Hk Hk' Ha Hb Hle. apply (Z.mul_le_mono_pos_l _ _ k); [done|].
  rewrite <-(Z.abs_eq k), <-!Z.abs_mul, Ha, Hb, !Z.abs_mul, (Z.abs_eq k') by lia.
  apply Z.mul_le_mono_nonneg_l; [lia|done].
Qed.

Lemma nearest_digits neg m e c q c' :
  valid (S754_finite neg m e) = true →
  shortest_digits neg m e = Some (c, q) →
  0 < c' → of_decimal neg c' q = S754_finite neg m e →
  Z.abs (c * scale_den 10 (ratio_of m e).2 q - scale_num 10 (ratio_of m e).1 q) ≤
  Z.abs (c' * scale_den 10 (ratio_of m e).2 q - scale_num 10 (ratio_of m e).1 q).
Proof.
  intros Hv (c0 & q0 & Hs0 & Hstrip)%shortest_digits_inv Hc' Hr.
  destruct (value_pos neg m e Hv) as [Hn Hd].
  destruct (shortest_first _ _ _ _ _ _ _ _ Hs0) as (_ & Hc0 & _).
  pose proof (shortest_reads_back _ _ _ _ _ _ _ _ Hs0) as [Hpos%Z.ltb_lt _]%andb_prop.
  destruct (strip_zeros_spec (S (Z.to_nat (Z.log2 c0))) c0 q0 Hpos) as (_ & Hq & Hc).
  rewrite Hstrip in Hq, Hc. cbn [fst snd] in *.
  assert (0 < 10 ^ (q - q0)) as Hj by (apply Z.pow_pos_nonneg; lia).
  pose proof (scale_shift 10 (ratio_of m e).1 (ratio_of m e).2 eq_refl q0 (q - q0)
                ltac:(lia)) as Hshift.
  rewrite Zplus_minus in Hshift.
  pose proof (scale_den_pos 10 _ eq_refl Hd q0). pose proof (scale_den_pos 10 _ eq_refl Hd q).
  eapply (abs_le_scaled (10 ^ (q - q0) * scale_den 10 (ratio_of m e).2 q0)
            (scale_den 10 (ratio_of m e).2 q)); [nia|done| | |].
  3: { apply (candidate_nearest neg _ _ _ Hn Hd (round_ratio_exact neg m e Hv)
                c0 (c' * 10 ^ (q - q0)) q0 Hc0); [nia|].
       rewrite of_decimal_scale, <-Hr by lia. f_equal. lia. }
  all: rewrite ?Hc; lia.
Qed.

(** Of two numerals with as many decimals, the larger does not convert to
    the smaller value. *)
Theorem of_decimal_mono neg c1 c2 q :
  c1 ≤ c2 → mle (of_decimal neg c1 q) (of_decimal neg c2 q).
Proof.
  intros Hc. unfold of_decimal. destruct (Z.leb_spec 0 q).
  - assert (0 < 10 ^ q) by by apply Z.pow_pos_nonneg.
    apply round_ratio_mono; [done..|nia].
  - assert (0 < 10 ^ (- q)) by (apply Z.pow_pos_nonneg; lia).
    apply round_ratio_mono; [done..|nia].
Qed.

(** * Properties *)

(** C32: the text that [repr] writes for a finite
    [float] is made of digits that [float] reads back as the very same
    value, and they are the fewest there are: no decimal number that reads
    as that value, whatever its digits and the place of its point, has
    fewer digits.  Among the decimal numbers with as many decimals that
    read as the value, the one written is nearest to the value (the
    distances are compared on the scale of the last digit, where the value
    is the fraction [scale_num / scale_den]). *)
Theorem float_repr_shortest `{UnicodeDB} neg m e :
  valid (S754_finite neg m e) = true →
  ∃ c q,
    float_repr (S754_finite neg m e) =
      sign_prefix neg ++ format_repr (digits_of c) (ndigits c + q) ∧
    float_of_str (float_repr (S754_finite neg m e)) = Some (S754_finite neg m e) ∧
    (∀ c' q', 0 < c' → of_decimal neg c' q' = S754_finite neg m e →
              ndigits c ≤ ndigits c') ∧
    (∀ c', 0 < c' → of_decimal neg c' q = S754_finite neg m e →
           Z.abs (c * scale_den 10 (ratio_of m e).2 q - scale_num 10 (ratio_of m e).1 q) ≤
           Z.abs (c' * scale_den 10 (ratio_of m e).2 q - scale_num 10 (ratio_of m e).1 q)).
Proof.
  intros Hv. destruct (shortest_digits_spec neg m e Hv) as (c & q & Hs & _).
  exists c, q. split_and!.
  - cbn [float_repr]. by rewrite Hs.
  - by apply finite_reads_back.
  - intros c' q'. by apply (fewest_digits neg m e c q).
  - intros c'. by apply nearest_digits.
Qed.

(** * Scenarios *)

(** One tenth is written with one digit. *)
Lemma float_repr_shortest_witness :
  ∃ c q,
    float_repr tenth = sign_prefix false ++ format_repr (digits_of c) (ndigits c + q) ∧
    float_of_str (float_repr tenth) = Some tenth ∧
    (∀ c' q', 0 < c' → of_decimal false c' q' = tenth → ndigits c ≤ ndigits c') ∧
    (∀ c', 0 < c' → of_decimal false c' q = tenth →
           Z.abs (c * scale_den 10 (ratio_of 7205759403792794 (-56)).2 q
                  - scale_num 10 (ratio_of 7205759403792794 (-56)).1 q) ≤
           Z.abs (c' * scale_den 10 (ratio_of 7205759403792794 (-56)).2 q
                  - scale_num 10 (ratio_of 7205759403792794 (-56)).1 q)).
Proof. apply (float_repr_shortest false 7205759403792794 (-56)). by vm_compute. Defined.

(** The nearest value to [10 ^ 23] is below it, and is written as it. *)
Example float_repr_1e23 :
  of_decimal false 1 23 = S754_finite false 5960464477539062 24 ∧
  float_repr (of_decimal false 1 23) = str "1e+23".
Proof. by vm_compute. Qed.

