(* ===== verification/FloatDigits.v ===== *)
(** * Seventeen digits are enough

    A decimal nearer to a value than half of the value's unit reads as the
    value ([of_decimal_near], from [round_ratio_near] of [FloatOrder]).
    The seventeen-digit decimal nearest to a value is that near, because
    [10 ^ 16] is more than [2 ^ 53]; so some decimal of at most seventeen
    digits reads back, and the digits [float_repr] writes, which are the
    fewest ([FloatShortest]), are at most seventeen.  The search for them
    ends in the unit of the seventeenth digit at the latest, whatever its
    fuel from 17 on ([shortest_terminates]), and the text has at most 24
    characters ([float_repr_length]). *)

From Stdlib Require Import ZArith Lia String.
From Stdlib.Floats Require Import SpecFloat.
From stdpp Require Import base tactics option list numbers.
From S2P Require Import Prelude PyStr Float64 FloatOrder PyFloat FloatRepr FloatShortest.

#[local] Open Scope Z_scope.

(** The unit of the first digit of the value [m * 2 ^ e], as a power of
    ten: where the search of [shortest_digits] starts. *)
Definition first_unit (m : positive) (e : Z) : Z :=
  ilog10_ratio (ratio_of m e).1 (ratio_of m e).2.

(** The search of [shortest_digits], with its fuel as a parameter. *)
Definition search (fuel : nat) (neg : bool) (m : positive) (e : Z) : option (Z * Z) :=
  shortest fuel neg (S754_finite neg m e) (ratio_of m e).1 (ratio_of m e).2
    (first_unit m e).

(** * A decimal near a value reads as the value *)

Lemma of_decimal_near neg m e c q :
  valid (S754_finite neg m e) = true → 0 < c →
  let N := scale_num 10 (ratio_of m e).1 q in
  let D := scale_den 10 (ratio_of m e).2 q in
  (2 * Z.pos m - 1) * N < 2 * Z.pos m * (c * D) →
  2 * Z.pos m * (c * D) < (2 * Z.pos m + 1) * N →
  (Z.pos m = 2 ^ 52 → emin < e → (4 * Z.pos m - 1) * N < 4 * Z.pos m * (c * D)) →
  of_decimal neg c q = S754_finite neg m e.
Proof.
  intros Hv Hc. cbv zeta. unfold of_decimal, scale_num, scale_den.
  assert (0 < 10 ^ Z.abs q) as Hp by (apply Z.pow_pos_nonneg; lia).
  destruct (Z.leb_spec 0 q) as [Hq|Hq]; intros Hlo Hhi Hquarter;
    rewrite ?Z.abs_eq, ?Z.abs_neq in Hp by lia;
    (apply round_ratio_near; [done|nia|lia|..]);
    try (intros H1 H2; specialize (Hquarter H1 H2)); lia.
Qed.

(** Of the two multiples of a unit [D] around [N], the nearer is nearer
    than half (and a quarter, at the least mantissa) of a part in [M] of
    [N], when [N] holds the unit [10 ^ 16] times. *)
Lemma nearest_unit M N D lo :
  0 < M < 2 ^ 53 → 0 < D → 10 ^ 16 ≤ lo → lo * D ≤ N < (lo + 1) * D →
  ∃ c, (c = lo ∨ c = lo + 1) ∧
       (2 * M - 1) * N < 2 * M * (c * D) ∧
       2 * M * (c * D) < (2 * M + 1) * N ∧
       (M = 2 ^ 52 → (4 * M - 1) * N < 4 * M * (c * D)).
Proof.
  intros HM HD Hlo HN. assert (M * D < N) as HMD by nia.
  destruct (Z.le_gt_cases (2 * (N - lo * D)) D); [exists lo|exists (lo + 1)];
    (split_and!; [auto|nia|nia|intros ->; nia]).
Qed.

(** * A decimal of seventeen digits reads back *)

Section seventeen.
Context (neg : bool) (m : positive) (e : Z).
Context (Hv : valid (S754_finite neg m e) = true).

#[local] Notation x := (S754_finite neg m e).
#[local] Notation n := (ratio_of m e).1.
#[local] Notation d := (ratio_of m e).2.
#[local] Notation q17 := (ilog10_ratio (ratio_of m e).1 (ratio_of m e).2 - 16).

(** One of the two decimals around the value in the unit of its
    seventeenth digit reads back. *)
Lemma seventeenth_unit :
  ∃ c, 10 ^ 16 ≤ c ≤ 10 ^ 17 ∧ of_decimal neg c q17 = x.
Proof.
  destruct (value_pos neg m e Hv) as [Hn Hd].
  pose proof (quotient_bounds neg m e Hv q17 ltac:(lia)) as Hlo.
  replace (ilog10_ratio n d - q17) with 16 in Hlo by lia.
  pose proof (scale_den_pos 10 d eq_refl Hd q17) as HD.
  pose proof (Z.mul_div_le (scale_num 10 n q17) _ HD).
  pose proof (Z.mul_succ_div_gt (scale_num 10 n q17) _ HD).
  destruct (valid_mantissa _ _ _ Hv) as [Hm _].
  destruct (nearest_unit (Z.pos m) (scale_num 10 n q17) (scale_den 10 d q17)
    (scale_num 10 n q17 / scale_den 10 d q17)) as (c & Hc & H1 & H2 & H3);
    [lia|done|lia|lia|].
  exists c. change (10 ^ (16 + 1)) with (10 ^ 17) in Hlo. split; [lia|].
  apply of_decimal_near; [done|lia|done..|auto].
Qed.

Lemma seventeen_digits_suffice :
  ∃ c q, 0 < c ∧ ndigits c ≤ 17 ∧ of_decimal neg c q = x.
Proof.
  destruct seventeenth_unit as (c & Hc & Hr).
  destruct (decide (c = 10 ^ 17)) as [->|Hne].
  - exists 1, (q17 + 17). split_and!; [done|by vm_compute|].
    by rewrite <-of_decimal_scale, Z.mul_1_l.
  - exists c, q17. split_and!; [lia| |done]. apply ndigits_le_pow. lia.
Qed.

(** The search does not pass the unit of the seventeenth digit. *)
Lemma search_stops fuel c0 q0 :
  shortest fuel neg x n d (ilog10_ratio n d) = Some (c0, q0) →
  q17 ≤ q0 ≤ ilog10_ratio n d.
Proof.
  intros (Hq0 & _ & Hnone)%shortest_first. split; [|done].
  destruct seventeenth_unit as (c & Hc & Hr). apply Z.nlt_ge. intros Hlt.
  destruct (value_complete neg m e Hv c q17) as [c' Hc']; [lia|done|].
  by rewrite Hnone in Hc' by lia.
Qed.

End seventeen.

(** * The range of the values *)

(** The least value is above [10 ^ (-324)]. *)
Lemma value_above neg m e :
  valid (S754_finite neg m e) = true →
  ratio_ge_pow 10 (ratio_of m e).1 (ratio_of m e).2 (-324) = true.
Proof.
  intros [_ Hmin]%valid_mantissa.
  change (ratio_ge_pow 10 ?n ?d (-324)) with (d <=? n * 10 ^ 324).
  assert (2 ^ 1074 ≤ 10 ^ 324) as Hc by by vm_compute.
  assert (0 < 2 ^ 1074) as Hc' by by vm_compute.
  apply Z.leb_le. unfold ratio_of. destruct (Z.leb_spec 0 e); cbn [fst snd].
  - assert (0 < Z.pos m * 2 ^ e) by (apply Z.mul_pos_pos; [done|by apply Z.pow_pos_nonneg]).
    revert Hc Hc'. generalize (2 ^ 1074) (10 ^ 324). intros A P HAP HA. nia.
  - assert (2 ^ (- e) ≤ 2 ^ 1074) as He
      by (apply Z.pow_le_mono_r; unfold emin in *; lia).
    revert Hc Hc' He. generalize (2 ^ 1074) (10 ^ 324). intros A P HAP HA He. nia.
Qed.

(** The greatest value is below [10 ^ 309]. *)
Lemma value_below neg m e :
  valid (S754_finite neg m e) = true →
  ratio_ge_pow 10 (ratio_of m e).1 (ratio_of m e).2 309 = false.
Proof.
  intros Hv. destruct (valid_mantissa _ _ _ Hv) as [Hm _].
  destruct (valid_finite_inv _ _ _ Hv) as [_ Hmax].
  change (ratio_ge_pow 10 ?n ?d 309) with (d * 10 ^ 309 <=? n).
  assert (2 ^ 53 * 2 ^ 971 ≤ 10 ^ 309) as Hc by by vm_compute.
  assert (0 < 2 ^ 971) as Hc' by by vm_compute.
  apply Z.leb_gt. unfold ratio_of. destruct (Z.leb_spec 0 e); cbn [fst snd].
  - assert (2 ^ e ≤ 2 ^ 971) by (apply Z.pow_le_mono_r; unfold emax, prec in *; lia).
    assert (0 < 2 ^ e) by by apply Z.pow_pos_nonneg.
    revert Hc Hc' H0. generalize (2 ^ 971) (10 ^ 309). intros A P HAP HA He. nia.
  - assert (0 < 2 ^ (- e)) by (apply Z.pow_pos_nonneg; lia).
    revert Hc Hc'. generalize (2 ^ 971) (10 ^ 309). intros A P HAP HA. nia.
Qed.

Lemma ilog10_ratio_range neg m e :
  valid (S754_finite neg m e) = true →
  -324 ≤ ilog10_ratio (ratio_of m e).1 (ratio_of m e).2 ≤ 308.
Proof.
  intros Hv. destruct (value_pos neg m e Hv) as [Hn Hd].
  destruct (ilog10_ratio_spec _ _ Hn Hd) as [Hge Hlt].
  pose proof (value_above neg m e Hv) as Hlo. pose proof (value_below neg m e Hv) as Hhi.
  split; apply Z.nlt_ge; intros Hq.
  - apply (ratio_ge_pow_mono 10 _ _ eq_refl Hd
             (ilog10_ratio (ratio_of m e).1 (ratio_of m e).2 + 1)) in Hlo; [|lia].
    congruence.
  - apply (ratio_ge_pow_mono 10 _ _ eq_refl Hd 309) in Hge; [|lia]. congruence.
Qed.

(** * The digits that [float_repr] writes *)

Lemma ndigits_unique c k : 1 ≤ k → 10 ^ (k - 1) ≤ c < 10 ^ k → ndigits c = k.
Proof.
  intros Hk Hc. assert (0 < 10 ^ (k - 1)) by (apply Z.pow_pos_nonneg; lia).
  pose proof (ndigits_le_pow c k ltac:(lia)).
  pose proof (ndigits_ge_pow c (k - 1) ltac:(lia) ltac:(lia)). lia.
Qed.

Lemma ndigits_scale c j : 0 < c → 0 ≤ j → ndigits (c * 10 ^ j) = ndigits c + j.
Proof.
  intros Hc Hj. destruct (ndigits_spec c Hc) as (H1 & Hlo & Hhi).
  assert (0 < 10 ^ j) by by apply Z.pow_pos_nonneg.
  apply ndigits_unique; [lia|].
  replace (ndigits c + j - 1) with (ndigits c - 1 + j) by lia.
  rewrite !Z.pow_add_r by lia. nia.
Qed.

Section written.
Context (neg : bool) (m : positive) (e : Z).
Context (Hv : valid (S754_finite neg m e) = true).
Context (c q : Z) (Hs : shortest_digits neg m e = Some (c, q)).

#[local] Notation qs := (ilog10_ratio (ratio_of m e).1 (ratio_of m e).2).

(** At most seventeen digits. *)
Lemma shortest_digits_count : 1 ≤ ndigits c ≤ 17.
Proof.
  pose proof (shortest_digits_pos _ _ _ _ _ Hs) as Hc.
  destruct (ndigits_spec c Hc) as [H1 _]. split; [done|].
  destruct (seventeen_digits_suffice neg m e Hv) as (c' & q' & Hc' & H17 & Hr).
  pose proof (fewest_digits neg m e c q c' q' Hv Hs Hc' Hr). lia.
Qed.

(** The point stands after the place of the first digit of the value, or
    one place further when the digits round up to a power of ten. *)
Lemma shortest_digits_point : qs + 1 ≤ ndigits c + q ≤ qs + 2.
Proof.
  destruct (shortest_digits_inv _ _ _ _ _ Hs) as (c0 & q0 & Hs0 & Hstrip).
  destruct (shortest_first _ _ _ _ _ _ _ _ Hs0) as (Hq0 & Hc%candidate_neighbour & _).
  pose proof (quotient_bounds neg m e Hv q0 Hq0) as Hb.
  assert (0 < 10 ^ (qs - q0)) by (apply Z.pow_pos_nonneg; lia).
  destruct (strip_zeros_spec (S (Z.to_nat (Z.log2 c0))) c0 q0) as (Hpos & Hq & Hc0);
    [lia|].
  rewrite Hstrip in Hpos, Hq, Hc0. cbn [fst snd] in *.
  pose proof (ndigits_scale c (q - q0) Hpos ltac:(lia)) as Hn. rewrite <-Hc0 in Hn.
  pose proof (ndigits_ge_pow c0 (qs - q0) ltac:(lia) ltac:(lia)).
  assert (c0 < 10 ^ (qs - q0 + 2)).
  { replace (qs - q0 + 2) with (Z.succ (qs - q0 + 1)) by lia.
    rewrite Z.pow_succ_r by lia. lia. }
  pose proof (ndigits_le_pow c0 (qs - q0 + 2) ltac:(lia)). lia.
Qed.

End written.

(** * The length of the text *)

Lemma exponent_text_length e :
  -1000 < e < 1000 → (length (exponent_text e) ≤ 4)%nat.
Proof.
  intros He. destruct (decide (e = 0)) as [->|Hne]; [vm_compute; lia|].
  pose proof (ndigits_le_pow (Z.abs e) 3 ltac:(change (10 ^ 3) with 1000; lia)).
  unfold exponent_text, ndigits in *.
  destruct (Z.ltb_spec (Z.abs e) 10); cbn [length]; [|lia].
  pose proof (ndigits_le_pow (Z.abs e) 1 ltac:(change (10 ^ 1) with 10; lia)).
  unfold ndigits in *. lia.
Qed.

Lemma format_repr_length ds decpt :
  (1 ≤ length ds ≤ 17)%nat → -999 < decpt < 1000 →
  (length (format_repr ds decpt) ≤ 23)%nat.
Proof.
  intros Hds Hpt. pose proof (exponent_text_length (decpt - 1) ltac:(lia)).
  unfold format_repr, zeros. cbv zeta.
  repeat case_match;
    rewrite ?length_app, ?length_cons, ?length_app, ?length_take, ?length_drop,
      ?length_replicate, ?length_nil;
    cbn [length]; lia.
Qed.

(** The digits of a finite value and the place of their point. *)
Theorem float_repr_digits neg m e :
  valid (S754_finite neg m e) = true →
  ∃ c q,
    float_repr (S754_finite neg m e) =
      sign_prefix neg ++ format_repr (digits_of c) (ndigits c + q) ∧
    1 ≤ ndigits c ≤ 17 ∧ -323 ≤ ndigits c + q ≤ 310.
Proof.
  intros Hv. destruct (shortest_digits_spec neg m e Hv) as (c & q & Hs & _).
  exists c, q. pose proof (shortest_digits_point neg m e Hv c q Hs).
  pose proof (ilog10_ratio_range neg m e Hv).
  pose proof (shortest_digits_count neg m e Hv c q Hs).
  split_and!; [cbn [float_repr]; by rewrite Hs|lia..].
Qed.

(** * Properties *)

(** The text that [repr] writes for a [float] has at most 24 characters: a
    sign, at most seventeen digits, a point, and an exponent of at most
    three digits with its [e] and its sign. *)
Theorem float_repr_length x : valid x = true → (length (float_repr x) ≤ 24)%nat.
Proof.
  destruct x as [[]|[]| |neg m e]; [intros _; vm_compute; lia..|].
  intros (c & q & -> & Hc & Hq)%float_repr_digits.
  pose proof (format_repr_length (digits_of c) (ndigits c + q)) as Hlen.
  rewrite length_app. unfold ndigits in *.
  destruct neg; cbn [sign_prefix length]; lia.
Qed.

(** C33: the search for the digits of a float comes to
    an end, and its fuel is not what ends it: from the unit of the first
    digit of the value it finds digits that read back in that unit or in
    one of the sixteen below it, so that seventeen units of fuel, and any
    more, give the same digits.  [float_repr], which searches with fuel
    [search_fuel], never runs out. *)
Theorem shortest_terminates neg m e :
  valid (S754_finite neg m e) = true →
  ∃ c0 q0,
    first_unit m e - 16 ≤ q0 ≤ first_unit m e ∧
    reads_back neg (S754_finite neg m e) c0 q0 = true ∧
    (∀ fuel, (17 ≤ fuel)%nat → search fuel neg m e = Some (c0, q0)) ∧
    shortest_digits neg m e = Some (strip_zeros (S (Z.to_nat (Z.log2 c0))) c0 q0).
Proof.
  intros Hv. destruct (shortest_total neg m e Hv) as [[c0 q0] Hs].
  pose proof (search_stops neg m e Hv _ c0 q0 Hs) as Hq.
  pose proof (shortest_reads_back _ _ _ _ _ _ _ _ Hs) as Hr.
  destruct (shortest_first _ _ _ _ _ _ _ _ Hs) as (_ & Hc & Hnone).
  exists c0, q0. unfold search, first_unit. split_and!; [lia..|done| |].
  - intros fuel Hf. apply shortest_found; [lia|done|done|lia].
  - unfold shortest_digits. rewrite (surjective_pairing (ratio_of m e)).
    cbn [fst snd]. by rewrite Hs.
Qed.

(** * Scenarios *)

(** Seventeen digits, a sign and an exponent of three digits: the longest
    text there is. *)
Definition longest : float64 := S754_finite true 6355009312518531 280.

Example float_repr_longest :
  float_repr longest = str "-1.2345678901234567e+100" ∧
  length (float_repr longest) = 24%nat.
Proof. by vm_compute. Qed.

Lemma float_repr_length_witness : (length (float_repr longest) ≤ 24)%nat.
Proof. apply float_repr_length. by vm_compute. Defined.

(** One tenth is found in the first unit. *)
Lemma shortest_terminates_witness :
  ∃ c0 q0,
    first_unit 7205759403792794 (-56) - 16 ≤ q0 ≤ first_unit 7205759403792794 (-56) ∧
    reads_back false tenth c0 q0 = true ∧
    (∀ fuel, (17 ≤ fuel)%nat →
       search fuel false 7205759403792794 (-56) = Some (c0, q0)) ∧
    shortest_digits false 7205759403792794 (-56) =
      Some (strip_zeros (S (Z.to_nat (Z.log2 c0))) c0 q0).
Proof. apply (shortest_terminates false 7205759403792794 (-56)). by vm_compute. Defined.

(** The seventeenth unit is reached: these digits are found by the last
    of seventeen steps and by no fewer. *)
Example search_seventeen :
  search 17 true 6355009312518531 280 = Some (12345678901234567, 84) ∧
  search 16 true 6355009312518531 280 = None.
Proof. by vm_compute. Qed.
