(* ===== verification/PyExn.v ===== *)
(** * Python exceptions

    An exception is a class and the text [str(e)] gives.  The classes are
    the ones the program can meet, with the builtin hierarchy between them:
    an [except C] clause catches the exceptions whose class derives from
    [C].  [src/app.py] has five such clauses: [serial.SerialException] (line
    15), [FileNotFoundError] (43), [KeyError] (47), [ValueError] (87) and
    [Exception] (91). *)

From Stdlib Require Import ZArith String.
From stdpp Require Import base tactics option list.
From S2P Require Import Prelude PyStr.

Inductive exn_class :=
| BaseException
| SystemExit
| KeyboardInterrupt
| Exception
| ValueError
| UnicodeError
| UnicodeDecodeError
| OSError
| FileNotFoundError
| SerialException
| LookupError
| KeyError
| NameError
| UnboundLocalError
| AttributeError
| TypeError
| RuntimeError.

#[export] Instance exn_class_eq_dec : EqDecision exn_class.
Proof. solve_decision. Defined.

(** The class a class derives from; [BaseException] is the root.
    [serial.SerialException] derives from [IOError], which is [OSError]. *)
Definition base (c : exn_class) : option exn_class :=
  match c with
  | BaseException => None
  | SystemExit | KeyboardInterrupt | Exception => Some BaseException
  | ValueError | OSError | LookupError | NameError | AttributeError
  | TypeError | RuntimeError => Some Exception
  | UnicodeError => Some ValueError
  | UnicodeDecodeError => Some UnicodeError
  | FileNotFoundError | SerialException => Some OSError
  | KeyError => Some LookupError
  | UnboundLocalError => Some NameError
  end.

(** The depth of a class in the hierarchy bounds the walk to the root. *)
Fixpoint mro_from (fuel : nat) (c : exn_class) : list exn_class :=
  match fuel with
  | O => [c]
  | S n =>
    match base c with
    | Some b => c :: mro_from n b
    | None => [c]
    end
  end.

(** The class and its ancestors, nearest first.  No class is deeper than
    four. *)
Definition mro (c : exn_class) : list exn_class := mro_from 4 c.

Definition issubclass (c d : exn_class) : bool := bool_decide (d ∈ mro c).

Record pyexn := PyExn { exn_class_of : exn_class; exn_str : pystr }.

#[export] Instance pyexn_eq_dec : EqDecision pyexn.
Proof. solve_decision. Defined.

(** [isinstance(e, C)]: what [except C] tests. *)
Definition isinstance (e : pyexn) (c : exn_class) : bool :=
  issubclass (exn_class_of e) c.

(** ** The hierarchy *)

Lemma mro_complete c : last (mro c) = Some BaseException.
Proof. by destruct c. Qed.

Lemma issubclass_refl c : issubclass c c = true.
Proof. by destruct c. Qed.

Lemma issubclass_base c b d :
  base c = Some b → issubclass b d = true → issubclass c d = true.
Proof. destruct c; intros [= <-]; destruct d; done. Qed.

Lemma issubclass_trans c d e :
  issubclass c d = true → issubclass d e = true → issubclass c e = true.
Proof. destruct c, d; try done; destruct e; done. Qed.

Lemma issubclass_antisym c d :
  issubclass c d = true → issubclass d c = true → c = d.
Proof. destruct c, d; done. Qed.

Lemma issubclass_BaseException c : issubclass c BaseException = true.
Proof. by destruct c. Qed.

(** What derives from [ValueError] derives from [Exception]: the second
    handler of [read_arduino] would catch what the first one does. *)
Lemma isinstance_ValueError_Exception e :
  isinstance e ValueError = true → isinstance e Exception = true.
Proof. intros He. eapply issubclass_trans; [exact He|done]. Qed.
