(* ===== verification/SensorData.v ===== *)
(** * The shared record [sensor_data]

    Line 54 of [src/app.py] creates the module-level dict that the ingest
    thread writes and the [/data] route reads.  It is a finite map from keys
    to Python values; a store [sensor_data[k] = v] is an insertion.  The
    keys never change: [wf_keys] is the invariant, [view] the five values as
    a record. *)

From Stdlib Require Import ZArith String.
From Stdlib.Floats Require Import SpecFloat.
From stdpp Require Import base tactics option list gmap strings.
From S2P Require Import Prelude PyStr Float64.

#[local] Open Scope string_scope.

(** ** Values *)

(** The Python values the dict holds: the placeholders are an [int] and a
    [str], a reading is a [float], a label is what a model predicts:
    element 0 of the array [predict] returns, a numpy scalar of the type of
    the label column.  [numpy.str_] and [numpy.float64] derive from [str]
    and [float] and are [PStr] and [PFloat] here; [numpy.int64] and
    [numpy.bool_] derive from neither [int] nor [bool]. *)
Inductive pyval :=
| PInt (n : Z)
| PFloat (x : float64)
| PStr (s : pystr)
| PNpInt (n : Z)
| PNpBool (b : bool).

#[export] Instance pyval_eq_dec : EqDecision pyval.
Proof. solve_decision. Defined.

(** [isinstance(v, (int, float))] *)
Definition is_number (v : pyval) : bool :=
  match v with
  | PInt _ | PFloat _ => true
  | PStr _ | PNpInt _ | PNpBool _ => false
  end.

(** A numpy scalar whose class derives from no builtin type:
    [not isinstance(v, (str, int, float))]. *)
Definition numpy_only (v : pyval) : bool :=
  match v with
  | PNpInt _ | PNpBool _ => true
  | PInt _ | PFloat _ | PStr _ => false
  end.

(** ** The dict *)

Abbreviation dict := (gmap string pyval) (only parsing).

(** [sensor_data = {'temp': 0, 'hum': 0, 'soil': 0, 'crop': 'N/A',
    'advice': 'N/A'}] *)
Definition sensor_data_init : dict :=
  <["advice" := PStr (str "N/A")]>
    (<["crop" := PStr (str "N/A")]>
      (<["soil" := PInt 0]> (<["hum" := PInt 0]> (<["temp" := PInt 0]> ∅)))).

(** [d[k] = v] *)
Definition setitem (k : string) (v : pyval) (d : dict) : dict := <[k := v]> d.

Definition keys : gset string := {["temp"; "hum"; "soil"; "crop"; "advice"]}.

(** The dict has the five keys and no other. *)
Definition wf_keys (d : dict) : Prop := dom d = keys.

(** The three readings are numbers. *)
Definition wf_readings (d : dict) : Prop :=
  ∀ k, k ∈ ["temp"; "hum"; "soil"] → ∃ v, d !! k = Some v ∧ is_number v = true.

(** ** The record view *)

Record shared_record := SharedRecord {
  r_temp : pyval;
  r_hum : pyval;
  r_soil : pyval;
  r_crop : pyval;
  r_advice : pyval
}.

#[export] Instance shared_record_eq_dec : EqDecision shared_record.
Proof. solve_decision. Defined.

Definition view (d : dict) : option shared_record :=
  t ← d !! "temp"; h ← d !! "hum"; s ← d !! "soil";
  c ← d !! "crop"; a ← d !! "advice";
  Some (SharedRecord t h s c a).

Definition of_record (r : shared_record) : dict :=
  <["advice" := r_advice r]>
    (<["crop" := r_crop r]>
      (<["soil" := r_soil r]> (<["hum" := r_hum r]> (<["temp" := r_temp r]> ∅)))).

Definition placeholder : shared_record :=
  SharedRecord (PInt 0) (PInt 0) (PInt 0) (PStr (str "N/A")) (PStr (str "N/A")).

(** ** Keys *)

Lemma keys_elem k :
  k ∈ keys ↔ k = "temp" ∨ k = "hum" ∨ k = "soil" ∨ k = "crop" ∨ k = "advice".
Proof. unfold keys. set_solver. Qed.

Lemma wf_keys_init : wf_keys sensor_data_init.
Proof. unfold wf_keys, sensor_data_init, keys. rewrite !dom_insert_L. set_solver. Qed.

Lemma wf_keys_lookup d k : wf_keys d → k ∈ keys → is_Some (d !! k).
Proof. intros Hd Hk. apply elem_of_dom. by rewrite Hd. Qed.

Lemma wf_keys_lookup_None d k : wf_keys d → k ∉ keys → d !! k = None.
Proof. intros Hd Hk. apply not_elem_of_dom. by rewrite Hd. Qed.

(** A store to one of the five keys keeps the key set. *)
Lemma wf_keys_setitem d k v : wf_keys d → k ∈ keys → wf_keys (setitem k v d).
Proof.
  unfold wf_keys, setitem. intros Hd Hk. rewrite dom_insert_L, Hd. set_solver.
Qed.

(** A store to another key breaks it: the guard [k ∈ keys] is needed. *)
Lemma wf_keys_setitem_inv d k v : wf_keys d → wf_keys (setitem k v d) → k ∈ keys.
Proof.
  unfold wf_keys, setitem. intros Hd Hk. rewrite dom_insert_L, Hd in Hk.
  set_solver.
Qed.

Lemma setitem_lookup d k v : setitem k v d !! k = Some v.
Proof. apply lookup_insert_eq. Qed.

Lemma setitem_lookup_ne d k k' v : k ≠ k' → setitem k v d !! k' = d !! k'.
Proof. apply lookup_insert_ne. Qed.

Lemma setitem_setitem d k v v' : setitem k v (setitem k v' d) = setitem k v d.
Proof. apply insert_insert_eq. Qed.

Lemma setitem_comm d k k' v v' :
  k ≠ k' → setitem k v (setitem k' v' d) = setitem k' v' (setitem k v d).
Proof. intros. by apply insert_insert_ne. Qed.

(** ** The view *)

Lemma view_init : view sensor_data_init = Some placeholder.
Proof. reflexivity. Qed.

Lemma view_of_record r : view (of_record r) = Some r.
Proof. by destruct r. Qed.

Lemma view_is_Some d : wf_keys d → is_Some (view d).
Proof.
  intros Hd. unfold view.
  destruct (wf_keys_lookup d "temp" Hd) as [t ->]; [by apply keys_elem; auto|].
  destruct (wf_keys_lookup d "hum" Hd) as [h ->]; [by apply keys_elem; auto|].
  destruct (wf_keys_lookup d "soil" Hd) as [s ->]; [by apply keys_elem; auto|].
  destruct (wf_keys_lookup d "crop" Hd) as [c ->]; [by apply keys_elem; auto 6|].
  destruct (wf_keys_lookup d "advice" Hd) as [a ->]; [by apply keys_elem; auto 6|].
  by eexists.
Qed.

(** A well-formed dict is its view: nothing else is in it. *)
Lemma of_record_view d r : wf_keys d → view d = Some r → of_record r = d.
Proof.
  intros Hd Hv. apply map_eq. intros k.
  unfold view in Hv. simplify_option_eq. unfold of_record. simpl.
  destruct (decide (k ∈ keys)) as [Hk|Hk].
  - apply keys_elem in Hk. destruct_or!; subst; by simplify_map_eq.
  - rewrite (wf_keys_lookup_None d k Hd Hk).
    rewrite keys_elem in Hk. rewrite !lookup_insert_ne by naive_solver. done.
Qed.

Lemma wf_keys_of_record r : wf_keys (of_record r).
Proof. unfold wf_keys, of_record, keys. rewrite !dom_insert_L. set_solver. Qed.
