(* ===== verification/Ingest.v ===== *)
(** * The ingest loop: [read_arduino]

    Lines 57-95 of [src/app.py].  One iteration of the [while True] loop is
    [iteration]: the body of the [try] statement ([try_body]) in the
    state-and-exception monad, under the two [except] clauses ([handle]).
    The state is what the thread can change: the dict [sensor_data], its
    local variable [line] (unbound until the first assignment) and what it
    has printed and slept so far ([trace]).  What the serial port returns
    and what the models predict come from outside: a [read_result] per
    iteration and a [models] record of two functions that may raise. *)

From Stdlib Require Import ZArith String.
From Stdlib.Strings Require Import Byte.
From Stdlib.Floats Require Import SpecFloat.
From stdpp Require Import base tactics option list gmap strings.
From S2P Require Import Prelude Utf8 PyStr Float64 PyFloat PyExn SensorData.

#[local] Open Scope string_scope.

(** ** What comes from outside *)

(** [arduino.readline()]: the bytes received before the line ended or the
    time ran out (none, possibly), or an exception. *)
Inductive read_result :=
| ReadBytes (bs : list byte)
| ReadRaises (e : pyexn).

(** A fitted classifier: [predict] on the one-row frame with columns
    Temperature, Humidity, SoilMoisture, and element 0 of the result. *)
Record model := Model {
  predict : float64 → float64 → float64 → outcome pyexn pyval
}.

(** The globals [crop_model] and [irrigation_model]: [None] until
    fitted. *)
Record models := Models {
  crop_model : option model;
  irrigation_model : option model
}.

(** ** What the thread does to the outside *)

Inductive event :=
| EPrint (text : pystr)
| ESleep (seconds : Z).

#[export] Instance event_eq_dec : EqDecision event.
Proof. solve_decision. Defined.

(** ** State *)

Record state := State {
  sensor_data : gmap string pyval;
  line : option pystr;
  trace : list event
}.

Abbreviation M := (stexn state pyexn) (only parsing).

Definition initial : state := State sensor_data_init None [].

(** The state with one component replaced. *)
Definition set_data (d : gmap string pyval) (st : state) : state :=
  State d (line st) (trace st).
Definition set_line (l : pystr) (st : state) : state :=
  State (sensor_data st) (Some l) (trace st).
Definition log (e : event) (st : state) : state :=
  State (sensor_data st) (line st) (trace st ++ [e]).

(** [sensor_data[k] = v] *)
Definition store (k : string) (v : pyval) : M unit :=
  st_modify (λ st, set_data (setitem k v (sensor_data st)) st).

(** [line = l] *)
Definition assign_line (l : pystr) : M unit := st_modify (set_line l).

Definition unbound_line : pyexn :=
  PyExn UnboundLocalError
    (str "cannot access local variable 'line' where it is not associated with a value").

(** Reading the local [line]: an error while it is unbound. *)
Definition load_line : M pystr := λ st,
  match line st with
  | Some l => (st, Ok l)
  | None => (st, Raise unbound_line)
  end.

Definition print (text : pystr) : M unit := st_modify (log (EPrint text)).
Definition sleep (seconds : Z) : M unit := st_modify (log (ESleep seconds)).

(** ** The calls that may raise *)

Definition readline (r : read_result) : outcome pyexn (list byte) :=
  match r with
  | ReadBytes bs => Ok bs
  | ReadRaises e => Raise e
  end.

(** What the two conversions raise.  The text of these exceptions is cut
    short: no handler of the program prints it. *)
Definition decode_error : pyexn :=
  PyExn UnicodeDecodeError (str "'utf-8' codec can't decode bytes").
Definition float_error : pyexn :=
  PyExn ValueError (str "could not convert string to float").

Definition decode_utf8 (bs : list byte) : outcome pyexn pystr :=
  outcome_of_option decode_error (decode bs).

Section with_db.
Context `{UnicodeDB}.

Definition py_float (s : pystr) : outcome pyexn float64 :=
  outcome_of_option float_error (float_of_str s).

(** [temp, hum, soil = map(float, values)]: the fields are converted from
    left to right and the first failure raises.  The last case needs a list
    that is not of length three, which line 68 has excluded. *)
Definition unpack3 (values : list pystr) :
    outcome pyexn (float64 * float64 * float64) :=
  match values with
  | [a; b; c] =>
    t ← py_float a; h ← py_float b; s ← py_float c; Ok (t, h, s)
  | _ => Raise (PyExn ValueError (str "wrong number of values to unpack"))
  end.

(** ** One iteration *)

(** Lines 71-73: the three stores, in this order. *)
Definition store_reading (t h s : float64) : M unit :=
  store "temp" (PFloat t);;
  store "hum" (PFloat h);;
  store "soil" (PFloat s).

(** Lines 76-82.  [if crop_model and irrigation_model:] holds when both
    are fitted models: a fitted forest has a positive length, hence is
    true.  The crop is predicted and stored before the irrigation advice is
    predicted. *)
Definition predict_and_store (ms : models) (t h s : float64) : M unit :=
  match crop_model ms, irrigation_model ms with
  | Some cm, Some im =>
    c ← st_lift (predict cm t h s);
    store "crop" c;;
    a ← st_lift (predict im t h s);
    store "advice" a
  | _, _ => mret tt
  end.

(** Lines 65-82: what is done with the stripped line. *)
Definition process_line (ms : models) (l : pystr) : M unit :=
  when (truthy l) (
    let values := split comma l in
    when (bool_decide (length values = 3%nat)) (
      '(temp, hum, soil) ← st_lift (unpack3 values);
      store_reading temp hum soil;;
      predict_and_store ms temp hum soil)).

(** Lines 64-82, the body of the [try]. *)
Definition try_body (ms : models) (r : read_result) : M unit :=
  raw ← st_lift (readline r);
  text ← st_lift (decode_utf8 raw);
  let l := strip text in
  assign_line l;;
  process_line ms l.

(** Lines 87-95, the two [except] clauses, tried in order; an exception
    that neither catches leaves the loop. *)
Definition handle (e : pyexn) : M unit :=
  if isinstance e ValueError then
    l ← load_line;
    print (str "Non-numeric data received: " ++ l)
  else if isinstance e Exception then
    print (str "Error reading from Arduino: " ++ exn_str e);;
    sleep 1
  else st_raise e.

Definition iteration (ms : models) (r : read_result) : M unit :=
  st_try (try_body ms r) handle.

(** ** The loop *)

(** [while True] over the results of the successive [readline] calls: the
    execution up to the end of the list, or up to the iteration from which
    an exception escapes. *)
Fixpoint loop (ms : models) (rs : list read_result) : M unit :=
  match rs with
  | [] => mret tt
  | r :: rs' => iteration ms r;; loop ms rs'
  end.

(** Lines 57-62.  The port is what its [readline] calls return. *)
Definition read_arduino (arduino : option (list read_result)) (ms : models) :
    M unit :=
  match arduino with
  | None =>
    print (str "Arduino connection failed, background thread not running.")
  | Some rs => loop ms rs
  end.

End with_db.

(** * What an iteration does, case by case *)

(** ** The pure part: what a line is *)

Inductive parsed :=
| Blank
| WrongCount (l : pystr) (n : nat)
| NonNumeric (l : pystr) (e : pyexn)
| Values (l : pystr) (t h s : float64).

Section parse.
Context `{UnicodeDB}.

(** Lines 65-69 without the stores: the guards and the conversions. *)
Definition parse_line (l : pystr) : parsed :=
  if truthy l then
    let values := split comma l in
    if bool_decide (length values = 3%nat) then
      match unpack3 values with
      | Ok (t, h, s) => Values l t h s
      | Raise e => NonNumeric l e
      end
    else WrongCount l (length values)
  else Blank.

(** The dict after lines 71-73. *)
Definition with_reading (t h s : float64) (d : gmap string pyval) :
    gmap string pyval :=
  setitem "soil" (PFloat s) (setitem "hum" (PFloat h) (setitem "temp" (PFloat t) d)).

(** The dict after lines 81-82, when both predictions return. *)
Definition with_labels (c a : pyval) (d : gmap string pyval) :
    gmap string pyval :=
  setitem "advice" a (setitem "crop" c d).

Implicit Types (st : state) (ms : models) (l : pystr) (e : pyexn).

(** ** The blocks of the body *)

Lemma store_bind {B} k v (f : unit → M B) st :
  (store k v ≫= f) st = f tt (set_data (setitem k v (sensor_data st)) st).
Proof. reflexivity. Qed.

Lemma store_reading_run t h s st :
  store_reading t h s st = (set_data (with_reading t h s (sensor_data st)) st, Ok tt).
Proof. reflexivity. Qed.

Lemma predict_and_store_none ms t h s st :
  crop_model ms = None ∨ irrigation_model ms = None →
  predict_and_store ms t h s st = (st, Ok tt).
Proof.
  unfold predict_and_store. intros [-> | ->]; [done|]. by destruct (crop_model ms).
Qed.

Lemma predict_and_store_ok ms cm im t h s c a st :
  crop_model ms = Some cm → irrigation_model ms = Some im →
  predict cm t h s = Ok c → predict im t h s = Ok a →
  predict_and_store ms t h s st =
    (set_data (with_labels c a (sensor_data st)) st, Ok tt).
Proof.
  intros Hcm Him Hc Ha. unfold predict_and_store. rewrite Hcm, Him.
  by rewrite stexn_lift_bind, Hc, store_bind, stexn_lift_bind, Ha.
Qed.

Lemma predict_and_store_crop_raises ms cm im t h s e st :
  crop_model ms = Some cm → irrigation_model ms = Some im →
  predict cm t h s = Raise e →
  predict_and_store ms t h s st = (st, Raise e).
Proof.
  intros Hcm Him Hc. unfold predict_and_store. rewrite Hcm, Him.
  by rewrite stexn_lift_bind, Hc.
Qed.

Lemma predict_and_store_advice_raises ms cm im t h s c e st :
  crop_model ms = Some cm → irrigation_model ms = Some im →
  predict cm t h s = Ok c → predict im t h s = Raise e →
  predict_and_store ms t h s st =
    (set_data (setitem "crop" c (sensor_data st)) st, Raise e).
Proof.
  intros Hcm Him Hc Ha. unfold predict_and_store. rewrite Hcm, Him.
  by rewrite stexn_lift_bind, Hc, store_bind, stexn_lift_bind, Ha.
Qed.

(** [process_line] is [parse_line] followed by the stores. *)
Lemma process_line_run ms l st :
  process_line ms l st =
  match parse_line l with
  | Blank | WrongCount _ _ => (st, Ok tt)
  | NonNumeric _ e => (st, Raise e)
  | Values _ t h s =>
    predict_and_store ms t h s (set_data (with_reading t h s (sensor_data st)) st)
  end.
Proof.
  unfold process_line, parse_line.
  destruct (truthy l); [|done]. rewrite when_true.
  destruct (bool_decide _); [|done]. rewrite when_true.
  rewrite stexn_lift_bind. by destruct (unpack3 _) as [[[t h] s]|e].
Qed.

(** ** The body of the [try] *)

Lemma try_body_read_raises ms e st : try_body ms (ReadRaises e) st = (st, Raise e).
Proof. reflexivity. Qed.

Lemma try_body_undecodable ms bs st :
  decode bs = None →
  try_body ms (ReadBytes bs) st = (st, Raise decode_error).
Proof.
  intros Hd. unfold try_body. rewrite stexn_lift_bind. cbn [readline].
  rewrite stexn_lift_bind. unfold decode_utf8. by rewrite Hd.
Qed.

Lemma try_body_decoded ms bs text st :
  decode bs = Some text →
  try_body ms (ReadBytes bs) st =
    process_line ms (strip text) (set_line (strip text) st).
Proof.
  intros Hd. unfold try_body. rewrite stexn_lift_bind. cbn [readline].
  rewrite stexn_lift_bind. unfold decode_utf8. by rewrite Hd.
Qed.

(** ** The handlers *)

Lemma handle_value_error e l st :
  isinstance e ValueError = true → line st = Some l →
  handle e st =
    (log (EPrint (str "Non-numeric data received: " ++ l)) st, Ok tt).
Proof.
  intros He Hl. unfold handle, load_line. rewrite He.
  by rewrite stexn_bind_unfold, Hl.
Qed.

Lemma handle_value_error_unbound e st :
  isinstance e ValueError = true → line st = None →
  handle e st = (st, Raise unbound_line).
Proof.
  intros He Hl. unfold handle, load_line. rewrite He.
  by rewrite stexn_bind_unfold, Hl.
Qed.

Lemma handle_exception e st :
  isinstance e ValueError = false → isinstance e Exception = true →
  handle e st =
    (log (ESleep 1) (log (EPrint (str "Error reading from Arduino: " ++ exn_str e)) st),
     Ok tt).
Proof. intros Hv He. unfold handle. by rewrite Hv, He. Qed.

Lemma handle_uncaught e st :
  isinstance e Exception = false → handle e st = (st, Raise e).
Proof.
  intros He. unfold handle. rewrite He.
  destruct (isinstance e ValueError) eqn:Hv; [|done].
  apply isinstance_ValueError_Exception in Hv. congruence.
Qed.

(** ** Lines *)

(** A well-formed line: three fields, each a numeral. *)
Definition well_formed (text : pystr) (t h s : float64) : Prop :=
  ∃ a b c, split comma (strip text) = [a; b; c] ∧
    float_of_str a = Some t ∧ float_of_str b = Some h ∧ float_of_str c = Some s.

(** Three fields, one of which is no numeral. *)
Definition non_numeric (text : pystr) : Prop :=
  ∃ a b c, split comma (strip text) = [a; b; c] ∧
    (float_of_str a = None ∨ float_of_str b = None ∨ float_of_str c = None).

Lemma split_truthy l n : length (split comma l) = S (S n) → truthy l = true.
Proof. by destruct l. Qed.

Lemma unpack3_ok a b c t h s :
  float_of_str a = Some t → float_of_str b = Some h → float_of_str c = Some s →
  unpack3 [a; b; c] = Ok (t, h, s).
Proof. unfold unpack3, py_float. by intros -> -> ->. Qed.

Lemma unpack3_raise a b c :
  float_of_str a = None ∨ float_of_str b = None ∨ float_of_str c = None →
  unpack3 [a; b; c] = Raise float_error.
Proof.
  unfold unpack3, py_float.
  destruct (float_of_str a), (float_of_str b), (float_of_str c); naive_solver.
Qed.

Lemma parse_line_well_formed text t h s :
  well_formed text t h s → parse_line (strip text) = Values (strip text) t h s.
Proof.
  intros (a & b & c & Hsp & Ha & Hb & Hc). unfold parse_line.
  rewrite (split_truthy _ 1), Hsp by by rewrite Hsp.
  by rewrite bool_decide_eq_true_2, (unpack3_ok _ _ _ t h s).
Qed.

Lemma parse_line_non_numeric text :
  non_numeric text → parse_line (strip text) = NonNumeric (strip text) float_error.
Proof.
  intros (a & b & c & Hsp & Hf). unfold parse_line.
  rewrite (split_truthy _ 1), Hsp by by rewrite Hsp.
  by rewrite bool_decide_eq_true_2, unpack3_raise.
Qed.

Lemma parse_line_wrong_count l :
  length (split comma l) ≠ 3%nat →
  parse_line l = Blank ∨ parse_line l = WrongCount l (length (split comma l)).
Proof.
  intros Hn. unfold parse_line. destruct (truthy l); [|by left].
  rewrite bool_decide_eq_false_2 by done. by right.
Qed.

(** The body of the [try] on each kind of line. *)
Lemma try_body_wrong_count ms bs text st :
  decode bs = Some text → length (split comma (strip text)) ≠ 3%nat →
  try_body ms (ReadBytes bs) st = (set_line (strip text) st, Ok tt).
Proof.
  intros Hd Hn. rewrite (try_body_decoded _ _ text), process_line_run by done.
  by destruct (parse_line_wrong_count _ Hn) as [-> | ->].
Qed.

Lemma try_body_non_numeric ms bs text st :
  decode bs = Some text → non_numeric text →
  try_body ms (ReadBytes bs) st = (set_line (strip text) st, Raise float_error).
Proof.
  intros Hd Hn. rewrite (try_body_decoded _ _ text), process_line_run by done.
  by rewrite parse_line_non_numeric.
Qed.

Lemma try_body_well_formed ms bs text t h s st :
  decode bs = Some text → well_formed text t h s →
  try_body ms (ReadBytes bs) st =
    predict_and_store ms t h s
      (set_data (with_reading t h s (sensor_data st)) (set_line (strip text) st)).
Proof.
  intros Hd Hw. rewrite (try_body_decoded _ _ text), process_line_run by done.
  by rewrite (parse_line_well_formed _ t h s).
Qed.

(** The four cases are all there is. *)
Lemma parse_line_cases text :
  length (split comma (strip text)) ≠ 3%nat ∨ non_numeric text ∨
  ∃ t h s, well_formed text t h s.
Proof.
  destruct (decide (length (split comma (strip text)) = 3%nat)) as [Hn|]; [|auto].
  right. destruct (split comma (strip text)) as [|a [|b [|c [|]]]] eqn:Hsp; try done.
  unfold non_numeric, well_formed. rewrite Hsp.
  destruct (float_of_str a) as [t|] eqn:Ha; [|naive_solver].
  destruct (float_of_str b) as [h|] eqn:Hb; [|naive_solver].
  destruct (float_of_str c) as [s|] eqn:Hc; naive_solver.
Qed.

End parse.

(** * Properties of one iteration *)

Section iteration.
Context `{UnicodeDB}.
Implicit Types (st : state) (ms : models) (l text : pystr) (e : pyexn).

(** The record a well-formed line publishes. *)
Definition published (t h s : float64) (c a : pyval) : shared_record :=
  SharedRecord (PFloat t) (PFloat h) (PFloat s) c a.

Lemma with_labels_reading t h s c a d :
  wf_keys d → with_labels c a (with_reading t h s d) = of_record (published t h s c a).
Proof.
  intros Hd. symmetry. apply of_record_view.
  - unfold with_labels, with_reading. repeat apply wf_keys_setitem; try done;
      apply keys_elem; auto 6.
  - unfold view, with_labels, with_reading, setitem. by simplify_map_eq.
Qed.

(** A well-formed line whose two predictions return: the five stores. *)
Lemma iteration_stores ms cm im bs text t h s c a st :
  decode bs = Some text → well_formed text t h s →
  crop_model ms = Some cm → irrigation_model ms = Some im →
  predict cm t h s = Ok c → predict im t h s = Ok a →
  iteration ms (ReadBytes bs) st =
    (State (with_labels c a (with_reading t h s (sensor_data st)))
       (Some (strip text)) (trace st), Ok tt).
Proof.
  intros Hd Hw Hcm Him Hc Ha. unfold iteration. apply st_try_ok.
  rewrite (try_body_well_formed _ _ text t h s) by done.
  by erewrite predict_and_store_ok.
Qed.

(** C1: a well-formed line ["t,h,s"], with both models
    fitted and both predictions returning, leaves the shared record equal to
    [{temp: t, hum: h, soil: s, crop: crop_model(t,h,s),
    advice: irrigation_model(t,h,s)}]; nothing is printed and no exception
    is raised. *)
Theorem iteration_publishes ms cm im bs text t h s c a st :
  wf_keys (sensor_data st) →
  decode bs = Some text → well_formed text t h s →
  crop_model ms = Some cm → irrigation_model ms = Some im →
  predict cm t h s = Ok c → predict im t h s = Ok a →
  iteration ms (ReadBytes bs) st =
    (State (of_record (published t h s c a)) (Some (strip text)) (trace st), Ok tt).
Proof.
  intros Hwf Hd Hw Hcm Him Hc Ha.
  rewrite (iteration_stores ms cm im bs text t h s c a) by done.
  by rewrite with_labels_reading.
Qed.

(** C9: a line that does not split into exactly
    three fields (an empty line included) changes neither the shared record
    nor the output: it is skipped without a message. *)
Theorem iteration_skips_wrong_count ms bs text st :
  decode bs = Some text → length (split comma (strip text)) ≠ 3%nat →
  iteration ms (ReadBytes bs) st = (set_line (strip text) st, Ok tt).
Proof.
  intros Hd Hn. unfold iteration. by apply st_try_ok, try_body_wrong_count.
Qed.

(** C4: a line of three fields one of which is not a
    numeral leaves the shared record as it was, prints
    ["Non-numeric data received: <line>"] once, does not sleep, and the
    loop goes on. *)
Theorem iteration_non_numeric ms bs text st :
  decode bs = Some text → non_numeric text →
  iteration ms (ReadBytes bs) st =
    (State (sensor_data st) (Some (strip text))
       (trace st ++ [EPrint (str "Non-numeric data received: " ++ strip text)]),
     Ok tt).
Proof.
  intros Hd Hn. unfold iteration.
  erewrite st_try_raise by by apply try_body_non_numeric.
  by rewrite (handle_value_error _ (strip text)).
Qed.

(** C10: when [readline] raises an exception that is
    not a [ValueError], the shared record and [line] are unchanged, the
    error is printed with its text, and the thread sleeps one second. *)
Theorem iteration_read_error ms e st :
  isinstance e Exception = true → isinstance e ValueError = false →
  iteration ms (ReadRaises e) st =
    (State (sensor_data st) (line st)
       (trace st ++ [EPrint (str "Error reading from Arduino: " ++ exn_str e);
                     ESleep 1]),
     Ok tt).
Proof.
  intros He Hv. unfold iteration. erewrite st_try_raise by apply try_body_read_raises.
  rewrite handle_exception by done. unfold log. simpl. by rewrite <-app_assoc.
Qed.

(** C5: if the bytes of the very first read are not
    valid UTF-8, the handler of [ValueError] reads the local [line] before
    any assignment to it: [UnboundLocalError] is raised inside the handler
    and leaves the loop. *)
Theorem first_read_undecodable ms bs st :
  decode bs = None → line st = None →
  iteration ms (ReadBytes bs) st = (st, Raise unbound_line).
Proof.
  intros Hd Hl. unfold iteration. erewrite st_try_raise by by apply try_body_undecodable.
  by apply handle_value_error_unbound.
Qed.

(** C17: bytes that are not valid UTF-8, once
    [line] is bound, are reported as non-numeric data with the text of the
    line read before; the thread does not sleep. *)
Theorem undecodable_logs_stale_line ms bs l st :
  decode bs = None → line st = Some l →
  iteration ms (ReadBytes bs) st =
    (State (sensor_data st) (Some l)
       (trace st ++ [EPrint (str "Non-numeric data received: " ++ l)]), Ok tt).
Proof.
  intros Hd Hl. unfold iteration. erewrite st_try_raise by by apply try_body_undecodable.
  rewrite (handle_value_error _ l) by done. unfold log. by rewrite Hl.
Qed.

(** The five stores of a line overwrite those of the same line. *)
Lemma with_labels_reading_idemp t h s c a d :
  with_labels c a (with_reading t h s (with_labels c a (with_reading t h s d))) =
  with_labels c a (with_reading t h s d).
Proof.
  apply map_eq. intros k. unfold with_labels, with_reading, setitem.
  rewrite !lookup_insert. by repeat case_decide.
Qed.

(** C16: feeding the same valid line twice leaves
    the state the first time left: the same shared record, the same [line],
    nothing printed. *)
Theorem valid_line_idempotent ms cm im bs text t h s c a st :
  decode bs = Some text → well_formed text t h s →
  crop_model ms = Some cm → irrigation_model ms = Some im →
  predict cm t h s = Ok c → predict im t h s = Ok a →
  loop ms [ReadBytes bs; ReadBytes bs] st = iteration ms (ReadBytes bs) st.
Proof.
  intros Hd Hw Hcm Him Hc Ha. simpl.
  pose proof (iteration_stores ms cm im bs text t h s c a) as Hit.
  rewrite (stexn_bind_ok _ _ _ _ _ (Hit st Hd Hw Hcm Him Hc Ha)).
  rewrite stexn_bind_unfold, !Hit by done. simpl.
  by rewrite with_labels_reading_idemp.
Qed.

End iteration.

(** * Scenarios

    Concrete runs: the spec's scenarios, and the inputs at which the
    theorems above are applied. *)

Definition bytes_of (s : string) : list byte := list_byte_of_string s.

(** A line as the board sends it, ended by a carriage return and a line
    feed. *)
Definition serial_line (s : string) : read_result :=
  ReadBytes (bytes_of s ++ [x0d; x0a]).

Definition constant_model (label : string) : model :=
  Model (λ _ _ _, Ok (PStr (str label))).

(** Two models that answer "Wheat" and "Yes" whatever the reading. *)
Definition wheat_yes : models :=
  Models (Some (constant_model "Wheat")) (Some (constant_model "Yes")).

(** A crop model that refuses its input, as a fitted forest does for an
    infinite feature: it raises [ValueError]. *)
Definition refusing_model : model :=
  Model (λ _ _ _, Raise (PyExn ValueError (str "Input X contains infinity")))%Z.

Definition device_lost : pyexn :=
  PyExn SerialException (str "device reports readiness to read but returned no data").

Lemma iteration_publishes_witness :
  iteration wheat_yes (serial_line "25.0,60.0,40.0") initial =
    (State
       (of_record (published (of_decimal false 250 (-1)) (of_decimal false 600 (-1))
                     (of_decimal false 400 (-1)) (PStr (str "Wheat")) (PStr (str "Yes"))))
       (Some (strip (str "25.0,60.0,40.0" ++ [13; 10]%Z))) [], Ok tt).
Proof.
  apply (iteration_publishes wheat_yes (constant_model "Wheat") (constant_model "Yes")).
  - apply wf_keys_init.
  - vm_compute. reflexivity.
  - exists (str "25.0"), (str "60.0"), (str "40.0"). vm_compute. auto.
  - reflexivity.
  - reflexivity.
  - reflexivity.
  - reflexivity.
Defined.

Lemma iteration_skips_wrong_count_witness :
  iteration wheat_yes (serial_line "25.0,60.0") initial =
    (set_line (strip (str "25.0,60.0" ++ [13; 10]%Z)) initial, Ok tt).
Proof.
  apply iteration_skips_wrong_count.
  - vm_compute. reflexivity.
  - vm_compute. lia.
Defined.

Lemma iteration_non_numeric_witness :
  iteration wheat_yes (serial_line "abc,60.0,40.0") initial =
    (State sensor_data_init (Some (strip (str "abc,60.0,40.0" ++ [13; 10]%Z)))
       [EPrint (str "Non-numeric data received: "
                  ++ strip (str "abc,60.0,40.0" ++ [13; 10]%Z))], Ok tt).
Proof.
  apply (iteration_non_numeric wheat_yes _ _ initial).
  - vm_compute. reflexivity.
  - exists (str "abc"), (str "60.0"), (str "40.0"). vm_compute. auto.
Defined.

Lemma iteration_read_error_witness :
  iteration wheat_yes (ReadRaises device_lost) initial =
    (State sensor_data_init None
       [EPrint (str "Error reading from Arduino: " ++ exn_str device_lost);
        ESleep 1], Ok tt).
Proof. apply (iteration_read_error wheat_yes device_lost initial); reflexivity. Defined.

Lemma first_read_undecodable_witness :
  iteration wheat_yes (ReadBytes [xff]) initial = (initial, Raise unbound_line).
Proof. apply first_read_undecodable; reflexivity. Defined.

Lemma undecodable_logs_stale_line_witness :
  iteration wheat_yes (ReadBytes [xff])
      (State sensor_data_init (Some (str "1,2,3")) []) =
    (State sensor_data_init (Some (str "1,2,3"))
       [EPrint (str "Non-numeric data received: " ++ str "1,2,3")], Ok tt).
Proof.
  apply (undecodable_logs_stale_line wheat_yes _ _
           (State sensor_data_init (Some (str "1,2,3")) [])); reflexivity.
Defined.

Lemma valid_line_idempotent_witness :
  loop wheat_yes [serial_line "25.0,60.0,40.0"; serial_line "25.0,60.0,40.0"] initial =
    iteration wheat_yes (serial_line "25.0,60.0,40.0") initial.
Proof.
  apply (valid_line_idempotent wheat_yes (constant_model "Wheat") (constant_model "Yes")
           _ (str "25.0,60.0,40.0" ++ [13; 10]%Z)%list
           (of_decimal false 250 (-1)) (of_decimal false 600 (-1))
           (of_decimal false 400 (-1)) (PStr (str "Wheat")) (PStr (str "Yes"))).
  - vm_compute. reflexivity.
  - exists (str "25.0"), (str "60.0"), (str "40.0"). vm_compute. auto.
  - reflexivity.
  - reflexivity.
  - reflexivity.
  - reflexivity.
Defined.
