(* ===== verification/IngestInv.v ===== *)
(** * Invariants and safety of the ingest loop

    What holds of every state the thread of [Ingest] can reach, whatever the
    port returns and the models do: the shape of the shared record, the
    output that only grows, the binding of [line]; and which exceptions can
    leave the loop.  The invariants are relations between the state a block
    starts from and the state it ends in, proved block by block with the
    rules of [Prelude]. *)

From Stdlib Require Import ZArith String.
From Stdlib.Strings Require Import Byte.
From stdpp Require Import base tactics option list gmap strings.
From S2P Require Import Prelude Utf8 PyStr Float64 PyFloat PyExn SensorData Ingest.

#[local] Open Scope string_scope.

(** ** The relation every block maintains *)

Record evolves (st st' : state) : Prop := Evolves {
  ev_keys : wf_keys (sensor_data st) → wf_keys (sensor_data st');
  ev_readings : wf_readings (sensor_data st) → wf_readings (sensor_data st');
  ev_trace : trace st `prefix_of` trace st';
  ev_line : is_Some (line st) → is_Some (line st');
  ev_unbound :
    line st' = None → line st = None ∧ sensor_data st' = sensor_data st
}.

#[export] Instance evolves_preorder : PreOrder evolves.
Proof.
  split.
  - intros st. split; auto.
  - intros st1 st2 st3 [] []. split; auto.
    + by etrans.
    + intros Hl. destruct (ev_unbound1 Hl) as [Hl2 ->]. auto.
Qed.

Lemma evolves_set_line l st : evolves st (set_line l st).
Proof. split; simpl; auto. done. Qed.

Lemma evolves_log e st : evolves st (log e st).
Proof. split; simpl; auto. by apply prefix_app_r. Qed.

(** A store to one of the five keys, of a number if the key is a reading,
    once [line] is bound. *)
Lemma evolves_store k v st :
  k ∈ keys → (k ∈ ["temp"; "hum"; "soil"] → is_number v = true) →
  is_Some (line st) →
  evolves st (set_data (setitem k v (sensor_data st)) st).
Proof.
  intros Hk Hv Hl. split; simpl; auto.
  - intros Hd. by apply wf_keys_setitem.
  - intros Hr k' Hk'. destruct (decide (k = k')) as [<-|Hne].
    + exists v. rewrite setitem_lookup. auto.
    + rewrite setitem_lookup_ne by done. by apply Hr.
  - intros Hn. rewrite Hn in Hl. by destruct Hl.
Qed.

(** ** Blocks *)

Section blocks.
Context `{UnicodeDB}.
Implicit Types (st : state) (ms : models) (r : read_result).

(** What the environment may raise is caught by [except Exception]:
    [KeyboardInterrupt] and [SystemExit] are not. *)
Definition read_catchable (r : read_result) : Prop :=
  ∀ e, r = ReadRaises e → isinstance e Exception = true.

Definition models_catchable (ms : models) : Prop :=
  ∀ m t h s e,
    crop_model ms = Some m ∨ irrigation_model ms = Some m →
    predict m t h s = Raise e → isinstance e Exception = true.

(** The shape the dashboard relies on: the five keys, and numbers for the
    three readings. *)
Definition well_shaped (st : state) : Prop :=
  wf_keys (sensor_data st) ∧ wf_readings (sensor_data st).

(** [c] maintains [evolves] when started with [line] bound. *)
Definition evolves_bound {A} (c : stexn state pyexn A) : Prop :=
  ∀ st st' o, is_Some (line st) → c st = (st', o) → evolves st st'.

Lemma evolves_bound_store k v :
  k ∈ keys → (k ∈ ["temp"; "hum"; "soil"] → is_number v = true) →
  evolves_bound (store k v).
Proof. intros Hk Hv st st' o Hl [= <- _]. by apply evolves_store. Qed.

Lemma evolves_bound_bind {A B} (c : stexn state pyexn A) (k : A → stexn state pyexn B) :
  evolves_bound c → (∀ a, evolves_bound (k a)) → evolves_bound (c ≫= k).
Proof.
  intros Hc Hk st st' o Hl. rewrite stexn_bind_unfold.
  destruct (c st) as [st1 [a|e]] eqn:Hcs.
  - intros Hks. pose proof (Hc _ _ _ Hl Hcs) as H1.
    etrans; [done|]. eapply Hk; [|done]. by apply (ev_line _ _ H1).
  - intros [= <- _]. by eapply Hc.
Qed.

Lemma evolves_bound_preserves {A} (c : stexn state pyexn A) :
  preserves evolves c → evolves_bound c.
Proof. intros Hc st st' o _. apply Hc. Qed.

Lemma evolves_bound_when b (c : stexn state pyexn unit) :
  evolves_bound c → evolves_bound (when b c).
Proof.
  destruct b; [done|]. intros _.
  apply evolves_bound_preserves, preserves_ret, _.
Qed.

#[local] Hint Resolve evolves_bound_store evolves_bound_bind evolves_bound_when : py.
#[local] Hint Extern 1 (_ ∈ keys) => (apply keys_elem; auto 6) : py.
#[local] Hint Extern 1 (_ ∈ _ → is_number _ = true) => (by intros _) : py.
#[local] Hint Extern 2 (_ ∈ _ → is_number _ = true) =>
  (by intros ?%list_elem_of_In; simpl in *; intuition discriminate) : py.
#[local] Hint Extern 1 (evolves_bound (st_lift _)) =>
  (apply evolves_bound_preserves, preserves_lift, _) : py.
#[local] Hint Extern 1 (evolves_bound (mret _)) =>
  (apply evolves_bound_preserves, preserves_ret, _) : py.

Lemma store_reading_evolves t h s : evolves_bound (store_reading t h s).
Proof. unfold store_reading. auto 10 with py. Qed.

Lemma predict_and_store_evolves ms t h s :
  evolves_bound (predict_and_store ms t h s).
Proof.
  unfold predict_and_store.
  destruct (crop_model ms), (irrigation_model ms); auto 10 with py.
Qed.

Lemma process_line_evolves ms l : evolves_bound (process_line ms l).
Proof.
  unfold process_line. apply evolves_bound_when, evolves_bound_when.
  apply evolves_bound_bind; [auto with py|]. intros [[t h] s].
  apply evolves_bound_bind; auto using store_reading_evolves, predict_and_store_evolves.
Qed.

Lemma try_body_evolves ms r : preserves evolves (try_body ms r).
Proof.
  unfold try_body.
  apply preserves_bind; [apply _|apply preserves_lift, _|]. intros raw.
  apply preserves_bind; [apply _|apply preserves_lift, _|]. intros text.
  intros st st' o. rewrite stexn_bind_unfold. simpl. intros Hp.
  etrans; [apply (evolves_set_line (strip text))|].
  by eapply process_line_evolves; [|done].
Qed.

Lemma handle_evolves e : preserves evolves (handle e).
Proof.
  unfold handle. destruct (isinstance e ValueError).
  - intros st st' o. unfold load_line. rewrite stexn_bind_unfold.
    destruct (line st); [|by intros [= <- _]].
    intros [= <- _]. apply evolves_log.
  - destruct (isinstance e Exception); [|apply preserves_raise, _].
    apply preserves_bind; [apply _| |intros _];
      apply preserves_modify; try apply _; intros; apply evolves_log.
Qed.

Lemma iteration_evolves ms r : preserves evolves (iteration ms r).
Proof.
  apply preserves_try; [apply _|apply try_body_evolves|apply handle_evolves].
Qed.

Lemma loop_evolves ms rs : preserves evolves (loop ms rs).
Proof.
  induction rs as [|r rs IH]; simpl.
  - apply preserves_ret, _.
  - apply preserves_bind; [apply _|apply iteration_evolves|done].
Qed.

(** ** Exceptions *)

Lemma unpack3_raises values e :
  unpack3 values = Raise e → isinstance e ValueError = true.
Proof.
  unfold unpack3, py_float.
  destruct values as [|a [|b [|c [|]]]]; try by intros [= <-].
  by destruct (float_of_str a), (float_of_str b), (float_of_str c);
    intros [= <-].
Qed.

Lemma predict_and_store_raises ms t h s :
  models_catchable ms →
  raises_in (λ e, isinstance e Exception = true) (predict_and_store ms t h s).
Proof.
  intros Hm. unfold predict_and_store.
  destruct (crop_model ms) as [cm|] eqn:Hcm; [|apply raises_in_ret].
  destruct (irrigation_model ms) as [im|] eqn:Him; [|apply raises_in_ret].
  apply raises_in_bind; [|intros c].
  { apply raises_in_lift. intros e He. eapply (Hm cm); eauto. }
  apply raises_in_bind; [apply raises_in_modify|intros _].
  apply raises_in_bind; [|intros a; apply raises_in_modify].
  apply raises_in_lift. intros e He. eapply (Hm im); eauto.
Qed.

Lemma process_line_raises ms l :
  models_catchable ms →
  raises_in (λ e, isinstance e Exception = true) (process_line ms l).
Proof.
  intros Hm. unfold process_line. do 2 apply raises_in_when.
  apply raises_in_bind; [|intros [[t h] s]].
  { apply raises_in_lift. intros e He.
    by apply unpack3_raises, isinstance_ValueError_Exception in He. }
  apply raises_in_bind; [|intros _; by apply predict_and_store_raises].
  unfold store_reading. repeat (apply raises_in_bind; [|intros _]);
    apply raises_in_modify.
Qed.

Lemma try_body_raises ms r :
  read_catchable r → models_catchable ms →
  raises_in (λ e, isinstance e Exception = true) (try_body ms r).
Proof.
  intros Hr Hm. unfold try_body.
  apply raises_in_bind; [|intros raw].
  { apply raises_in_lift. intros e He. destruct r; simplify_eq/=. by apply Hr. }
  apply raises_in_bind; [|intros text].
  { apply raises_in_lift. intros e He. unfold decode_utf8 in He.
    by apply outcome_of_option_Raise in He as [_ <-]. }
  apply raises_in_bind; [apply raises_in_modify|intros _].
  by apply process_line_raises.
Qed.

Lemma handle_returns e st :
  isinstance e Exception = true → is_Some (line st) →
  ∃ st', handle e st = (st', Ok tt).
Proof.
  intros He [l Hl]. destruct (isinstance e ValueError) eqn:Hv.
  - rewrite (handle_value_error e l) by done. eauto.
  - rewrite handle_exception by done. eauto.
Qed.

(** With [line] bound and an environment that raises only what
    [except Exception] catches, an iteration returns. *)
Lemma iteration_returns ms r st :
  read_catchable r → models_catchable ms → is_Some (line st) →
  ∃ st', iteration ms r st = (st', Ok tt) ∧ is_Some (line st').
Proof.
  intros Hr Hm Hl. unfold iteration, st_try.
  destruct (try_body ms r st) as [st1 [[]|e]] eqn:Hb.
  - eexists. split; [done|]. by eapply ev_line, Hl; eapply try_body_evolves.
  - assert (is_Some (line st1)) as Hl1.
    { by eapply ev_line, Hl; eapply try_body_evolves. }
    destruct (handle_returns e st1) as [st' Hh]; [by eapply try_body_raises|done|].
    exists st'. split; [done|]. by eapply ev_line, Hl1; eapply handle_evolves.
Qed.

(** In such an environment the one exception that leaves an iteration is
    the [UnboundLocalError] of the handler. *)
Lemma iteration_raise_inv ms r st st' e :
  read_catchable r → models_catchable ms →
  iteration ms r st = (st', Raise e) → e = unbound_line ∧ line st' = None.
Proof.
  intros Hr Hm. unfold iteration, st_try.
  destruct (try_body ms r st) as [st1 [[]|e1]] eqn:Hb; [done|].
  apply try_body_raises in Hb; [|done..]. intros Hh.
  destruct (line st1) as [l|] eqn:Hl1.
  - destruct (handle_returns e1 st1) as [? Hh']; [done|by rewrite Hl1|congruence].
  - destruct (isinstance e1 ValueError) eqn:Hv.
    + rewrite handle_value_error_unbound in Hh by done. by simplify_eq.
    + by rewrite handle_exception in Hh.
Qed.

End blocks.

(** * Properties of the loop *)

Section loop.
Context `{UnicodeDB}.
Implicit Types (st : state) (ms : models) (rs : list read_result).

Lemma wf_readings_init : wf_readings sensor_data_init.
Proof.
  intros k Hk. exists (PInt 0). apply list_elem_of_In in Hk. simpl in Hk.
  by destruct_or!; subst.
Qed.

(** C3: whatever the port returns and the models do,
    and whether or not the thread has died, the shared record reached from
    the initial one has exactly the keys temp, hum, soil, crop and advice,
    and its three readings are numbers. *)
Theorem loop_shape_invariant ms rs st o :
  loop ms rs initial = (st, o) → well_shaped st.
Proof.
  intros Hrun. apply loop_evolves in Hrun as [Hk Hr _ _ _].
  split; [apply Hk, wf_keys_init|apply Hr, wf_readings_init].
Qed.

(** C6: once a line has been decoded, no
    iteration lets an exception out, as long as the port and the models
    raise only exceptions that derive from [Exception]: the loop runs to the
    end of any sequence of reads. *)
Theorem loop_never_dies_once_bound ms rs st :
  Forall read_catchable rs → models_catchable ms → is_Some (line st) →
  ∃ st', loop ms rs st = (st', Ok tt).
Proof.
  intros Hrs Hm. revert st. induction Hrs as [|r rs Hr _ IH]; intros st Hl.
  - by exists st.
  - destruct (iteration_returns ms r st) as (st1 & Hit & Hl1); [done..|].
    destruct (IH st1 Hl1) as [st' Hrun]. exists st'.
    simpl. by rewrite (stexn_bind_ok _ _ _ _ _ Hit).
Qed.

(** C7: in such an environment the thread can die
    in one way only: with [UnboundLocalError], before any line was decoded,
    the shared record still holding its placeholders. *)
Theorem loop_dies_only_unbound ms rs st e :
  Forall read_catchable rs → models_catchable ms →
  loop ms rs initial = (st, Raise e) →
  e = unbound_line ∧ line st = None ∧ sensor_data st = sensor_data_init.
Proof.
  intros Hrs Hm. change sensor_data_init with (sensor_data initial).
  generalize initial. induction Hrs as [|r rs Hr _ IH]; intros st0; [done|].
  simpl. rewrite stexn_bind_unfold.
  destruct (iteration ms r st0) as [st1 [[]|e1]] eqn:Hit.
  - intros Hrun. destruct (IH _ Hrun) as (-> & Hl & Hd).
    apply loop_evolves in Hrun. destruct (ev_unbound _ _ Hrun Hl) as [Hl1 _].
    apply iteration_evolves in Hit. destruct (ev_unbound _ _ Hit Hl1) as [_ Hd1].
    split_and!; [done..|congruence].
  - intros [= <- <-]. destruct (iteration_raise_inv _ _ _ _ _ Hr Hm Hit) as [-> Hl].
    split_and!; [done..|]. by apply iteration_evolves, ev_unbound in Hit as [_ ->].
Qed.

End loop.

(** * Scenarios *)

(** Noise, a lost device, then a good line. *)
Definition noisy_reads : list read_result :=
  [ReadBytes [xff]; ReadRaises device_lost; serial_line "25.0,60.0,40.0"].

Lemma wheat_yes_catchable : models_catchable wheat_yes.
Proof. by intros m t h s e [[= <-]|[= <-]]. Qed.

Lemma noisy_reads_catchable : Forall read_catchable noisy_reads.
Proof. repeat constructor; by intros e [= <-]. Qed.

Lemma loop_shape_invariant_witness :
  well_shaped (loop wheat_yes noisy_reads initial).1.
Proof.
  apply (loop_shape_invariant wheat_yes noisy_reads _
           (loop wheat_yes noisy_reads initial).2).
  apply surjective_pairing.
Defined.

Lemma loop_never_dies_once_bound_witness :
  ∃ st', loop wheat_yes noisy_reads (set_line (str "1,2,3") initial) = (st', Ok tt).
Proof.
  apply loop_never_dies_once_bound.
  - apply noisy_reads_catchable.
  - apply wheat_yes_catchable.
  - by eexists.
Defined.

Lemma loop_dies_only_unbound_witness :
  unbound_line = unbound_line ∧
  line (loop wheat_yes noisy_reads initial).1 = None ∧
  sensor_data (loop wheat_yes noisy_reads initial).1 = sensor_data_init.
Proof.
  apply (loop_dies_only_unbound wheat_yes noisy_reads).
  - apply noisy_reads_catchable.
  - apply wheat_yes_catchable.
  - vm_compute. reflexivity.
Defined.
