(* ===== verification/IngestRuns.v ===== *)
(** * The ingest loop against its specification

    The spec describes an iteration as Read, Parse and, on success,
    Predict-and-Publish: a valid line replaces the shared record, anything
    else leaves it alone.  [spec_step] is that description, on the record
    only; [loop_refines_spec] shows that the loop of [Ingest] implements it
    when both models are fitted and return, and [last_valid_wins] what a
    whole run amounts to.  The end of the file has the runs in which the
    code leaves the description: a prediction that raises. *)

From Stdlib Require Import ZArith String.
From Stdlib.Strings Require Import Byte.
From stdpp Require Import base tactics option list gmap strings.
From S2P Require Import Prelude Utf8 PyStr Float64 PyFloat PyExn SensorData.
From S2P Require Import Ingest IngestInv.

#[local] Open Scope string_scope.

Section spec.
Context `{UnicodeDB}.
Implicit Types (st : state) (ms : models) (r : read_result) (d : gmap string pyval).

(** ** The specification *)

(** The reading a read carries, if it is a valid line. *)
Definition reading_of (r : read_result) : option (float64 * float64 * float64) :=
  match r with
  | ReadRaises _ => None
  | ReadBytes bs =>
    text ← decode bs;
    match parse_line (strip text) with
    | Values _ t h s => Some (t, h, s)
    | _ => None
    end
  end.

(** Both models are fitted and never raise. *)
Definition models_total (ms : models) : Prop :=
  ∃ cm im, crop_model ms = Some cm ∧ irrigation_model ms = Some im ∧
    ∀ t h s, is_ok (predict cm t h s) = true ∧ is_ok (predict im t h s) = true.

(** The two labels for a reading, when both models are fitted and
    return. *)
Definition labels_of (ms : models) (t h s : float64) : option (pyval * pyval) :=
  cm ← crop_model ms; im ← irrigation_model ms;
  c ← outcome_to_option (predict cm t h s);
  a ← outcome_to_option (predict im t h s);
  Some (c, a).

(** One iteration, on the shared record. *)
Definition spec_step (ms : models) (d : gmap string pyval) (r : read_result) :
    gmap string pyval :=
  match reading_of r with
  | Some (t, h, s) =>
    match labels_of ms t h s with
    | Some (c, a) => of_record (published t h s c a)
    | None => d
    end
  | None => d
  end.

Definition spec_run (ms : models) (d : gmap string pyval) (rs : list read_result) :
    gmap string pyval :=
  foldl (spec_step ms) d rs.

(** The last valid reading of a run, if it has one. *)
Definition last_reading (rs : list read_result) :
    option (float64 * float64 * float64) :=
  last (omap reading_of rs).

(** ** Reads and lines *)

Lemma reading_of_well_formed bs text t h s :
  decode bs = Some text → well_formed text t h s →
  reading_of (ReadBytes bs) = Some (t, h, s).
Proof.
  intros Hd Hw. unfold reading_of. rewrite Hd. simpl.
  by rewrite (parse_line_well_formed _ t h s).
Qed.

Lemma reading_of_Some r t h s :
  reading_of r = Some (t, h, s) →
  ∃ bs text, r = ReadBytes bs ∧ decode bs = Some text ∧
    parse_line (strip text) = Values (strip text) t h s.
Proof.
  destruct r as [bs|e]; [|done]. unfold reading_of.
  destruct (decode bs) as [text|] eqn:Hd; [|done]. simpl.
  destruct (parse_line (strip text)) as [| | |l t' h' s'] eqn:Hp; try done.
  intros [= -> -> ->]. exists bs, text. split_and!; [done..|].
  unfold parse_line in *. by repeat case_match; simplify_eq.
Qed.

Lemma labels_of_total ms t h s :
  models_total ms → is_Some (labels_of ms t h s).
Proof.
  intros (cm & im & Hcm & Him & Htot). unfold labels_of. rewrite Hcm, Him. simpl.
  destruct (Htot t h s) as [[c ->]%is_ok_true [a ->]%is_ok_true]. by eexists.
Qed.

Lemma labels_of_Some ms t h s c a :
  labels_of ms t h s = Some (c, a) →
  ∃ cm im, crop_model ms = Some cm ∧ irrigation_model ms = Some im ∧
    predict cm t h s = Ok c ∧ predict im t h s = Ok a.
Proof.
  unfold labels_of. intros Hl.
  destruct (crop_model ms) as [cm|], (irrigation_model ms) as [im|];
    simplify_eq/=.
  destruct (predict cm t h s) as [c'|] eqn:Hc, (predict im t h s) as [a'|] eqn:Ha;
    simplify_eq/=. exists cm, im. auto.
Qed.

(** ** What does not touch the record *)

Definition same_data : relation state := λ st st', sensor_data st' = sensor_data st.

#[export] Instance same_data_preorder : PreOrder same_data.
Proof. split; [done|]. intros st1 st2 st3. unfold same_data. congruence. Qed.

Lemma handle_same_data e : preserves same_data (handle e).
Proof.
  unfold handle. destruct (isinstance e ValueError).
  - intros st st' o. unfold load_line. rewrite stexn_bind_unfold.
    destruct (line st); by intros [= <- _].
  - destruct (isinstance e Exception); [|apply preserves_raise, _].
    apply preserves_bind; [apply _| |intros _];
      by apply preserves_modify; try apply _.
Qed.

(** An iteration whose body raised before the first store. *)
Lemma iteration_same_data ms r st st1 e :
  try_body ms r st = (st1, Raise e) → sensor_data st1 = sensor_data st →
  ∀ st' o, iteration ms r st = (st', o) → sensor_data st' = sensor_data st.
Proof.
  intros Hb Hd st' o. unfold iteration. rewrite (st_try_raise _ _ _ _ _ Hb).
  intros Hh%handle_same_data. unfold same_data in Hh. congruence.
Qed.

(** A read that carries no reading leaves the record alone, whatever the
    models are. *)
Lemma iteration_no_reading ms r st st' o :
  reading_of r = None → iteration ms r st = (st', o) →
  sensor_data st' = sensor_data st.
Proof.
  destruct r as [bs|e]; [|intros _; by apply iteration_same_data with st e].
  destruct (decode bs) as [text|] eqn:Hd; last first.
  { intros _. eapply iteration_same_data; [by apply try_body_undecodable|done]. }
  destruct (parse_line_cases text) as [Hn|[Hn|(t & h & s & Hw)]].
  - intros _. unfold iteration.
    rewrite (st_try_ok _ _ _ _ _ (try_body_wrong_count ms _ _ st Hd Hn)).
    by intros [= <- _].
  - intros _. eapply iteration_same_data; [by apply try_body_non_numeric|done].
  - by rewrite (reading_of_well_formed _ text t h s).
Qed.

Lemma loop_no_reading ms rs st st' o :
  Forall (λ r, reading_of r = None) rs → loop ms rs st = (st', o) →
  sensor_data st' = sensor_data st.
Proof.
  intros Hrs. revert st. induction Hrs as [|r rs Hr _ IH]; intros st.
  - by intros [= <- _].
  - simpl. rewrite stexn_bind_unfold.
    destruct (iteration ms r st) as [st1 [[]|e]] eqn:Hit.
    + intros ->%IH. by eapply iteration_no_reading.
    + intros [= <- _]. by eapply iteration_no_reading.
Qed.

(** ** Refinement *)

Lemma iteration_spec_step ms r st st' o :
  models_total ms → wf_keys (sensor_data st) →
  iteration ms r st = (st', o) →
  sensor_data st' = spec_step ms (sensor_data st) r.
Proof.
  intros Hm Hwf. unfold spec_step.
  destruct r as [bs|e]; [|by apply iteration_same_data with st e].
  destruct (decode bs) as [text|] eqn:Hd; last first.
  { unfold reading_of. rewrite Hd. simpl.
    eapply iteration_same_data; [by apply try_body_undecodable|done]. }
  destruct (parse_line_cases text) as [Hn|[Hn|(t & h & s & Hw)]].
  - unfold iteration.
    rewrite (st_try_ok _ _ _ _ _ (try_body_wrong_count ms _ _ st Hd Hn)).
    intros [= <- _]. unfold reading_of. rewrite Hd. simpl.
    by destruct (parse_line_wrong_count _ Hn) as [-> | ->].
  - unfold reading_of. rewrite Hd. simpl. rewrite parse_line_non_numeric by done.
    eapply iteration_same_data; [by apply try_body_non_numeric|done].
  - rewrite (reading_of_well_formed _ text t h s) by done.
    destruct (labels_of_total ms t h s Hm) as [[c a] Hl]. rewrite Hl.
    apply labels_of_Some in Hl as (cm & im & Hcm & Him & Hc & Ha).
    unfold iteration. erewrite st_try_ok; last first.
    { rewrite (try_body_well_formed _ _ text t h s) by done.
      by eapply predict_and_store_ok. }
    intros [= <- _]. simpl. by apply with_labels_reading.
Qed.

Lemma loop_spec_run ms rs st st' o :
  models_total ms → wf_keys (sensor_data st) →
  loop ms rs st = (st', o) →
  ∃ rs1 rs2, rs = (rs1 ++ rs2)%list ∧
    sensor_data st' = spec_run ms (sensor_data st) rs1 ∧
    (o = Ok tt → rs2 = []).
Proof.
  intros Hm. revert st. induction rs as [|r rs IH]; intros st Hwf.
  - intros [= <- <-]. by exists [], [].
  - simpl. rewrite stexn_bind_unfold.
    destruct (iteration ms r st) as [st1 [[]|e]] eqn:Hit.
    + intros Hrun. pose proof (iteration_spec_step _ _ _ _ _ Hm Hwf Hit) as Hd.
      apply IH in Hrun as (rs1 & rs2 & -> & Hd' & Ho).
      { exists (r :: rs1), rs2. split_and!; [done| |done]. simpl. by rewrite <-Hd. }
      by eapply ev_keys, Hwf; eapply iteration_evolves.
    + intros [= <- <-]. exists [r], rs. split_and!; [done| |done].
      simpl. by eapply iteration_spec_step.
Qed.

(** C2: with both models fitted and returning, a run of
    the loop that reaches the end of its reads leaves the shared record the
    specification computes: each valid line replaces the record by its
    reading and labels, every other read leaves it as it was. *)
Theorem loop_refines_spec ms rs st st' :
  models_total ms → wf_keys (sensor_data st) →
  loop ms rs st = (st', Ok tt) →
  sensor_data st' = spec_run ms (sensor_data st) rs.
Proof.
  intros Hm Hwf Hrun.
  destruct (loop_spec_run _ _ _ _ _ Hm Hwf Hrun) as (rs1 & rs2 & -> & Hd & Ho).
  by rewrite Ho, app_nil_r.
Qed.

(** ** What a run amounts to *)

(** The record a reading publishes. *)
Definition publish_spec (ms : models) (d : gmap string pyval)
    (x : float64 * float64 * float64) : gmap string pyval :=
  let '(t, h, s) := x in
  match labels_of ms t h s with
  | Some (c, a) => of_record (published t h s c a)
  | None => d
  end.

Lemma spec_step_publish ms d r :
  spec_step ms d r = from_option (publish_spec ms d) d (reading_of r).
Proof. unfold spec_step. by destruct (reading_of r) as [[[t h] s]|]. Qed.

Lemma publish_spec_total ms d d' x :
  models_total ms → publish_spec ms d x = publish_spec ms d' x.
Proof.
  intros Hm. destruct x as [[t h] s]. unfold publish_spec.
  by destruct (labels_of_total ms t h s Hm) as [[c a] ->].
Qed.

Lemma spec_run_snoc ms d rs r :
  spec_run ms d (rs ++ [r]) = spec_step ms (spec_run ms d rs) r.
Proof. unfold spec_run. by rewrite foldl_app. Qed.

Lemma spec_run_last ms d rs :
  models_total ms →
  spec_run ms d rs = from_option (publish_spec ms d) d (last_reading rs).
Proof.
  intros Hm. unfold last_reading.
  induction rs as [|r rs IH] using rev_ind; [done|].
  rewrite spec_run_snoc, spec_step_publish, omap_app. simpl.
  destruct (reading_of r) as [x|]; simpl.
  - rewrite last_snoc. simpl. by apply publish_spec_total.
  - by rewrite app_nil_r.
Qed.

(** C8: no history is kept.  With both models fitted and
    returning, after a run the shared record is the one published by the
    last valid line of the run, and the record the run started from if
    there was none. *)
Theorem last_valid_wins ms rs st st' :
  models_total ms → wf_keys (sensor_data st) →
  loop ms rs st = (st', Ok tt) →
  sensor_data st' =
    from_option (publish_spec ms (sensor_data st)) (sensor_data st) (last_reading rs).
Proof.
  intros Hm Hwf Hrun. rewrite <-spec_run_last by done.
  destruct (loop_spec_run _ _ _ _ _ Hm Hwf Hrun) as (rs1 & rs2 & -> & Hd & Ho).
  by rewrite Ho, app_nil_r.
Qed.

(** * Where the code leaves the specification *)

(** A valid line for which no labels can be had: the specification leaves
    the record alone. *)
Lemma spec_step_no_labels ms d bs text t h s :
  decode bs = Some text → well_formed text t h s →
  labels_of ms t h s = None → spec_step ms d (ReadBytes bs) = d.
Proof.
  intros Hd Hw Hl. unfold spec_step.
  by rewrite (reading_of_well_formed _ text t h s), Hl.
Qed.

Lemma labels_of_crop_raises ms cm t h s e :
  crop_model ms = Some cm → predict cm t h s = Raise e → labels_of ms t h s = None.
Proof.
  intros Hcm Hc. unfold labels_of. rewrite Hcm. simpl.
  destruct (irrigation_model ms); [|done]. simpl. by rewrite Hc.
Qed.

Lemma labels_of_unfitted ms t h s :
  crop_model ms = None ∨ irrigation_model ms = None → labels_of ms t h s = None.
Proof.
  unfold labels_of. intros [-> | ->]; [done|]. by destruct (crop_model ms).
Qed.

(** The iteration of a valid line whose crop prediction raises [e]: the
    handler runs in a state that has the reading. *)
Lemma iteration_crop_raises ms cm im bs text t h s e st :
  decode bs = Some text → well_formed text t h s →
  crop_model ms = Some cm → irrigation_model ms = Some im →
  predict cm t h s = Raise e →
  iteration ms (ReadBytes bs) st =
    handle e (State (with_reading t h s (sensor_data st)) (Some (strip text)) (trace st)).
Proof.
  intros Hd Hw Hcm Him Hc. unfold iteration. erewrite st_try_raise; [done|].
  rewrite (try_body_well_formed _ _ text t h s) by done.
  by eapply predict_and_store_crop_raises.
Qed.

Lemma view_with_reading t h s d old :
  view d = Some old →
  view (with_reading t h s d) =
    Some (SharedRecord (PFloat t) (PFloat h) (PFloat s) (r_crop old) (r_advice old)).
Proof.
  unfold view, with_reading, setitem. intros Hv. simplify_map_eq.
  by simplify_option_eq.
Qed.

(** C18: when the crop model raises on a
    valid line an exception that derives from [Exception], the
    specification leaves the record as it was, while in the code the three
    readings of the line are already in the shared record and the crop and
    the advice are those of an earlier line: the record pairs a reading with
    labels that were not predicted from it. *)
Theorem failed_prediction_tears_record ms cm im bs text t h s e old st :
  view (sensor_data st) = Some old →
  decode bs = Some text → well_formed text t h s →
  crop_model ms = Some cm → irrigation_model ms = Some im →
  predict cm t h s = Raise e → isinstance e Exception = true →
  spec_step ms (sensor_data st) (ReadBytes bs) = sensor_data st ∧
  ∃ st', iteration ms (ReadBytes bs) st = (st', Ok tt) ∧
    view (sensor_data st') =
      Some (SharedRecord (PFloat t) (PFloat h) (PFloat s) (r_crop old) (r_advice old)).
Proof.
  intros Hv Hd Hw Hcm Him Hc He. split.
  { eapply spec_step_no_labels; [done..|by eapply labels_of_crop_raises]. }
  rewrite (iteration_crop_raises ms cm im bs text t h s e) by done.
  set (st1 := State _ _ _).
  destruct (handle_returns e st1 He) as [st' Hh]; [by eexists|].
  exists st'. split; [done|].
  apply handle_same_data in Hh. rewrite Hh. by apply view_with_reading.
Qed.

(** C19: a [ValueError] raised by
    the crop model on a valid line (scikit-learn raises one for an infinite
    feature) is caught by the handler meant for [float]: the line, which
    carries a reading, is printed as non-numeric data and the thread does
    not sleep. *)
Theorem value_error_from_model_is_misreported ms cm im bs text t h s e st :
  decode bs = Some text → well_formed text t h s →
  crop_model ms = Some cm → irrigation_model ms = Some im →
  predict cm t h s = Raise e → isinstance e ValueError = true →
  reading_of (ReadBytes bs) = Some (t, h, s) ∧
  iteration ms (ReadBytes bs) st =
    (State (with_reading t h s (sensor_data st)) (Some (strip text))
       (trace st ++ [EPrint (str "Non-numeric data received: " ++ strip text)]),
     Ok tt).
Proof.
  intros Hd Hw Hcm Him Hc He. split; [by eapply reading_of_well_formed|].
  rewrite (iteration_crop_raises ms cm im bs text t h s e) by done.
  by rewrite (handle_value_error _ (strip text)).
Qed.

(** C20: the three stores of a reading do
    not wait for the models: if one of them is missing, the specification
    publishes nothing, and the code still replaces temp, hum and soil by
    those of a valid line, leaving crop and advice. *)
Theorem reading_stored_without_models ms bs text t h s st :
  decode bs = Some text → well_formed text t h s →
  crop_model ms = None ∨ irrigation_model ms = None →
  spec_step ms (sensor_data st) (ReadBytes bs) = sensor_data st ∧
  iteration ms (ReadBytes bs) st =
    (State (with_reading t h s (sensor_data st)) (Some (strip text)) (trace st),
     Ok tt).
Proof.
  intros Hd Hw Hm. split.
  { eapply spec_step_no_labels; [done..|by apply labels_of_unfitted]. }
  unfold iteration. apply st_try_ok.
  rewrite (try_body_well_formed _ _ text t h s) by done.
  by rewrite predict_and_store_none.
Qed.

End spec.

(** * Scenarios *)

(** A line with a letter, a good line, a short line. *)
Definition mixed_reads : list read_result :=
  [serial_line "abc,60.0,40.0"; serial_line "25.0,60.0,40.0"; serial_line "25.0,60.0"].

(** A crop model that refuses every reading, beside a fitted irrigation
    model. *)
Definition refusing : models := Models (Some refusing_model) (Some (constant_model "Yes")).

(** No model was fitted: the data file was missing a column. *)
Definition unfitted : models := Models None None.

(** The state a first good line leaves. *)
Definition after_wheat : state :=
  (iteration wheat_yes (serial_line "25.0,60.0,40.0") initial).1.

Lemma wheat_yes_total : models_total wheat_yes.
Proof. by exists (constant_model "Wheat"), (constant_model "Yes"). Qed.

Lemma hot_dry_decodes :
  decode (bytes_of "31.5,20.0,10.0" ++ [x0d; x0a]) =
    Some (str "31.5,20.0,10.0" ++ [13; 10]%Z)%list.
Proof. by vm_compute. Qed.

Lemma hot_dry_well_formed :
  well_formed (str "31.5,20.0,10.0" ++ [13; 10]%Z)%list
    (of_decimal false 315 (-1)) (of_decimal false 200 (-1)) (of_decimal false 100 (-1)).
Proof. exists (str "31.5"), (str "20.0"), (str "10.0"). vm_compute. auto. Qed.

Lemma loop_refines_spec_witness :
  sensor_data (loop wheat_yes mixed_reads initial).1 =
    spec_run wheat_yes sensor_data_init mixed_reads.
Proof.
  apply (loop_refines_spec wheat_yes mixed_reads initial).
  - apply wheat_yes_total.
  - apply wf_keys_init.
  - by vm_compute.
Defined.

Lemma last_valid_wins_witness :
  sensor_data (loop wheat_yes mixed_reads initial).1 =
    from_option (publish_spec wheat_yes sensor_data_init) sensor_data_init
      (last_reading mixed_reads).
Proof.
  apply (last_valid_wins wheat_yes mixed_reads initial).
  - apply wheat_yes_total.
  - apply wf_keys_init.
  - by vm_compute.
Defined.

Lemma failed_prediction_tears_record_witness :
  spec_step refusing (sensor_data after_wheat) (serial_line "31.5,20.0,10.0") =
    sensor_data after_wheat ∧
  ∃ st', iteration refusing (serial_line "31.5,20.0,10.0") after_wheat = (st', Ok tt) ∧
    view (sensor_data st') =
      Some (SharedRecord (PFloat (of_decimal false 315 (-1)))
              (PFloat (of_decimal false 200 (-1))) (PFloat (of_decimal false 100 (-1)))
              (PStr (str "Wheat")) (PStr (str "Yes"))).
Proof.
  eapply (failed_prediction_tears_record refusing _ _ _ _ _ _ _ _
            (published (of_decimal false 250 (-1)) (of_decimal false 600 (-1))
               (of_decimal false 400 (-1)) (PStr (str "Wheat")) (PStr (str "Yes"))));
    [by vm_compute|apply hot_dry_decodes|apply hot_dry_well_formed|reflexivity..].
Defined.

Lemma value_error_from_model_is_misreported_witness :
  reading_of (serial_line "31.5,20.0,10.0") =
    Some (of_decimal false 315 (-1), of_decimal false 200 (-1), of_decimal false 100 (-1)) ∧
  iteration refusing (serial_line "31.5,20.0,10.0") initial =
    (State
       (with_reading (of_decimal false 315 (-1)) (of_decimal false 200 (-1))
          (of_decimal false 100 (-1)) sensor_data_init)
       (Some (strip (str "31.5,20.0,10.0" ++ [13; 10]%Z)%list))
       [EPrint (str "Non-numeric data received: "
                  ++ strip (str "31.5,20.0,10.0" ++ [13; 10]%Z)%list)], Ok tt).
Proof.
  eapply (value_error_from_model_is_misreported refusing _ _ _ _ _ _ _ _ initial);
    [apply hot_dry_decodes|apply hot_dry_well_formed|reflexivity..].
Defined.

Lemma reading_stored_without_models_witness :
  spec_step unfitted sensor_data_init (serial_line "31.5,20.0,10.0") = sensor_data_init ∧
  iteration unfitted (serial_line "31.5,20.0,10.0") initial =
    (State
       (with_reading (of_decimal false 315 (-1)) (of_decimal false 200 (-1))
          (of_decimal false 100 (-1)) sensor_data_init)
       (Some (strip (str "31.5,20.0,10.0" ++ [13; 10]%Z)%list)) [], Ok tt).
Proof.
  apply (reading_stored_without_models unfitted _ _ _ _ _ initial);
    [apply hot_dry_decodes|apply hot_dry_well_formed|by left].
Defined.
