(* ===== verification/Observe.v ===== *)
(** * The output of the thread is never read back

    A state of the thread holds the dict, the local [line] and the record
    of what was printed and slept.  The program writes to its output and
    never reads it: two states that agree on the dict and on [line] are
    the same state for [read_arduino] and for the routes.  [obs_eq] is that
    equivalence; the blocks of [Ingest] are shown to respect it
    ([oblivious]), block by block, and to append to the output the same
    events whatever it held. *)

From Stdlib Require Import ZArith String.
From stdpp Require Import base tactics option list gmap strings.
From S2P Require Import Prelude Utf8 PyStr Float64 PyFloat PyExn SensorData Ingest.

#[local] Open Scope string_scope.
#[local] Open Scope list_scope.

(** ** States up to their output *)

Definition obs_eq : relation state := λ st1 st2,
  sensor_data st1 = sensor_data st2 ∧ line st1 = line st2.

Infix "≈" := obs_eq (at level 70, no associativity) : stdpp_scope.

(** A computation that does not read the output: from equivalent states
    it reaches equivalent states, with the same outcome, and appends the
    same events. *)
Definition oblivious {A} (c : stexn state pyexn A) : Prop :=
  ∀ st1 st2, st1 ≈ st2 →
    (c st1).1 ≈ (c st2).1 ∧ (c st1).2 = (c st2).2 ∧
    ∃ new, trace (c st1).1 = trace st1 ++ new ∧
           trace (c st2).1 = trace st2 ++ new.

(** The state with another output. *)
Definition with_trace (tr : list event) (st : state) : state :=
  State (sensor_data st) (line st) tr.

(** ** The equivalence *)

#[export] Instance obs_eq_equivalence : Equivalence obs_eq.
Proof.
  unfold obs_eq. split; [done|by intros ?? []|].
  intros ??? [] []. split; congruence.
Qed.

#[export] Instance sensor_data_proper : Proper (obs_eq ==> (=)) sensor_data.
Proof. by intros ?? []. Qed.

#[export] Instance line_proper : Proper (obs_eq ==> (=)) line.
Proof. by intros ?? []. Qed.

#[export] Instance set_data_proper : Proper ((=) ==> obs_eq ==> obs_eq) set_data.
Proof. intros d ? <- st1 st2 [_ Hl]. by split. Qed.

#[export] Instance set_line_proper : Proper ((=) ==> obs_eq ==> obs_eq) set_line.
Proof. intros l ? <- st1 st2 [Hd _]. by split. Qed.

#[export] Instance log_proper : Proper ((=) ==> obs_eq ==> obs_eq) log.
Proof. by intros e ? <- st1 st2 []. Qed.

Lemma with_trace_obs_eq tr st : with_trace tr st ≈ st.
Proof. done. Qed.

Lemma obs_eq_with_trace st1 st2 :
  st1 ≈ st2 ↔ st1 = with_trace (trace st1) st2.
Proof.
  destruct st1, st2. unfold obs_eq, with_trace. simpl.
  split; [by intros [-> ->]|by intros [= -> ->]].
Qed.

(** ** The rules *)

Section rules.
Context {A B : Type}.
Implicit Types (c : stexn state pyexn A) (k : A → stexn state pyexn B).

Lemma oblivious_intro c :
  (∀ st1 st2, st1 ≈ st2 →
    ∃ new, (c st1).1 ≈ (c st2).1 ∧ (c st1).2 = (c st2).2 ∧
           trace (c st1).1 = trace st1 ++ new ∧
           trace (c st2).1 = trace st2 ++ new) →
  oblivious c.
Proof. intros Hc st1 st2 (new & ? & ? & ? & ?)%Hc. eauto. Qed.

Lemma oblivious_ret (a : A) : oblivious (mret a).
Proof. apply oblivious_intro. intros st1 st2 Hst. exists []. by rewrite !app_nil_r. Qed.

Lemma oblivious_raise (e : pyexn) : oblivious (st_raise e : stexn state pyexn A).
Proof. apply oblivious_intro. intros st1 st2 Hst. exists []. by rewrite !app_nil_r. Qed.

Lemma oblivious_lift (o : outcome pyexn A) : oblivious (st_lift o).
Proof. apply oblivious_intro. intros st1 st2 Hst. exists []. by rewrite !app_nil_r. Qed.

Lemma oblivious_bind c k :
  oblivious c → (∀ a, oblivious (k a)) → oblivious (c ≫= k).
Proof.
  intros Hc Hk st1 st2 Hst. rewrite !stexn_bind_unfold.
  destruct (Hc st1 st2 Hst) as (Hs & Ho & new & H1 & H2).
  destruct (c st1) as [s1 [a|e]], (c st2) as [s2 o2]; simpl in *; subst o2.
  - destruct (Hk a s1 s2 Hs) as (Hs' & Ho' & new' & H1' & H2').
    split_and!; [done..|]. exists (new ++ new').
    by rewrite H1', H2', H1, H2, !app_assoc.
  - split_and!; [done..|]. by exists new.
Qed.

Lemma oblivious_try c (h : pyexn → stexn state pyexn A) :
  oblivious c → (∀ e, oblivious (h e)) → oblivious (st_try c h).
Proof.
  intros Hc Hh st1 st2 Hst. unfold st_try.
  destruct (Hc st1 st2 Hst) as (Hs & Ho & new & H1 & H2).
  destruct (c st1) as [s1 [a|e]], (c st2) as [s2 o2]; simpl in *; subst o2.
  - split_and!; [done..|]. by exists new.
  - destruct (Hh e s1 s2 Hs) as (Hs' & Ho' & new' & H1' & H2').
    split_and!; [done..|]. exists (new ++ new').
    by rewrite H1', H2', H1, H2, !app_assoc.
Qed.

End rules.

Lemma oblivious_when b (c : stexn state pyexn unit) :
  oblivious c → oblivious (when b c).
Proof. destruct b; [done|]. intros _. apply oblivious_ret. Qed.

(** A change of the state that depends on the dict and on [line] only and
    appends the events [new]. *)
Lemma oblivious_modify (f : state → state) new :
  Proper (obs_eq ==> obs_eq) f → (∀ st, trace (f st) = trace st ++ new) →
  oblivious (st_modify f).
Proof.
  intros Hf Htr. apply oblivious_intro. intros st1 st2 Hst. exists new.
  simpl. split_and!; [by apply Hf|done|apply Htr..].
Qed.

#[export] Hint Resolve oblivious_ret oblivious_raise oblivious_lift oblivious_bind
  oblivious_try oblivious_when : py.

(** ** The blocks of the thread *)

Lemma store_oblivious k v : oblivious (store k v).
Proof.
  apply (oblivious_modify _ []); [by intros st1 st2 ->|].
  intros st. by rewrite app_nil_r.
Qed.

Lemma assign_line_oblivious l : oblivious (assign_line l).
Proof.
  apply (oblivious_modify _ []); [by intros st1 st2 ->|].
  intros st. by rewrite app_nil_r.
Qed.

Lemma print_oblivious text : oblivious (print text).
Proof. apply (oblivious_modify _ [EPrint text]); [by intros st1 st2 ->|done]. Qed.

Lemma sleep_oblivious n : oblivious (sleep n).
Proof. apply (oblivious_modify _ [ESleep n]); [by intros st1 st2 ->|done]. Qed.

Lemma load_line_oblivious : oblivious load_line.
Proof.
  apply oblivious_intro. intros st1 st2 Hst. exists []. unfold load_line.
  rewrite (line_proper _ _ Hst). destruct (line st2); by rewrite !app_nil_r.
Qed.

#[export] Hint Resolve store_oblivious assign_line_oblivious print_oblivious
  sleep_oblivious load_line_oblivious : py.

Section blocks.
Context `{UnicodeDB}.

Lemma store_reading_oblivious t h s : oblivious (store_reading t h s).
Proof. unfold store_reading. auto 10 with py. Qed.

Lemma predict_and_store_oblivious ms t h s : oblivious (predict_and_store ms t h s).
Proof. unfold predict_and_store. repeat case_match; auto 10 with py. Qed.

Lemma process_line_oblivious ms l : oblivious (process_line ms l).
Proof.
  unfold process_line. do 2 apply oblivious_when.
  apply oblivious_bind; [apply oblivious_lift|]. intros [[t h] s].
  apply oblivious_bind; [apply store_reading_oblivious|]. intros _.
  apply predict_and_store_oblivious.
Qed.

Lemma try_body_oblivious ms r : oblivious (try_body ms r).
Proof.
  unfold try_body. pose proof process_line_oblivious. auto 10 with py.
Qed.

Lemma handle_oblivious e : oblivious (handle e).
Proof. unfold handle. repeat case_match; auto 10 with py. Qed.

Lemma iteration_oblivious ms r : oblivious (iteration ms r).
Proof.
  apply oblivious_try; [apply try_body_oblivious|apply handle_oblivious].
Qed.

#[export] Instance iteration_proper ms r :
  Proper (obs_eq ==> prod_relation obs_eq (=)) (iteration ms r).
Proof. intros st1 st2 Hst. split; by apply iteration_oblivious. Qed.

Lemma loop_oblivious ms rs : oblivious (loop ms rs).
Proof.
  induction rs as [|r rs IH]; simpl; [apply oblivious_ret|].
  apply oblivious_bind; [apply iteration_oblivious|done].
Qed.

#[export] Instance loop_proper ms rs :
  Proper (obs_eq ==> prod_relation obs_eq (=)) (loop ms rs).
Proof. intros st1 st2 Hst. split; by apply loop_oblivious. Qed.

(** A computation that does not read the output runs from any output as
    it runs from the empty one, with that output in front of its own. *)
Lemma oblivious_frame {A} (c : stexn state pyexn A) tr st :
  oblivious c →
  c (with_trace tr st) =
    (with_trace (tr ++ trace (c (with_trace [] st)).1) (c (with_trace [] st)).1,
     (c (with_trace [] st)).2).
Proof.
  intros Hc.
  destruct (Hc (with_trace tr st) (with_trace [] st)) as (Hs & Ho & new & H1 & H2);
    [done|].
  destruct (c (with_trace tr st)) as [s1 o1]; simpl in *. subst o1. f_equal.
  apply obs_eq_with_trace in Hs. by rewrite Hs, H1, H2.
Qed.

(** * Properties *)

(** The thread never reads what it printed.  A run
    from a state whose output is [tr] is the run from the same dict and
    [line] with no output yet: same dict, same [line], same outcome, and
    [tr] in front of the prints and sleeps of the run. *)
Theorem loop_output_frame ms rs tr st :
  loop ms rs (with_trace tr st) =
    (with_trace (tr ++ trace (loop ms rs (with_trace [] st)).1)
       (loop ms rs (with_trace [] st)).1,
     (loop ms rs (with_trace [] st)).2).
Proof. apply oblivious_frame, loop_oblivious. Qed.

End blocks.
