(* ===== verification/Typing.v ===== *)
(** * The types of the values in the dict

    Python gives the dict [sensor_data] no type; the program does.  Under
    [temp], [hum] and [soil] there is the placeholder of line 54, the [int]
    0, or a [float] that [float()] returned on line 69, which is a value of
    the binary64 format; under [crop] and [advice] there is the placeholder
    ["N/A"] or an answer of the model for that key, whatever type the model
    answers with; there is no other key.  [has_type] is that schema, and
    the blocks of [Ingest] are shown to keep a dict in it. *)

From Stdlib Require Import ZArith String.
From Stdlib.Floats Require Import SpecFloat.
From stdpp Require Import base tactics option list gmap strings.
From S2P Require Import Prelude Utf8 PyStr Float64 PyFloat PyExn SensorData.
From S2P Require Import Ingest IngestInv.

#[local] Open Scope string_scope.

(** ** The schema *)

(** The Python type of a value. *)
Inductive pytype := TInt | TFloat | TStr | TNpInt | TNpBool.

#[export] Instance pytype_eq_dec : EqDecision pytype.
Proof. solve_decision. Defined.

Definition type_of (v : pyval) : pytype :=
  match v with
  | PInt _ => TInt
  | PFloat _ => TFloat
  | PStr _ => TStr
  | PNpInt _ => TNpInt
  | PNpBool _ => TNpBool
  end.

(** A reading: the placeholder or a binary64 value. *)
Definition is_reading (v : pyval) : Prop :=
  v = PInt 0 ∨ ∃ x, v = PFloat x ∧ valid x = true.

(** A label: the placeholder or an answer of the model. *)
Definition is_label (m : option model) (v : pyval) : Prop :=
  v = PStr (str "N/A") ∨ ∃ f t h s, m = Some f ∧ predict f t h s = Ok v.

Definition reading_keys : list string := ["temp"; "hum"; "soil"].

(** What a key may hold. *)
Definition has_type (ms : models) (k : string) (v : pyval) : Prop :=
  (k ∈ reading_keys ∧ is_reading v) ∨
  (k = "crop" ∧ is_label (crop_model ms) v) ∨
  (k = "advice" ∧ is_label (irrigation_model ms) v).

(** Every item of the dict is of the type of its key. *)
Definition typed (ms : models) (d : gmap string pyval) : Prop :=
  map_Forall (has_type ms) d.

(** The relation the blocks maintain. *)
Definition keeps_typed (ms : models) : relation state := λ st st',
  typed ms (sensor_data st) → typed ms (sensor_data st').

(** * The schema is kept *)

#[export] Instance keeps_typed_preorder ms : PreOrder (keeps_typed ms).
Proof.
  unfold keeps_typed. split; [by intros st ?|].
  intros st1 st2 st3 H12 H23 ?. auto.
Qed.

Lemma is_reading_number v : is_reading v → is_number v = true.
Proof. by intros [->|(x & -> & _)]. Qed.

Lemma is_reading_type v : is_reading v → type_of v = TInt ∨ type_of v = TFloat.
Proof. intros [->|(x & -> & _)]; auto. Qed.

Lemma has_type_key ms k v : has_type ms k v → k ∈ keys.
Proof.
  unfold has_type, reading_keys. rewrite keys_elem. set_solver.
Qed.

Lemma typed_init ms : typed ms sensor_data_init.
Proof.
  unfold typed, sensor_data_init.
  repeat apply map_Forall_insert_2; [..|apply map_Forall_empty].
  - right; right. split; [done|]. by left.
  - right; left. split; [done|]. by left.
  - left. split; [set_solver|]. by left.
  - left. split; [set_solver|]. by left.
  - left. split; [set_solver|]. by left.
Qed.

(** A typed dict has no key but the five. *)
Lemma typed_dom ms d : typed ms d → dom d ⊆ keys.
Proof.
  intros Hd k [v Hk]%elem_of_dom. by apply (has_type_key ms k v), Hd.
Qed.

Lemma typed_setitem ms k v d :
  has_type ms k v → typed ms d → typed ms (setitem k v d).
Proof. intros Hv Hd. by apply map_Forall_insert_2. Qed.

Section blocks.
Context `{UnicodeDB}.
Implicit Types (ms : models) (st : state).

Lemma store_typed ms k v : has_type ms k v → preserves (keeps_typed ms) (store k v).
Proof.
  intros Hv. apply preserves_modify. intros st Hd. by apply typed_setitem.
Qed.

(** A step that leaves the dict as it is. *)
Lemma modify_typed ms (f : state → state) :
  (∀ st, sensor_data (f st) = sensor_data st) →
  preserves (keeps_typed ms) (st_modify f : stexn state pyexn unit).
Proof.
  intros Hf. apply preserves_modify. intros st Hd. by rewrite Hf.
Qed.

Lemma py_float_valid s x : py_float s = Ok x → valid x = true.
Proof.
  unfold py_float. destruct (float_of_str s) as [y|] eqn:Hs; [|done].
  intros [= <-]. by eapply float_of_str_valid.
Qed.

Lemma unpack3_valid values t h s :
  unpack3 values = Ok (t, h, s) →
  valid t = true ∧ valid h = true ∧ valid s = true.
Proof.
  unfold unpack3. destruct values as [|a [|b [|c [|]]]]; try done.
  destruct (py_float a) as [t'|] eqn:Ha; [|done].
  destruct (py_float b) as [h'|] eqn:Hb; [|done].
  destruct (py_float c) as [s'|] eqn:Hc; [|done].
  intros [= <- <- <-]. split_and!; by eapply py_float_valid.
Qed.

Lemma reading_has_type ms k x :
  k ∈ reading_keys → valid x = true → has_type ms k (PFloat x).
Proof. intros Hk Hx. left. split; [done|]. right. eauto. Qed.

Lemma store_reading_typed ms t h s :
  valid t = true → valid h = true → valid s = true →
  preserves (keeps_typed ms) (store_reading t h s).
Proof.
  intros Ht Hh Hs. unfold store_reading.
  repeat (apply preserves_bind; [apply _| |intros _]);
    apply store_typed, reading_has_type; done || set_solver.
Qed.

Lemma predict_and_store_typed ms t h s :
  preserves (keeps_typed ms) (predict_and_store ms t h s).
Proof.
  unfold predict_and_store.
  destruct (crop_model ms) as [cm|] eqn:Hcm; [|apply preserves_ret, _].
  destruct (irrigation_model ms) as [im|] eqn:Him; [|apply preserves_ret, _].
  apply preserves_lift_bind; [apply _|]. intros c Hc.
  apply preserves_bind; [apply _| |intros _].
  { apply store_typed. right; left. split; [done|]. right. rewrite Hcm. eauto 6. }
  apply preserves_lift_bind; [apply _|]. intros a Ha.
  apply store_typed. right; right. split; [done|]. right. rewrite Him. eauto 6.
Qed.

Lemma process_line_typed ms l : preserves (keeps_typed ms) (process_line ms l).
Proof.
  unfold process_line. do 2 (apply preserves_when; [apply _|]).
  apply preserves_lift_bind; [apply _|].
  intros [[t h] s] (Ht & Hh & Hs)%unpack3_valid.
  apply preserves_bind; [apply _|by apply store_reading_typed|intros _].
  apply predict_and_store_typed.
Qed.

Lemma try_body_typed ms r : preserves (keeps_typed ms) (try_body ms r).
Proof.
  unfold try_body.
  apply preserves_bind; [apply _|apply preserves_lift, _|]. intros raw.
  apply preserves_bind; [apply _|apply preserves_lift, _|]. intros text.
  apply preserves_bind; [apply _|by apply modify_typed|intros _].
  apply process_line_typed.
Qed.

Lemma handle_typed ms e : preserves (keeps_typed ms) (handle e).
Proof.
  unfold handle. destruct (isinstance e ValueError).
  - apply preserves_bind; [apply _| |intros l; by apply modify_typed].
    intros st st' o. unfold load_line. by destruct (line st); intros [= <- _].
  - destruct (isinstance e Exception); [|apply preserves_raise, _].
    apply preserves_bind; [apply _| |intros _]; by apply modify_typed.
Qed.

Lemma iteration_typed ms r : preserves (keeps_typed ms) (iteration ms r).
Proof.
  apply preserves_try; [apply _|apply try_body_typed|apply handle_typed].
Qed.

Lemma loop_keeps_typed ms rs : preserves (keeps_typed ms) (loop ms rs).
Proof.
  induction rs as [|r rs IH]; simpl.
  - apply preserves_ret, _.
  - apply preserves_bind; [apply _|apply iteration_typed|done].
Qed.

(** * Properties *)

(** C23: whatever the port delivers and the models answer, the
    dict the thread leaves has exactly the five keys, each with a value of
    its type: under [temp], [hum] and [soil] the [int] 0 or a [float] of
    the binary64 format, under [crop] and [advice] ["N/A"] or an answer of
    the model of that key. *)
Theorem loop_typed ms rs :
  wf_keys (sensor_data (loop ms rs initial).1) ∧
  typed ms (sensor_data (loop ms rs initial).1).
Proof.
  destruct (loop ms rs initial) as [st o] eqn:Hl. simpl. split.
  - by apply (ev_keys _ _ (loop_evolves ms rs _ _ _ Hl)), wf_keys_init.
  - by apply (loop_keeps_typed ms rs _ _ _ Hl), typed_init.
Qed.

End blocks.
