(* ===== verification/Startup.v ===== *)
(** * Start-up: the module-level code

    Lines 12-50 and 98-115 of [src/app.py], in the order the interpreter
    runs them: the serial port is opened ([connect]), the two forests are
    fitted ([train]), the ingest thread is started if the port opened
    ([start_thread]) and the web server runs.  The state is the globals
    [arduino], [crop_model] and [irrigation_model] with what was printed;
    pyserial, pandas and scikit-learn are the [environment]: what opening
    the port gives, what the data file holds, what fitting returns.  [run]
    classifies how start-up ends: the server is reached, [exit()] was
    called, or an exception no clause catches ended the process. *)

From Stdlib Require Import ZArith String.
From stdpp Require Import base tactics option list.
From S2P Require Import Prelude PyStr Float64 PyFloat PyExn SensorData Ingest.

#[local] Open Scope string_scope.

(** What a port will return to the successive [readline] calls. *)
Abbreviation port := (list read_result) (only parsing).

Section startup.
Context {column : Type}.

(** ** The environment *)

(** A [DataFrame], as far as the program looks at it: its columns with
    their labels, in order.  Labels may repeat. *)
Definition frame : Type := list (pystr * column).

Record environment := Environment {
  (** [serial.Serial('COM6', 9600, timeout=1)] *)
  serial_Serial : outcome pyexn port;
  (** [pd.read_csv(path)] *)
  read_csv : pystr → outcome pyexn frame;
  (** The text of the [KeyError] pandas raises for a list of labels of
      which these are missing. *)
  missing_text : list pystr → pystr;
  (** [RandomForestClassifier().fit(X, y)], then used as a predictor. *)
  fit : list column → list column → outcome pyexn model
}.

(** ** The data frame *)

(** [data.columns = data.columns.str.strip()] *)
Definition strip_columns (df : frame) : frame := prod_map strip id <$> df.

(** The columns labelled [l]. *)
Definition select (df : frame) (l : pystr) : list column :=
  snd <$> filter (λ p, p.1 = l) df.

(** [data[l]]: [KeyError(l)] when no column has the label.  The text of
    the exception is the [repr] of the label; the labels of the program
    need no escape. *)
Definition getitem (df : frame) (l : pystr) : outcome pyexn (list column) :=
  match select df l with
  | [] => Raise (PyExn KeyError (str "'" ++ l ++ str "'"))
  | cs => Ok cs
  end.

(** [data[[l1, ..., ln]]] *)
Definition getitem_list (env : environment) (df : frame) (ls : list pystr) :
    outcome pyexn (list column) :=
  match filter (λ l, select df l = []) ls with
  | [] => Ok (ls ≫= select df)
  | missing => Raise (PyExn KeyError (missing_text env missing))
  end.

(** ** The globals *)

Record boot := Boot {
  arduino : option port;
  fitted : models;
  out : list event
}.

Abbreviation B := (stexn boot pyexn) (only parsing).

Definition boot0 : boot := Boot None (Models None None) [].

Definition say (text : pystr) : B unit :=
  st_modify (λ b, Boot (arduino b) (fitted b) (out b ++ [EPrint text])).
Definition pause (seconds : Z) : B unit :=
  st_modify (λ b, Boot (arduino b) (fitted b) (out b ++ [ESleep seconds])).
Definition set_arduino (a : option port) : B unit :=
  st_modify (λ b, Boot a (fitted b) (out b)).
Definition set_crop_model (m : option model) : B unit :=
  st_modify (λ b, Boot (arduino b) (Models m (irrigation_model (fitted b))) (out b)).
Definition set_irrigation_model (m : option model) : B unit :=
  st_modify (λ b, Boot (arduino b) (Models (crop_model (fitted b)) m) (out b)).

(** [exit()]: [SystemExit(None)], which ends the process with status 0
    when nothing catches it. *)
Definition system_exit : pyexn := PyExn SystemExit (str "None").
Definition py_exit : B unit := st_raise system_exit.

(** ** Lines 12-18: the serial port *)

Definition connect_message (e : pyexn) : pystr :=
  str "Error connecting to Arduino on COM6: " ++ exn_str e
  ++ str ". Check if the port is correct and available.".

Definition connect (env : environment) : B unit :=
  st_try
    (p ← st_lift (serial_Serial env);
     set_arduino (Some p);;
     pause 2)
    (λ e,
      if isinstance e SerialException then
        say (connect_message e);;
        set_arduino None
      else st_raise e).

(** ** Lines 21-50: the two models *)

Definition dataset : pystr := str "realistic_crop_irrigation_dataset.csv".

Definition features : list pystr :=
  [str "Temperature"; str "Humidity"; str "SoilMoisture"].

(** The labels the program looks up. *)
Definition required : list pystr :=
  features ++ [str "Crop"; str "Irrigation_Needed"].

Definition file_not_found_message : pystr :=
  str "Error: 'synthetic_crop_irrigation_dataset.csv' not found. Please ensure it is in the same directory.".

Definition key_error_message (e : pyexn) : pystr :=
  str "KeyError: " ++ exn_str e
  ++ str ". Column name mismatch in CSV. Check if 'Temperature', 'Humidity', 'SoilMoisture', 'Crop', and 'Irrigation_Needed' are spelled exactly right (case-sensitive) and have no extra spaces.".

(** Lines 27-41, the body of the [try].  Line 37 binds [crop_model] to a
    forest that is not fitted yet and line 38 fits it in place; the global
    is set here once [fit] has returned, the process ending if it does
    not. *)
Definition train_body (env : environment) : B unit :=
  data ← st_lift (read_csv env dataset);
  let data := strip_columns data in
  X ← st_lift (getitem_list env data features);
  y_crop ← st_lift (getitem data (str "Crop"));
  y_irrigation ← st_lift (getitem data (str "Irrigation_Needed"));
  cm ← st_lift (fit env X y_crop);
  set_crop_model (Some cm);;
  im ← st_lift (fit env X y_irrigation);
  set_irrigation_model (Some im).

(** Lines 43-50, the two [except] clauses. *)
Definition train_handle (e : pyexn) : B unit :=
  if isinstance e FileNotFoundError then
    say file_not_found_message;; py_exit
  else if isinstance e KeyError then
    say (key_error_message e);; py_exit
  else st_raise e.

Definition train (env : environment) : B unit :=
  set_crop_model None;;
  set_irrigation_model None;;
  st_try (train_body env) train_handle.

(** ** Lines 98-101: the thread *)

(** [if arduino:] holds for any [Serial] object, which defines neither
    [__bool__] nor [__len__].  The result is the port the thread reads, if
    a thread was started. *)
Definition start_thread : B (option port) := λ b,
  match arduino b with
  | Some p => (b, Ok (Some p))
  | None => (b, Ok None)
  end.

(** ** The module, top to bottom *)

Definition program (env : environment) : B (option port) :=
  connect env;;
  train env;;
  start_thread.

(** How start-up ends. *)
Inductive ending :=
| Serving (thread : option port) (ms : models)
| Exited (e : pyexn)
| Died (e : pyexn).

(** Lines 114-115: [app.run] is reached when nothing was raised.
    [SystemExit] ends the process quietly (with status 0 when its code is
    [None]), any other exception with a traceback and status 1. *)
Definition run (env : environment) : ending * list event :=
  match program env boot0 with
  | (b, Ok thread) => (Serving thread (fitted b), out b)
  | (b, Raise e) => (if isinstance e SystemExit then Exited e else Died e, out b)
  end.

(** The ingest thread of a process that serves: [read_arduino] on the
    port, from the initial record of line 54. *)
Definition thread_run `{UnicodeDB} (thread : option port) (ms : models) :
    option (state * outcome pyexn unit) :=
  (λ p, read_arduino (Some p) ms initial) <$> thread.

(** ** What the body of [train] computes *)

(** The three selections of lines 33-35. *)
Definition columns_of (env : environment) :
    outcome pyexn (list column * list column * list column) :=
  data ← read_csv env dataset;
  let data := strip_columns data in
  X ← getitem_list env data features;
  y_crop ← getitem data (str "Crop");
  y_irrigation ← getitem data (str "Irrigation_Needed");
  Ok (X, y_crop, y_irrigation).

(** [s in t] for two strings. *)
Fixpoint starts_with (s t : pystr) : bool :=
  match s, t with
  | [], _ => true
  | c :: s', d :: t' => bool_decide (c = d) && starts_with s' t'
  | _ :: _, [] => false
  end.

Fixpoint occurs_in (s t : pystr) : bool :=
  starts_with s t ||
  match t with
  | [] => false
  | _ :: t' => occurs_in s t'
  end.

End startup.

Arguments environment : clear implicits.
Arguments frame : clear implicits.

(** * What start-up does, case by case *)

Section startup_facts.
Context {column : Type}.
Implicit Types (env : environment column) (b : boot) (e : pyexn) (df : frame column).
Implicit Types (l : pystr) (X yc yi : list column).

(** ** The data frame *)

Lemma select_nil_iff df l : select df l = [] ↔ l ∉ fst <$> df.
Proof.
  unfold select. split.
  - intros Hs%fmap_nil_inv ([l' c] & Heq & Hin)%list_elem_of_fmap.
    simpl in Heq. subst l.
    assert ((l', c) ∈ filter (λ p, p.1 = l') df) as Hf by by apply list_elem_of_filter.
    rewrite Hs in Hf. by apply elem_of_nil in Hf.
  - intros Hn. destruct (filter _ df) as [|[l' c] r] eqn:Hf; [done|].
    assert ((l', c) ∈ filter (λ p, p.1 = l) df) as Hin by (rewrite Hf; left).
    apply list_elem_of_filter in Hin as [<- Hin].
    destruct Hn. apply list_elem_of_fmap. by exists (l', c).
Qed.

Lemma strip_columns_labels df : fst <$> strip_columns df = (strip ∘ fst) <$> df.
Proof.
  unfold strip_columns. rewrite <-list_fmap_compose. by apply list_fmap_ext; intros ? [].
Qed.

Lemma getitem_ok_iff df l cs : getitem df l = Ok cs ↔ cs = select df l ∧ select df l ≠ [].
Proof. unfold getitem. destruct (select df l); naive_solver. Qed.

Lemma getitem_raise df l e :
  getitem df l = Raise e → exn_class_of e = KeyError ∧ select df l = [].
Proof. unfold getitem. destruct (select df l); naive_solver. Qed.

Lemma getitem_list_ok_iff env df ls cs :
  getitem_list env df ls = Ok cs ↔
  cs = ls ≫= select df ∧ Forall (λ l, select df l ≠ []) ls.
Proof.
  unfold getitem_list.
  destruct (filter _ ls) as [|l ms] eqn:Hf.
  - split; [intros [= <-]|naive_solver]. split; [done|].
    apply Forall_forall. intros l Hl Hs.
    assert (l ∈ filter (λ l, select df l = []) ls) as Hin by by apply list_elem_of_filter.
    rewrite Hf in Hin. by apply elem_of_nil in Hin.
  - split; [done|]. intros [_ Hall].
    assert (l ∈ filter (λ l, select df l = []) ls) as Hin by (rewrite Hf; left).
    apply list_elem_of_filter in Hin as [Hs Hin].
    by eapply Forall_forall in Hall.
Qed.

Lemma getitem_list_raise env df ls e :
  getitem_list env df ls = Raise e →
  exn_class_of e = KeyError ∧ Exists (λ l, select df l = []) ls.
Proof.
  unfold getitem_list. destruct (filter _ ls) as [|l ms] eqn:Hf; [done|].
  intros [= <-]. split; [done|]. apply Exists_exists. exists l.
  assert (l ∈ filter (λ l, select df l = []) ls) as Hin by (rewrite Hf; left).
  by apply list_elem_of_filter in Hin as [Hs Hin].
Qed.

(** The selections succeed exactly when the file was read and every
    required label is the stripped label of a column. *)
Lemma columns_of_ok_iff env X yc yi :
  columns_of env = Ok (X, yc, yi) ↔
  ∃ df, read_csv env dataset = Ok df ∧
    Forall (λ l, select (strip_columns df) l ≠ []) required ∧
    X = features ≫= select (strip_columns df) ∧
    yc = select (strip_columns df) (str "Crop") ∧
    yi = select (strip_columns df) (str "Irrigation_Needed").
Proof.
  unfold columns_of, required. split.
  - intros (df & Hr & H1)%outcome_bind_Ok_inv. cbv beta zeta in H1.
    apply outcome_bind_Ok_inv in H1 as (X' & [-> HX]%getitem_list_ok_iff & H2).
    apply outcome_bind_Ok_inv in H2 as (yc' & [-> Hc]%getitem_ok_iff & H3).
    apply outcome_bind_Ok_inv in H3 as (yi' & [-> Hi]%getitem_ok_iff & [= <- <- <-]).
    exists df. split_and!; try done. apply Forall_app. split; [done|].
    by apply Forall_cons, conj, Forall_singleton.
  - intros (df & Hr & [HX Hl]%Forall_app & -> & -> & ->).
    apply Forall_cons in Hl as [Hc [Hi _]%Forall_cons].
    rewrite Hr, outcome_bind_ok. cbv beta zeta.
    rewrite (proj2 (getitem_list_ok_iff env _ features _) (conj eq_refl HX)).
    rewrite outcome_bind_ok, (proj2 (getitem_ok_iff _ _ _) (conj eq_refl Hc)).
    by rewrite outcome_bind_ok, (proj2 (getitem_ok_iff _ _ _) (conj eq_refl Hi)).
Qed.

(** When they fail after the file was read, it is with a [KeyError]. *)
Lemma columns_of_raise env df e :
  read_csv env dataset = Ok df → columns_of env = Raise e →
  exn_class_of e = KeyError.
Proof.
  unfold columns_of. intros ->. simpl.
  destruct (getitem_list env _ features) as [X|e1] eqn:HX; simpl;
    [|intros [= <-]; by apply getitem_list_raise in HX as [? _]].
  destruct (getitem _ (str "Crop")) as [yc|e1] eqn:Hc; simpl;
    [|intros [= <-]; by apply getitem_raise in Hc as [? _]].
  destruct (getitem _ (str "Irrigation_Needed")) as [yi|e1] eqn:Hi; simpl;
    [done|intros [= <-]; by apply getitem_raise in Hi as [? _]].
Qed.

(** ** The blocks *)

Lemma connect_run env b :
  connect env b =
  match serial_Serial env with
  | Ok p => (Boot (Some p) (fitted b) (out b ++ [ESleep 2]), Ok tt)
  | Raise e =>
    if isinstance e SerialException
    then (Boot None (fitted b) (out b ++ [EPrint (connect_message e)]), Ok tt)
    else (b, Raise e)
  end.
Proof.
  unfold connect, st_try. rewrite stexn_lift_bind.
  destruct (serial_Serial env) as [p|e]; [done|].
  by destruct (isinstance e SerialException).
Qed.

Lemma train_body_run env b :
  train_body env b =
  match columns_of env with
  | Raise e => (b, Raise e)
  | Ok (X, yc, yi) =>
    match fit env X yc with
    | Raise e => (b, Raise e)
    | Ok cm =>
      match fit env X yi with
      | Raise e =>
        (Boot (arduino b) (Models (Some cm) (irrigation_model (fitted b))) (out b),
         Raise e)
      | Ok im => (Boot (arduino b) (Models (Some cm) (Some im)) (out b), Ok tt)
      end
    end
  end.
Proof.
  unfold train_body, columns_of, set_crop_model, set_irrigation_model.
  rewrite stexn_lift_bind.
  destruct (read_csv env dataset) as [df|e]; simpl; [|done].
  rewrite stexn_lift_bind. destruct (getitem_list _ _ _); simpl; [|done].
  rewrite stexn_lift_bind. destruct (getitem _ (str "Crop")); simpl; [|done].
  rewrite stexn_lift_bind. destruct (getitem _ _); simpl; [|done].
  rewrite stexn_lift_bind. destruct (fit env _ _); [|done].
  rewrite stexn_modify_bind, stexn_lift_bind. by destruct (fit env _ _).
Qed.

Lemma train_handle_run e b :
  train_handle e b =
  if isinstance e FileNotFoundError
  then (Boot (arduino b) (fitted b) (out b ++ [EPrint file_not_found_message]),
        Raise system_exit)
  else if isinstance e KeyError
  then (Boot (arduino b) (fitted b) (out b ++ [EPrint (key_error_message e)]),
        Raise system_exit)
  else (b, Raise e).
Proof. unfold train_handle. by repeat case_match. Qed.

Lemma train_run env b :
  train env b =
  st_try (train_body env) train_handle (Boot (arduino b) (Models None None) (out b)).
Proof. reflexivity. Qed.

(** The handler never returns: training returns only if its body does. *)
Lemma train_handle_raises e b b' o : train_handle e b = (b', o) → o ≠ Ok tt.
Proof. rewrite train_handle_run. repeat case_match; naive_solver. Qed.

Lemma train_ok env b X yc yi cm im :
  columns_of env = Ok (X, yc, yi) → fit env X yc = Ok cm → fit env X yi = Ok im →
  train env b = (Boot (arduino b) (Models (Some cm) (Some im)) (out b), Ok tt).
Proof.
  intros Hc Hcm Him. rewrite train_run. apply st_try_ok.
  by rewrite train_body_run, Hc, Hcm, Him.
Qed.

Lemma train_ok_inv env b b' :
  train env b = (b', Ok tt) →
  ∃ X yc yi cm im, columns_of env = Ok (X, yc, yi) ∧
    fit env X yc = Ok cm ∧ fit env X yi = Ok im ∧
    b' = Boot (arduino b) (Models (Some cm) (Some im)) (out b).
Proof.
  rewrite train_run. unfold st_try. rewrite train_body_run.
  destruct (columns_of env) as [[[X yc] yi]|e];
    [|by intros ?%train_handle_raises].
  destruct (fit env X yc) as [cm|e] eqn:Hcm; [|by intros ?%train_handle_raises].
  destruct (fit env X yi) as [im|e] eqn:Him; [|by intros ?%train_handle_raises].
  intros [= <-]. by exists X, yc, yi, cm, im.
Qed.

(** The program, once the port is dealt with. *)
Lemma run_connected env b :
  connect env boot0 = (b, Ok tt) →
  run env =
  match train env b with
  | (b', Ok _) => (Serving (arduino b') (fitted b'), out b')
  | (b', Raise e) => (if isinstance e SystemExit then Exited e else Died e, out b')
  end.
Proof.
  intros Hc. unfold run, program. rewrite (stexn_bind_ok _ _ _ _ _ Hc).
  rewrite stexn_bind_unfold. destruct (train env b) as [b' [[]|e]]; [|done].
  unfold start_thread. by destruct (arduino b').
Qed.

Lemma run_serving_inv env th ms tr :
  run env = (Serving th ms, tr) →
  ∃ b b', connect env boot0 = (b, Ok tt) ∧ train env b = (b', Ok tt) ∧
    th = arduino b' ∧ ms = fitted b' ∧ tr = out b'.
Proof.
  destruct (connect env boot0) as [b [[]|e]] eqn:Hc.
  - rewrite (run_connected _ _ Hc).
    destruct (train env b) as [b' [[]|e]] eqn:Ht; [|by case_match].
    intros [= <- <- <-]. by exists b, b'.
  - unfold run, program. rewrite (stexn_bind_raise _ _ _ _ _ Hc). by case_match.
Qed.

Lemma run_train_raises env b b' e :
  connect env boot0 = (b, Ok tt) →
  train_body env (Boot (arduino b) (Models None None) (out b)) = (b', Raise e) →
  run env =
  match train_handle e b' with
  | (b2, Raise e2) => (if isinstance e2 SystemExit then Exited e2 else Died e2, out b2)
  | (b2, Ok _) => (Serving (arduino b2) (fitted b2), out b2)
  end.
Proof.
  intros Hc Ht. rewrite (run_connected _ _ Hc), train_run.
  by rewrite (st_try_raise _ _ _ _ _ Ht).
Qed.

(** The body raises before it has changed a global when a selection or
    the first fit raises. *)
Lemma run_early_raise env b e :
  connect env boot0 = (b, Ok tt) →
  columns_of env = Raise e ∨
    (∃ X yc yi, columns_of env = Ok (X, yc, yi) ∧ fit env X yc = Raise e) →
  run env =
  match train_handle e (Boot (arduino b) (Models None None) (out b)) with
  | (b2, Raise e2) => (if isinstance e2 SystemExit then Exited e2 else Died e2, out b2)
  | (b2, Ok _) => (Serving (arduino b2) (fitted b2), out b2)
  end.
Proof.
  intros Hc Hraise. apply (run_train_raises env b); [done|]. rewrite train_body_run.
  by destruct Hraise as [->|(X & yc & yi & -> & ->)].
Qed.

Lemma select_ne_iff df l : select df l ≠ [] ↔ l ∈ fst <$> df.
Proof.
  rewrite select_nil_iff. destruct (decide (l ∈ fst <$> df)); naive_solver.
Qed.

(** An exception of class [KeyError] is caught by the second clause. *)
Lemma key_error_caught e :
  exn_class_of e = KeyError →
  isinstance e FileNotFoundError = false ∧ isinstance e KeyError = true.
Proof. unfold isinstance. by intros ->. Qed.

(** * Properties of start-up *)

(** C24: the web server is reached only with both
    models fitted, each by one call of [fit]: on the columns Temperature,
    Humidity and SoilMoisture, in this order, of the data file with its
    labels stripped, and on the column Crop, respectively
    Irrigation_Needed. *)
Theorem serving_models_trained env th ms tr :
  run env = (Serving th ms, tr) →
  ∃ df cm im, read_csv env dataset = Ok df ∧
    Forall (λ l, l ∈ (strip ∘ fst) <$> df) required ∧
    fit env (features ≫= select (strip_columns df))
      (select (strip_columns df) (str "Crop")) = Ok cm ∧
    fit env (features ≫= select (strip_columns df))
      (select (strip_columns df) (str "Irrigation_Needed")) = Ok im ∧
    ms = Models (Some cm) (Some im).
Proof.
  intros (b & b' & _ & Ht & _ & -> & _)%run_serving_inv.
  apply train_ok_inv in Ht as (X & yc & yi & cm & im & Hc & Hcm & Him & ->).
  apply columns_of_ok_iff in Hc as (df & Hr & Hall & -> & -> & ->).
  exists df, cm, im. split_and!; try done.
  eapply Forall_impl; [done|]. intros l. simpl.
  by rewrite select_ne_iff, strip_columns_labels.
Qed.

(** C27: in a process that serves, the ingest thread was
    started exactly when the port opened, and reads that port; when opening
    raised [SerialException] there is no thread.  Start-up has printed the
    connection message in that case and nothing otherwise. *)
Theorem thread_iff_port env th ms tr :
  run env = (Serving th ms, tr) →
  match serial_Serial env with
  | Ok p => th = Some p ∧ tr = [ESleep 2]
  | Raise e =>
    th = None ∧ isinstance e SerialException = true ∧
    tr = [EPrint (connect_message e)]
  end.
Proof.
  intros (b & b' & Hc & Ht & -> & _ & ->)%run_serving_inv.
  apply train_ok_inv in Ht as (X & yc & yi & cm & im & _ & _ & _ & ->). simpl.
  rewrite connect_run in Hc. destruct (serial_Serial env) as [p|e].
  - by injection Hc as <-.
  - destruct (isinstance e SerialException); [|done]. by injection Hc as <-.
Qed.

(** When the file is read, has the five columns and
    both fits return, the server is reached with the two fitted models,
    whether or not the port opened. *)
Theorem startup_serves env b X yc yi cm im :
  connect env boot0 = (b, Ok tt) →
  columns_of env = Ok (X, yc, yi) → fit env X yc = Ok cm → fit env X yi = Ok im →
  run env = (Serving (arduino b) (Models (Some cm) (Some im)), out b).
Proof.
  intros Hc Hcol Hcm Him. rewrite (run_connected _ _ Hc).
  by rewrite (train_ok env b X yc yi cm im).
Qed.

(** C25: when the data file does not exist the process
    prints a message and ends by [exit()], before any thread or server is
    started.  The message names a file that is not the one looked for. *)
Theorem missing_file_exits env b e :
  connect env boot0 = (b, Ok tt) →
  read_csv env dataset = Raise e → isinstance e FileNotFoundError = true →
  run env = (Exited system_exit, (out b ++ [EPrint file_not_found_message])%list) ∧
  occurs_in dataset file_not_found_message = false.
Proof.
  intros Hc Hr He. split; [|by vm_compute].
  rewrite (run_early_raise env b e Hc).
  - by rewrite train_handle_run, He.
  - left. unfold columns_of. by rewrite Hr.
Qed.

(** C26: when one of the five labels is not the
    stripped label of a column of the file, a [KeyError] is raised and the
    process prints it and ends by [exit()]. *)
Theorem missing_column_exits env b df l :
  connect env boot0 = (b, Ok tt) → read_csv env dataset = Ok df →
  l ∈ required → l ∉ (strip ∘ fst) <$> df →
  ∃ e, exn_class_of e = KeyError ∧
    run env = (Exited system_exit, (out b ++ [EPrint (key_error_message e)])%list).
Proof.
  intros Hc Hr Hl Hn. destruct (columns_of env) as [[[X yc] yi]|e] eqn:Hcol.
  { apply columns_of_ok_iff in Hcol as (df' & Hr' & Hall & _).
    rewrite Hr in Hr'. injection Hr' as <-.
    eapply Forall_forall in Hall; [|done].
    by rewrite select_ne_iff, strip_columns_labels in Hall. }
  pose proof (columns_of_raise _ _ _ Hr Hcol) as [Hf Hk]%key_error_caught.
  exists e. split; [by eapply columns_of_raise|].
  rewrite (run_early_raise env b e Hc) by by left.
  by rewrite train_handle_run, Hf, Hk.
Qed.

(** C34: an exception of [read_csv], of a selection or
    of the first [fit] that is neither a [FileNotFoundError] nor a
    [KeyError], such as the [ValueError] of an empty file or of a cell that
    is not a number, is caught by no clause: the process ends with a
    traceback without having printed for it. *)
Theorem dataset_error_dies env b e :
  connect env boot0 = (b, Ok tt) →
  columns_of env = Raise e ∨
    (∃ X yc yi, columns_of env = Ok (X, yc, yi) ∧ fit env X yc = Raise e) →
  isinstance e FileNotFoundError = false → isinstance e KeyError = false →
  isinstance e SystemExit = false →
  run env = (Died e, out b).
Proof.
  intros Hc Hraise Hf Hk Hs. rewrite (run_early_raise env b e Hc Hraise).
  by rewrite train_handle_run, Hf, Hk, Hs.
Qed.

End startup_facts.

(** * Scenarios *)

(** A data file whose labels carry stray spaces; columns are numbered. *)
Definition demo_frame : frame nat :=
  [(str " Temperature", 0); (str "Humidity ", 1); (str "SoilMoisture", 2);
   (str "Crop", 3); (str "Irrigation_Needed", 4)]%nat.

(** Fitting on column 3 gives the model that answers "Wheat", on another
    column the model that answers "Yes". *)
Definition demo_fit (X y : list nat) : outcome pyexn model :=
  Ok (constant_model (if bool_decide (y = [3%nat]) then "Wheat" else "Yes")).

Definition demo_env (serial : outcome pyexn port) (csv : outcome pyexn (frame nat)) :
    environment nat :=
  Environment serial (λ _, csv) (λ _, str "not in index") demo_fit.

Definition port_busy : pyexn :=
  PyExn SerialException (str "could not open port 'COM6'").

Definition no_such_file : pyexn :=
  PyExn FileNotFoundError (str "[Errno 2] No such file or directory").

Definition empty_data : pyexn :=
  PyExn ValueError (str "No columns to parse from file").

(** The port is busy, the data file is there. *)
Definition no_port : environment nat := demo_env (Raise port_busy) (Ok demo_frame).

Lemma serving_models_trained_witness :
  ∃ df cm im, read_csv no_port dataset = Ok df ∧
    Forall (λ l, l ∈ (strip ∘ fst) <$> df) required ∧
    fit no_port (features ≫= select (strip_columns df))
      (select (strip_columns df) (str "Crop")) = Ok cm ∧
    fit no_port (features ≫= select (strip_columns df))
      (select (strip_columns df) (str "Irrigation_Needed")) = Ok im ∧
    wheat_yes = Models (Some cm) (Some im).
Proof.
  by apply (serving_models_trained no_port None wheat_yes
              [EPrint (connect_message port_busy)]).
Defined.

Lemma thread_iff_port_witness :
  None = @None port ∧ isinstance port_busy SerialException = true ∧
  [EPrint (connect_message port_busy)] = [EPrint (connect_message port_busy)].
Proof.
  by apply (thread_iff_port (demo_env (Raise port_busy) (Ok demo_frame))
              None wheat_yes [EPrint (connect_message port_busy)]).
Defined.

Lemma startup_serves_witness :
  run (demo_env (Ok [serial_line "25.0,60.0,40.0"]) (Ok demo_frame)) =
    (Serving (Some [serial_line "25.0,60.0,40.0"]) wheat_yes, [ESleep 2]).
Proof.
  by apply (startup_serves (demo_env (Ok [serial_line "25.0,60.0,40.0"]) (Ok demo_frame))
              (Boot (Some [serial_line "25.0,60.0,40.0"]) (Models None None) [ESleep 2])
              [0; 1; 2]%nat [3%nat] [4%nat]).
Defined.

Lemma missing_file_exits_witness :
  run (demo_env (Raise port_busy) (Raise no_such_file)) =
    (Exited system_exit,
     [EPrint (connect_message port_busy); EPrint file_not_found_message]) ∧
  occurs_in dataset file_not_found_message = false.
Proof.
  by apply (missing_file_exits (demo_env (Raise port_busy) (Raise no_such_file))
              (Boot None (Models None None) [EPrint (connect_message port_busy)])
              no_such_file).
Defined.

Lemma missing_column_exits_witness :
  ∃ e, exn_class_of e = KeyError ∧
    run (demo_env (Raise port_busy) (Ok (take 4 demo_frame))) =
      (Exited system_exit,
       [EPrint (connect_message port_busy); EPrint (key_error_message e)]).
Proof.
  apply (missing_column_exits (demo_env (Raise port_busy) (Ok (take 4 demo_frame)))
           (Boot None (Models None None) [EPrint (connect_message port_busy)])
           (take 4 demo_frame) (str "Irrigation_Needed")); [done..| |].
  - apply (bool_decide_unpack _). by vm_compute.
  - apply (bool_decide_unpack _). by vm_compute.
Defined.

Lemma dataset_error_dies_witness :
  run (demo_env (Raise port_busy) (Raise empty_data)) =
    (Died empty_data, [EPrint (connect_message port_busy)]).
Proof.
  apply (dataset_error_dies (demo_env (Raise port_busy) (Raise empty_data))
           (Boot None (Models None None) [EPrint (connect_message port_busy)]));
    [done|by left|done..].
Defined.
