(* ===== verification/Query.v ===== *)
(** * The query surface: the two routes

    Lines 104-112 of [src/app.py].  [/data] answers with
    [jsonify(sensor_data)]: the dict serialised by Flask's JSON provider,
    keys sorted.  A response is a status and a body; the body of [/data] is
    the JSON object as a list of fields; its text is in [JsonText].
    Serialising raises [TypeError] for a value that
    is neither a [str], an [int] nor a [float], and writes a NaN or an
    infinity as a token standard JSON does not have: [strict] tells whether
    a body is standard JSON. *)

From Stdlib Require Import ZArith String.
From Stdlib.Floats Require Import SpecFloat.
From stdpp Require Import base tactics option list sorting gmap strings.
From S2P Require Import Prelude PyStr Float64 PyExn SensorData.

#[local] Open Scope string_scope.

(** ** JSON *)

Inductive jvalue :=
| JInt (n : Z)
| JFloat (x : float64)
| JString (s : pystr).

#[export] Instance jvalue_eq_dec : EqDecision jvalue.
Proof. solve_decision. Defined.

(** An object: its fields in the order they are written. *)
Abbreviation jobject := (list (string * jvalue)) (only parsing).

Definition not_serializable (type_name : string) : pyexn :=
  PyExn TypeError (str "Object of type " ++ str type_name ++ str " is not JSON serializable").

(** What the encoder writes for a value.  A numpy integer or boolean is
    no instance of [int] or [bool]: the provider's [default] refuses it. *)
Definition json_of (v : pyval) : outcome pyexn jvalue :=
  match v with
  | PInt n => Ok (JInt n)
  | PFloat x => Ok (JFloat x)
  | PStr s => Ok (JString s)
  | PNpInt _ => Raise (not_serializable "int64")
  | PNpBool _ => Raise (not_serializable "bool")
  end.

Definition key_le (a b : string * pyval) : Prop := String.leb a.1 b.1 = true.

#[export] Instance key_le_dec a b : Decision (key_le a b).
Proof. unfold key_le. apply _. Defined.

(** The items of the dict, sorted by key: the provider has
    [sort_keys = True]. *)
Definition sorted_items (d : gmap string pyval) : list (string * pyval) :=
  merge_sort key_le (map_to_list d).

(** [app.json.dumps(d)], as an object. *)
Definition dumps (d : gmap string pyval) : outcome pyexn (list (string * jvalue)) :=
  mapM (λ kv, (kv.1,.) <$> json_of kv.2) (sorted_items d).

(** Standard JSON has no NaN and no infinity: [json.dumps] writes them as
    [NaN], [Infinity] and [-Infinity], which [JSON.parse] refuses. *)
Definition strict_value (j : jvalue) : bool :=
  match j with
  | JFloat x => is_finite x
  | JInt _ | JString _ => true
  end.

Definition strict (o : list (string * jvalue)) : bool := forallb (strict_value ∘ snd) o.

(** ** Responses *)

Inductive body :=
| Json (o : list (string * jvalue))
| Html (page : pystr)
| NotFound
| ServerError (e : pyexn).

Record response := Response { status : Z; content : body }.

(** [jsonify(d)] *)
Definition jsonify (d : gmap string pyval) : outcome pyexn response :=
  o ← dumps d; Ok (Response 200 (Json o)).

(** A view function that raises: Flask answers 500 (with the debugger's
    page, under [debug=True]). *)
Definition respond (r : outcome pyexn response) : response :=
  match r with
  | Ok r => r
  | Raise e => Response 500 (ServerError e)
  end.

(** Lines 109-112: [GET /data], given the dict at the time of the call. *)
Definition data (sensor_data : gmap string pyval) : response :=
  respond (jsonify sensor_data).

(** Lines 104-107: [GET /]; [render] is what
    [render_template('index.html')] gives. *)
Definition index (render : outcome pyexn pystr) : response :=
  respond (page ← render; Ok (Response 200 (Html page))).

(** The two routes of the application. *)
Definition route (render : outcome pyexn pystr) (sensor_data : gmap string pyval)
    (path : string) : response :=
  if decide (path = "/") then index render
  else if decide (path = "/data") then data sensor_data
  else Response 404 NotFound.

(** * Facts *)

(** The fields of a record, in the order of their keys. *)
Definition fields (r : shared_record) : list (string * pyval) :=
  [("advice", r_advice r); ("crop", r_crop r); ("hum", r_hum r);
   ("soil", r_soil r); ("temp", r_temp r)].

Lemma sorted_items_of_record r : sorted_items (of_record r) = fields r.
Proof. destruct r. by vm_compute. Qed.

Lemma sorted_items_view d r : wf_keys d → view d = Some r → sorted_items d = fields r.
Proof. intros Hd Hv. by rewrite <-(of_record_view d r), sorted_items_of_record. Qed.

(** A value the encoder accepts. *)
Definition serializable (v : pyval) : bool := is_ok (json_of v).

Lemma mapM_outcome_cons {E A B} (f : A → outcome E B) x (l : list A) :
  mapM f (x :: l) = y ← f x; k ← mapM f l; Ok (y :: k).
Proof. reflexivity. Qed.

Lemma mapM_outcome_ok {E A B} (f : A → outcome E B) (l : list A) :
  Forall (λ x, is_ok (f x) = true) l → is_ok (mapM f l) = true.
Proof.
  induction 1 as [|x l [y Hy]%is_ok_true _ IH]; [done|].
  apply is_ok_true in IH as [k Hk]. by rewrite mapM_outcome_cons, Hy, Hk.
Qed.

Lemma mapM_outcome_raise {E A B} (f : A → outcome E B) (l : list A) :
  Exists (λ x, is_ok (f x) = false) l → is_ok (mapM f l) = false.
Proof.
  induction 1 as [x l [e He]%is_ok_false|x l _ IH]; rewrite mapM_outcome_cons.
  - by rewrite He.
  - destruct (f x); [|done]. apply is_ok_false in IH as [e ->]. done.
Qed.

Lemma dumps_view d r :
  wf_keys d → view d = Some r →
  dumps d = mapM (λ kv, (kv.1,.) <$> json_of kv.2) (fields r).
Proof. intros Hd Hv. unfold dumps. by rewrite (sorted_items_view d r). Qed.

Lemma dumps_record d t h s c a :
  wf_keys d → view d = Some (SharedRecord t h s c a) →
  dumps d =
    ja ← json_of a; jc ← json_of c; jh ← json_of h; js ← json_of s; jt ← json_of t;
    Ok [("advice", ja); ("crop", jc); ("hum", jh); ("soil", js); ("temp", jt)].
Proof.
  intros Hd Hv. rewrite (dumps_view d _ Hd Hv). unfold fields. cbn.
  by destruct (json_of a), (json_of c), (json_of h), (json_of s), (json_of t).
Qed.

Lemma data_record_response d t h s c a :
  wf_keys d → view d = Some (SharedRecord t h s c a) →
  data d =
    respond (ja ← json_of a; jc ← json_of c; jh ← json_of h; js ← json_of s;
             jt ← json_of t;
             Ok (Response 200
                   (Json [("advice", ja); ("crop", jc); ("hum", jh); ("soil", js);
                          ("temp", jt)]))).
Proof.
  intros Hd Hv. unfold data, jsonify. rewrite (dumps_record _ _ _ _ _ _ Hd Hv).
  by destruct (json_of a), (json_of c), (json_of h), (json_of s), (json_of t).
Qed.

Lemma is_ok_fmap {E A B} (f : A → B) (o : outcome E A) : is_ok (f <$> o) = is_ok o.
Proof. by destruct o. Qed.

Lemma data_status d : status (data d) = if is_ok (dumps d) then 200%Z else 500%Z.
Proof. unfold data, jsonify. by destruct (dumps d). Qed.

(** The values of a well-formed dict are those of its view. *)
Lemma fields_lookup d r k v :
  wf_keys d → view d = Some r → d !! k = Some v ↔ (k, v) ∈ fields r.
Proof.
  intros Hd Hv. rewrite <-(of_record_view d r Hd Hv). unfold fields, of_record.
  rewrite !elem_of_cons, elem_of_nil.
  destruct (decide (k ∈ keys)) as [Hk|Hk].
  - apply keys_elem in Hk. destruct_or!; subst; simplify_map_eq; naive_solver.
  - rewrite keys_elem in Hk. rewrite !lookup_insert_ne by naive_solver.
    rewrite lookup_empty. naive_solver.
Qed.

Lemma strict_json_of v j :
  json_of v = Ok j →
  strict_value j = true ↔ ∀ x, v = PFloat x → is_finite x = true.
Proof. destruct v; intros [= <-]; simpl; naive_solver. Qed.

(** * Properties of [/data] *)

(** C36: when the five values of the dict are strings,
    integers or floats, [/data] answers 200 with the five fields, in the
    order of their keys, each with the value the dict holds. *)
Theorem data_serves_record d t h s c a jt jh js jc ja :
  wf_keys d → view d = Some (SharedRecord t h s c a) →
  json_of t = Ok jt → json_of h = Ok jh → json_of s = Ok js →
  json_of c = Ok jc → json_of a = Ok ja →
  data d =
    Response 200
      (Json [("advice", ja); ("crop", jc); ("hum", jh); ("soil", js); ("temp", jt)]).
Proof.
  intros Hd Hv Ht Hh Hs Hc Ha. unfold data, jsonify.
  by rewrite (dumps_record d _ _ _ _ _ Hd Hv), Ht, Hh, Hs, Hc, Ha.
Qed.

(** The status of [/data] in terms of what the encoder accepts. *)
Lemma data_status_serializable d :
  wf_keys d →
  (status (data d) = 500%Z ↔ ∃ k v, d !! k = Some v ∧ serializable v = false) ∧
  (status (data d) = 200%Z ↔ ∀ k v, d !! k = Some v → serializable v = true).
Proof.
  intros Hd. destruct (view_is_Some d Hd) as [r Hv].
  rewrite data_status, (dumps_view d r Hd Hv).
  destruct (decide (Forall (λ kv, serializable kv.2 = true) (fields r))) as [Hall|Hex].
  - rewrite mapM_outcome_ok
      by (eapply Forall_impl; [done|]; intros []; by rewrite is_ok_fmap).
    rewrite Forall_forall in Hall. split; (split; [try done|try done]).
    + intros (k & v & Hk%(fields_lookup d r) & Hs); [|done..].
      apply Hall in Hk. simpl in Hk. congruence.
    + intros _ k v Hk%(fields_lookup d r); [|done..]. by apply Hall in Hk.
  - apply not_Forall_Exists in Hex; [|apply _].
    rewrite mapM_outcome_raise; last first.
    { eapply Exists_impl; [done|]. intros [k v] Hs%not_true_is_false.
      by rewrite is_ok_fmap. }
    apply Exists_exists in Hex as ([k v] & Hin & Hs%not_true_is_false).
    apply (fields_lookup d r) in Hin; [|done..]. split; (split; [try done|try done]).
    + intros _. by exists k, v.
    + intros Hall. apply Hall in Hin. simpl in Hs. congruence.
Qed.

(** What the encoder refuses, by the class of the value: the numpy scalars
    that derive from no builtin type, and nothing else. *)
Lemma serializable_numpy v : serializable v = negb (numpy_only v).
Proof. by destruct v. Qed.

Lemma json_of_raise v e :
  json_of v = Raise e →
  ∃ name, e = not_serializable name ∧ (name = "int64" ∨ name = "bool").
Proof. destruct v; intros [= <-]; eauto. Qed.

Lemma mapM_outcome_raise_inv {E A B} (f : A → outcome E B) (l : list A) e :
  mapM f l = Raise e → ∃ x, x ∈ l ∧ f x = Raise e.
Proof.
  induction l as [|x l IH]; [done|]. rewrite mapM_outcome_cons.
  destruct (f x) as [y|e'] eqn:Hx; simpl.
  - destruct (mapM f l) as [k|e'']; [done|]. intros [= ->].
    destruct IH as (x' & Hin & Hx'); [done|]. exists x'. split; [by right|done].
  - intros [= ->]. exists x. split; [by left|done].
Qed.

(** C35: [/data] answers 500 exactly when one of the values
    of the dict is a numpy integer or boolean, a value whose class derives
    from no builtin type; it answers 200 exactly when every value is a
    [str], an [int] or a [float], or of a numpy class that derives from
    one.  The 500 carries the [TypeError] of the encoder, which names
    [int64] or [bool]. *)
Theorem data_fails_iff d :
  wf_keys d →
  (status (data d) = 500%Z ↔ ∃ k v, d !! k = Some v ∧ numpy_only v = true) ∧
  (status (data d) = 200%Z ↔ ∀ k v, d !! k = Some v → numpy_only v = false) ∧
  (status (data d) = 500%Z →
   ∃ name, content (data d) = ServerError (not_serializable name) ∧
           (name = "int64" ∨ name = "bool")).
Proof.
  intros Hd. destruct (data_status_serializable d Hd) as [H500 H200].
  split_and!.
  - rewrite H500. by setoid_rewrite serializable_numpy; setoid_rewrite negb_false_iff.
  - rewrite H200. by setoid_rewrite serializable_numpy; setoid_rewrite negb_true_iff.
  - unfold data, jsonify. destruct (dumps d) as [o|e] eqn:Hdumps; [done|].
    intros _. apply mapM_outcome_raise_inv in Hdumps as ([k v] & _ & Hv).
    simpl in Hv. destruct (json_of v) as [j|e'] eqn:Hj; [done|].
    injection Hv as ->. destruct (json_of_raise v e Hj) as (name & -> & Hname).
    by exists name.
Qed.

(** The body [/data] sends is standard JSON exactly
    when no reading of the dict is a NaN or an infinity. *)
Theorem data_strict_iff d o :
  wf_keys d → data d = Response 200 (Json o) →
  strict o = true ↔ ∀ k x, d !! k = Some (PFloat x) → is_finite x = true.
Proof.
  intros Hd. destruct (view_is_Some d Hd) as [[t h s c a] Hv].
  unfold data, jsonify. rewrite (dumps_record d _ _ _ _ _ Hd Hv).
  destruct (json_of a) as [ja|] eqn:Ha; [|done].
  destruct (json_of c) as [jc|] eqn:Hc; [|done].
  destruct (json_of h) as [jh|] eqn:Hh; [|done].
  destruct (json_of s) as [js|] eqn:Hs; [|done].
  destruct (json_of t) as [jt|] eqn:Ht; [|done].
  intros [= <-]. unfold strict. cbn [forallb compose snd]. rewrite !andb_true_iff.
  rewrite (strict_json_of _ _ Ha), (strict_json_of _ _ Hc), (strict_json_of _ _ Hh).
  rewrite (strict_json_of _ _ Hs), (strict_json_of _ _ Ht).
  setoid_rewrite (fields_lookup d _ _ _ Hd Hv). unfold fields. simpl.
  repeat setoid_rewrite elem_of_cons. setoid_rewrite elem_of_nil. naive_solver.
Qed.

(** * Examples *)

(** What [/data] answers before the first reading. *)
Lemma data_serves_record_witness :
  data sensor_data_init =
    Response 200
      (Json [("advice", JString (str "N/A")); ("crop", JString (str "N/A"));
             ("hum", JInt 0); ("soil", JInt 0); ("temp", JInt 0)]).
Proof.
  by apply (data_serves_record sensor_data_init (PInt 0) (PInt 0) (PInt 0)
              (PStr (str "N/A")) (PStr (str "N/A"))); [apply wf_keys_init|..].
Defined.

(** A record whose advice is the numpy integer 1. *)
Definition coded_advice : gmap string pyval := setitem "advice" (PNpInt 1) sensor_data_init.

Lemma coded_advice_wf : wf_keys coded_advice.
Proof. apply wf_keys_setitem; [apply wf_keys_init|]. apply keys_elem. auto 6. Qed.

Lemma data_fails_iff_witness :
  status (data coded_advice) = 500%Z ∧
  (∃ k v, coded_advice !! k = Some v ∧ numpy_only v = true) ∧
  content (data coded_advice) = ServerError (not_serializable "int64").
Proof.
  assert (∃ k v, coded_advice !! k = Some v ∧ numpy_only v = true) as Hnp
    by by exists "advice", (PNpInt 1).
  split_and!; [|done..].
  by apply (proj1 (data_fails_iff coded_advice coded_advice_wf)).
Defined.

Lemma data_strict_iff_witness :
  strict [("advice", JString (str "N/A")); ("crop", JString (str "N/A"));
          ("hum", JInt 0); ("soil", JInt 0); ("temp", JInt 0)] = true ↔
  ∀ k x, sensor_data_init !! k = Some (PFloat x) → is_finite x = true.
Proof. by apply (data_strict_iff sensor_data_init); [apply wf_keys_init|]. Defined.
