(* ===== verification/JsonText.v ===== *)
(** * The text of the body of [/data]

    [jsonify(sensor_data)] on line 112 of [src/app.py] answers with the
    text that [json.dumps] writes for the dict, with the settings of
    Flask's provider: keys sorted, every character outside printable ASCII
    escaped, and, since line 115 runs the application with [debug=True],
    one field per line indented by two spaces; a line end closes the body.
    A string is written between quotes with its escapes, an [int] in
    decimal, a [float] by [repr], a NaN and the infinities by the tokens
    [NaN], [Infinity] and [-Infinity].  The layout is a parameter of
    [json_object], as it is of [json.dumps]; [layout_of] is the choice of
    the provider of Flask 2.2 and later. *)

From Stdlib Require Import ZArith Lia String.
From Stdlib.Floats Require Import SpecFloat.
From stdpp Require Import base tactics option list gmap strings numbers.
From S2P Require Import Prelude PyStr Float64 PyFloat FloatRepr PyExn SensorData.
From S2P Require Import Ingest IngestInv Typing Query.

#[local] Open Scope Z_scope.

(** ** Strings *)

Definition hex_digit (n : Z) : Z := if n <? 10 then 48 + n else 87 + n.

(** A backslash, [u] and four hexadecimal digits. *)
Definition unicode_escape (n : Z) : pystr :=
  [92; 117; hex_digit (n / 4096 mod 16); hex_digit (n / 256 mod 16);
   hex_digit (n / 16 mod 16); hex_digit (n mod 16)].

(** From the space to the tilde. *)
Definition printable (c : Z) : bool := in_range 32 126 c.

(** What the encoder writes for a character: the quote and the backslash
    after a backslash, the other printable characters as they are, a short
    escape for the line end, the return, the tab, the backspace and the
    form feed, four hexadecimal digits for the rest, twice with the two
    surrogates above [0xFFFF]. *)
Definition escape_char (c : Z) : pystr :=
  if c =? 34 then [92; 34]
  else if c =? 92 then [92; 92]
  else if printable c then [c]
  else if c =? 10 then [92; 110]
  else if c =? 13 then [92; 114]
  else if c =? 9 then [92; 116]
  else if c =? 8 then [92; 98]
  else if c =? 12 then [92; 102]
  else if c <? 65536 then unicode_escape c
  else unicode_escape (55296 + (c - 65536) / 1024) ++
       unicode_escape (56320 + (c - 65536) mod 1024).

Definition json_string (s : pystr) : pystr := 34 :: (s ≫= escape_char) ++ [34].

(** ** Numbers *)

Definition json_float (x : float64) : pystr :=
  match x with
  | S754_nan => str "NaN"
  | S754_infinity false => str "Infinity"
  | S754_infinity true => str "-Infinity"
  | _ => float_repr x
  end.

Definition json_value (j : jvalue) : pystr :=
  match j with
  | JInt n => int_repr n
  | JFloat x => json_float x
  | JString s => json_string s
  end.

(** ** Objects *)

(** The [indent] and the [separators] of [json.dumps]. *)
Record layout := Layout {
  indent : option nat;
  item_separator : pystr;
  key_separator : pystr
}.

(** A line end and the indentation of a level, when there is an indent. *)
Definition newline_indent (l : layout) (level : nat) : pystr :=
  match indent l with
  | Some n => 10 :: replicate (level * n) 32
  | None => []
  end.

Fixpoint join_with (sep : pystr) (parts : list pystr) : pystr :=
  match parts with
  | [] => []
  | p :: ps =>
    match ps with
    | [] => p
    | _ => p ++ sep ++ join_with sep ps
    end
  end.

Definition json_item (l : layout) (kv : string * jvalue) : pystr :=
  json_string (str kv.1) ++ key_separator l ++ json_value kv.2.

Definition json_object (l : layout) (o : list (string * jvalue)) : pystr :=
  match o with
  | [] => [123; 125]
  | _ =>
    123 :: newline_indent l 1 ++
    join_with (item_separator l ++ newline_indent l 1) (json_item l <$> o) ++
    newline_indent l 0 ++ [125]
  end.

(** The layout the provider chooses: under [debug] an indent of two, a
    comma at the end of a line, a colon and a space after a key; otherwise
    one line, with a comma and a colon alone. *)
Definition layout_of (debug : bool) : layout :=
  if debug then Layout (Some 2%nat) [44] [58; 32] else Layout None [44] [58].

(** The body of a response of [jsonify], in an application whose debug
    flag is [debug]. *)
Definition json_text (debug : bool) (o : list (string * jvalue)) : pystr :=
  json_object (layout_of debug) o ++ [10].

(** ** What the properties speak of *)

(** A character of a body: printable, or a line end. *)
Definition body_char (c : Z) : bool := printable c || (c =? 10).

(** The number a client reads where the dict holds [v]. *)
Definition number_of (v : pyval) : option float64 :=
  match v with
  | PInt n => Some (of_Z n)
  | PFloat x => Some x
  | _ => None
  end.

(** A string between quotes, none of its characters escaped. *)
Definition quoted (s : string) : pystr := 34 :: str s ++ [34].

(** * Characters *)

Lemma hex_digit_printable n : 0 ≤ n < 16 → printable (hex_digit n) = true.
Proof. intros Hn. apply in_range_spec. unfold hex_digit. case_match; lia. Qed.

Lemma unicode_escape_printable n : all_in printable (unicode_escape n).
Proof.
  unfold unicode_escape.
  repeat (constructor; [done || (apply hex_digit_printable, Z.mod_pos_bound; lia)|]).
  constructor.
Qed.

Lemma escape_char_printable c : all_in printable (escape_char c).
Proof.
  unfold escape_char.
  repeat case_match;
    try (apply Forall_app; split); try apply unicode_escape_printable;
    by repeat constructor.
Qed.

Lemma json_string_printable s : all_in printable (json_string s).
Proof.
  unfold json_string. constructor; [done|]. apply Forall_app. split; [|by constructor].
  apply Forall_bind, Forall_forall. intros c _. apply escape_char_printable.
Qed.

Lemma numeral_char_printable c :
  numeral_char c || is_letter c = true → printable c = true.
Proof.
  unfold numeral_char, is_letter, is_digit, printable.
  rewrite !orb_true_iff, !in_range_spec, !Z.eqb_eq. lia.
Qed.

Lemma float_repr_printable x : all_in printable (float_repr x).
Proof.
  generalize (float_repr_chars x). apply List.Forall_impl, numeral_char_printable.
Qed.

Lemma json_float_printable x : all_in printable (json_float x).
Proof.
  destruct x as [neg|[]| |neg m e]; try by repeat constructor.
  - apply (float_repr_printable (S754_zero neg)).
  - apply (float_repr_printable (S754_finite neg m e)).
Qed.

Lemma int_repr_printable n : all_in printable (int_repr n).
Proof.
  destruct (int_repr_value n) as (ds & Hds & _ & _ & ->).
  apply Forall_app. split; [destruct (n <? 0); by repeat constructor|].
  revert Hds. apply List.Forall_impl. intros c Hc.
  apply numeral_char_printable. by rewrite is_digit_numeral.
Qed.

Lemma json_value_printable j : all_in printable (json_value j).
Proof.
  destruct j; [apply int_repr_printable|apply json_float_printable
              |apply json_string_printable].
Qed.

Lemma printable_body_char s : all_in printable s → all_in body_char s.
Proof. apply List.Forall_impl. unfold body_char. by intros c ->. Qed.

Section object.
Context (l : layout).
Context (Hitem : all_in body_char (item_separator l)).
Context (Hkey : all_in body_char (key_separator l)).

Lemma newline_indent_chars level : all_in body_char (newline_indent l level).
Proof.
  unfold newline_indent. destruct (indent l); constructor; [done|].
  by apply Forall_replicate.
Qed.

Lemma join_with_chars sep parts :
  all_in body_char sep → Forall (all_in body_char) parts →
  all_in body_char (join_with sep parts).
Proof.
  intros Hsep. induction 1 as [|p ps Hp Hps IH]; [constructor|].
  cbn [join_with]. destruct ps; [done|]. by repeat (apply Forall_app; split).
Qed.

Lemma json_item_chars kv : all_in body_char (json_item l kv).
Proof.
  unfold json_item. repeat (apply Forall_app; split); [|done|];
    apply printable_body_char; [apply json_string_printable|apply json_value_printable].
Qed.

Lemma json_object_chars o : all_in body_char (json_object l o).
Proof.
  unfold json_object. destruct o as [|kv o]; [by repeat constructor|].
  constructor; [done|]. repeat (apply Forall_app; split);
    [apply newline_indent_chars| |apply newline_indent_chars|by constructor].
  apply join_with_chars;
    [apply Forall_app; split; [done|apply newline_indent_chars]|].
  apply Forall_fmap, Forall_forall. intros ? _. apply json_item_chars.
Qed.

End object.

(** * Numbers read back *)

Section numbers.
Context `{UnicodeDB}.

(** The text of an [int] reads as the [float] of the [int]. *)
Lemma int_repr_reads_back n : float_of_str (int_repr n) = Some (of_Z n).
Proof.
  destruct (int_repr_value n) as (ds & Hds & Hne & Hv & ->).
  rewrite <-(app_nil_r ds).
  rewrite (float_of_str_reads_as _ _ _ _ (reads_as_integer ds [] 0 Hds Hne tail_of_nil)).
  by rewrite Hv.
Qed.

(** The text of a [float] reads as the [float], the tokens of the values
    that are no numbers included. *)
Lemma json_float_reads_back x :
  valid x = true → float_of_str (json_float x) = Some x.
Proof.
  intros Hv. destruct x as [neg|[]| |neg m e]; cbn [json_float].
  - apply zero_reads_back.
  - apply word_reads_back; by repeat constructor.
  - apply word_reads_back; by repeat constructor.
  - apply word_reads_back; by repeat constructor.
  - by apply finite_reads_back.
Qed.

Lemma reading_reads_back v :
  is_reading v →
  ∃ j, json_of v = Ok j ∧ float_of_str (json_value j) = number_of v.
Proof.
  intros [->|(x & -> & Hx)]; eexists; (split; [done|]); cbn [json_value number_of].
  - apply int_repr_reads_back.
  - by apply json_float_reads_back.
Qed.

(** * Properties *)

(** C31: whatever the port delivered and the models
    answered, each of the three numbers of the dict is served as a text
    that reads back as the very number the thread stored: the encoder
    accepts it, and no digit of it is lost on the way to the client. *)
Theorem served_numbers_read_back ms rs k v :
  k ∈ reading_keys →
  sensor_data (loop ms rs initial).1 !! k = Some v →
  ∃ j, json_of v = Ok j ∧ float_of_str (json_value j) = number_of v.
Proof.
  intros Hk Hv. apply reading_reads_back.
  destruct (loop ms rs initial) as [st o] eqn:Hl. simpl in Hv.
  destruct (loop_keeps_typed ms rs _ _ _ Hl (typed_init ms) k v Hv)
    as [[_ Hr]|[[-> _]|[-> _]]]; [done|set_solver..].
Qed.

End numbers.

(** The body of a response of [/data] is made of
    printable ASCII characters and line ends only, whatever strings the
    models answered with: the encoder escapes every other character. *)
Theorem json_text_ascii debug o : all_in body_char (json_text debug o).
Proof.
  unfold json_text. apply Forall_app. split; [|by repeat constructor].
  apply json_object_chars; destruct debug; by repeat constructor.
Qed.

(** * Scenarios *)

(** The body before any reading. *)
Example placeholder_text :
  json_text true <$> dumps sensor_data_init =
  Ok (str "{" ++ [10] ++
      str "  " ++ quoted "advice" ++ str ": " ++ quoted "N/A" ++ str "," ++ [10] ++
      str "  " ++ quoted "crop" ++ str ": " ++ quoted "N/A" ++ str "," ++ [10] ++
      str "  " ++ quoted "hum" ++ str ": 0," ++ [10] ++
      str "  " ++ quoted "soil" ++ str ": 0," ++ [10] ++
      str "  " ++ quoted "temp" ++ str ": 0" ++ [10] ++
      str "}" ++ [10]).
Proof. by vm_compute. Qed.

(** The body after the line [25.0,60.0,40.0] and the answers [Wheat] and
    [Yes]. *)
Example reading_text :
  json_text true <$> dumps (of_record (SharedRecord
    (PFloat (of_decimal false 250 (-1))) (PFloat (of_decimal false 600 (-1)))
    (PFloat (of_decimal false 400 (-1))) (PStr (str "Wheat")) (PStr (str "Yes")))) =
  Ok (str "{" ++ [10] ++
      str "  " ++ quoted "advice" ++ str ": " ++ quoted "Yes" ++ str "," ++ [10] ++
      str "  " ++ quoted "crop" ++ str ": " ++ quoted "Wheat" ++ str "," ++ [10] ++
      str "  " ++ quoted "hum" ++ str ": 60.0," ++ [10] ++
      str "  " ++ quoted "soil" ++ str ": 40.0," ++ [10] ++
      str "  " ++ quoted "temp" ++ str ": 25.0" ++ [10] ++
      str "}" ++ [10]).
Proof. by vm_compute. Qed.

(** A label with a quote, a degree sign and a character above [0xFFFF]. *)
Example escaped_label :
  json_string [34; 176; 128512] =
  [34; 92; 34; 92] ++ str "u00b0" ++ [92] ++ str "ud83d" ++ [92] ++ str "ude00" ++ [34].
Proof. by vm_compute. Qed.

(** A NaN and an infinity are written as tokens that are no JSON. *)
Example non_finite_tokens :
  json_value (JFloat S754_nan) = str "NaN" ∧
  json_value (JFloat (S754_infinity true)) = str "-Infinity".
Proof. by vm_compute. Qed.

Lemma served_numbers_read_back_witness :
  ∃ j, json_of (PFloat (of_decimal false 250 (-1))) = Ok j ∧
       float_of_str (json_value j) = number_of (PFloat (of_decimal false 250 (-1))).
Proof.
  apply (served_numbers_read_back wheat_yes [serial_line "25.0,60.0,40.0"]
           "temp"%string); [set_solver|by vm_compute].
Defined.
