(* ===== verification/App.v ===== *)
(** * The application object

    Line 8 of [src/app.py] creates the Flask application, the decorators of
    lines 104 and 109 add its two rules, and line 115 runs it with
    [debug=True].  An application is its rules and its debug flag: a
    request is answered by the view of the rule that its path matches, and
    the flag decides how [jsonify] lays the body out.  [route] of [Query]
    is what the application that the program builds does. *)

From Stdlib Require Import ZArith String.
From stdpp Require Import base tactics option list gmap strings.
From S2P Require Import Prelude PyStr PyExn SensorData Query JsonText.

#[local] Open Scope string_scope.

(** ** The application *)

(** The view functions of lines 105 and 110. *)
Inductive view := IndexView | DataView.

#[export] Instance view_eq_dec : EqDecision view.
Proof. solve_decision. Defined.

Record app := App {
  url_map : list (string * view);
  debug : bool
}.

(** Line 8: no rule of the program's yet, and no debugging. *)
Definition Flask : app := App [] false.

(** Lines 104 and 109: [@app.route(rule)] in front of a view. *)
Definition add_url_rule (rule : string) (v : view) (a : app) : app :=
  App (url_map a ++ [(rule, v)]) (debug a).

(** Line 115: [app.run(debug=...)] sets the flag before it serves. *)
Definition app_run (flag : bool) (a : app) : app := App (url_map a) flag.

(** The application when it serves. *)
Definition application : app :=
  app_run true (add_url_rule "/data" DataView (add_url_rule "/" IndexView Flask)).

(** ** Requests *)

(** The view of the first rule that is the path. *)
Definition match_rule (a : app) (path : string) : option view :=
  (λ ir, ir.2.2) <$> list_find (λ r, r.1 = path) (url_map a).

Definition call_view (v : view) (render : outcome pyexn pystr)
    (sensor_data : gmap string pyval) : response :=
  match v with
  | IndexView => index render
  | DataView => data sensor_data
  end.

Definition dispatch (a : app) (render : outcome pyexn pystr)
    (sensor_data : gmap string pyval) (path : string) : response :=
  match match_rule a path with
  | Some v => call_view v render sensor_data
  | None => Response 404 NotFound
  end.

(** The text of a body, where the program decides it. *)
Definition body_text (a : app) (r : response) : option pystr :=
  match content r with
  | Json o => Some (json_text (debug a) o)
  | Html page => Some page
  | NotFound | ServerError _ => None
  end.

(** * Rules *)

Lemma match_rule_add_hit rule v a path :
  match_rule a path = None → rule = path →
  match_rule (add_url_rule rule v a) path = Some v.
Proof.
  unfold match_rule, add_url_rule. cbn [url_map]. intros Hnone ->.
  destruct (list_find _ (url_map a)) as [[i r]|] eqn:Hf; [done|].
  apply list_find_None in Hf.
  rewrite list_find_app_r by by apply list_find_None.
  cbn. by rewrite decide_True.
Qed.

Lemma match_rule_add_miss rule v a path :
  rule ≠ path → match_rule (add_url_rule rule v a) path = match_rule a path.
Proof.
  unfold match_rule, add_url_rule. cbn [url_map]. intros Hne.
  destruct (list_find _ (url_map a)) as [[i r]|] eqn:Hf.
  - by rewrite (list_find_app_l _ _ _ _ _ Hf).
  - rewrite list_find_app_r by done. cbn. by rewrite decide_False.
Qed.

Lemma match_rule_run flag a path : match_rule (app_run flag a) path = match_rule a path.
Proof. done. Qed.

(** * Properties *)

(** The application that lines 8, 104, 109 and 115
    build answers [/] with the index view, [/data] with the data view and
    any other path with 404, and it lays the body of [/data] out with an
    indent: the decorators registered exactly these two rules, and
    [debug=True] is set when it serves. *)
Theorem dispatch_application render d path :
  dispatch application render d path = route render d path ∧
  debug application = true.
Proof.
  split; [|done]. unfold dispatch, route, application. rewrite match_rule_run.
  destruct (decide (path = "/")) as [->|H1]; [done|].
  destruct (decide (path = "/data")) as [->|H2]; [done|].
  by rewrite !match_rule_add_miss.
Qed.
