(* ===== verification/Interleave.v ===== *)
(** * The thread step by step, and the requests in between

    [Ingest] gives an iteration as a function from state to state.  The
    request handlers run in other threads and can be scheduled between any
    two steps of the ingest thread: what [/data] answers depends on the
    states an iteration passes through.  Here the thread is a [prog], a
    sequence of atomic steps (one store into the dict, one assignment, one
    print); [iteration_steps] is lines 63-95 again in that form, proved equal
    to [Ingest.iteration] by [denote]; [trajectory] is the list of the states
    passed through; [sys_step] interleaves the steps of the thread with
    requests.  A request takes the items of the dict in one step (the call
    [sorted(d.items())] of the encoder), so that a response is [data] of one
    state of the trajectory. *)

From Stdlib Require Import ZArith String.
From Stdlib.Strings Require Import Byte.
From stdpp Require Import base tactics option list gmap strings.
From S2P Require Import Prelude Utf8 PyStr Float64 PyFloat PyExn SensorData.
From S2P Require Import Ingest IngestInv IngestRuns Query.

#[local] Open Scope string_scope.
#[local] Open Scope list_scope.

(** ** Programs *)

Inductive prog (A : Type) : Type :=
| Done (a : A)
| Throw (e : pyexn)
| Step (f : state → state) (k : prog A)
| Load (k : state → prog A).
Arguments Done {A} a.
Arguments Throw {A} e.
Arguments Step {A} f k.
Arguments Load {A} k.

Fixpoint pbind {A B} (k : A → prog B) (p : prog A) : prog B :=
  match p with
  | Done a => k a
  | Throw e => Throw e
  | Step f p' => Step f (pbind k p')
  | Load g => Load (λ st, pbind k (g st))
  end.

#[export] Instance prog_ret : MRet prog := λ A a, Done a.
#[export] Instance prog_bind : MBind prog := λ A B k p, pbind k p.

(** [try: p except e: h e] *)
Fixpoint ptry {A} (p : prog A) (h : pyexn → prog A) : prog A :=
  match p with
  | Done a => Done a
  | Throw e => h e
  | Step f p' => Step f (ptry p' h)
  | Load g => Load (λ st, ptry (g st) h)
  end.

Definition p_lift {A} (o : outcome pyexn A) : prog A :=
  match o with
  | Ok a => Done a
  | Raise e => Throw e
  end.

Definition p_modify (f : state → state) : prog unit := Step f (Done tt).

Definition p_when (b : bool) (p : prog unit) : prog unit := if b then p else Done tt.

(** The function a program computes. *)
Fixpoint denote {A} (p : prog A) : stexn state pyexn A :=
  match p with
  | Done a => mret a
  | Throw e => st_raise e
  | Step f k => λ st, denote k (f st)
  | Load g => λ st, denote (g st) st
  end.

(** The states a program passes through, the first included. *)
Fixpoint trajectory {A} (p : prog A) (st : state) : list state :=
  match p with
  | Done _ | Throw _ => [st]
  | Step f k => st :: trajectory k (f st)
  | Load g => trajectory (g st) st
  end.

(** ** The thread, lines 63-95 *)

Section thread.
Context `{UnicodeDB}.

Definition store_step (k : string) (v : pyval) : prog unit :=
  p_modify (λ st, set_data (setitem k v (sensor_data st)) st).

(** Lines 71-73 *)
Definition store_reading_steps (t h s : float64) : prog unit :=
  store_step "temp" (PFloat t);;
  store_step "hum" (PFloat h);;
  store_step "soil" (PFloat s).

(** Lines 76-82 *)
Definition predict_and_store_steps (ms : models) (t h s : float64) : prog unit :=
  match crop_model ms, irrigation_model ms with
  | Some cm, Some im =>
    c ← p_lift (predict cm t h s);
    store_step "crop" c;;
    a ← p_lift (predict im t h s);
    store_step "advice" a
  | _, _ => Done tt
  end.

(** Lines 65-82 *)
Definition process_line_steps (ms : models) (l : pystr) : prog unit :=
  p_when (truthy l) (
    let values := split comma l in
    p_when (bool_decide (length values = 3%nat)) (
      '(temp, hum, soil) ← p_lift (unpack3 values);
      store_reading_steps temp hum soil;;
      predict_and_store_steps ms temp hum soil)).

(** Lines 64-82 *)
Definition try_body_steps (ms : models) (r : read_result) : prog unit :=
  raw ← p_lift (readline r);
  text ← p_lift (decode_utf8 raw);
  let l := strip text in
  p_modify (set_line l);;
  process_line_steps ms l.

(** Lines 87-95 *)
Definition handle_steps (e : pyexn) : prog unit :=
  if isinstance e ValueError then
    Load (λ st,
      match line st with
      | Some l => p_modify (log (EPrint (str "Non-numeric data received: " ++ l)))
      | None => Throw unbound_line
      end)
  else if isinstance e Exception then
    p_modify (log (EPrint (str "Error reading from Arduino: " ++ exn_str e)));;
    p_modify (log (ESleep 1))
  else Throw e.

Definition iteration_steps (ms : models) (r : read_result) : prog unit :=
  ptry (try_body_steps ms r) handle_steps.

(** Lines 62-95: the loop over the reads; it ends where an exception
    escapes. *)
Fixpoint loop_steps (ms : models) (rs : list read_result) : prog unit :=
  match rs with
  | [] => Done tt
  | r :: rs' => iteration_steps ms r;; loop_steps ms rs'
  end.

End thread.

(** ** The thread and the requests *)

(** A configuration: what the thread has left to do, the state, and the
    responses sent so far. *)
Record config := Config {
  c_prog : prog unit;
  c_state : state;
  c_sent : list response
}.

(** One step of the system: of the thread, or a request to [/data], which
    answers from the dict as it is. *)
Inductive sys_step : config → config → Prop :=
| sys_modify f k st sent :
    sys_step (Config (Step f k) st sent) (Config k (f st) sent)
| sys_load g st sent :
    sys_step (Config (Load g) st sent) (Config (g st) st sent)
| sys_request p st sent :
    sys_step (Config p st sent) (Config p st (sent ++ [data (sensor_data st)])).

(** * Programs and the functions they compute *)

Section denote.
Context {A B : Type}.
Implicit Types (p : prog A) (k : A → prog B) (st : state).

Lemma denote_bind p k st :
  denote (p ≫= k) st = (denote p ≫= λ a, denote (k a)) st.
Proof.
  revert st. induction p as [a|e|f p IH|g IH]; intros st; try done.
  - apply IH.
  - apply IH.
Qed.

Lemma denote_try p (h : pyexn → prog A) st :
  denote (ptry p h) st = st_try (denote p) (λ e, denote (h e)) st.
Proof.
  revert st. induction p as [a|e|f p IH|g IH]; intros st; try done.
  - apply IH.
  - apply IH.
Qed.

Lemma denote_lift (o : outcome pyexn A) st : denote (p_lift o) st = st_lift o st.
Proof. by destruct o. Qed.

(** The trajectory starts where the program starts and ends where the
    function it computes ends. *)
Lemma trajectory_head p st : head (trajectory p st) = Some st.
Proof. revert st. induction p as [| | |g IH]; intros st; try done. apply IH. Qed.

Lemma trajectory_last p st : last (trajectory p st) = Some (denote p st).1.
Proof.
  revert st. induction p as [a|e|f p IH|g IH]; intros st; try done.
  - simpl. rewrite <-IH. pose proof (trajectory_head p (f st)) as Hh.
    by destruct (trajectory p (f st)).
  - apply IH.
Qed.

Lemma trajectory_bind p k st :
  trajectory (p ≫= k) st =
  match denote p st with
  | (st', Ok a) => removelast (trajectory p st) ++ trajectory (k a) st'
  | (_, Raise _) => trajectory p st
  end.
Proof.
  revert st. induction p as [a|e|f p IH|g IH]; intros st; try done.
  - change (trajectory (Step f p ≫= k) st) with (st :: trajectory (p ≫= k) (f st)).
    rewrite IH. simpl. destruct (denote p (f st)) as [st' [a|e]]; [|done].
    pose proof (trajectory_head p (f st)) as Hh.
    by destruct (trajectory p (f st)).
  - apply IH.
Qed.

End denote.

Lemma trajectory_try {A} (p : prog A) (h : pyexn → prog A) st :
  trajectory (ptry p h) st =
  match denote p st with
  | (_, Ok _) => trajectory p st
  | (st', Raise e) => removelast (trajectory p st) ++ trajectory (h e) st'
  end.
Proof.
  revert st. induction p as [a|e|f p IH|g IH]; intros st; try done.
  - simpl. rewrite IH. destruct (denote p (f st)) as [st' [a|e]]; [done|].
    pose proof (trajectory_head p (f st)) as Hh.
    by destruct (trajectory p (f st)).
  - apply IH.
Qed.

(** * The steps are the iteration of [Ingest] *)

Section refine.
Context `{UnicodeDB}.
Implicit Types (st : state) (ms : models) (r : read_result).

Lemma denote_store_reading t h s st :
  denote (store_reading_steps t h s) st = store_reading t h s st.
Proof. reflexivity. Qed.

Lemma denote_predict_and_store ms t h s st :
  denote (predict_and_store_steps ms t h s) st = predict_and_store ms t h s st.
Proof.
  unfold predict_and_store_steps, predict_and_store.
  destruct (crop_model ms) as [cm|], (irrigation_model ms) as [im|]; try done.
  rewrite denote_bind, stexn_bind_unfold, denote_lift, stexn_lift_bind.
  destruct (predict cm t h s) as [c|e]; [|done]. simpl.
  rewrite denote_bind, stexn_bind_unfold, denote_lift. simpl.
  by destruct (predict im t h s).
Qed.

Lemma denote_process_line ms l st :
  denote (process_line_steps ms l) st = process_line ms l st.
Proof.
  unfold process_line_steps, process_line.
  destruct (truthy l); [|done]. destruct (bool_decide _); [|done]. simpl.
  rewrite denote_bind, stexn_bind_unfold, denote_lift, stexn_lift_bind.
  destruct (unpack3 _) as [[[t h] s]|e]; [|done]. simpl.
  apply denote_predict_and_store.
Qed.

Lemma denote_try_body ms r st : denote (try_body_steps ms r) st = try_body ms r st.
Proof.
  unfold try_body_steps, try_body.
  rewrite denote_bind, stexn_bind_unfold, denote_lift, stexn_lift_bind.
  destruct (readline r) as [raw|e]; [|done]. simpl.
  rewrite denote_bind, stexn_bind_unfold, denote_lift, stexn_lift_bind.
  destruct (decode_utf8 raw) as [text|e]; [|done]. simpl.
  apply denote_process_line.
Qed.

Lemma denote_handle e st : denote (handle_steps e) st = handle e st.
Proof.
  unfold handle_steps, handle, load_line.
  destruct (isinstance e ValueError);
    [rewrite stexn_bind_unfold; simpl; by destruct (line st)|].
  by destruct (isinstance e Exception).
Qed.

Lemma denote_iteration ms r st : denote (iteration_steps ms r) st = iteration ms r st.
Proof.
  unfold iteration_steps, iteration, st_try. rewrite denote_try. unfold st_try.
  rewrite denote_try_body. destruct (try_body ms r st) as [st' [[]|e]]; [done|].
  apply denote_handle.
Qed.

Lemma denote_loop ms rs st : denote (loop_steps ms rs) st = loop ms rs st.
Proof.
  revert st. induction rs as [|r rs IH]; intros st; [done|]. simpl.
  rewrite denote_bind, !stexn_bind_unfold, denote_iteration.
  destruct (iteration ms r st) as [st' [[]|e]]; [apply IH|done].
Qed.

(** The steps of a valid line: the assignment of [line], then the five
    stores. *)
Lemma iteration_steps_valid ms cm im bs text t h s c a :
  decode bs = Some text → well_formed text t h s →
  crop_model ms = Some cm → irrigation_model ms = Some im →
  predict cm t h s = Ok c → predict im t h s = Ok a →
  iteration_steps ms (ReadBytes bs) =
    (p_modify (set_line (strip text));;
     store_reading_steps t h s;;
     store_step "crop" c;;
     store_step "advice" a).
Proof.
  intros Hd (fa & fb & fc & Hsp & Hfa & Hfb & Hfc) Hcm Him Hc Ha.
  unfold iteration_steps, try_body_steps, decode_utf8, process_line_steps.
  cbn [readline p_lift mbind prog_bind pbind]. rewrite Hd.
  cbn [outcome_of_option p_lift mbind prog_bind pbind].
  rewrite (split_truthy _ 1), Hsp by by rewrite Hsp.
  rewrite bool_decide_eq_true_2, (unpack3_ok _ _ _ t h s) by done.
  cbn [p_when p_lift mbind prog_bind pbind].
  unfold predict_and_store_steps. by rewrite Hcm, Him, Hc, Ha.
Qed.

End refine.

(** * Invariants along the trajectory *)

Fixpoint steps_ok {A} (I : state → Prop) (p : prog A) : Prop :=
  match p with
  | Done _ | Throw _ => True
  | Step f k => (∀ st, I st → I (f st)) ∧ steps_ok I k
  | Load g => ∀ st, steps_ok I (g st)
  end.

Section steps_ok.
Context (I : state → Prop).

Lemma steps_ok_bind {A B} (p : prog A) (k : A → prog B) :
  steps_ok I p → (∀ a, steps_ok I (k a)) → steps_ok I (p ≫= k).
Proof.
  intros Hp Hk. induction p as [a|e|f p IH|g IH]; simpl in *; [done..| |]; naive_solver.
Qed.

Lemma steps_ok_try {A} (p : prog A) (h : pyexn → prog A) :
  steps_ok I p → (∀ e, steps_ok I (h e)) → steps_ok I (ptry p h).
Proof.
  intros Hp Hh. induction p as [a|e|f p IH|g IH]; simpl in *; [done..| |]; naive_solver.
Qed.

Lemma steps_ok_lift {A} (o : outcome pyexn A) : steps_ok I (p_lift o).
Proof. by destruct o. Qed.

Lemma steps_ok_when b (p : prog unit) : steps_ok I p → steps_ok I (p_when b p).
Proof. by destruct b. Qed.

Lemma steps_ok_modify f : (∀ st, I st → I (f st)) → steps_ok I (p_modify f).
Proof. by split. Qed.

Lemma trajectory_inv {A} (p : prog A) st :
  steps_ok I p → I st → Forall I (trajectory p st).
Proof.
  revert st. induction p as [a|e|f p IH|g IH]; intros st Hp Hst; simpl in *.
  - by repeat constructor.
  - by repeat constructor.
  - destruct Hp as [Hf Hp]. constructor; [done|]. apply IH; auto.
  - by apply IH.
Qed.

End steps_ok.

(** ** The shape of the dict, at every step *)

Section shape.
Context `{UnicodeDB}.

Lemma well_shaped_store k v st :
  k ∈ keys → (k ∈ ["temp"; "hum"; "soil"] → is_number v = true) →
  well_shaped st → well_shaped (set_data (setitem k v (sensor_data st)) st).
Proof.
  intros Hk Hv [Hd Hr]. split; simpl; [by apply wf_keys_setitem|].
  intros k' Hk'. destruct (decide (k = k')) as [<-|Hne].
  - exists v. rewrite setitem_lookup. auto.
  - rewrite setitem_lookup_ne by done. by apply Hr.
Qed.

Lemma store_step_ok k v :
  k ∈ keys → (k ∈ ["temp"; "hum"; "soil"] → is_number v = true) →
  steps_ok well_shaped (store_step k v).
Proof. intros Hk Hv. apply steps_ok_modify. intros st. by apply well_shaped_store. Qed.

Lemma label_is_no_reading k v :
  k = "crop" ∨ k = "advice" → k ∈ ["temp"; "hum"; "soil"] → is_number v = true.
Proof. intros Hk Hin%list_elem_of_In. simpl in Hin. naive_solver. Qed.

Lemma iteration_steps_ok ms r : steps_ok well_shaped (iteration_steps ms r).
Proof.
  apply steps_ok_try.
  - unfold try_body_steps.
    apply steps_ok_bind; [apply steps_ok_lift|intros raw].
    apply steps_ok_bind; [apply steps_ok_lift|intros text].
    apply steps_ok_bind; [by apply steps_ok_modify|intros _].
    unfold process_line_steps. do 2 apply steps_ok_when.
    apply steps_ok_bind; [apply steps_ok_lift|intros [[t h] s]].
    apply steps_ok_bind.
    { unfold store_reading_steps.
      repeat (apply steps_ok_bind; [|intros _]);
        apply store_step_ok; try done; apply keys_elem; auto. }
    intros _. unfold predict_and_store_steps.
    destruct (crop_model ms), (irrigation_model ms); try done.
    apply steps_ok_bind; [apply steps_ok_lift|intros c].
    apply steps_ok_bind; [|intros _].
    { apply store_step_ok; [apply keys_elem; auto 6|apply label_is_no_reading; auto]. }
    apply steps_ok_bind; [apply steps_ok_lift|intros a].
    apply store_step_ok; [apply keys_elem; auto 6|apply label_is_no_reading; auto].
  - intros e. unfold handle_steps. repeat case_match; try done.
    intros st. by case_match.
Qed.

Lemma loop_steps_ok ms rs : steps_ok well_shaped (loop_steps ms rs).
Proof.
  induction rs as [|r rs IH]; [done|].
  apply steps_ok_bind; [apply iteration_steps_ok|done].
Qed.

Lemma well_shaped_initial : well_shaped initial.
Proof. split; [apply wf_keys_init|apply wf_readings_init]. Qed.

End shape.

(** * Executions of the system *)

Definition config_trajectory (c : config) : list state :=
  trajectory (c_prog c) (c_state c).

Lemma sys_step_suffix c c' :
  sys_step c c' → config_trajectory c' `suffix_of` config_trajectory c.
Proof.
  destruct 1; unfold config_trajectory; simpl; [|done..]. by apply suffix_cons_r.
Qed.

(** What is sent during an execution is served from states of the
    trajectory. *)
Lemma sys_run_sent c c' :
  rtc sys_step c c' →
  config_trajectory c' `suffix_of` config_trajectory c ∧
  ∃ new, c_sent c' = c_sent c ++ new ∧
    Forall (λ r, ∃ st, st ∈ config_trajectory c ∧ r = data (sensor_data st)) new.
Proof.
  induction 1 as [c|c c1 c' Hstep _ (Hsuf & new & Hsent & Hnew)].
  { split; [done|]. exists []. by rewrite app_nil_r. }
  pose proof (sys_step_suffix _ _ Hstep) as Hsuf1.
  split; [by etrans|].
  assert (Forall (λ r, ∃ st, st ∈ config_trajectory c ∧ r = data (sensor_data st)) new)
    as Hnew'.
  { eapply Forall_impl; [done|]. intros r (st & Hin & ->). exists st. split; [|done].
    destruct Hsuf1 as [k ->]. apply elem_of_app. by right. }
  destruct Hstep; simpl in *; [by exists new..|].
  exists (data (sensor_data st) :: new). rewrite Hsent, <-app_assoc. split; [done|].
  constructor; [|done]. exists st. split; [|done].
  apply head_Some_elem_of. apply trajectory_head.
Qed.

(** Every state of the trajectory can be the one a request is served
    from. *)
Lemma sys_run_observe (p : prog unit) st st' sent :
  st' ∈ trajectory p st →
  ∃ c, rtc sys_step (Config p st sent) c ∧
    c_sent c = sent ++ [data (sensor_data st')].
Proof.
  revert st. induction p as [a|e|f p IH|g IH]; intros st; simpl.
  - intros ->%list_elem_of_singleton. eexists. split; [by apply rtc_once, sys_request|done].
  - intros ->%list_elem_of_singleton. eexists. split; [by apply rtc_once, sys_request|done].
  - intros [->|Hin]%elem_of_cons.
    + eexists. split; [by apply rtc_once, sys_request|done].
    + destruct (IH _ Hin) as (c & Hrun & Hsent). exists c. split; [|done].
      eapply rtc_l; [apply sys_modify|done].
  - intros Hin. destruct (IH _ _ Hin) as (c & Hrun & Hsent). exists c. split; [|done].
    eapply rtc_l; [apply sys_load|done].
Qed.

(** * Properties *)

Section properties.
Context `{UnicodeDB}.
Implicit Types (st : state) (ms : models).

(** The thread as a sequence of steps computes what the loop of [Ingest]
    computes: the trajectory of a run starts in the state the run starts
    in and ends in the state the loop ends in, with the same outcome.  The
    two are transcriptions of the same lines; what the steps add is the
    states in between, which the theorems below are about. *)
Lemma steps_refine_loop ms rs st :
  denote (loop_steps ms rs) st = loop ms rs st ∧
  head (trajectory (loop_steps ms rs) st) = Some st ∧
  last (trajectory (loop_steps ms rs) st) = Some (loop ms rs st).1.
Proof.
  split_and!; [apply denote_loop|apply trajectory_head|].
  by rewrite trajectory_last, denote_loop.
Qed.

(** C14: however the requests are interleaved with
    the steps of the thread, every response of [/data] is served from a
    dict that has the five keys and numbers for its three readings: no
    request finds a key missing. *)
Theorem responses_well_shaped ms rs c :
  rtc sys_step (Config (loop_steps ms rs) initial []) c →
  Forall (λ r, ∃ st, well_shaped st ∧ r = data (sensor_data st)) (c_sent c).
Proof.
  intros (_ & new & Hsent & Hnew)%sys_run_sent. simpl in Hsent. rewrite Hsent.
  eapply Forall_impl; [done|]. intros r (st & Hin & ->). exists st. split; [|done].
  eapply Forall_forall in Hin; [done|].
  apply trajectory_inv; [apply loop_steps_ok|apply well_shaped_initial].
Qed.

(** The dicts a valid line passes through: the
    dict as it was, twice (the assignment of [line] does not change it),
    then one more field replaced at each step, temp, hum, soil, crop and
    advice in this order. *)
Theorem valid_line_trajectory ms cm im bs text t h s c a st :
  decode bs = Some text → well_formed text t h s →
  crop_model ms = Some cm → irrigation_model ms = Some im →
  predict cm t h s = Ok c → predict im t h s = Ok a →
  sensor_data <$> trajectory (iteration_steps ms (ReadBytes bs)) st =
    [sensor_data st; sensor_data st;
     setitem "temp" (PFloat t) (sensor_data st);
     setitem "hum" (PFloat h) (setitem "temp" (PFloat t) (sensor_data st));
     with_reading t h s (sensor_data st);
     setitem "crop" c (with_reading t h s (sensor_data st));
     with_labels c a (with_reading t h s (sensor_data st))].
Proof.
  intros Hd Hw Hcm Him Hc Ha.
  by rewrite (iteration_steps_valid ms cm im bs text t h s c a).
Qed.

(** C13: what a request can be answered while a valid
    line is processed.  The responses that some interleaving of requests
    with the steps of the iteration sends are those of [/data] from six
    dicts, and each of the six is sent by some interleaving: the dict as
    it was, then with the new [temp], with the new [temp] and [hum], with
    the whole reading and the labels of an earlier line, with the new
    [crop] and the earlier [advice], and with both labels.  Four of the
    six are records that no line ever described. *)
Theorem valid_line_responses ms cm im bs text t h s c a st r :
  decode bs = Some text → well_formed text t h s →
  crop_model ms = Some cm → irrigation_model ms = Some im →
  predict cm t h s = Ok c → predict im t h s = Ok a →
  (∃ cfg, rtc sys_step (Config (iteration_steps ms (ReadBytes bs)) st []) cfg ∧
          r ∈ c_sent cfg) ↔
  r ∈ data <$>
    [sensor_data st;
     setitem "temp" (PFloat t) (sensor_data st);
     setitem "hum" (PFloat h) (setitem "temp" (PFloat t) (sensor_data st));
     with_reading t h s (sensor_data st);
     setitem "crop" c (with_reading t h s (sensor_data st));
     with_labels c a (with_reading t h s (sensor_data st))].
Proof.
  intros Hd Hw Hcm Him Hc Ha.
  pose proof (valid_line_trajectory ms cm im bs text t h s c a st Hd Hw Hcm Him Hc Ha)
    as Htraj.
  split.
  - intros (cfg & (_ & new & Hsent & Hnew)%sys_run_sent & Hin).
    simpl in Hsent. rewrite Hsent in Hin.
    eapply Forall_forall in Hnew as (st' & Hst' & ->); [|done].
    apply (list_elem_of_fmap_2 sensor_data) in Hst'.
    unfold config_trajectory in Hst'. simpl in Hst'. rewrite Htraj in Hst'.
    apply list_elem_of_fmap_2. set_solver.
  - intros (d & -> & Hin)%list_elem_of_fmap.
    assert (d ∈ sensor_data <$> trajectory (iteration_steps ms (ReadBytes bs)) st)
      as (st' & -> & Hst')%list_elem_of_fmap by (rewrite Htraj; set_solver).
    destruct (sys_run_observe _ st st' [] Hst') as (cfg & Hrun & Hsent).
    exists cfg. split; [done|]. rewrite Hsent. set_solver.
Qed.

(** C12: a request served while a valid line is processed
    can be answered from a dict that has the reading of the line with the
    crop and the advice of an earlier line: the five stores are not one
    step. *)
Theorem torn_response ms cm im bs text t h s c a old st :
  view (sensor_data st) = Some old →
  decode bs = Some text → well_formed text t h s →
  crop_model ms = Some cm → irrigation_model ms = Some im →
  predict cm t h s = Ok c → predict im t h s = Ok a →
  ∃ cfg st',
    rtc sys_step (Config (iteration_steps ms (ReadBytes bs)) st []) cfg ∧
    c_sent cfg = [data (sensor_data st')] ∧
    view (sensor_data st') =
      Some (SharedRecord (PFloat t) (PFloat h) (PFloat s) (r_crop old) (r_advice old)).
Proof.
  intros Hv Hd Hw Hcm Him Hc Ha.
  set (st' := set_data (with_reading t h s (sensor_data st)) (set_line (strip text) st)).
  destruct (sys_run_observe (iteration_steps ms (ReadBytes bs)) st st' [])
    as (cfg & Hrun & Hsent).
  { rewrite (iteration_steps_valid ms cm im bs text t h s c a) by done.
    simpl. do 4 (apply elem_of_cons; right). apply elem_of_cons. by left. }
  exists cfg, st'. split_and!; [done..|]. by apply view_with_reading.
Qed.

End properties.

(** * Scenarios *)

Lemma responses_well_shaped_witness :
  Forall (λ r, ∃ st, well_shaped st ∧ r = data (sensor_data st))
    [data sensor_data_init].
Proof.
  apply (responses_well_shaped wheat_yes noisy_reads
           (Config (loop_steps wheat_yes noisy_reads) initial [data sensor_data_init])).
  apply rtc_once, (sys_request _ initial []).
Defined.

Lemma valid_line_trajectory_witness :
  sensor_data <$>
    trajectory (iteration_steps wheat_yes (serial_line "31.5,20.0,10.0")) initial =
    [sensor_data_init; sensor_data_init;
     setitem "temp" (PFloat (of_decimal false 315 (-1))) sensor_data_init;
     setitem "hum" (PFloat (of_decimal false 200 (-1)))
       (setitem "temp" (PFloat (of_decimal false 315 (-1))) sensor_data_init);
     with_reading (of_decimal false 315 (-1)) (of_decimal false 200 (-1))
       (of_decimal false 100 (-1)) sensor_data_init;
     setitem "crop" (PStr (str "Wheat"))
       (with_reading (of_decimal false 315 (-1)) (of_decimal false 200 (-1))
          (of_decimal false 100 (-1)) sensor_data_init);
     with_labels (PStr (str "Wheat")) (PStr (str "Yes"))
       (with_reading (of_decimal false 315 (-1)) (of_decimal false 200 (-1))
          (of_decimal false 100 (-1)) sensor_data_init)].
Proof.
  eapply (valid_line_trajectory wheat_yes _ _ _ _ _ _ _ _ _ initial);
    [apply hot_dry_decodes|apply hot_dry_well_formed|reflexivity..].
Defined.

(** With the new crop and the advice of before. *)
Lemma valid_line_responses_witness :
  ∃ cfg,
    rtc sys_step
      (Config (iteration_steps wheat_yes (serial_line "31.5,20.0,10.0")) initial []) cfg ∧
    Response 200
      (Json [("advice", JString (str "N/A")); ("crop", JString (str "Wheat"));
             ("hum", JFloat (of_decimal false 200 (-1)));
             ("soil", JFloat (of_decimal false 100 (-1)));
             ("temp", JFloat (of_decimal false 315 (-1)))]) ∈ c_sent cfg.
Proof.
  eapply (valid_line_responses wheat_yes _ _ _ _ _ _ _ _ _ initial);
    [apply hot_dry_decodes|apply hot_dry_well_formed|reflexivity..|].
  apply (list_elem_of_lookup_2 _ 4%nat). by vm_compute.
Defined.

Lemma torn_response_witness :
  ∃ cfg st',
    rtc sys_step
      (Config (iteration_steps wheat_yes (serial_line "31.5,20.0,10.0")) initial []) cfg ∧
    c_sent cfg = [data (sensor_data st')] ∧
    view (sensor_data st') =
      Some (SharedRecord (PFloat (of_decimal false 315 (-1)))
              (PFloat (of_decimal false 200 (-1))) (PFloat (of_decimal false 100 (-1)))
              (PStr (str "N/A")) (PStr (str "N/A"))).
Proof.
  eapply (torn_response wheat_yes _ _ _ _ _ _ _ _ _ placeholder initial);
    [apply view_init|apply hot_dry_decodes|apply hot_dry_well_formed|reflexivity..].
Defined.
