(* ===== verification/Schedule.v ===== *)
(** * Schedules: progress, termination and liveness

    [Interleave.sys_step] lets the thread and the requests take steps in
    any order.  Here the order is a [schedule], the list of whose turn it
    is; both kinds of step are deterministic, so that a schedule determines
    the execution ([exec]).  The steps the thread has left ([remaining])
    go down by one at each of its turns and are untouched by requests.
    Of every program of steps it holds that
    - on finitely many reads its steps come to an end ([thread_step_wf]),
      after the number of steps [remaining] says;
    - a program that is not finished can always take a step, and a request
      can always be served: nothing blocks;
    - under any schedule that gives it its turns, however many requests
      come in between, it reaches the state its function computes.
    Of the loop of the program it follows that an iteration is at most
    seven steps, that the request after the turns of the thread is
    answered with the record of the last valid line
    ([fair_schedule_serves]), and that a valid line is served six turns
    after it was read ([valid_line_eventually_served]). *)

From Stdlib Require Import ZArith String Lia.
From Stdlib.Strings Require Import Byte.
From Stdlib.Arith Require Import Wf_nat.
From stdpp Require Import base tactics option list gmap strings relations.
From S2P Require Import Prelude Utf8 PyStr Float64 PyFloat PyExn SensorData.
From S2P Require Import Ingest IngestInv IngestRuns Query Interleave.

#[local] Open Scope string_scope.
#[local] Open Scope list_scope.
#[local] Open Scope nat_scope.

(** ** Turns *)

Inductive turn := Thread | Request.

#[export] Instance turn_eq_dec : EqDecision turn.
Proof. solve_decision. Defined.

Abbreviation schedule := (list turn) (only parsing).

(** How many turns of [t] a schedule has. *)
Definition turns (t : turn) (sched : schedule) : nat :=
  length (filter (λ x, x = t) sched).

(** ** The thread *)

(** A program that has returned or raised. *)
Definition finished {A} (p : prog A) : bool :=
  match p with
  | Done _ | Throw _ => true
  | Step _ _ | Load _ => false
  end.

(** One step of a program; a finished program stays as it is. *)
Definition advance {A} (c : prog A * state) : prog A * state :=
  match c.1 with
  | Step f k => (k, f c.2)
  | Load g => (g c.2, c.2)
  | Done _ | Throw _ => c
  end.

(** The number of steps a program takes from a state. *)
Fixpoint remaining {A} (p : prog A) (st : state) : nat :=
  match p with
  | Done _ | Throw _ => 0
  | Step f k => S (remaining k (f st))
  | Load g => S (remaining (g st) st)
  end.

Definition steps_left (c : config) : nat := remaining (c_prog c) (c_state c).

(** The steps of [sys_step] that are the thread's. *)
Inductive thread_step : relation config :=
| thread_modify f k st sent :
    thread_step (Config (Step f k) st sent) (Config k (f st) sent)
| thread_load g st sent :
    thread_step (Config (Load g) st sent) (Config (g st) st sent).

(** ** Executions *)

(** A request to [/data]: answered from the dict as it is. *)
Definition request (c : config) : config :=
  Config (c_prog c) (c_state c) (c_sent c ++ [data (sensor_data (c_state c))]).

Definition take_turn (c : config) (t : turn) : config :=
  match t with
  | Thread =>
    let c' := advance (c_prog c, c_state c) in Config c'.1 c'.2 (c_sent c)
  | Request => request c
  end.

(** The configuration a schedule leads to.  A turn given to a thread that
    has finished changes nothing. *)
Definition exec (sched : schedule) (c : config) : config :=
  foldl take_turn c sched.

(** * The steps of the thread *)

Section steps.
Context {A : Type}.
Implicit Types (p : prog A) (st : state) (n : nat).

Lemma finished_remaining p st : finished p = true ↔ remaining p st = 0%nat.
Proof. by destruct p. Qed.

Lemma advance_finished p st : finished p = true → advance (p, st) = (p, st).
Proof. by destruct p. Qed.

Lemma advance_remaining p st :
  finished p = false →
  remaining p st = S (remaining (advance (p, st)).1 (advance (p, st)).2).
Proof. by destruct p. Qed.

Lemma advance_denote p st :
  denote (advance (p, st)).1 (advance (p, st)).2 = denote p st.
Proof. by destruct p. Qed.

Lemma iter_advance_finished n p st :
  finished p = true → Nat.iter n advance (p, st) = (p, st).
Proof.
  intros Hp. induction n as [|n IH]; [done|]. simpl. rewrite IH.
  by apply advance_finished.
Qed.

(** After [remaining p st] steps, and after any more, the program has
    come to its outcome, in the state [denote] gives. *)
Lemma iter_advance_denote n p st :
  remaining p st ≤ n →
  Nat.iter n advance (p, st) = (p_lift (denote p st).2, (denote p st).1).
Proof.
  revert n st. induction p as [a|e|f k IH|g IH]; intros n st Hn;
    try by apply iter_advance_finished.
  - destruct n as [|n]; [simpl in Hn; lia|].
    rewrite Nat.iter_succ_r. apply IH. simpl in *. lia.
  - destruct n as [|n]; [simpl in Hn; lia|].
    rewrite Nat.iter_succ_r. apply IH. simpl in *. lia.
Qed.

Lemma remaining_bind {B} p (k : A → prog B) st :
  remaining (p ≫= k) st =
  (remaining p st +
   match denote p st with
   | (st', Ok a) => remaining (k a) st'
   | (_, Raise _) => 0
   end)%nat.
Proof.
  revert st. induction p as [a|e|f p IH|g IH]; intros st; try done.
  - change (remaining (Step f p ≫= k) st) with (S (remaining (p ≫= k) (f st))).
    by rewrite IH.
  - change (remaining (Load g ≫= k) st) with (S (remaining (g st ≫= k) st)).
    by rewrite IH.
Qed.

Lemma remaining_try p (h : pyexn → prog A) st :
  remaining (ptry p h) st =
  (remaining p st +
   match denote p st with
   | (_, Ok _) => 0
   | (st', Raise e) => remaining (h e) st'
   end)%nat.
Proof.
  revert st. induction p as [a|e|f p IH|g IH]; intros st; try done.
  - simpl. by rewrite IH.
  - simpl. by rewrite IH.
Qed.

End steps.

(** * The thread alone *)

Lemma thread_step_take_turn c c' :
  thread_step c c' ↔ finished (c_prog c) = false ∧ c' = take_turn c Thread.
Proof.
  split.
  - by destruct 1.
  - destruct c as [[a|e|f k|g] st sent]; intros [? ->]; try done; constructor.
Qed.

Lemma thread_step_sys_step c c' : thread_step c c' → sys_step c c'.
Proof. destruct 1; constructor. Qed.

Lemma sys_step_cases c c' : sys_step c c' ↔ thread_step c c' ∨ c' = request c.
Proof.
  split.
  - destruct 1; [left; constructor..|by right].
  - intros [?| ->]; [by apply thread_step_sys_step|]. destruct c. constructor.
Qed.

Lemma thread_step_steps_left c c' :
  thread_step c c' → steps_left c = S (steps_left c').
Proof. by destruct 1. Qed.

Lemma thread_step_deterministic c c1 c2 :
  thread_step c c1 → thread_step c c2 → c1 = c2.
Proof. intros [_ ->]%thread_step_take_turn [_ ->]%thread_step_take_turn. done. Qed.

(** Progress: a thread that has not finished has a step. *)
Lemma thread_progress c : finished (c_prog c) = false ↔ red thread_step c.
Proof.
  split.
  - intros Hc. exists (take_turn c Thread). by apply thread_step_take_turn.
  - by intros [c' [? _]%thread_step_take_turn].
Qed.

Lemma thread_step_wf : well_founded (flip thread_step).
Proof.
  apply (wf_projected lt steps_left); [|apply lt_wf].
  intros c' c Hstep%thread_step_steps_left. lia.
Qed.

Lemma thread_nsteps n c c' :
  nsteps thread_step n c c' → steps_left c = (n + steps_left c')%nat.
Proof.
  induction 1 as [|n c c1 c' Hstep%thread_step_steps_left _ IH]; [done|]. lia.
Qed.

(** * Executions *)

Lemma exec_app s1 s2 c : exec (s1 ++ s2) c = exec s2 (exec s1 c).
Proof. apply foldl_app. Qed.

Lemma turns_app t s1 s2 : turns t (s1 ++ s2) = (turns t s1 + turns t s2)%nat.
Proof. unfold turns. by rewrite filter_app, length_app. Qed.

Lemma turns_total sched : (turns Thread sched + turns Request sched)%nat = length sched.
Proof.
  induction sched as [|[] sched IH]; [done|..]; unfold turns in *;
    rewrite !filter_cons; repeat case_decide; simplify_eq/=; lia.
Qed.

(** A schedule is an execution of [sys_step], and every execution has a
    schedule. *)
Lemma take_turn_rtc c t : rtc sys_step c (take_turn c t).
Proof.
  destruct t; [|apply rtc_once, sys_step_cases; by right].
  destruct (finished (c_prog c)) eqn:Hc.
  - destruct c as [[] ??]; by try apply rtc_refl.
  - apply rtc_once, thread_step_sys_step, thread_step_take_turn. done.
Qed.

Lemma exec_rtc sched c : rtc sys_step c (exec sched c).
Proof.
  revert c. induction sched as [|t sched IH]; intros c; [done|]. simpl.
  etrans; [apply take_turn_rtc|apply IH].
Qed.

Lemma rtc_exec c c' : rtc sys_step c c' → ∃ sched, c' = exec sched c.
Proof.
  induction 1 as [c|c c1 c' Hstep _ [sched ->]]; [by exists []|].
  apply sys_step_cases in Hstep as [[_ ->]%thread_step_take_turn| ->].
  - by exists (Thread :: sched).
  - by exists (Request :: sched).
Qed.

(** The program and the state depend on the turns of the thread only. *)
Lemma exec_core sched c :
  (c_prog (exec sched c), c_state (exec sched c)) =
  Nat.iter (turns Thread sched) advance (c_prog c, c_state c).
Proof.
  revert c. induction sched as [|t sched IH]; intros c; [done|]. simpl.
  rewrite IH. unfold turns. rewrite filter_cons. destruct t; case_decide; try done.
  simpl length. rewrite Nat.iter_succ_r. simpl.
  by destruct (advance (c_prog c, c_state c)).
Qed.

(** The responses: one more for each request. *)
Lemma exec_sent_length sched c :
  length (c_sent (exec sched c)) = (length (c_sent c) + turns Request sched)%nat.
Proof.
  revert c. induction sched as [|t sched IH]; intros c; [by rewrite Nat.add_0_r|].
  simpl.
  rewrite IH. unfold turns. rewrite filter_cons.
  destruct t; case_decide; try done; simpl; rewrite ?length_app; simpl; lia.
Qed.

(** With its turns, the thread comes to the outcome of the function it
    computes. *)
Lemma exec_completes sched c :
  steps_left c ≤ turns Thread sched →
  c_prog (exec sched c) = p_lift (denote (c_prog c) (c_state c)).2 ∧
  c_state (exec sched c) = (denote (c_prog c) (c_state c)).1.
Proof.
  intros Hn. pose proof (exec_core sched c) as Hc.
  rewrite iter_advance_denote in Hc by done. by simplify_eq.
Qed.

Lemma exec_request sched c :
  c_sent (exec (sched ++ [Request]) c) =
    c_sent (exec sched c) ++ [data (sensor_data (c_state (exec sched c)))].
Proof. by rewrite exec_app. Qed.

(** * The work of one read *)

Section bounds.
Context `{UnicodeDB}.

Lemma remaining_handle e st : remaining (handle_steps e) st ≤ 2.
Proof.
  unfold handle_steps. repeat case_match; simpl; try lia. case_match; simpl; lia.
Qed.

(** The body of the [try]: the assignment of [line] and five stores when it
    returns, one step less at least when it raises. *)
Lemma remaining_try_body ms r st :
  remaining (try_body_steps ms r) st ≤
    if is_ok (denote (try_body_steps ms r) st).2 then 6 else 5.
Proof.
  unfold try_body_steps, process_line_steps, store_reading_steps,
    predict_and_store_steps, p_when, store_step, p_modify, p_lift.
  repeat (case_match; simpl; try lia).
Qed.

Lemma remaining_iteration ms r st : remaining (iteration_steps ms r) st ≤ 7.
Proof.
  unfold iteration_steps. rewrite remaining_try.
  pose proof (remaining_try_body ms r st) as Hb.
  destruct (denote (try_body_steps ms r) st) as [st' [[]|e]]; simpl in Hb; [lia|].
  pose proof (remaining_handle e st'). lia.
Qed.

Lemma remaining_loop ms rs st : remaining (loop_steps ms rs) st ≤ 7 * length rs.
Proof.
  revert st. induction rs as [|r rs IH]; intros st; [done|]. simpl loop_steps.
  rewrite remaining_bind. pose proof (remaining_iteration ms r st).
  destruct (denote (iteration_steps ms r) st) as [st' [[]|e]]; simpl length;
    [specialize (IH st')|]; lia.
Qed.

Lemma remaining_valid_line ms cm im bs text t h s c a st :
  decode bs = Some text → well_formed text t h s →
  crop_model ms = Some cm → irrigation_model ms = Some im →
  predict cm t h s = Ok c → predict im t h s = Ok a →
  remaining (iteration_steps ms (ReadBytes bs)) st = 6.
Proof.
  intros. by rewrite (iteration_steps_valid ms cm im bs text t h s c a).
Qed.

(** * Properties *)

(** Given finitely many reads the steps of the thread come to an end, after
    seven steps at most for each read: the body of [while True] has no loop
    of its own.  That the reads are finitely many is the model's, not the
    program's: the loop of the program has no end. *)
Lemma thread_terminates ms rs st sent :
  sn thread_step (Config (loop_steps ms rs) st sent) ∧
  ∀ n c, nsteps thread_step n (Config (loop_steps ms rs) st sent) c →
    n ≤ 7 * length rs.
Proof.
  split; [apply thread_step_wf|]. intros n c Hn%thread_nsteps.
  pose proof (remaining_loop ms rs st). unfold steps_left in Hn. simpl in Hn. lia.
Qed.

(** Nothing waits for anything.  In every configuration
    a request can be served, and a thread that has not finished has a
    step, exactly one, which is taken whatever the requests do. *)
Theorem never_blocked c :
  red sys_step c ∧
  (finished (c_prog c) = false →
   ∃ c', thread_step c c' ∧ ∀ c'', thread_step c c'' → c'' = c').
Proof.
  split.
  - exists (request c). apply sys_step_cases. by right.
  - intros [c' Hc']%thread_progress. exists c'. split; [done|].
    intros c'' Hc''. by apply (thread_step_deterministic c).
Qed.

(** Under any schedule that gives the thread seven turns for each read,
    however many requests are served in between, the thread ends in the
    state and with the outcome of [Ingest.loop], and every request has had
    its response.  This is a property of the schedules, which holds for
    every program: what it says of the code comes from [Ingest.loop]. *)
Lemma fair_schedule_completes ms rs sched st sent :
  7 * length rs ≤ turns Thread sched →
  let c := exec sched (Config (loop_steps ms rs) st sent) in
  c_state c = (loop ms rs st).1 ∧ c_prog c = p_lift (loop ms rs st).2 ∧
  length (c_sent c) = length sent + turns Request sched.
Proof.
  intros Hn.
  destruct (exec_completes sched (Config (loop_steps ms rs) st sent)) as [Hp Hs].
  { pose proof (remaining_loop ms rs st). unfold steps_left. simpl. lia. }
  simpl in Hp, Hs. rewrite denote_loop in Hp, Hs.
  split_and!; [done..|]. apply exec_sent_length.
Qed.

(** C15: the readings reach the clients.  With both
    models fitted and returning and a thread that lives through its reads,
    under any schedule that gives the thread seven turns for each read,
    however many requests are served in between, each of these requests
    has had its response, and the request that follows is answered with
    the record the specification computes from the reads: the reading and
    the labels of the last valid line, under their own keys. *)
Theorem fair_schedule_serves ms rs sched st sent :
  models_total ms → wf_keys (sensor_data st) → (loop ms rs st).2 = Ok tt →
  7 * length rs ≤ turns Thread sched →
  let c := exec sched (Config (loop_steps ms rs) st sent) in
  length (c_sent c) = length sent + turns Request sched ∧
  c_sent (exec [Request] c) =
    c_sent c ++
    [data (from_option (publish_spec ms (sensor_data st)) (sensor_data st)
             (last_reading rs))].
Proof.
  intros Hm Hwf Hok Hn c. split; [apply exec_sent_length|].
  destruct (fair_schedule_completes ms rs sched st sent Hn) as (Hs & _).
  change (c_sent (exec [Request] c))
    with (c_sent c ++ [data (sensor_data (c_state c))]).
  fold c in Hs. rewrite Hs.
  destruct (loop ms rs st) as [st' o] eqn:Hrun. simpl in Hok. subst o.
  destruct (loop_spec_run _ _ _ _ _ Hm Hwf Hrun) as (rs1 & rs2 & -> & Hd & Ho).
  rewrite Ho, app_nil_r in * by done. simpl. by rewrite Hd, spec_run_last.
Qed.

(** C22: a valid line is served in the end.
    Once the thread has had six turns on it, whatever was scheduled in
    between, the next request is answered with the reading of the line and
    the labels the models gave it. *)
Theorem valid_line_eventually_served ms cm im bs text t h s c a sched st sent :
  wf_keys (sensor_data st) →
  decode bs = Some text → well_formed text t h s →
  crop_model ms = Some cm → irrigation_model ms = Some im →
  predict cm t h s = Ok c → predict im t h s = Ok a →
  6 ≤ turns Thread sched →
  c_sent (exec (sched ++ [Request])
            (Config (iteration_steps ms (ReadBytes bs)) st sent)) =
    c_sent (exec sched (Config (iteration_steps ms (ReadBytes bs)) st sent)) ++
    [data (of_record (published t h s c a))].
Proof.
  intros Hwf Hd Hw Hcm Him Hc Ha Hn. rewrite exec_request. do 3 f_equal.
  destruct (exec_completes sched
    (Config (iteration_steps ms (ReadBytes bs)) st sent)) as [_ ->].
  { unfold steps_left. simpl.
    by rewrite (remaining_valid_line ms cm im bs text t h s c a). }
  simpl. rewrite denote_iteration.
  rewrite (iteration_stores ms cm im bs text t h s c a) by done. simpl.
  by apply with_labels_reading.
Qed.

End bounds.

(** * Scenarios *)

(** Requests before, between and after the steps of the thread. *)
Definition busy : schedule :=
  [Request; Thread; Thread; Request; Thread; Thread; Request; Thread; Thread;
   Thread; Request].

(** A line with a letter, a good line and a short line, with requests in
    between: the request that follows is answered with the good line. *)
Definition crowded : schedule :=
  busy ++ busy ++ busy.

Lemma fair_schedule_serves_witness :
  let c := exec crowded (Config (loop_steps wheat_yes mixed_reads) initial []) in
  length (c_sent c) = length (@nil response) + turns Request crowded ∧
  c_sent (exec [Request] c) =
    c_sent c ++
    [data (from_option (publish_spec wheat_yes sensor_data_init) sensor_data_init
             (last_reading mixed_reads))].
Proof.
  apply (fair_schedule_serves wheat_yes mixed_reads crowded initial []).
  - apply wheat_yes_total.
  - apply wf_keys_init.
  - by vm_compute.
  - by vm_compute.
Defined.

Example crowded_served :
  last (c_sent (exec (crowded ++ [Request])
                  (Config (loop_steps wheat_yes mixed_reads) initial []))) =
    Some (Response 200
            (Json [("advice", JString (str "Yes")); ("crop", JString (str "Wheat"));
                   ("hum", JFloat (of_decimal false 600 (-1)));
                   ("soil", JFloat (of_decimal false 400 (-1)));
                   ("temp", JFloat (of_decimal false 250 (-1)))])).
Proof. by vm_compute. Qed.

Lemma valid_line_eventually_served_witness :
  c_sent (exec (busy ++ [Request])
            (Config (iteration_steps wheat_yes (serial_line "31.5,20.0,10.0"))
               initial [])) =
    c_sent (exec busy
              (Config (iteration_steps wheat_yes (serial_line "31.5,20.0,10.0"))
                 initial [])) ++
    [data (of_record
       (published (of_decimal false 315 (-1)) (of_decimal false 200 (-1))
          (of_decimal false 100 (-1)) (PStr (str "Wheat")) (PStr (str "Yes"))))].
Proof.
  eapply (valid_line_eventually_served wheat_yes _ _ _ _ _ _ _ _ _ busy initial []);
    [apply wf_keys_init|apply hot_dry_decodes|apply hot_dry_well_formed
    |reflexivity..|unfold turns, busy; simpl; lia].
Defined.

Lemma never_blocked_witness :
  ∃ c', thread_step
          (Config (iteration_steps wheat_yes (ReadRaises device_lost)) initial []) c' ∧
    ∀ c'', thread_step
          (Config (iteration_steps wheat_yes (ReadRaises device_lost)) initial []) c'' →
      c'' = c'.
Proof.
  apply (never_blocked
    (Config (iteration_steps wheat_yes (ReadRaises device_lost)) initial [])).
  reflexivity.
Defined.
