(* ===== verification/System.v ===== *)
(** * The program as a whole: from the serial line to [/data]

    Start-up ([Startup]) decides whether there is an ingest thread and with
    which models; the thread ([Ingest]) changes the dict; [/data] ([Query])
    serialises the dict it finds.  [served st] is what a request answers
    when the thread is in state [st], between two iterations.  The theorems
    follow a line from the port to the response: the valid line, the line
    without a reading, the reading that is not a finite number, the label
    that is not a string. *)

From Stdlib Require Import ZArith String.
From Stdlib.Strings Require Import Byte.
From Stdlib.Floats Require Import SpecFloat.
From stdpp Require Import base tactics option list gmap strings.
From S2P Require Import Prelude Utf8 PyStr Float64 PyFloat PyExn SensorData.
From S2P Require Import Ingest IngestInv IngestRuns Startup Query.

#[local] Open Scope string_scope.

Section system.
Context `{UnicodeDB}.
Implicit Types (st : state) (ms : models) (d : gmap string pyval).

(** [GET /data] while the thread is in state [st]. *)
Definition served (st : state) : response := data (sensor_data st).

(** The state the thread of a serving process is in once it has consumed
    the reads of its port; the initial state when there is no thread. *)
Definition final_state (thread : option port) (ms : models) : state :=
  from_option fst initial (thread_run thread ms).

(** The response for the placeholders of line 54. *)
Definition placeholder_response : response :=
  Response 200
    (Json [("advice", JString (str "N/A")); ("crop", JString (str "N/A"));
           ("hum", JInt 0); ("soil", JInt 0); ("temp", JInt 0)]).

(** The response for a reading and two string labels. *)
Definition reading_response (t h s : float64) (c a : pystr) : response :=
  Response 200
    (Json [("advice", JString a); ("crop", JString c); ("hum", JFloat h);
           ("soil", JFloat s); ("temp", JFloat t)]).

(** ** Helpers *)

Lemma served_initial : served initial = placeholder_response.
Proof.
  unfold served. simpl.
  by rewrite (data_record_response _ _ _ _ _ _ wf_keys_init view_init).
Qed.

Lemma wf_keys_with_reading t h s d : wf_keys d → wf_keys (with_reading t h s d).
Proof.
  intros Hd. unfold with_reading.
  repeat apply wf_keys_setitem; try done; apply keys_elem; auto.
Qed.

(** The thread of a process always ends in a state with the five keys. *)
Lemma final_state_wf thread ms : wf_keys (sensor_data (final_state thread ms)).
Proof.
  unfold final_state, thread_run. destruct thread as [p|]; simpl; [|apply wf_keys_init].
  destruct (loop ms p initial) as [st o] eqn:Hrun. simpl.
  apply loop_evolves in Hrun. apply (ev_keys _ _ Hrun), wf_keys_init.
Qed.

(** The state a valid line leaves when the crop model raises an exception
    that a clause catches: the reading is stored, the labels are not. *)
Lemma iteration_torn ms cm im bs text t h s e st :
  decode bs = Some text → well_formed text t h s →
  crop_model ms = Some cm → irrigation_model ms = Some im →
  predict cm t h s = Raise e → isinstance e Exception = true →
  ∃ st', iteration ms (ReadBytes bs) st = (st', Ok tt) ∧
    sensor_data st' = with_reading t h s (sensor_data st).
Proof.
  intros Hd Hw Hcm Him Hc He.
  rewrite (iteration_crop_raises ms cm im bs text t h s e) by done.
  set (st1 := State _ _ _).
  destruct (handle_returns e st1 He) as [st' Hh]; [by eexists|].
  exists st'. split; [done|]. by apply handle_same_data in Hh.
Qed.

(** * From the line to the response *)

(** C21: after a well-formed line ["t,h,s"] for
    which the models give the strings [c] and [a], [/data] answers 200 with
    [{"advice": a, "crop": c, "hum": h, "soil": s, "temp": t}]. *)
Theorem served_after_valid_line ms cm im bs text t h s c a st :
  wf_keys (sensor_data st) →
  decode bs = Some text → well_formed text t h s →
  crop_model ms = Some cm → irrigation_model ms = Some im →
  predict cm t h s = Ok (PStr c) → predict im t h s = Ok (PStr a) →
  served (iteration ms (ReadBytes bs) st).1 = reading_response t h s c a.
Proof.
  intros Hwf Hd Hw Hcm Him Hc Ha.
  rewrite (iteration_stores ms cm im bs text t h s (PStr c) (PStr a)) by done.
  unfold served. simpl. rewrite with_labels_reading by done. unfold published.
  by rewrite (data_record_response _ _ _ _ _ _ (wf_keys_of_record _) (view_of_record _)).
Qed.

(** C28: as long as no read carried a
    valid line, whatever else the port returned and whether or not the
    thread is still alive, [/data] answers with the placeholders. *)
Theorem served_placeholder_until_reading ms rs st o :
  Forall (λ r, reading_of r = None) rs →
  loop ms rs initial = (st, o) →
  served st = placeholder_response.
Proof.
  intros Hrs Hrun. rewrite <-served_initial. unfold served.
  by rewrite (loop_no_reading ms rs initial st o).
Qed.

(** C30: when a model answers with a numpy
    integer or boolean, as a forest fitted on a label column of numbers or
    booleans does, the first valid line makes [/data] answer 500. *)
Theorem unserializable_label_fails_data ms cm im bs text t h s c a st :
  wf_keys (sensor_data st) →
  decode bs = Some text → well_formed text t h s →
  crop_model ms = Some cm → irrigation_model ms = Some im →
  predict cm t h s = Ok c → predict im t h s = Ok a →
  serializable c = false ∨ serializable a = false →
  status (served (iteration ms (ReadBytes bs) st).1) = 500%Z.
Proof.
  intros Hwf Hd Hw Hcm Him Hc Ha Hs.
  rewrite (iteration_stores ms cm im bs text t h s c a) by done.
  unfold served. simpl. rewrite with_labels_reading by done. unfold published.
  rewrite (data_record_response _ _ _ _ _ _ (wf_keys_of_record _) (view_of_record _)).
  unfold serializable in Hs. simpl.
  destruct Hs as [[e ->]%is_ok_false|[e ->]%is_ok_false]; [|by destruct (json_of c)].
  by destruct (json_of a).
Qed.

(** C29: [float] accepts ["nan"] and
    ["inf"].  When a line carries such a reading and the crop model raises
    for it, as a forest does, the reading stays in the dict and the body of
    [/data] is not standard JSON. *)
Theorem nonfinite_reading_breaks_json ms cm im bs text t h s e old jc ja st :
  wf_keys (sensor_data st) → view (sensor_data st) = Some old →
  json_of (r_crop old) = Ok jc → json_of (r_advice old) = Ok ja →
  decode bs = Some text → well_formed text t h s →
  is_finite t && is_finite h && is_finite s = false →
  crop_model ms = Some cm → irrigation_model ms = Some im →
  predict cm t h s = Raise e → isinstance e Exception = true →
  ∃ o, served (iteration ms (ReadBytes bs) st).1 = Response 200 (Json o) ∧
    strict o = false.
Proof.
  intros Hwf Hv Hjc Hja Hd Hw Hfin Hcm Him Hc He.
  destruct (iteration_torn ms cm im bs text t h s e st) as (st' & -> & Hst'); [done..|].
  unfold served. simpl. rewrite Hst'.
  rewrite (data_record_response _ _ _ _ _ _ (wf_keys_with_reading _ _ _ _ Hwf)
             (view_with_reading _ _ _ _ _ Hv)).
  simpl. rewrite Hja, Hjc. simpl. eexists. split; [done|].
  unfold strict. simpl. rewrite andb_true_r.
  destruct (strict_value ja), (strict_value jc); simpl; try done.
  destruct (is_finite t), (is_finite h), (is_finite s); done.
Qed.

End system.

(** * From start-up to the response *)

Section program.
Context `{UnicodeDB} {column : Type}.
Implicit Types (env : environment column) (ms : models).

(** Every model [fit] returns answers every reading. *)
Definition fits_total env : Prop :=
  ∀ X y m t h s, fit env X y = Ok m → is_ok (predict m t h s) = true.

Lemma serving_models_total env th ms tr :
  fits_total env → run env = (Serving th ms, tr) → models_total ms.
Proof.
  intros Hfit (b & b' & _ & Ht & _ & -> & _)%run_serving_inv.
  apply train_ok_inv in Ht as (X & yc & yi & cm & im & _ & Hcm & Him & ->).
  exists cm, im. split_and!; [done..|]. intros t h s. split; by eapply Hfit.
Qed.

(** When the port cannot be opened, a
    process that serves has no ingest thread and [/data] answers with the
    placeholders, for as long as the process lives. *)
Theorem no_port_serves_placeholder env e th ms tr :
  serial_Serial env = Raise e → run env = (Serving th ms, tr) →
  thread_run th ms = None ∧ served (final_state th ms) = placeholder_response.
Proof.
  intros Hs (b & b' & Hc & Ht & -> & _ & _)%run_serving_inv.
  apply train_ok_inv in Ht as (X & yc & yi & cm & im & _ & _ & _ & ->).
  rewrite connect_run, Hs in Hc. destruct (isinstance e SerialException); [|done].
  injection Hc as <-. split; [done|apply served_initial].
Qed.

(** C11: the program against its specification.  In
    a process that serves with a thread, when the models that [fit]
    returned answer every reading, [/data] answers, once the thread has
    consumed the reads of the port, with the record the specification
    computes from the placeholders for the reads the thread lived through;
    these are all the reads if the thread has not died. *)
Theorem program_refines_spec env p ms tr :
  fits_total env → run env = (Serving (Some p) ms, tr) →
  ∃ rs1 rs2, p = (rs1 ++ rs2)%list ∧
    served (final_state (Some p) ms) = data (spec_run ms sensor_data_init rs1) ∧
    (thread_run (Some p) ms = Some (final_state (Some p) ms, Ok tt) → rs2 = []).
Proof.
  intros Hfit Hrun. pose proof (serving_models_total _ _ _ _ Hfit Hrun) as Hm.
  unfold final_state, thread_run. simpl.
  destruct (loop ms p initial) as [st o] eqn:Hloop.
  destruct (loop_spec_run ms p initial st o Hm wf_keys_init Hloop)
    as (rs1 & rs2 & -> & Hd & Ho).
  exists rs1, rs2. simpl. split_and!; [done|by unfold served; rewrite Hd|].
  intros [= ->]. by apply Ho.
Qed.

End program.

(** * Scenarios *)

(** The line of the spec's scenario, as the state it leaves. *)
Lemma served_after_valid_line_witness :
  served (iteration wheat_yes (serial_line "25.0,60.0,40.0") initial).1 =
    reading_response (of_decimal false 250 (-1)) (of_decimal false 600 (-1))
      (of_decimal false 400 (-1)) (str "Wheat") (str "Yes").
Proof.
  apply (served_after_valid_line wheat_yes (constant_model "Wheat") (constant_model "Yes")
           _ (str "25.0,60.0,40.0" ++ [13; 10]%Z)%list).
  - apply wf_keys_init.
  - vm_compute. reflexivity.
  - exists (str "25.0"), (str "60.0"), (str "40.0"). vm_compute. auto.
  - reflexivity.
  - reflexivity.
  - reflexivity.
  - reflexivity.
Defined.

(** Noise, a lost device, a short line, an empty read. *)
Definition no_reading_reads : list read_result :=
  [ReadBytes [xff]; ReadRaises device_lost; serial_line "25.0,60.0"; ReadBytes []].

Lemma served_placeholder_until_reading_witness :
  served (loop wheat_yes no_reading_reads initial).1 = placeholder_response.
Proof.
  apply (served_placeholder_until_reading wheat_yes no_reading_reads _
           (loop wheat_yes no_reading_reads initial).2).
  - repeat constructor; vm_compute; reflexivity.
  - apply surjective_pairing.
Defined.

(** An irrigation model fitted on a column of 0 and 1. *)
Definition coded : models :=
  Models (Some (constant_model "Wheat")) (Some (Model (λ _ _ _, Ok (PNpInt 1)))).

Lemma unserializable_label_fails_data_witness :
  status (served (iteration coded (serial_line "31.5,20.0,10.0") initial).1) = 500%Z.
Proof.
  eapply (unserializable_label_fails_data coded);
    [apply wf_keys_init|apply hot_dry_decodes|apply hot_dry_well_formed|
     reflexivity..|by right].
Defined.

Lemma nan_line_decodes :
  decode (bytes_of "nan,60.0,40.0" ++ [x0d; x0a]) =
    Some (str "nan,60.0,40.0" ++ [13; 10]%Z)%list.
Proof. by vm_compute. Qed.

Lemma nan_line_well_formed :
  well_formed (str "nan,60.0,40.0" ++ [13; 10]%Z)%list
    S754_nan (of_decimal false 600 (-1)) (of_decimal false 400 (-1)).
Proof. exists (str "nan"), (str "60.0"), (str "40.0"). vm_compute. auto. Qed.

Lemma nonfinite_reading_breaks_json_witness :
  ∃ o, served (iteration refusing (serial_line "nan,60.0,40.0") initial).1 =
         Response 200 (Json o) ∧ strict o = false.
Proof.
  eapply (nonfinite_reading_breaks_json refusing);
    [apply wf_keys_init|apply view_init|reflexivity|reflexivity|
     apply nan_line_decodes|apply nan_line_well_formed|reflexivity..].
Defined.

Lemma no_port_serves_placeholder_witness :
  thread_run None wheat_yes = None ∧
  served (final_state None wheat_yes) = placeholder_response.
Proof.
  by apply (no_port_serves_placeholder no_port port_busy None wheat_yes
              [EPrint (connect_message port_busy)]).
Defined.

(** The port opens and sends noise, then the line of the scenario. *)
Definition with_port : environment nat := demo_env (Ok noisy_reads) (Ok demo_frame).

Lemma demo_fits_total serial csv : fits_total (demo_env serial csv).
Proof. by intros X y m t h s [= <-]. Qed.

Lemma program_refines_spec_witness :
  ∃ rs1 rs2, noisy_reads = (rs1 ++ rs2)%list ∧
    served (final_state (Some noisy_reads) wheat_yes) =
      data (spec_run wheat_yes sensor_data_init rs1) ∧
    (thread_run (Some noisy_reads) wheat_yes =
       Some (final_state (Some noisy_reads) wheat_yes, Ok tt) → rs2 = []).
Proof.
  by apply (program_refines_spec with_port noisy_reads wheat_yes [ESleep 2]);
    [apply demo_fits_total|].
Defined.
